(** * Orchestration core of the narrated-demo generator: a shallow embedding

    The Python sources under [backend/app] are embedded as Rocq functions:
    the timeline importer and normaliser, the demo-action validator, the
    project store (default-filling migration and bounded histories), the
    TTS cache key, the demo runner and the unified pipeline.

    Python values are the JSON-like universe the code manipulates
    ([dict[str, Any]] documents).  Exceptions are an explicit error type;
    the wall clock, the file system and the browser page are explicit
    inputs of the functions that use them. *)

From Stdlib Require Import ZArith List String Ascii Bool Lia DecimalString.
From Stdlib Require Import Sorting.Sorted Sorting.Permutation.
From Stdlib Require OrderedTypeEx.
Import ListNotations.
Set Warnings "-register-all".
Open Scope string_scope.
Open Scope Z_scope.

(* ===================================================================== *)
(** * Python values and builtins                                          *)
(* ===================================================================== *)

Module Py.

(** A [float] is the binary64 value nearest to the decimal [m * 10^e]
    (the way a JSON number or a Python literal denotes it), or one of the
    special values.  The printed form assumes [m * 10^e] is the shortest
    decimal that round-trips, which is what [repr] prints. *)
Inductive pyfloat : Type :=
| FDec (m e : Z)
| FInf (negative : bool)
| FNan.

(** The hashable values, which are the keys a [dict] can have. *)
Inductive pykey : Type :=
| KNone
| KBool (b : bool)
| KInt (z : Z)
| KFloat (f : pyfloat)
| KStr (s : string).

(** Values.  A [dict] is an association list in insertion order with
    pairwise distinct keys; documents read by [json.loads] only have [str]
    keys, [dict(pairs)] can build others.  Strings are sequences of ASCII
    characters. *)
Inductive pyval : Type :=
| PNone
| PBool (b : bool)
| PInt (z : Z)
| PFloat (f : pyfloat)
| PStr (s : string)
| PList (items : list pyval)
| PDict (entries : list (pykey * pyval)).

Definition pydict : Type := list (pykey * pyval).

Definition key_val (k : pykey) : pyval :=
  match k with
  | KNone => PNone
  | KBool b => PBool b
  | KInt z => PInt z
  | KFloat f => PFloat f
  | KStr s => PStr s
  end.

(** The key a hashable value is; lists and dicts are not hashable. *)
Definition to_key (v : pyval) : option pykey :=
  match v with
  | PNone => Some KNone
  | PBool b => Some (KBool b)
  | PInt z => Some (KInt z)
  | PFloat f => Some (KFloat f)
  | PStr s => Some (KStr s)
  | PList _ | PDict _ => None
  end.

(** Exceptions raised by the embedded code. *)
Inductive exn : Type :=
| TypeError
| ValueError
| AttributeError
| OverflowError
| TimelineImportError (message : string) (line_number : option Z) (code : string)
| DemoActionValidationError (message : string) (index : option Z) (action_id : option string)
| RuntimeError (message : string)
| FileNotFoundError.

Inductive outcome (A : Type) : Type :=
| Ok (a : A)
| Raise (e : exn).
Arguments Ok {A} a.
Arguments Raise {A} e.

Definition bind {A B : Type} (c : outcome A) (k : A -> outcome B) : outcome B :=
  match c with
  | Ok a => k a
  | Raise e => Raise e
  end.

(** [try: c except Exception: d] *)
Definition catch {A : Type} (c : outcome A) (d : A) : A :=
  match c with
  | Ok a => a
  | Raise _ => d
  end.

(** ** Characters and strings *)

(** Texts are ASCII texts: a character stands for the code point of its
    code, and the classes below are those Python gives the codes below
    128.  Where the truth of a statement depends on the class of a
    character, the statement is about texts of such characters only. *)

(** [str.isspace] on ASCII: TAB..CR, FS..US and the blank.  (Python also
    takes U+0085, U+00A0 and other characters beyond ASCII for blanks.) *)
Definition is_space (c : ascii) : bool :=
  let n := Z.of_nat (nat_of_ascii c) in
  ((9 <=? n) && (n <=? 13)) || ((28 <=? n) && (n <=? 32)).

Definition is_digit (c : ascii) : bool :=
  let n := Z.of_nat (nat_of_ascii c) in (48 <=? n) && (n <=? 57).

Definition lower_char (c : ascii) : ascii :=
  let n := nat_of_ascii c in
  if (65 <=? n)%nat && (n <=? 90)%nat then ascii_of_nat (n + 32) else c.

Fixpoint lower (s : string) : string :=
  match s with
  | EmptyString => EmptyString
  | String c r => String (lower_char c) (lower r)
  end.

Fixpoint lstrip (s : string) : string :=
  match s with
  | EmptyString => EmptyString
  | String c r => if is_space c then lstrip r else s
  end.

Fixpoint rstrip (s : string) : string :=
  match s with
  | EmptyString => EmptyString
  | String c r =>
      match rstrip r with
      | EmptyString => if is_space c then EmptyString else String c EmptyString
      | r' => String c r'
      end
  end.

Definition strip (s : string) : string := lstrip (rstrip s).

Definition is_empty (s : string) : bool :=
  match s with EmptyString => true | _ => false end.

(** [sub in s] *)
Fixpoint contains (sub s : string) : bool :=
  prefix sub s ||
  match s with
  | EmptyString => false
  | String _ r => contains sub r
  end.

(** [s.replace(c, new)] for a one-character pattern [c]. *)
Fixpoint replace_char (c : ascii) (new : string) (s : string) : string :=
  match s with
  | EmptyString => EmptyString
  | String x r =>
      if Ascii.eqb x c then new ++ replace_char c new r
      else String x (replace_char c new r)
  end.

(** [s.split()]: the maximal runs of non-blank characters. *)
Fixpoint split_from (cur : option string) (s : string) : list string :=
  match s with
  | EmptyString => match cur with Some w => [w] | None => [] end
  | String c r =>
      if is_space c then
        match cur with
        | Some w => w :: split_from None r
        | None => split_from None r
        end
      else
        split_from (Some (match cur with
                          | Some w => w ++ String c EmptyString
                          | None => String c EmptyString
                          end)) r
  end.

Definition split (s : string) : list string := split_from None s.

(** [sep.join(parts)] *)
Definition join (sep : string) (parts : list string) : string :=
  String.concat sep parts.

(** [str(n)] for an [int]. *)
Definition str_of_Z (z : Z) : string := NilZero.string_of_int (Z.to_int z).

Fixpoint repeat_string (n : nat) (s : string) : string :=
  match n with
  | O => EmptyString
  | S k => s ++ repeat_string k s
  end.

(** ** Numbers *)

(** Digits with single underscores between them, as [int(str)] takes. *)
Fixpoint parse_digits (acc : Z) (after_digit : bool) (s : string) : option Z :=
  match s with
  | EmptyString => if after_digit then Some acc else None
  | String c r =>
      if is_digit c then
        parse_digits (acc * 10 + (Z.of_nat (nat_of_ascii c) - 48)) true r
      else if Ascii.eqb c "_"%char && after_digit then parse_digits acc false r
      else None
  end.

(** [int(s)] for a [str]: blanks around, an optional sign, base 10. *)
Definition int_of_string (s : string) : option Z :=
  match strip s with
  | String "-"%char r => option_map Z.opp (parse_digits 0 false r)
  | String "+"%char r => parse_digits 0 false r
  | t => parse_digits 0 false t
  end.

(** Nearest integer to [n / d] for positive [n], [d]; ties to even. *)
Definition round_half_even (n d : Z) : Z :=
  let q := n / d in
  let r := n mod d in
  match 2 * r ?= d with
  | Lt => q
  | Gt => q + 1
  | Eq => if Z.even q then q else q + 1
  end.

(** [n >= d * 2^p] for positive [n], [d] and any [p]. *)
Definition scaled_geb (n d p : Z) : bool :=
  if 0 <=? p then d * 2 ^ p <=? n else d <=? n * 2 ^ (- p).

(** The binary64 nearest to [n / d] ([n], [d] positive) as [(q, k)] with
    value [q * 2^k]; [None] when it overflows to infinity. *)
Definition binary64_of_ratio (n d : Z) : option (Z * Z) :=
  let p := Z.log2 n - Z.log2 d in
  let fl := if scaled_geb n d p then p else p - 1 in
  let k := Z.max (fl - 52) (-1074) in
  let q := if 0 <=? k then round_half_even n (d * 2 ^ k)
           else round_half_even (n * 2 ^ (- k)) d in
  let '(q, k) := if q =? 2 ^ 53 then (2 ^ 52, k + 1) else (q, k) in
  if 971 <? k then None else Some (q, k).

(** A number as an exact dyadic [q * 2^k], an infinity or NaN. *)
Inductive number : Type :=
| NFin (q k : Z)
| NInf (negative : bool)
| NNan.

Definition float_number (f : pyfloat) : number :=
  match f with
  | FNan => NNan
  | FInf s => NInf s
  | FDec m e =>
      if m =? 0 then NFin 0 0
      else
        let a := Z.abs m in
        let r := if 0 <=? e then binary64_of_ratio (a * 10 ^ e) 1
                 else binary64_of_ratio a (10 ^ (- e)) in
        match r with
        | None => NInf (m <? 0)
        | Some (q, k) => NFin (Z.sgn m * q) k
        end
  end.

Definition number_eqb (a b : number) : bool :=
  match a, b with
  | NFin q1 k1, NFin q2 k2 =>
      let k := Z.min k1 k2 in
      q1 * 2 ^ (k1 - k) =? q2 * 2 ^ (k2 - k)
  | NInf s1, NInf s2 => Bool.eqb s1 s2
  | _, _ => false
  end.

(** The binary64 nearest to [n / d], for [d] positive. *)
Definition number_of_ratio (n d : Z) : number :=
  if n =? 0 then NFin 0 0
  else match binary64_of_ratio (Z.abs n) d with
       | None => NInf (n <? 0)
       | Some (q, k) => NFin (Z.sgn n * q) k
       end.

(** [int(round(x))] for a finite [float]: to the nearest integer, ties to
    even. *)
Definition round_number (x : number) : Z :=
  match x with
  | NFin q k => if 0 <=? k then q * 2 ^ k
                else Z.sgn q * round_half_even (Z.abs q) (2 ^ (- k))
  | _ => 0
  end.

(** [int(round(n * x))] for an [int] [n] and a finite [float] [x]. *)
Definition round_scaled (n : Z) (x : number) : Z :=
  match x with
  | NFin q k =>
      round_number (if 0 <=? k then number_of_ratio (n * q * 2 ^ k) 1
                    else number_of_ratio (n * q) (2 ^ (- k)))
  | _ => 0
  end.

(** [int(x)] for a [float]: truncation towards zero. *)
Definition int_of_float (f : pyfloat) : outcome Z :=
  match float_number f with
  | NFin q k => Ok (if 0 <=? k then q * 2 ^ k else Z.quot q (2 ^ (- k)))
  | NInf _ => Raise OverflowError
  | NNan => Raise ValueError
  end.

(** [int(x)] *)
Definition py_int (v : pyval) : outcome Z :=
  match v with
  | PBool b => Ok (if b then 1 else 0)
  | PInt z => Ok z
  | PFloat f => int_of_float f
  | PStr s => match int_of_string s with Some z => Ok z | None => Raise ValueError end
  | PNone | PList _ | PDict _ => Raise TypeError
  end.

(** ** Truth, printing *)

(** [bool(x)] *)
Definition truthy (v : pyval) : bool :=
  match v with
  | PNone => false
  | PBool b => b
  | PInt z => negb (z =? 0)
  | PFloat f => match float_number f with NFin q _ => negb (q =? 0) | _ => true end
  | PStr s => negb (is_empty s)
  | PList l => match l with [] => false | _ => true end
  | PDict d => match d with [] => false | _ => true end
  end.

(** [a or b] *)
Definition py_or (a b : pyval) : pyval := if truthy a then a else b.

Fixpoint strip_zeros (fuel : nat) (m e : Z) : Z * Z :=
  match fuel with
  | O => (m, e)
  | S n => if (m mod 10 =? 0) && negb (m =? 0) then strip_zeros n (m / 10) (e + 1) else (m, e)
  end.

(** [repr(x)] for a [float]: positional for a decimal point position in
    (-4, 16], exponent form outside. *)
Definition float_repr (f : pyfloat) : string :=
  match f with
  | FNan => "nan"
  | FInf s => if s then "-inf" else "inf"
  | FDec m e =>
      let sign := if m <? 0 then "-" else "" in
      if m =? 0 then "0.0"
      else
        let '(a, e) := strip_zeros (Z.to_nat (Z.log2 (Z.abs m))) (Z.abs m) e in
        let ds := str_of_Z a in
        let n := Z.of_nat (String.length ds) in
        let decpt := n + e in
        if (decpt <=? -4) || (16 <? decpt) then
          let x := decpt - 1 in
          let mant := match ds with
                      | String c EmptyString => ds
                      | String c r => String c ("." ++ r)
                      | EmptyString => ds
                      end in
          let xs := str_of_Z (Z.abs x) in
          sign ++ mant ++ "e" ++ (if x <? 0 then "-" else "+")
               ++ (if Z.abs x <? 10 then "0" ++ xs else xs)
        else if decpt <=? 0 then
          sign ++ "0." ++ repeat_string (Z.to_nat (- decpt)) "0" ++ ds
        else if n <=? decpt then
          sign ++ ds ++ repeat_string (Z.to_nat (decpt - n)) "0" ++ ".0"
        else
          sign ++ substring 0 (Z.to_nat decpt) ds ++ "."
               ++ substring (Z.to_nat decpt) (Z.to_nat (n - decpt)) ds
  end.

Definition hex_digit (n : nat) : ascii :=
  if (n <? 10)%nat then ascii_of_nat (48 + n) else ascii_of_nat (87 + n).

Fixpoint escape_chars (quote : ascii) (s : string) : string :=
  match s with
  | EmptyString => EmptyString
  | String c r =>
      let n := nat_of_ascii c in
      let e :=
        if Ascii.eqb c "\"%char then "\\"
        else if Ascii.eqb c quote then String "\"%char (String c EmptyString)
        else if (n =? 10)%nat then "\n"
        else if (n =? 13)%nat then "\r"
        else if (n =? 9)%nat then "\t"
        else if (n <? 32)%nat || (n =? 127)%nat then
          String "\"%char (String "x"%char
            (String (hex_digit (n / 16)) (String (hex_digit (n mod 16)) EmptyString)))
        else String c EmptyString in
      e ++ escape_chars quote r
  end.

Definition apostrophe : ascii := ascii_of_nat 39.
Definition LF : string := String (ascii_of_nat 10) EmptyString.
Definition double_quote : ascii := ascii_of_nat 34.

(** [repr(s)] for a [str]: single quotes unless the text has an
    apostrophe and no double quote. *)
Definition str_repr (s : string) : string :=
  let q := if contains (String apostrophe EmptyString) s
              && negb (contains (String double_quote EmptyString) s)
           then double_quote else apostrophe in
  String q (escape_chars q s ++ String q EmptyString).

Definition key_repr (k : pykey) : string :=
  match k with
  | KNone => "None"
  | KBool b => if b then "True" else "False"
  | KInt z => str_of_Z z
  | KFloat f => float_repr f
  | KStr s => str_repr s
  end.

(** [repr(x)] *)
Fixpoint py_repr (v : pyval) : string :=
  match v with
  | PNone => "None"
  | PBool b => if b then "True" else "False"
  | PInt z => str_of_Z z
  | PFloat f => float_repr f
  | PStr s => str_repr s
  | PList l => "[" ++ join ", " (map py_repr l) ++ "]"
  | PDict d =>
      "{" ++ join ", " (map (fun kv => match kv with
                                       | (k, x) => key_repr k ++ ": " ++ py_repr x
                                       end) d) ++ "}"
  end.

(** [str(x)] *)
Definition py_str (v : pyval) : string :=
  match v with
  | PStr s => s
  | _ => py_repr v
  end.

(** ** [isinstance] *)

Definition is_dict (v : pyval) : bool := match v with PDict _ => true | _ => false end.
Definition is_list (v : pyval) : bool := match v with PList _ => true | _ => false end.
Definition is_str (v : pyval) : bool := match v with PStr _ => true | _ => false end.
Definition is_none (v : pyval) : bool := match v with PNone => true | _ => false end.

(** ** Equality and dictionaries *)

Definition as_number (v : pyval) : option number :=
  match v with
  | PBool b => Some (NFin (if b then 1 else 0) 0)
  | PInt z => Some (NFin z 0)
  | PFloat f => Some (float_number f)
  | _ => None
  end.

(** Equality of keys ([1 == True == 1.0]; a NaN equals nothing). *)
Definition key_eqb (a b : pykey) : bool :=
  match a, b with
  | KNone, KNone => true
  | KStr s, KStr t => String.eqb s t
  | _, _ =>
      match as_number (key_val a), as_number (key_val b) with
      | Some x, Some y => number_eqb x y
      | _, _ => false
      end
  end.

Fixpoint lookup (k : pykey) (d : pydict) : option pyval :=
  match d with
  | [] => None
  | (k', v) :: r => if key_eqb k k' then Some v else lookup k r
  end.

(** [d[k] = v]: in place when the key is there, at the end otherwise. *)
Fixpoint insert (k : pykey) (v : pyval) (d : pydict) : pydict :=
  match d with
  | [] => [(k, v)]
  | (k', v') :: r => if key_eqb k k' then (k', v) :: r else (k', v') :: insert k v r
  end.

(** [k in d], [d.get(k)], [d.get(k, default)], [d[k] = v] for a [str] key. *)
Definition dict_mem (d : pydict) (k : string) : bool :=
  match lookup (KStr k) d with Some _ => true | None => false end.

Definition dict_get_default (d : pydict) (k : string) (default : pyval) : pyval :=
  match lookup (KStr k) d with Some v => v | None => default end.

Definition dict_get (d : pydict) (k : string) : pyval := dict_get_default d k PNone.

Definition dict_set (d : pydict) (k : string) (v : pyval) : pydict := insert (KStr k) v d.

(** [x == y] *)
Fixpoint py_eqb (a b : pyval) {struct a} : bool :=
  match a, b with
  | PNone, PNone => true
  | PStr s, PStr t => String.eqb s t
  | PList l, PList l' =>
      (fix all2 (xs ys : list pyval) {struct xs} : bool :=
         match xs, ys with
         | [], [] => true
         | x :: xs', y :: ys' => py_eqb x y && all2 xs' ys'
         | _, _ => false
         end) l l'
  | PDict d, PDict d' =>
      (List.length d =? List.length d')%nat &&
      (fix sub (xs : pydict) {struct xs} : bool :=
         match xs with
         | [] => true
         | (k, x) :: xs' =>
             match lookup k d' with
             | Some y => py_eqb x y && sub xs'
             | None => false
             end
         end) d
  | _, _ =>
      match as_number a, as_number b with
      | Some x, Some y => number_eqb x y
      | _, _ => false
      end
  end.

(** One element of the sequence given to [dict(...)]: it must itself be a
    sequence of exactly two items, the first one hashable. *)
Definition pair_of_item (v : pyval) : outcome (pykey * pyval) :=
  match v with
  | PList [k; x] => match to_key k with Some key => Ok (key, x) | None => Raise TypeError end
  | PStr (String a (String b EmptyString)) =>
      Ok (KStr (String a EmptyString), PStr (String b EmptyString))
  | PDict [(k1, _); (k2, _)] => Ok (k1, key_val k2)
  | PList _ | PStr _ | PDict _ => Raise ValueError
  | PNone | PBool _ | PInt _ | PFloat _ => Raise TypeError
  end.

Fixpoint dict_of_items (acc : pydict) (l : list pyval) : outcome pydict :=
  match l with
  | [] => Ok acc
  | v :: r => bind (pair_of_item v) (fun kx => dict_of_items (insert (fst kx) (snd kx) acc) r)
  end.

(** [dict(x)] *)
Definition py_dict (v : pyval) : outcome pydict :=
  match v with
  | PDict d => Ok d
  | PList l => dict_of_items [] l
  | PStr EmptyString => Ok []
  | PStr _ => Raise ValueError
  | PNone | PBool _ | PInt _ | PFloat _ => Raise TypeError
  end.

(** [dict(x or {})] *)
Definition dict_or_empty (v : pyval) : outcome pydict := py_dict (py_or v (PDict [])).

(** [x.get(k)] on a value that may not be a [dict]. *)
Definition attr_get (v : pyval) (k : string) : outcome pyval :=
  match v with
  | PDict d => Ok (dict_get d k)
  | _ => Raise AttributeError
  end.

End Py.

Export Py.

Notation "x <- c ;; k" := (bind c (fun x => k))
  (at level 61, c at next level, right associativity).

(** [list.sort(key=...)] is stable, and the result of a stable sort is
    determined by the order on keys; it is written here as an insertion
    sort: an element goes in front of the first one whose key is not
    smaller, so equal keys keep their order. *)
Section Sort.
Context {A : Type} (leb : A -> A -> bool).

Fixpoint insert_sorted (x : A) (l : list A) : list A :=
  match l with
  | [] => [x]
  | y :: r => if leb x y then x :: y :: r else y :: insert_sorted x r
  end.

Fixpoint stable_sort (l : list A) : list A :=
  match l with
  | [] => []
  | x :: r => insert_sorted x (stable_sort r)
  end.
End Sort.

(* ===================================================================== *)
(** * backend/app/timeline                                                *)
(* ===================================================================== *)

Module Timeline.

(** ** timeline/models.py *)

Definition TIMELINE_VERSION : string := "1.0".

Definition _to_int (value : pyval) (default : Z) : Z := catch (py_int value) default.

Record NarrationEvent : Type := mkNarrationEvent {
  ne_id : string;
  ne_start_ms : Z;
  ne_end_ms : Z;
  ne_text : string;
  ne_voice_profile_id : string;
  ne_meta : pydict;
  ne_extra : pydict
}.

Record ActionEvent : Type := mkActionEvent {
  ae_id : string;
  ae_at_ms : Z;
  ae_action : string;
  ae_target : option string;
  ae_args : pydict;
  ae_extra : pydict
}.

Record Timeline : Type := mkTimeline {
  timeline_version : string;
  narration_events : list NarrationEvent;
  action_events : list ActionEvent
}.

(** [{k: v for k, v in data.items() if k not in known}] *)
Definition without_keys (known : list string) (data : pydict) : pydict :=
  filter (fun kv => negb (existsb (fun k => key_eqb (fst kv) (KStr k)) known)) data.

(** [NarrationEvent.from_dict] *)
Definition NarrationEvent_from_dict (data : pydict) : outcome NarrationEvent :=
  meta <- dict_or_empty (dict_get data "meta") ;;
  Ok {| ne_id := py_str (py_or (dict_get data "id") (PStr ""));
        ne_start_ms := _to_int (dict_get data "start_ms") 0;
        ne_end_ms := _to_int (dict_get data "end_ms") 0;
        ne_text := py_str (py_or (dict_get data "text") (PStr ""));
        ne_voice_profile_id := py_str (py_or (dict_get data "voice_profile_id") (PStr "default"));
        ne_meta := meta;
        ne_extra := without_keys ["id"; "start_ms"; "end_ms"; "text"; "voice_profile_id"; "meta"] data |}.

(** ** timeline/parsers_timestamped_txt.py *)

(** [str.splitlines] boundaries on ASCII: LF, VT, FF, CR, FS, GS, RS.
    (Python also breaks at U+0085, U+2028 and U+2029.) *)
Definition is_linebreak (c : ascii) : bool :=
  let n := Z.of_nat (nat_of_ascii c) in
  ((10 <=? n) && (n <=? 13)) || ((28 <=? n) && (n <=? 30)).

Fixpoint splitlines_from (cur : string) (s : string) : list string :=
  match s with
  | EmptyString => if is_empty cur then [] else [cur]
  | String c r =>
      if is_linebreak c then
        cur :: splitlines_from EmptyString
                 (match r with
                  | String c2 r2 =>
                      if Ascii.eqb c (ascii_of_nat 13) && Ascii.eqb c2 (ascii_of_nat 10)
                      then r2 else r
                  | EmptyString => r
                  end)
      else splitlines_from (cur ++ String c EmptyString) r
  end.

Definition splitlines (s : string) : list string := splitlines_from EmptyString s.

(** The leading run of at most [n] digits of [s], and what follows. *)
Fixpoint take_digits (n : nat) (s : string) : string * string :=
  match n, s with
  | S k, String c r =>
      if is_digit c then let '(ds, rest) := take_digits k r in (String c ds, rest)
      else (EmptyString, s)
  | _, _ => (EmptyString, s)
  end.

Fixpoint last_char (s : string) : string :=
  match s with
  | EmptyString => EmptyString
  | String c EmptyString => s
  | String _ r => last_char r
  end.

(** The groups of
    [^\[(?:(\d{1,2}):)?(\d{1,2}):(\d{2})\]\s*(.+?)\s*$]
    on a line without line feed: hours (optional), minutes, seconds, text. *)
Definition _TIMESTAMPED_LINE (line : string)
  : option (option string * string * string * string) :=
  match line with
  | String "["%char s0 =>
      let '(d1, s1) := take_digits 2 s0 in
      match d1, s1 with
      | String _ _, String ":"%char s2 =>
          let '(d2, s3) := take_digits 2 s2 in
          let header :=
            match d2, s3 with
            | String _ _, String ":"%char s4 =>
                let '(d3, s5) := take_digits 2 s4 in
                match d3, s5 with
                | String _ (String _ EmptyString), String "]"%char rest =>
                    Some (Some d1, d2, d3, rest)
                | _, _ => None
                end
            | String _ (String _ EmptyString), String "]"%char rest =>
                Some (None, d1, d2, rest)
            | _, _ => None
            end in
          match header with
          | Some (hh, mm, ss, rest) =>
              match rest with
              | EmptyString => None
              | _ =>
                  match lstrip rest with
                  | EmptyString => Some (hh, mm, ss, last_char rest)
                  | t => Some (hh, mm, ss, rstrip t)
                  end
              end
          | None => None
          end
      | _, _ => None
      end
  | _ => None
  end.

Definition _to_ms (hours minutes seconds : Z) : Z :=
  ((hours * 3600) + (minutes * 60) + seconds) * 1000.

(** [int(group)] on a group of digits. *)
Definition int_of_group (g : string) : Z :=
  match int_of_string g with Some z => z | None => 0 end.

Fixpoint parse_timestamped_lines (line_no : Z) (lines : list string) : outcome (list pyval) :=
  match lines with
  | [] => Ok []
  | raw :: more =>
      let line := strip raw in
      if is_empty line || prefix "#" line then parse_timestamped_lines (line_no + 1) more
      else
        match _TIMESTAMPED_LINE line with
        | None =>
            Raise (TimelineImportError "expected '[MM:SS] text' or '[HH:MM:SS] text'"
                     (Some line_no) "invalid_timestamped_line")
        | Some (g1, g2, g3, g4) =>
            let hh := match g1 with Some g => int_of_group g | None => 0 end in
            let mm := int_of_group g2 in
            let ss := int_of_group g3 in
            let text := strip g4 in
            if is_empty text then
              Raise (TimelineImportError "timestamped line is missing narration text"
                       (Some line_no) "empty_text")
            else if (60 <=? mm) || (60 <=? ss) then
              Raise (TimelineImportError "timestamp has invalid minute/second value"
                       (Some line_no) "invalid_timestamp")
            else
              entries <- parse_timestamped_lines (line_no + 1) more ;;
              Ok (PDict [ (KStr "id", PStr ("n" ++ str_of_Z line_no));
                          (KStr "start_ms", PInt (_to_ms hh mm ss));
                          (KStr "text", PStr text);
                          (KStr "meta", PDict [ (KStr "source_line", PInt line_no);
                                                (KStr "source_format", PStr "timestamped_txt") ]) ]
                  :: entries)
        end
  end.

(** [parse_timestamped_txt] *)
Definition parse_timestamped_txt (content : string) : outcome (list pyval) :=
  entries <- parse_timestamped_lines 1 (splitlines content) ;;
  match entries with
  | [] => Raise (TimelineImportError "no narration lines found in timestamped script"
                   None "empty_input")
  | _ => Ok entries
  end.

(** ** timeline/normalizer.py *)

Definition _as_int (value : pyval) (default : Z) : Z := catch (py_int value) default.

Record prepared : Type := mkPrepared {
  p_raw : pydict;
  p_start_ms : Z;
  p_end_ms : Z;
  p_index : Z
}.

(** The first loop: every event must be an object with a non-blank text. *)
Fixpoint prepare (idx : Z) (raw_events : list pyval) : outcome (list prepared) :=
  match raw_events with
  | [] => Ok []
  | PDict event :: more =>
      let text := strip (py_str (py_or (dict_get event "text") (PStr ""))) in
      if is_empty text then
        let line_no :=
          match dict_get event "meta" with
          | PDict meta =>
              let n := _as_int (dict_get meta "source_line") 0 in
              if n =? 0 then None else Some n
          | _ => None
          end in
        Raise (TimelineImportError "narration text cannot be empty" line_no "empty_text")
      else
        rest <- prepare (idx + 1) more ;;
        Ok ({| p_raw := event;
               p_start_ms := Z.max 0 (_as_int (dict_get event "start_ms") 0);
               p_end_ms := _as_int (dict_get event "end_ms") (-1);
               p_index := idx |} :: rest)
  | _ :: _ =>
      Raise (TimelineImportError ("event #" ++ str_of_Z idx ++ " is not an object")
               None "invalid_event")
  end.

(** [key=lambda item: (item["start_ms"], item["index"])] *)
Definition prepared_leb (a b : prepared) : bool :=
  (p_start_ms a <? p_start_ms b) ||
  ((p_start_ms a =? p_start_ms b) && (p_index a <=? p_index b)).

(** The start of the first later item that starts strictly after [start]. *)
Fixpoint next_start_after (start : Z) (later : list prepared) : option Z :=
  match later with
  | [] => None
  | item :: more =>
      if start <? p_start_ms item then Some (p_start_ms item)
      else next_start_after start more
  end.

(** [seen_ids], a [dict[str, int]]. *)
Fixpoint seen_get (seen : list (string * Z)) (k : string) : option Z :=
  match seen with
  | [] => None
  | (k', n) :: r => if String.eqb k k' then Some n else seen_get r k
  end.

Fixpoint seen_set (seen : list (string * Z)) (k : string) (n : Z) : list (string * Z) :=
  match seen with
  | [] => [(k, n)]
  | (k', n') :: r => if String.eqb k k' then (k', n) :: r else (k', n') :: seen_set r k n
  end.

(** The second loop, over [enumerate(prepared)] from position [idx]. *)
Fixpoint normalize_loop (bounded_duration : option Z)
    (default_duration_ms min_duration_ms : Z)
    (idx : Z) (seen_ids : list (string * Z)) (items : list prepared)
  : outcome (list pyval) :=
  match items with
  | [] => Ok []
  | item :: later =>
      let source := p_raw item in
      let start_ms := p_start_ms item in
      if match bounded_duration with Some b => b <=? start_ms | None => false end then
        normalize_loop bounded_duration default_duration_ms min_duration_ms
                       (idx + 1) seen_ids later
      else
        let end_ms := p_end_ms item in
        let end_ms :=
          if end_ms <=? start_ms then
            match next_start_after start_ms later with
            | Some next_start => next_start
            | None => start_ms + default_duration_ms
            end
          else end_ms in
        let end_ms :=
          match bounded_duration with
          | Some b => if b <? end_ms then b else end_ms
          | None => end_ms
          end in
        let end_ms := if end_ms <=? start_ms then start_ms + min_duration_ms else end_ms in
        let event_id := py_str (py_or (dict_get source "id") (PStr ("n" ++ str_of_Z (idx + 1)))) in
        let '(event_id, seen_ids) :=
          match seen_get seen_ids event_id with
          | Some n => (event_id ++ "_" ++ str_of_Z (n + 1), seen_set seen_ids event_id (n + 1))
          | None => (event_id, seen_set seen_ids event_id 0)
          end in
        meta <- dict_or_empty (dict_get source "meta") ;;
        let output_event :=
          PDict [ (KStr "id", PStr event_id);
                  (KStr "start_ms", PInt start_ms);
                  (KStr "end_ms", PInt end_ms);
                  (KStr "text", PStr (strip (py_str (py_or (dict_get source "text") (PStr "")))));
                  (KStr "voice_profile_id",
                   PStr (py_str (py_or (dict_get source "voice_profile_id") (PStr "default"))));
                  (KStr "meta", PDict meta) ] in
        normalized <- normalize_loop bounded_duration default_duration_ms min_duration_ms
                                     (idx + 1) seen_ids later ;;
        Ok (output_event :: normalized)
  end.

(** [normalize_narration_events] *)
Definition normalize_narration_events (raw_events : list pyval)
    (video_duration_ms : option Z) (default_duration_ms min_duration_ms : Z)
  : outcome (list pyval) :=
  match raw_events with
  | [] => Ok []
  | _ =>
      prepared <- prepare 1 raw_events ;;
      let prepared := stable_sort prepared_leb prepared in
      let bounded_duration :=
        match video_duration_ms with
        | Some d => if 0 <? d then Some d else None
        | None => None
        end in
      normalized <- normalize_loop bounded_duration default_duration_ms min_duration_ms
                                   0 [] prepared ;;
      match normalized with
      | [] => Raise (TimelineImportError "no usable narration events after normalization"
                       None "empty_output")
      | _ => Ok normalized
      end
  end.

(** ** timeline/importers.py *)

Definition SUPPORTED_IMPORT_FORMATS : list string := ["auto"; "timestamped_txt"; "srt"; "json"].

Fixpoint events_from_dicts (events : list pyval) : outcome (list NarrationEvent) :=
  match events with
  | [] => Ok []
  | ev :: more =>
      data <- (match ev with PDict d => Ok d | _ => Raise AttributeError end) ;;
      e <- NarrationEvent_from_dict data ;;
      rest <- events_from_dicts more ;;
      Ok (e :: rest)
  end.

Section Importers.
(** The SRT parser, the JSON path and the format sniffer are separate
    units of the importer; the dispatcher is embedded over them. *)
Variable parse_srt : string -> outcome (list pyval).
Variable _import_json_timeline : string -> outcome Timeline.
Variable _detect_import_format : string -> option string -> string.

(** [import_narration_timeline] *)
Definition import_narration_timeline (content : string) (import_format : string)
    (source_name : option string) (video_duration_ms : option Z) : outcome Timeline :=
  let fmt := lower (strip (if is_empty import_format then "auto" else import_format)) in
  if negb (existsb (String.eqb fmt) SUPPORTED_IMPORT_FORMATS) then
    Raise (TimelineImportError ("unsupported import format '" ++ import_format ++ "'")
             None "unsupported_format")
  else
    let fmt := if String.eqb fmt "auto" then _detect_import_format content source_name
               else fmt in
    if String.eqb fmt "json" then _import_json_timeline content
    else
      parsed_events <-
        (if String.eqb fmt "srt" then parse_srt content
         else if String.eqb fmt "timestamped_txt" then parse_timestamped_txt content
         else Raise (TimelineImportError ("unsupported import format '" ++ fmt ++ "'")
                       None "unsupported_format")) ;;
      normalized_events <- normalize_narration_events parsed_events video_duration_ms 3000 500 ;;
      events <- events_from_dicts normalized_events ;;
      Ok {| timeline_version := TIMELINE_VERSION;
            narration_events := events;
            action_events := [] |}.
End Importers.

End Timeline.

(* ===================================================================== *)
(** * backend/app/demo_runner: models.py, validator.py                    *)
(* ===================================================================== *)

Module Validator.

Record DemoActionEvent : Type := mkDemoActionEvent {
  id : string;
  at_ms : Z;
  action : string;
  target : option string;
  args : pydict;
  timeout_ms : Z;
  retries : Z;
  source_index : Z
}.

Definition SUPPORTED_ACTIONS : list string := ["goto"; "click"; "fill"; "press"; "wait"].
Definition MIN_ACTION_TIMEOUT_MS : Z := 100.
Definition MAX_ACTION_TIMEOUT_MS : Z := 120000.
Definition DEFAULT_ACTION_TIMEOUT_MS : Z := 10000.
Definition MIN_ACTION_RETRIES : Z := 0.
Definition MAX_ACTION_RETRIES : Z := 3.
Definition DEFAULT_ACTION_RETRIES : Z := 1.
Definition MAX_WAIT_MS : Z := 120000.

Definition mem (x : string) (l : list string) : bool := existsb (String.eqb x) l.

(** [_require_target] *)
Definition _require_target (action : pydict) (idx : Z) (action_id : string) : outcome string :=
  match dict_get action "target" with
  | PStr target =>
      if is_empty (strip target) then
        Raise (DemoActionValidationError "action requires a non-empty target"
                 (Some idx) (Some action_id))
      else Ok (strip target)
  | _ =>
      Raise (DemoActionValidationError "action requires a non-empty target"
               (Some idx) (Some action_id))
  end.

(** [_parse_int_field] *)
Definition _parse_int_field (value : pyval) (field_name : string) (index : Z)
    (action_id : string) (minimum : Z) (maximum : option Z) (default : option Z)
  : outcome Z :=
  match value with
  | PNone =>
      match default with
      | Some d => Ok d
      | None => Raise (DemoActionValidationError (field_name ++ " is required")
                         (Some index) (Some action_id))
      end
  | _ =>
      match py_int value with
      | Raise _ =>
          Raise (DemoActionValidationError (field_name ++ " must be an integer")
                   (Some index) (Some action_id))
      | Ok parsed =>
          if parsed <? minimum then
            Raise (DemoActionValidationError
                     (field_name ++ " must be >= " ++ str_of_Z minimum)
                     (Some index) (Some action_id))
          else
            match maximum with
            | Some m =>
                if m <? parsed then
                  Raise (DemoActionValidationError
                           (field_name ++ " must be <= " ++ str_of_Z m)
                           (Some index) (Some action_id))
                else Ok parsed
            | None => Ok parsed
            end
      end
  end.

(** [raw.get(name)], falling back to [(raw.get("args") or {}).get(name)]. *)
Definition field_or_arg (raw : pydict) (name : string) : outcome pyval :=
  match dict_get raw name with
  | PNone => attr_get (py_or (dict_get raw "args") (PDict [])) name
  | v => Ok v
  end.

(** The body of the loop of [parse_action_events] for the entry at [idx]. *)
Definition parse_action (idx : Z) (seen_action_ids : list string) (raw : pyval)
  : outcome DemoActionEvent :=
  match raw with
  | PDict raw =>
      let action_id := strip (py_str (py_or (dict_get raw "id") (PStr ("a" ++ str_of_Z (idx + 1))))) in
      if is_empty action_id then
        Raise (DemoActionValidationError "action id must be non-empty" (Some idx) (Some action_id))
      else if mem action_id seen_action_ids then
        Raise (DemoActionValidationError "duplicate action id" (Some idx) (Some action_id))
      else
        let action_type := lower (strip (py_str (py_or (dict_get raw "action") (PStr "")))) in
        if negb (mem action_type SUPPORTED_ACTIONS) then
          Raise (DemoActionValidationError
                   ("unsupported action '"
                      ++ (if is_empty action_type then "<empty>" else action_type) ++ "'")
                   (Some idx) (Some action_id))
        else
          at_ms <- _parse_int_field (dict_get raw "at_ms") "action at_ms" idx action_id
                                    0 None None ;;
          timeout_raw <- field_or_arg raw "timeout_ms" ;;
          timeout_ms <- _parse_int_field timeout_raw "action timeout_ms" idx action_id
                          MIN_ACTION_TIMEOUT_MS (Some MAX_ACTION_TIMEOUT_MS)
                          (Some DEFAULT_ACTION_TIMEOUT_MS) ;;
          retries_raw <- field_or_arg raw "retries" ;;
          retries <- _parse_int_field retries_raw "action retries" idx action_id
                       MIN_ACTION_RETRIES (Some MAX_ACTION_RETRIES)
                       (Some DEFAULT_ACTION_RETRIES) ;;
          args <- (match dict_get raw "args" with
                   | PNone => Ok []
                   | PDict raw_args => Ok raw_args
                   | _ => Raise (DemoActionValidationError "action args must be an object"
                                   (Some idx) (Some action_id))
                   end) ;;
          target <- (if mem action_type ["goto"; "click"; "fill"; "press"]
                     then t <- _require_target raw idx action_id ;; Ok (Some t)
                     else Ok None) ;;
          _ <- (match target with
                | Some t =>
                    if String.eqb action_type "goto"
                       && negb (prefix "http://" t || prefix "https://" t)
                    then Raise (DemoActionValidationError
                                  "goto action target must start with http:// or https://"
                                  (Some idx) (Some action_id))
                    else Ok tt
                | None => Ok tt
                end) ;;
          _ <- (if String.eqb action_type "fill" then
                  if negb (dict_mem args "value") then
                    Raise (DemoActionValidationError "fill action requires args.value"
                             (Some idx) (Some action_id))
                  else
                    match dict_get args "value" with
                    | PStr _ | PInt _ | PFloat _ | PBool _ => Ok tt
                    | _ => Raise (DemoActionValidationError
                                    "fill action args.value must be string/number/bool"
                                    (Some idx) (Some action_id))
                    end
                else Ok tt) ;;
          args <- (if String.eqb action_type "press" then
                     if negb (dict_mem args "key") then
                       Raise (DemoActionValidationError "press action requires args.key"
                                (Some idx) (Some action_id))
                     else
                       match dict_get args "key" with
                       | PStr key =>
                           if is_empty (strip key) then
                             Raise (DemoActionValidationError
                                      "press action requires non-empty args.key"
                                      (Some idx) (Some action_id))
                           else Ok (dict_set args "key" (PStr (strip key)))
                       | _ => Raise (DemoActionValidationError
                                       "press action requires non-empty args.key"
                                       (Some idx) (Some action_id))
                       end
                   else Ok args) ;;
          args <- (if String.eqb action_type "wait" then
                     wait_ms <- _parse_int_field (dict_get args "ms") "wait action args.ms"
                                  idx action_id 0 (Some MAX_WAIT_MS) None ;;
                     Ok (dict_set args "ms" (PInt wait_ms))
                   else Ok args) ;;
          Ok {| id := action_id;
                at_ms := at_ms;
                action := action_type;
                target := target;
                args := args;
                timeout_ms := timeout_ms;
                retries := retries;
                source_index := idx |}
  | _ => Raise (DemoActionValidationError "action event must be an object" (Some idx) None)
  end.

Fixpoint parse_actions_from (idx : Z) (seen_action_ids : list string) (raw_actions : list pyval)
  : outcome (list DemoActionEvent) :=
  match raw_actions with
  | [] => Ok []
  | raw :: more =>
      ev <- parse_action idx seen_action_ids raw ;;
      rest <- parse_actions_from (idx + 1) (id ev :: seen_action_ids) more ;;
      Ok (ev :: rest)
  end.

(** [key=lambda event: (event.at_ms, event.source_index, event.id)] *)
Definition event_leb (a b : DemoActionEvent) : bool :=
  (at_ms a <? at_ms b) ||
  ((at_ms a =? at_ms b) &&
   ((source_index a <? source_index b) ||
    ((source_index a =? source_index b) && String.leb (id a) (id b)))).

(** [parse_action_events] *)
Definition parse_action_events (timeline : pydict) : outcome (list DemoActionEvent) :=
  match dict_get timeline "action_events" with
  | PList raw_actions =>
      parsed <- parse_actions_from 0 [] raw_actions ;;
      Ok (stable_sort event_leb parsed)
  | _ => Ok []
  end.

End Validator.

(* ===================================================================== *)
(** * The wall clock                                                      *)
(* ===================================================================== *)

(** [utc_now_iso()] reads the wall clock.  A computation that reads it
    carries the number of readings taken so far; [clock n] is the text of
    the [n]-th reading. *)
Definition clock : Type := nat -> string.

Definition timed (A : Type) : Type := nat -> outcome (A * nat).

Definition tret {A : Type} (a : A) : timed A := fun t => Ok (a, t).

Definition tbind {A B : Type} (c : timed A) (k : A -> timed B) : timed B :=
  fun t => match c t with
           | Ok (a, t') => k a t'
           | Raise e => Raise e
           end.

Definition tlift {A : Type} (c : outcome A) : timed A :=
  fun t => match c with
           | Ok a => Ok (a, t)
           | Raise e => Raise e
           end.

Definition utc_now_iso (clk : clock) : timed string := fun t => Ok (clk t, S t).

Notation "x <~ c ;; k" := (tbind c (fun x => k))
  (at level 61, c at next level, right associativity).

(** [prefix + utc_now_iso().replace(':', '').replace('-', '')] *)
Definition stamped_id (clk : clock) (pre : string) : timed string :=
  now <~ utc_now_iso clk ;;
  tret (pre ++ replace_char "-" "" (replace_char ":" "" now)).

(* ===================================================================== *)
(** * backend/app/storage.py                                              *)
(* ===================================================================== *)

Module Storage.

Definition SCHEMA_VERSION : string := "2.0.0".
Definition MAX_DEMO_RUN_HISTORY : Z := 50.
Definition MAX_RENDER_HISTORY : Z := 50.

Definition _coerce_int (value : pyval) (default : Z) : Z := catch (py_int value) default.

Definition _history_limit (value : pyval) (default : Z) : Z :=
  let parsed := _coerce_int value default in
  if parsed <? 1 then default else Z.min parsed 500.

(** [records[-limit:]] when there are more than [limit] records: the
    last [limit] of them for a positive [limit] (the slice starts at
    [-limit], which is [0] or a position from the front otherwise). *)
Definition _trim_history (records : list pyval) (limit : Z) : list pyval :=
  if Z.of_nat (List.length records) <=? limit then records
  else if 0 <? limit then skipn (List.length records - Z.to_nat limit) records
  else skipn (Z.to_nat (- limit)) records.

Fixpoint stage_timings_from (normalized : pydict) (items : pydict) : pydict :=
  match items with
  | [] => normalized
  | (key, raw) :: more =>
      let name := strip (py_str (key_val key)) in
      if is_empty name then stage_timings_from normalized more
      else stage_timings_from
             (dict_set normalized name (PInt (Z.max 0 (_coerce_int raw 0)))) more
  end.

Definition _normalize_stage_timings (value : pyval) : pydict :=
  match value with
  | PDict items => stage_timings_from [] items
  | _ => []
  end.

(** The loop of [_normalize_error_summary] over [record["executions"]]. *)
Fixpoint failed_executions (failed_ids : list pyval) (error_types : pydict)
    (executions : list pyval) : list pyval * pydict :=
  match executions with
  | [] => (failed_ids, error_types)
  | PDict entry :: more =>
      if String.eqb (py_str (py_or (dict_get entry "status") (PStr "ok"))) "ok" then
        failed_executions failed_ids error_types more
      else
        let action_id := strip (py_str (py_or (dict_get entry "action_id") (PStr ""))) in
        let failed_ids := if is_empty action_id then failed_ids
                          else (failed_ids ++ [PStr action_id])%list in
        let error_type := strip (py_str (py_or (dict_get entry "error_type") (PStr "action_error"))) in
        let error_type := if is_empty error_type then "action_error" else error_type in
        let count := match dict_get_default error_types error_type (PInt 0) with
                     | PInt n => n
                     | _ => 0
                     end in
        failed_executions failed_ids (dict_set error_types error_type (PInt (count + 1))) more
  | _ :: more => failed_executions failed_ids error_types more
  end.

Definition _normalize_error_summary (record : pydict) : pydict :=
  let summary := match dict_get record "error_summary" with
                 | PDict existing => existing
                 | _ => []
                 end in
  let failed_actions :=
    match dict_get record "execution_summary" with
    | PDict execution_summary => _coerce_int (dict_get execution_summary "error") 0
    | _ => 0
    end in
  let '(failed_ids, error_types) :=
    match dict_get record "executions" with
    | PList executions => failed_executions [] [] executions
    | _ => ([], [])
    end in
  let message :=
    strip (py_str (py_or (py_or (dict_get summary "message") (dict_get record "error"))
                         (PStr ""))) in
  let has_error := truthy (dict_get summary "has_error")
                   || negb (is_empty message) || (0 <? failed_actions) in
  [ (KStr "has_error", PBool has_error);
    (KStr "message", PStr message);
    (KStr "failed_actions", PInt failed_actions);
    (KStr "failed_action_ids", PList failed_ids);
    (KStr "error_types", PDict error_types) ].

(** The id of a record: its own, else the fallback, else a stamped one. *)
Definition record_id (clk : clock) (pre : string) (own : pyval) (fallback : option string)
  : timed string :=
  let own_id := strip (py_str (py_or own (PStr ""))) in
  if negb (is_empty own_id) then tret own_id
  else
    let fb := strip (match fallback with Some f => f | None => "" end) in
    if negb (is_empty fb) then tret fb
    else stamped_id clk pre.

(** [str(normalized.get("created_at") or utc_now_iso())] *)
Definition created_at_of (clk : clock) (normalized : pydict) : timed string :=
  if truthy (dict_get normalized "created_at")
  then tret (py_str (dict_get normalized "created_at"))
  else utc_now_iso clk.

Definition str_or (normalized : pydict) (k default : string) : pyval :=
  PStr (py_str (py_or (dict_get normalized k) (PStr default))).

(** [normalize_demo_run_record] *)
Definition normalize_demo_run_record (clk : clock) (record : pydict)
    (run_id_fallback : option string) : timed pydict :=
  let normalized := record in
  run_id <~ record_id clk "demo_" (dict_get normalized "run_id") run_id_fallback ;;
  let normalized := dict_set normalized "run_id" (PStr run_id) in
  let normalized :=
    if dict_mem normalized "project_id"
    then dict_set normalized "project_id"
           (PStr (strip (py_str (py_or (dict_get normalized "project_id") (PStr "")))))
    else normalized in
  created_at <~ created_at_of clk normalized ;;
  let normalized := dict_set normalized "created_at" (PStr created_at) in
  let normalized := dict_set normalized "mode" (str_or normalized "mode" "demo_capture_unknown") in
  let normalized := dict_set normalized "execution_mode"
                      (str_or normalized "execution_mode" "playwright_optional") in
  let normalized := dict_set normalized "actions_total"
                      (PInt (Z.max 0 (_coerce_int (dict_get normalized "actions_total") 0))) in
  let normalized := dict_set normalized "actions_executed"
                      (PInt (Z.max 0 (_coerce_int (dict_get normalized "actions_executed") 0))) in
  let normalized := dict_set normalized "stage_timings_ms"
                      (PDict (_normalize_stage_timings (dict_get normalized "stage_timings_ms"))) in
  drift_stats <~ tlift (dict_or_empty (dict_get normalized "drift_stats")) ;;
  let normalized := dict_set normalized "drift_stats" (PDict drift_stats) in
  execution_summary <~ tlift (dict_or_empty (dict_get normalized "execution_summary")) ;;
  let normalized := dict_set normalized "execution_summary" (PDict execution_summary) in
  correlation <~ tlift (dict_or_empty (dict_get normalized "correlation")) ;;
  let normalized := dict_set normalized "correlation" (PDict correlation) in
  let normalized := dict_set normalized "error_summary"
                      (PDict (_normalize_error_summary normalized)) in
  tret normalized.

(** [normalize_render_record] *)
Definition normalize_render_record (clk : clock) (record : pydict)
    (render_id_fallback : option string) : timed pydict :=
  let normalized := record in
  render_id <~ record_id clk "render_" (dict_get normalized "render_id") render_id_fallback ;;
  let normalized := dict_set normalized "render_id" (PStr render_id) in
  created_at <~ created_at_of clk normalized ;;
  let normalized := dict_set normalized "created_at" (PStr created_at) in
  let normalized := dict_set normalized "mode" (str_or normalized "mode" "tts_only") in
  let normalized := dict_set normalized "status" (str_or normalized "status" "completed") in
  let normalized := dict_set normalized "stage_timings_ms"
                      (PDict (_normalize_stage_timings (dict_get normalized "stage_timings_ms"))) in
  correlation <~ tlift (dict_or_empty (dict_get normalized "correlation")) ;;
  let normalized := dict_set normalized "correlation" (PDict correlation) in
  let error_summary := _normalize_error_summary normalized in
  let normalized := dict_set normalized "error_summary" (PDict error_summary) in
  let normalized :=
    if truthy (dict_get error_summary "has_error")
    then dict_set normalized "status" (str_or normalized "status" "failed")
    else normalized in
  tret normalized.

(** ** Defaults *)

Definition _default_segmentation_settings : pydict :=
  [ (KStr "analysis_fps", PInt 10);
    (KStr "min_seg_ms", PInt 2000);
    (KStr "max_seg_ms", PInt 8000);
    (KStr "merge_rule", PStr "merge_short_segments");
    (KStr "diff_method", PStr "frame_diff_energy");
    (KStr "ocr_delta_enabled", PBool false) ].

Definition _default_models_settings : pydict :=
  [ (KStr "vision",
     PDict [ (KStr "provider", PStr "zai_openai_compat");
             (KStr "base_url", PStr "https://api.z.ai/api/paas/v4/");
             (KStr "model", PStr "glm-4.6v");
             (KStr "temperature", PFloat (FDec 2 (-1)));
             (KStr "thinking", PStr "enabled") ]);
    (KStr "rewrite",
     PDict [ (KStr "provider", PStr "zai_openai_compat");
             (KStr "base_url", PStr "https://api.z.ai/api/paas/v4/");
             (KStr "model", PStr "glm-5");
             (KStr "temperature", PFloat (FDec 3 (-1))) ]) ].

Definition _default_narration_settings : pydict :=
  [ (KStr "wps", PFloat (FDec 225 (-2)));
    (KStr "min_words", PInt 4);
    (KStr "max_words", PInt 28);
    (KStr "style", PStr "present tense, action+result, no filler") ].

Definition _default_tts_settings : pydict :=
  [ (KStr "provider", PStr "chatterbox");
    (KStr "endpoint", PStr "");
    (KStr "voice_mode", PStr "predefined_voice");
    (KStr "predefined_voice_id", PStr "alloy");
    (KStr "default_params",
     PDict [ (KStr "speed_factor", PFloat (FDec 1 0));
             (KStr "temperature", PFloat (FDec 8 (-1)));
             (KStr "exaggeration", PFloat (FDec 5 (-1)));
             (KStr "cfg_weight", PFloat (FDec 5 (-1)));
             (KStr "seed", PInt 123);
             (KStr "language_id", PStr "en");
             (KStr "output_format", PStr "wav") ]) ].

Definition _default_holistic_settings : pydict :=
  [ (KStr "enabled", PBool false);
    (KStr "keyframe_density", PFloat (FDec 1 0));
    (KStr "match_confidence_threshold", PFloat (FDec 5 (-1))) ].

Definition _default_demo_capture_execution_mode : string := "playwright_optional".

Definition _default_timeline (narration_events : list pyval) : pydict :=
  [ (KStr "timeline_version", PStr Timeline.TIMELINE_VERSION);
    (KStr "narration_events", PList narration_events);
    (KStr "action_events", PList []) ].

Definition _default_renders : pydict :=
  [ (KStr "last_render_id", PNone); (KStr "history", PList []) ].

Definition _default_demo_state : pydict :=
  [ (KStr "last_run_id", PNone); (KStr "runs", PList []) ].

Definition _default_exports : pydict :=
  [ (KStr "artifacts", PDict []);
    (KStr "ffmpeg", PDict [ (KStr "commands", PList []) ]) ].

Definition _default_profile_from_tts_settings (tts_settings : pydict) : outcome pydict :=
  params <- dict_or_empty (dict_get tts_settings "default_params") ;;
  let profile :=
    [ (KStr "profile_id", PStr "default");
      (KStr "display_name", PStr "Default");
      (KStr "provider", str_or tts_settings "provider" "chatterbox");
      (KStr "voice_mode", str_or tts_settings "voice_mode" "predefined_voice");
      (KStr "params", PDict params) ] in
  let profile := match dict_get tts_settings "endpoint" with
                 | PStr endpoint => dict_set profile "endpoint" (PStr endpoint)
                 | _ => profile
                 end in
  let profile := match dict_get tts_settings "reference_audio_path" with
                 | PStr reference_audio =>
                     if is_empty reference_audio then profile
                     else dict_set profile "audio_prompt_path" (PStr reference_audio)
                 | _ => profile
                 end in
  let profile := match dict_get tts_settings "predefined_voice_id" with
                 | PStr predefined_voice =>
                     if is_empty predefined_voice then profile
                     else dict_set profile "predefined_voice_id" (PStr predefined_voice)
                 | _ => profile
                 end in
  Ok profile.

(** ** Legacy segments *)

Record legacy_event : Type := mkLegacyEvent {
  le_id : string;
  le_start_ms : Z;
  le_end_ms : Z;
  le_text : string;
  le_raw_id : pyval
}.

Fixpoint legacy_events_from (idx : Z) (seen_ids : list (string * Z)) (segments : list pyval)
  : list legacy_event :=
  match segments with
  | [] => []
  | PDict segment :: more =>
      let raw_id := dict_get_default segment "id" (PInt idx) in
      let base_id := "n" ++ py_str raw_id in
      let '(event_id, seen_ids) :=
        match Timeline.seen_get seen_ids base_id with
        | Some n => (base_id ++ "_" ++ str_of_Z (n + 1), Timeline.seen_set seen_ids base_id (n + 1))
        | None => (base_id, Timeline.seen_set seen_ids base_id 0)
        end in
      let start_ms := _coerce_int (dict_get segment "start_ms") 0 in
      let end_ms := _coerce_int (dict_get segment "end_ms") start_ms in
      let end_ms := if end_ms <? start_ms then start_ms else end_ms in
      let text := match dict_get segment "narration" with
                  | PDict narration =>
                      py_str (py_or (dict_get narration "selected_text") (PStr ""))
                  | _ => ""
                  end in
      {| le_id := event_id; le_start_ms := start_ms; le_end_ms := end_ms;
         le_text := text; le_raw_id := raw_id |}
      :: legacy_events_from (idx + 1) seen_ids more
  | _ :: more => legacy_events_from (idx + 1) seen_ids more
  end.

(** [key=lambda item: (item["start_ms"], item["end_ms"], item["id"])] *)
Definition legacy_leb (a b : legacy_event) : bool :=
  (le_start_ms a <? le_start_ms b) ||
  ((le_start_ms a =? le_start_ms b) &&
   ((le_end_ms a <? le_end_ms b) ||
    ((le_end_ms a =? le_end_ms b) && String.leb (le_id a) (le_id b)))).

Definition legacy_event_dict (e : legacy_event) : pyval :=
  PDict [ (KStr "id", PStr (le_id e));
          (KStr "start_ms", PInt (le_start_ms e));
          (KStr "end_ms", PInt (le_end_ms e));
          (KStr "text", PStr (le_text e));
          (KStr "voice_profile_id", PStr "default");
          (KStr "meta", PDict [ (KStr "source", PStr "legacy_segment");
                                (KStr "source_segment_id", le_raw_id e) ]) ].

Definition _segments_to_narration_events (segments : pyval) : list pyval :=
  match segments with
  | PList segments =>
      map legacy_event_dict (stable_sort legacy_leb (legacy_events_from 0 [] segments))
  | _ => []
  end.


(** ** The default-filling migration *)

(** [[f(item) for item in history if isinstance(item, dict)]] *)
Fixpoint normalize_history (normalize : pydict -> timed pydict) (history : list pyval)
  : timed (list pyval) :=
  match history with
  | [] => tret []
  | PDict item :: more =>
      r <~ normalize item ;;
      rest <~ normalize_history normalize more ;;
      tret (PDict r :: rest)
  | _ :: more => normalize_history normalize more
  end.

(** [records[-1]] of a non-empty list. *)
Definition last_record (records : list pyval) : pyval := last records PNone.

(** The [settings] block of [ensure_project_defaults]. *)
Definition ensure_settings (settings : pydict) (changed : bool) : pydict * bool :=
  let fill_dict (k : string) (default : pydict) (sc : pydict * bool) :=
    if is_dict (dict_get (fst sc) k) then sc
    else (dict_set (fst sc) k (PDict default), true) in
  let sc := (settings, changed) in
  let sc := fill_dict "segmentation" _default_segmentation_settings sc in
  let sc := fill_dict "models" _default_models_settings sc in
  let sc := fill_dict "narration" _default_narration_settings sc in
  let sc := fill_dict "tts" _default_tts_settings sc in
  let '(settings, changed) := sc in
  let '(settings, changed) :=
    if negb (dict_mem settings "demo_context") || negb (is_str (dict_get settings "demo_context"))
    then (dict_set settings "demo_context" (PStr ""), true)
    else (settings, changed) in
  let '(settings, changed) :=
    match dict_mem settings "holistic", dict_get settings "holistic" with
    | true, PDict holistic =>
        let '(holistic, changed) :=
          if dict_mem holistic "keyframe_density" then (holistic, changed)
          else (dict_set holistic "keyframe_density" (PFloat (FDec 1 0)), true) in
        let '(holistic, changed) :=
          if dict_mem holistic "match_confidence_threshold" then (holistic, changed)
          else (dict_set holistic "match_confidence_threshold" (PFloat (FDec 5 (-1))), true) in
        (dict_set settings "holistic" (PDict holistic), changed)
    | _, _ => (dict_set settings "holistic" (PDict _default_holistic_settings), true)
    end in
  let '(settings, changed) :=
    if dict_mem settings "narration_mode" then (settings, changed)
    else (dict_set settings "narration_mode" (PStr "tts_only"), true) in
  let mode := lower (strip (py_str (py_or (dict_get settings "demo_capture_execution_mode")
                                          (PStr "")))) in
  let '(settings, changed) :=
    if negb (Validator.mem mode ["playwright_optional"; "playwright_required"]) then
      (dict_set settings "demo_capture_execution_mode"
         (PStr _default_demo_capture_execution_mode), true)
    else if negb (py_eqb (dict_get settings "demo_capture_execution_mode") (PStr mode)) then
      (dict_set settings "demo_capture_execution_mode" (PStr mode), true)
    else (settings, changed) in
  if dict_mem settings "holistic_fallback_to_segment" then (settings, changed)
  else (dict_set settings "holistic_fallback_to_segment" (PBool true), true).

(** The [exports] block. *)
Definition ensure_exports (proj : pydict) (changed : bool) : pydict * bool :=
  let '(exports, changed) :=
    match dict_get proj "exports" with
    | PDict exports => (exports, changed)
    | _ => (_default_exports, true)
    end in
  let '(exports, changed) :=
    if is_dict (dict_get exports "artifacts") then (exports, changed)
    else (dict_set exports "artifacts" (PDict []), true) in
  let '(exports, changed) :=
    if is_dict (dict_get exports "ffmpeg") then (exports, changed)
    else (dict_set exports "ffmpeg" (PDict [ (KStr "commands", PList []) ]), true) in
  let ffmpeg := match dict_get exports "ffmpeg" with PDict f => f | _ => [] end in
  let '(exports, changed) :=
    if is_list (dict_get ffmpeg "commands") then (exports, changed)
    else (dict_set exports "ffmpeg" (PDict (dict_set ffmpeg "commands" (PList []))), true) in
  (dict_set proj "exports" (PDict exports), changed).

(** The [planning] block. *)
Definition ensure_planning (proj : pydict) (changed : bool) : pydict * bool :=
  let '(planning, changed) :=
    match dict_get proj "planning" with
    | PDict planning => (planning, changed)
    | _ => ([], true)
    end in
  let '(planning, changed) :=
    match dict_get planning "narration_global" with
    | PDict narration_global =>
        if dict_mem narration_global "status" then (planning, changed)
        else (dict_set planning "narration_global"
                (PDict (dict_set narration_global "status" (PStr "not_started"))), true)
    | _ => (dict_set planning "narration_global"
              (PDict [ (KStr "status", PStr "not_started") ]), true)
    end in
  (dict_set proj "planning" (PDict planning), changed).

(** The [timeline] block. *)
Definition ensure_timeline (proj : pydict) (changed : bool) : pydict * bool :=
  let legacy_narration_events := _segments_to_narration_events (dict_get proj "segments") in
  match dict_get proj "timeline" with
  | PDict timeline =>
      let '(timeline, changed) :=
        if negb (py_eqb (dict_get timeline "timeline_version") (PStr Timeline.TIMELINE_VERSION))
        then (dict_set timeline "timeline_version" (PStr Timeline.TIMELINE_VERSION), true)
        else (timeline, changed) in
      let '(timeline, changed) :=
        if is_list (dict_get timeline "narration_events") then (timeline, changed)
        else (dict_set timeline "narration_events" (PList []), true) in
      let '(timeline, changed) :=
        if is_list (dict_get timeline "action_events") then (timeline, changed)
        else (dict_set timeline "action_events" (PList []), true) in
      let '(timeline, changed) :=
        if negb (truthy (dict_get timeline "narration_events"))
           && truthy (PList legacy_narration_events)
        then (dict_set timeline "narration_events" (PList legacy_narration_events), true)
        else (timeline, changed) in
      (dict_set proj "timeline" (PDict timeline), changed)
  | _ =>
      (dict_set proj "timeline" (PDict (_default_timeline legacy_narration_events)), true)
  end.

(** The [tts_profiles] block; [tts] is [settings["tts"]]. *)
Definition ensure_tts_profiles (tts : pydict) (proj : pydict) (changed : bool)
  : outcome (pydict * bool) :=
  let '(tts_profiles, changed) :=
    match dict_get proj "tts_profiles" with
    | PDict tts_profiles => (tts_profiles, changed)
    | _ => ([], true)
    end in
  r <- (match dict_get tts_profiles "default" with
        | PDict default_profile =>
            let '(default_profile, changed) :=
              if truthy (dict_get default_profile "profile_id") then (default_profile, changed)
              else (dict_set default_profile "profile_id" (PStr "default"), true) in
            if is_dict (dict_get default_profile "params") then
              Ok (dict_set tts_profiles "default" (PDict default_profile), changed)
            else
              params <- dict_or_empty (dict_get tts "default_params") ;;
              Ok (dict_set tts_profiles "default"
                    (PDict (dict_set default_profile "params" (PDict params))), true)
        | _ =>
            profile <- _default_profile_from_tts_settings tts ;;
            Ok (dict_set tts_profiles "default" (PDict profile), true)
        end) ;;
  Ok (dict_set proj "tts_profiles" (PDict (fst r)), snd r).

(** The [renders] and [demo] blocks: [key] is ["renders"] or ["demo"],
    [last_key] the id of the latest record, [list_key] the history,
    [id_key] the id field of a record. *)
Definition ensure_history (normalize : pydict -> timed pydict)
    (key last_key list_key id_key : string) (default : pydict) (limit : Z)
    (proj : pydict) (changed : bool) : timed (pydict * bool) :=
  match dict_get proj key with
  | PDict state =>
      let '(state, changed) :=
        if dict_mem state last_key then (state, changed)
        else (dict_set state last_key PNone, true) in
      match dict_get state list_key with
      | PList history =>
          normalized_history <~ normalize_history normalize history ;;
          let trimmed_history := _trim_history normalized_history limit in
          let '(state, changed) :=
            if negb (py_eqb (PList history) (PList trimmed_history))
            then (dict_set state list_key (PList trimmed_history), true)
            else (state, changed) in
          let '(state, changed) :=
            match trimmed_history with
            | [] => (state, changed)
            | _ =>
                let latest_id :=
                  py_str (py_or (match last_record trimmed_history with
                                 | PDict r => dict_get r id_key
                                 | _ => PNone
                                 end) (PStr "")) in
                if negb (is_empty latest_id)
                   && negb (py_eqb (dict_get state last_key) (PStr latest_id))
                then (dict_set state last_key (PStr latest_id), true)
                else (state, changed)
            end in
          tret (dict_set proj key (PDict state), changed)
      | _ => tret (dict_set proj key (PDict (dict_set state list_key (PList []))), true)
      end
  | _ => tret (dict_set proj key (PDict default), true)
  end.

(** [ensure_project_defaults]: the migrated document, the [changed] flag
    and the text written to [demo_context.md]. *)
Definition ensure_project_defaults (clk : clock) (proj : pydict)
  : timed (pydict * bool * string) :=
  let changed := false in
  let current_schema_version := py_str (py_or (dict_get proj "schema_version") (PStr "")) in
  let '(proj, changed) :=
    if Validator.mem current_schema_version [""; "1.0.0"; "1.1.0"; "1.2.0"]
    then (dict_set proj "schema_version" (PStr SCHEMA_VERSION), true)
    else (proj, changed) in
  let '(proj, settings, changed) :=
    match dict_get proj "settings" with
    | PDict settings => (proj, settings, changed)
    | _ => (dict_set proj "settings" (PDict []), [], true)
    end in
  let '(settings, changed) := ensure_settings settings changed in
  let proj := dict_set proj "settings" (PDict settings) in
  let '(proj, changed) :=
    if negb (dict_mem proj "segments") || negb (is_list (dict_get proj "segments"))
    then (dict_set proj "segments" (PList []), true)
    else (proj, changed) in
  let '(proj, changed) := ensure_exports proj changed in
  let '(proj, changed) := ensure_planning proj changed in
  let '(proj, changed) :=
    if negb (dict_mem proj "holistic") || negb (is_dict (dict_get proj "holistic"))
    then (dict_set proj "holistic" (PDict [ (KStr "status", PStr "not_started") ]), true)
    else (proj, changed) in
  let '(proj, changed) := ensure_timeline proj changed in
  let tts := match dict_get settings "tts" with PDict tts => tts | _ => [] end in
  pc <~ tlift (ensure_tts_profiles tts proj changed) ;;
  pc <~ ensure_history (fun r => normalize_render_record clk r None)
          "renders" "last_render_id" "history" "render_id" _default_renders
          (_history_limit (PInt MAX_RENDER_HISTORY) MAX_RENDER_HISTORY) (fst pc) (snd pc) ;;
  pc <~ ensure_history (fun r => normalize_demo_run_record clk r None)
          "demo" "last_run_id" "runs" "run_id" _default_demo_state
          (_history_limit (PInt MAX_DEMO_RUN_HISTORY) MAX_DEMO_RUN_HISTORY) (fst pc) (snd pc) ;;
  let demo_context := match dict_get settings "demo_context" with
                      | PStr text => text
                      | _ => ""
                      end in
  tret (fst pc, snd pc, demo_context).

(** ** Bounded histories *)

(** [append_demo_run]: the updated project and the normalised record. *)
Definition append_demo_run (clk : clock) (proj : pydict) (run_record : pydict)
    (run_id : option string) (history_limit : Z) : timed (pydict * pydict) :=
  let demo_state := match dict_get proj "demo" with
                    | PDict demo_state => demo_state
                    | _ => _default_demo_state
                    end in
  let runs := match dict_get demo_state "runs" with
              | PList runs => runs
              | _ => []
              end in
  normalized <~ normalize_demo_run_record clk run_record run_id ;;
  let runs := (runs ++ [PDict normalized])%list in
  let runs := _trim_history runs (_history_limit (PInt history_limit) MAX_DEMO_RUN_HISTORY) in
  let demo_state := dict_set demo_state "runs" (PList runs) in
  let demo_state := dict_set demo_state "last_run_id"
                      (PStr (py_str (py_or (dict_get normalized "run_id")
                                           (dict_get demo_state "last_run_id")))) in
  tret (dict_set proj "demo" (PDict demo_state), normalized).

(** [append_render_history]: the updated project and the normalised record. *)
Definition append_render_history (clk : clock) (proj : pydict) (render_record : pydict)
    (render_id : option string) (history_limit : Z) : timed (pydict * pydict) :=
  let renders := match dict_get proj "renders" with
                 | PDict renders => renders
                 | _ => _default_renders
                 end in
  let history := match dict_get renders "history" with
                 | PList history => history
                 | _ => []
                 end in
  normalized <~ normalize_render_record clk render_record render_id ;;
  let history := (history ++ [PDict normalized])%list in
  let history := _trim_history history
                   (_history_limit (PInt history_limit) MAX_RENDER_HISTORY) in
  let renders := dict_set renders "history" (PList history) in
  let renders := dict_set renders "last_render_id"
                   (PStr (py_str (py_or (dict_get normalized "render_id")
                                        (dict_get renders "last_render_id")))) in
  tret (dict_set proj "renders" (PDict renders), normalized).

End Storage.

(* ===================================================================== *)
(** * [json.dumps(obj, ensure_ascii=False, ...)]                          *)
(* ===================================================================== *)

Module Json.

Fixpoint json_escape (s : string) : string :=
  match s with
  | EmptyString => EmptyString
  | String c r =>
      let n := nat_of_ascii c in
      let e :=
        if Ascii.eqb c double_quote then String "\"%char (String double_quote EmptyString)
        else if Ascii.eqb c "\"%char then "\\"
        else if (n =? 10)%nat then "\n"
        else if (n =? 13)%nat then "\r"
        else if (n =? 9)%nat then "\t"
        else if (n =? 8)%nat then "\b"
        else if (n =? 12)%nat then "\f"
        else if (n <? 32)%nat then
          "\u00" ++ String (hex_digit (n / 16)) (String (hex_digit (n mod 16)) EmptyString)
        else String c EmptyString in
      e ++ json_escape r
  end.

Definition json_string (s : string) : string :=
  String double_quote (json_escape s ++ String double_quote EmptyString).

Definition json_float (f : pyfloat) : string :=
  match f with
  | FNan => "NaN"
  | FInf s => if s then "-Infinity" else "Infinity"
  | _ => float_repr f
  end.

(** The text of a key. *)
Definition json_key (k : pykey) : string :=
  match k with
  | KStr s => s
  | KBool b => if b then "true" else "false"
  | KNone => "null"
  | KInt z => str_of_Z z
  | KFloat f => json_float f
  end.

Definition number_leb (a b : number) : bool :=
  match a, b with
  | NFin q1 k1, NFin q2 k2 =>
      let k := Z.min k1 k2 in q1 * 2 ^ (k1 - k) <=? q2 * 2 ^ (k2 - k)
  | NInf s1, NInf s2 => s1 || negb s2
  | NInf s, NFin _ _ => s
  | NFin _ _, NInf s => negb s
  | _, _ => true
  end.

(** [sort_keys=True] sorts the items by key, which needs keys that
    compare: all [str], or all numbers.  (The order Python gives to NaN
    keys is not modelled.) *)
Definition key_leb {A : Type} (a b : pykey * A) : bool :=
  match fst a, fst b with
  | KStr s, KStr t => String.leb s t
  | x, y =>
      match as_number (key_val x), as_number (key_val y) with
      | Some n, Some m => number_leb n m
      | _, _ => true
      end
  end.

Definition keys_comparable (keys : list pykey) : bool :=
  (List.length keys <=? 1)%nat
  || forallb (fun k => is_str (key_val k)) keys
  || forallb (fun k => match as_number (key_val k) with Some _ => true | None => false end) keys.

Section Dumps.
Variable sort_keys : bool.
Variable indent : option nat.
Variables item_separator key_separator : string.

(** The line break and indentation in front of an item at [level]. *)
Definition newline_indent (level : nat) : string :=
  match indent with
  | Some n => LF ++ repeat_string (n * level) " "
  | None => EmptyString
  end.

Definition bracket (opening closing : string) (level : nat) (items : list string) : string :=
  match items with
  | [] => opening ++ closing
  | _ => opening ++ newline_indent (S level)
           ++ join (item_separator ++ newline_indent (S level)) items
           ++ newline_indent level ++ closing
  end.

(** The text of a value; the items of a [dict] are sorted by key when
    [sort_keys] is set. *)
Fixpoint render_at (level : nat) (v : pyval) : string :=
  match v with
  | PNone => "null"
  | PBool b => if b then "true" else "false"
  | PInt z => str_of_Z z
  | PFloat f => json_float f
  | PStr s => json_string s
  | PList l => bracket "[" "]" level (map (render_at (S level)) l)
  | PDict d =>
      let rendered := map (fun kv => match kv with
                                     | (k, x) => (k, render_at (S level) x)
                                     end) d in
      let rendered := if sort_keys then stable_sort key_leb rendered else rendered in
      bracket "{" "}" level
        (map (fun kt => json_string (json_key (fst kt)) ++ key_separator ++ snd kt) rendered)
  end.

(** Sorting raises [TypeError] on a [dict] whose keys do not compare. *)
Fixpoint sortable (v : pyval) : bool :=
  match v with
  | PList l => forallb sortable l
  | PDict d =>
      keys_comparable (map fst d)
      && forallb (fun kv => match kv with (_, x) => sortable x end) d
  | _ => true
  end.

Definition dumps (v : pyval) : outcome string :=
  if sort_keys && negb (sortable v) then Raise TypeError else Ok (render_at 0 v).
End Dumps.

End Json.

(* ===================================================================== *)
(** * Paths and files                                                     *)
(* ===================================================================== *)

Module Fs.

(** A [pathlib] path on POSIX: the root ([""], ["/"] or ["//"]) and the
    parts; empty and ["."] segments are dropped when a string is parsed. *)
Record path : Type := mkPath {
  root : string;
  parts : list string
}.

Fixpoint segments_from (cur : string) (s : string) : list string :=
  match s with
  | EmptyString => [cur]
  | String c r =>
      if Ascii.eqb c "/"%char then cur :: segments_from EmptyString r
      else segments_from (cur ++ String c EmptyString) r
  end.

(** [Path(s)] *)
Definition Path (s : string) : path :=
  {| root := if prefix "///" s then "/"
             else if prefix "//" s then "//"
             else if prefix "/" s then "/" else "";
     parts := filter (fun p => negb (is_empty p) && negb (String.eqb p "."))
                     (segments_from EmptyString s) |}.

(** [str(p)] *)
Definition path_str (p : path) : string :=
  match root p, parts p with
  | EmptyString, [] => "."
  | r, ps => r ++ join "/" ps
  end.

(** [p / s] *)
Definition path_join (p : path) (s : string) : path :=
  let q := Path s in
  if is_empty (root q) then {| root := root p; parts := (parts p ++ parts q)%list |}
  else q.

Definition path_eqb (p q : path) : bool :=
  String.eqb (root p) (root q)
  && (fix eq (a b : list string) : bool :=
        match a, b with
        | [], [] => true
        | x :: a', y :: b' => String.eqb x y && eq a' b'
        | _, _ => false
        end) (parts p) (parts q).

(** What a path names: a regular file with its content, or something
    else (a directory, a device) with the size [stat] reports. *)
Inductive node : Type :=
| File (content : string)
| Other (st_size : Z).

Definition fs : Type := path -> option node.

(** [p.exists()] *)
Definition exists_ (f : fs) (p : path) : bool :=
  match f p with Some _ => true | None => false end.

(** [p.stat().st_size] of an existing path. *)
Definition st_size (f : fs) (p : path) : Z :=
  match f p with
  | Some (File content) => Z.of_nat (String.length content)
  | Some (Other n) => n
  | None => 0
  end.

(** [p.write_bytes(data)] / [p.write_text(data)]: the directory of [p] is
    taken to exist. *)
Definition write (f : fs) (p : path) (data : string) : fs :=
  fun q => if path_eqb q p then Some (File data) else f q.

(** [p.read_text()] *)
Definition read_text (f : fs) (p : path) : outcome string :=
  match f p with
  | Some (File content) => Ok content
  | _ => Raise FileNotFoundError
  end.

(** What [os.replace(src, dst)] leaves of a regular file [src]. *)
Definition replace (f : fs) (src dst : path) : fs :=
  fun q => if path_eqb q dst then f src
           else if path_eqb q src then None else f q.

(** [p.with_suffix(p.suffix + ext)]: [ext] added to the last part. *)
Definition add_suffix (p : path) (ext : string) : path :=
  {| root := root p;
     parts := match rev (parts p) with
              | [] => []
              | name :: before => rev ((name ++ ext) :: before)
              end |}.

End Fs.

(* ===================================================================== *)
(** * backend/app/demo_runner: dependencies.py, runner.py                 *)
(* ===================================================================== *)

Module Runner.

Definition DemoActionEvent : Type := Validator.DemoActionEvent.

(** ** dependencies.py *)

Definition PLAYWRIGHT_OPTIONAL_MODE : string := "playwright_optional".
Definition PLAYWRIGHT_REQUIRED_MODE : string := "playwright_required".
Definition DEMO_CAPTURE_EXECUTION_MODES : list string :=
  [PLAYWRIGHT_OPTIONAL_MODE; PLAYWRIGHT_REQUIRED_MODE].

(** [normalize_demo_capture_execution_mode] *)
Definition normalize_demo_capture_execution_mode (mode : option string) (default_mode : string)
  : string :=
  let candidate := lower (strip (match mode with Some m => m | None => "" end)) in
  if Validator.mem candidate DEMO_CAPTURE_EXECUTION_MODES then candidate
  else
    let normalized_default := lower (strip default_mode) in
    if Validator.mem normalized_default DEMO_CAPTURE_EXECUTION_MODES then normalized_default
    else PLAYWRIGHT_OPTIONAL_MODE.

(** [resolve_demo_capture_execution_mode] *)
Definition resolve_demo_capture_execution_mode (requested_mode : option string)
    (project_settings : option pydict) (default_mode : string) : string :=
  match requested_mode with
  | Some m => normalize_demo_capture_execution_mode (Some m) default_mode
  | None =>
      let from_project :=
        match project_settings with
        | Some settings =>
            match dict_get settings "demo_capture_execution_mode" with
            | PStr m => if is_empty (strip m) then None else Some m
            | _ => None
            end
        | None => None
        end in
      match from_project with
      | Some m => normalize_demo_capture_execution_mode (Some m) default_mode
      | None => normalize_demo_capture_execution_mode (Some default_mode) PLAYWRIGHT_OPTIONAL_MODE
      end
  end.

(** ** models.py *)

(** An entry of [attempt_logs]. *)
Record attempt_log : Type := mkAttemptLog {
  al_attempt : Z;
  al_status : string;
  al_elapsed_ms : Z;
  al_retryable : bool;
  al_error_type : string;
  al_error : string
}.

Record DemoActionExecution : Type := mkDemoActionExecution {
  action_id : string;
  source_index : Z;
  action : string;
  planned_at_ms : Z;
  actual_at_ms : Z;
  drift_ms : Z;
  timeout_ms : Z;
  max_retries : Z;
  attempts : Z;
  retry_count : Z;
  status : string;
  error : string;
  error_type : string;
  screenshot_path : string;
  attempt_logs : list attempt_log
}.

Record DemoRunResult : Type := mkDemoRunResult {
  ok : bool;
  r_project_id : string;
  mode : string;
  r_run_id : string;
  r_queue_job_id : option string;
  r_execution_mode : string;
  raw_demo_mp4 : option string;
  actions_total : Z;
  actions_executed : Z;
  logs_path : string;
  r_artifacts_dir : string;
  r_error : string;
  executions : list DemoActionExecution;
  stage_timings_ms : pydict;
  drift_stats : pydict;
  execution_summary : pydict;
  error_summary : pydict;
  artifact_summary : pydict;
  debug_artifacts : pydict;
  recording_profile : pydict;
  correlation : pydict;
  dependency_status : pydict
}.

Definition opt_str (o : option string) : pyval :=
  match o with Some x => PStr x | None => PNone end.

Definition attempt_log_dict (l : attempt_log) : pyval :=
  PDict [ (KStr "attempt", PInt (al_attempt l));
          (KStr "status", PStr (al_status l));
          (KStr "elapsed_ms", PInt (al_elapsed_ms l));
          (KStr "retryable", PBool (al_retryable l));
          (KStr "error_type", PStr (al_error_type l));
          (KStr "error", PStr (al_error l)) ].

(** [DemoActionExecution.to_dict] *)
Definition execution_to_dict (x : DemoActionExecution) : pydict :=
  [ (KStr "action_id", PStr (action_id x));
    (KStr "source_index", PInt (source_index x));
    (KStr "action", PStr (action x));
    (KStr "planned_at_ms", PInt (planned_at_ms x));
    (KStr "actual_at_ms", PInt (actual_at_ms x));
    (KStr "drift_ms", PInt (drift_ms x));
    (KStr "timeout_ms", PInt (timeout_ms x));
    (KStr "max_retries", PInt (max_retries x));
    (KStr "attempts", PInt (attempts x));
    (KStr "retry_count", PInt (retry_count x));
    (KStr "status", PStr (status x));
    (KStr "error", PStr (error x));
    (KStr "error_type", PStr (error_type x));
    (KStr "screenshot_path", PStr (screenshot_path x));
    (KStr "attempt_logs", PList (map attempt_log_dict (attempt_logs x))) ].

(** [DemoRunResult.to_dict] *)
Definition result_to_dict (r : DemoRunResult) : pydict :=
  [ (KStr "ok", PBool (ok r));
    (KStr "project_id", PStr (r_project_id r));
    (KStr "mode", PStr (mode r));
    (KStr "run_id", PStr (r_run_id r));
    (KStr "queue_job_id", opt_str (r_queue_job_id r));
    (KStr "execution_mode", PStr (r_execution_mode r));
    (KStr "raw_demo_mp4", opt_str (raw_demo_mp4 r));
    (KStr "actions_total", PInt (actions_total r));
    (KStr "actions_executed", PInt (actions_executed r));
    (KStr "logs_path", PStr (logs_path r));
    (KStr "artifacts_dir", PStr (r_artifacts_dir r));
    (KStr "error", PStr (r_error r));
    (KStr "executions", PList (map (fun x => PDict (execution_to_dict x)) (executions r)));
    (KStr "stage_timings_ms", PDict (stage_timings_ms r));
    (KStr "drift_stats", PDict (drift_stats r));
    (KStr "execution_summary", PDict (execution_summary r));
    (KStr "error_summary", PDict (error_summary r));
    (KStr "artifact_summary", PDict (artifact_summary r));
    (KStr "debug_artifacts", PDict (debug_artifacts r));
    (KStr "recording_profile", PDict (recording_profile r));
    (KStr "correlation", PDict (correlation r));
    (KStr "dependency_status", PDict (dependency_status r)) ].

(** ** runner.py: one action *)

(** A call on the browser page. *)
Inductive page_call : Type :=
| Goto (target : option string) (timeout : Z)
| Click (target : option string) (timeout : Z)
| Fill (target : option string) (value : string) (timeout : Z)
| Press (target : option string) (key : string) (timeout : Z)
| WaitForTimeout (ms : Z)
| Screenshot (path : string).

(** The browser page is outside the program: [page n call] is what the
    call does when [n] steps of the action were taken before it, [None]
    when it returns and [Some text] when it raises an exception [exc] with
    [str(exc) = text].  [elapsed n] is the time measured for step [n]. *)
Record page : Type := mkPage {
  call : nat -> page_call -> option string;
  elapsed : nat -> Z
}.

(** [str(exc)] for the exception [int(v)] raises. *)
Definition int_error_text (v : pyval) : string :=
  match v with
  | PStr s => "invalid literal for int() with base 10: " ++ str_repr s
  | PFloat FNan => "cannot convert float NaN to integer"
  | PFloat _ => "cannot convert float infinity to integer"
  | PList _ =>
      "int() argument must be a string, a bytes-like object or a real number, not 'list'"
  | PDict _ =>
      "int() argument must be a string, a bytes-like object or a real number, not 'dict'"
  | _ =>
      "int() argument must be a string, a bytes-like object or a real number, not 'NoneType'"
  end.

(** [_execute_action]: [None] when it returns, [Some text] when it raises. *)
Definition _execute_action (pg : page) (step : nat) (a : DemoActionEvent) (timeout_ms : Z)
  : option string :=
  let kind := Validator.action a in
  if String.eqb kind "goto" then call pg step (Goto (Validator.target a) timeout_ms)
  else if String.eqb kind "click" then call pg step (Click (Validator.target a) timeout_ms)
  else if String.eqb kind "fill" then
    call pg step (Fill (Validator.target a)
                    (py_str (dict_get_default (Validator.args a) "value" (PStr "")))
                    timeout_ms)
  else if String.eqb kind "press" then
    call pg step (Press (Validator.target a)
                    (py_str (dict_get_default (Validator.args a) "key" (PStr "")))
                    timeout_ms)
  else if String.eqb kind "wait" then
    let raw := py_or (dict_get (Validator.args a) "ms") (PInt 0) in
    match py_int raw with
    | Raise _ => Some (int_error_text raw)
    | Ok wait_ms =>
        if timeout_ms <? wait_ms then
          Some ("wait action duration " ++ str_of_Z wait_ms
                  ++ "ms exceeds timeout_ms=" ++ str_of_Z timeout_ms)
        else if 0 <? wait_ms then call pg step (WaitForTimeout wait_ms)
        else None
    end
  else None.

(** [_classify_error_type] *)
Definition _classify_error_type (error_text : string) : string :=
  let lowered := lower error_text in
  if contains "timeout" lowered then "timeout"
  else if contains "target closed" lowered || contains "context closed" lowered
          || contains "browser has been closed" lowered then "transient_browser"
  else if contains "net::" lowered || contains "connection reset" lowered
  then "transient_network"
  else "action_error".

(** [_is_retryable_error] *)
Definition _is_retryable_error (error_type : string) : bool :=
  Validator.mem error_type ["timeout"; "transient_browser"; "transient_network"].

(** The loop [for attempt in range(1, max_attempts + 1)] of
    [_execute_action_with_retry] from [attempt] on, with [remaining]
    iterations left; the last case is the return after the loop. *)
Fixpoint attempt_loop (pg : page) (a : DemoActionEvent) (actual_at_ms drift_ms : Z)
    (screenshot_dir : Fs.path) (max_retries max_attempts : Z)
    (remaining : nat) (attempt : Z) (step : nat)
    (attempt_logs : list attempt_log) (last_error last_error_type : string)
  : DemoActionExecution :=
  let execution attempts retry_count status error error_type screenshot_path logs :=
    {| action_id := Validator.id a;
       source_index := Validator.source_index a;
       action := Validator.action a;
       planned_at_ms := Validator.at_ms a;
       actual_at_ms := actual_at_ms;
       drift_ms := drift_ms;
       timeout_ms := Validator.timeout_ms a;
       max_retries := max_retries;
       attempts := attempts;
       retry_count := retry_count;
       status := status;
       error := error;
       error_type := error_type;
       screenshot_path := screenshot_path;
       attempt_logs := logs |} in
  match remaining with
  | O =>
      execution max_attempts max_retries "error"
        (if is_empty last_error then "unknown action execution failure" else last_error)
        (if is_empty last_error_type then "action_error" else last_error_type)
        EmptyString attempt_logs
  | S remaining' =>
      match _execute_action pg step a (Validator.timeout_ms a) with
      | None =>
          let log := {| al_attempt := attempt; al_status := "ok";
                        al_elapsed_ms := elapsed pg step; al_retryable := false;
                        al_error_type := EmptyString; al_error := EmptyString |} in
          execution attempt (attempt - 1) "ok" EmptyString EmptyString EmptyString
            (attempt_logs ++ [log])%list
      | Some error_text =>
          let error_type := _classify_error_type error_text in
          let retryable := _is_retryable_error error_type in
          let will_retry := retryable && (attempt <? max_attempts) in
          let log := {| al_attempt := attempt; al_status := "error";
                        al_elapsed_ms := elapsed pg step; al_retryable := retryable;
                        al_error_type := error_type; al_error := error_text |} in
          let attempt_logs := (attempt_logs ++ [log])%list in
          if will_retry then
            attempt_loop pg a actual_at_ms drift_ms screenshot_dir max_retries max_attempts
              remaining' (attempt + 1) (S step) attempt_logs error_text error_type
          else
            let screenshot_file :=
              Fs.path_str (Fs.path_join screenshot_dir (Validator.id a ++ ".png")) in
            let screenshot_path :=
              match call pg (S step) (Screenshot screenshot_file) with
              | None => screenshot_file
              | Some _ => EmptyString
              end in
            execution attempt (attempt - 1) "error" error_text error_type
              screenshot_path attempt_logs
      end
  end.

(** [_execute_action_with_retry] *)
Definition _execute_action_with_retry (pg : page) (a : DemoActionEvent)
    (actual_at_ms drift_ms : Z) (screenshot_dir : Fs.path) : DemoActionExecution :=
  let max_retries := Z.max 0 (Validator.retries a) in
  let max_attempts := 1 + max_retries in
  attempt_loop pg a actual_at_ms drift_ms screenshot_dir max_retries max_attempts
    (Z.to_nat max_attempts) 1 0%nat [] EmptyString EmptyString.

(** ** runner.py: the runner *)

Record DemoRunner : Type := mkDemoRunner {
  project_id : string;
  run_dir : Fs.path;
  logs_dir : Fs.path;
  artifacts_dir : Fs.path;
  execution_mode : string;
  run_id : string;
  queue_job_id : option string;
  _executions : list DemoActionExecution;
  _trace_path : string;
  _recording_source_path : string;
  _recording_ffmpeg_cmd : list string;
  _recording_profile : pydict
}.

Definition _standard_recording_profile : pydict :=
  [ (KStr "container", PStr "mp4");
    (KStr "video_codec", PStr "libx264");
    (KStr "pixel_format", PStr "yuv420p");
    (KStr "audio_codec", PStr "aac");
    (KStr "video_preset", PStr "veryfast");
    (KStr "fps", PInt 30);
    (KStr "movflags", PStr "+faststart");
    (KStr "width", PInt 1280);
    (KStr "height", PInt 720) ].

(** [DemoRunner.__init__]; the two [ensure_dir] calls make directories,
    which the model of the file system does not track. *)
Definition new_runner (clk : clock) (project_id : string) (run_dir : Fs.path)
    (execution_mode : string) (run_id : string) (queue_job_id : option string)
  : timed DemoRunner :=
  run_id <~ (if is_empty run_id then stamped_id clk "demo_" else tret run_id) ;;
  tret {| project_id := project_id;
          run_dir := run_dir;
          logs_dir := Fs.path_join run_dir "logs";
          artifacts_dir := Fs.path_join run_dir "artifacts";
          execution_mode := normalize_demo_capture_execution_mode (Some execution_mode)
                              PLAYWRIGHT_OPTIONAL_MODE;
          run_id := run_id;
          queue_job_id := match queue_job_id with
                          | Some q => if is_empty q then None else Some q
                          | None => None
                          end;
          _executions := [];
          _trace_path := EmptyString;
          _recording_source_path := EmptyString;
          _recording_ffmpeg_cmd := [];
          _recording_profile := _standard_recording_profile |}.

(** [_log_execution] *)
Definition _log_execution (self : DemoRunner) (x : DemoActionExecution) : DemoRunner :=
  {| project_id := project_id self; run_dir := run_dir self; logs_dir := logs_dir self;
     artifacts_dir := artifacts_dir self; execution_mode := execution_mode self;
     run_id := run_id self; queue_job_id := queue_job_id self;
     _executions := (_executions self ++ [x])%list;
     _trace_path := _trace_path self;
     _recording_source_path := _recording_source_path self;
     _recording_ffmpeg_cmd := _recording_ffmpeg_cmd self;
     _recording_profile := _recording_profile self |}.

Definition Z_leb_sort (l : list Z) : list Z := stable_sort Z.leb l.

Definition sum_Z (l : list Z) : Z := fold_left Z.add l 0.

(** [int(round(statistics.mean(drifts)))] for a non-empty list of [int]:
    the mean is exact when it is an integer, the nearest [float] otherwise. *)
Definition rounded_mean (drifts : list Z) : Z :=
  let total := sum_Z drifts in
  let n := Z.of_nat (List.length drifts) in
  if total mod n =? 0 then total / n else round_number (number_of_ratio total n).

(** [_drift_stats] *)
Definition _drift_stats (self : DemoRunner) : pydict :=
  let drifts := map drift_ms (_executions self) in
  match drifts with
  | [] =>
      [ (KStr "count", PInt 0); (KStr "mean_ms", PInt 0); (KStr "max_ms", PInt 0);
        (KStr "min_ms", PInt 0); (KStr "p95_ms", PInt 0) ]
  | d :: more =>
      let sorted_drifts := Z_leb_sort drifts in
      let p95_index := round_scaled (Z.of_nat (List.length sorted_drifts) - 1)
                         (float_number (FDec 95 (-2))) in
      [ (KStr "count", PInt (Z.of_nat (List.length drifts)));
        (KStr "mean_ms", PInt (rounded_mean drifts));
        (KStr "max_ms", PInt (fold_left Z.max more d));
        (KStr "min_ms", PInt (fold_left Z.min more d));
        (KStr "p95_ms", PInt (nth (Z.to_nat p95_index) sorted_drifts 0)) ]
  end.

Definition count_if {A : Type} (f : A -> bool) (l : list A) : Z :=
  Z.of_nat (List.length (filter f l)).

(** [_execution_summary] *)
Definition _execution_summary (self : DemoRunner) : pydict :=
  let total := Z.of_nat (List.length (_executions self)) in
  let ok_count := count_if (fun x => String.eqb (status x) "ok") (_executions self) in
  let error_count := total - ok_count in
  let retry_count := sum_Z (map retry_count (_executions self)) in
  let timeout_count :=
    count_if (fun x => String.eqb (error_type x) "timeout") (_executions self) in
  [ (KStr "total", PInt total);
    (KStr "ok", PInt ok_count);
    (KStr "error", PInt error_count);
    (KStr "retries", PInt retry_count);
    (KStr "timeouts", PInt timeout_count) ].

Fixpoint count_error_types (error_types : pydict) (failed : list DemoActionExecution)
  : pydict :=
  match failed with
  | [] => error_types
  | entry :: more =>
      let error_type := if is_empty (error_type entry) then "action_error"
                        else error_type entry in
      let count := match dict_get_default error_types error_type (PInt 0) with
                   | PInt n => n
                   | _ => 0
                   end in
      count_error_types (dict_set error_types error_type (PInt (count + 1))) more
  end.

(** [_error_summary] *)
Definition _error_summary (self : DemoRunner) (result_error dependency_error runtime_error : string)
  : pydict :=
  let failed_entries := filter (fun x => negb (String.eqb (status x) "ok")) (_executions self) in
  let failed_action_ids :=
    map (fun x => PStr (action_id x))
        (filter (fun x => negb (is_empty (action_id x))) failed_entries) in
  let error_types := count_error_types [] failed_entries in
  let has_error := negb (is_empty result_error)
                   || match failed_entries with [] => false | _ => true end in
  [ (KStr "has_error", PBool has_error);
    (KStr "message", PStr result_error);
    (KStr "failed_actions", PInt (Z.of_nat (List.length failed_entries)));
    (KStr "failed_action_ids", PList failed_action_ids);
    (KStr "error_types", PDict error_types);
    (KStr "dependency_diagnostic", PStr dependency_error);
    (KStr "runtime_diagnostic", PStr runtime_error) ].

(** [_collect_screenshot_paths] *)
Fixpoint collect_paths (seen : list string) (entries : list DemoActionExecution) : list string :=
  match entries with
  | [] => []
  | entry :: more =>
      let candidate := screenshot_path entry in
      if negb (is_empty candidate) && negb (Validator.mem candidate seen)
      then candidate :: collect_paths (candidate :: seen) more
      else collect_paths seen more
  end.

Definition _collect_screenshot_paths (self : DemoRunner) : list string :=
  collect_paths [] (_executions self).

(** [x or None] for a [str]. *)
Definition str_or_none (x : string) : pyval := if is_empty x then PNone else PStr x.

(** [_build_debug_artifacts] *)
Definition _build_debug_artifacts (self : DemoRunner) (fs : Fs.fs) (run_log_path : Fs.path)
  : pydict :=
  let screenshot_paths :=
    filter (fun p => Fs.exists_ fs (Fs.Path p)) (_collect_screenshot_paths self) in
  let trace_exists := negb (is_empty (_trace_path self))
                      && Fs.exists_ fs (Fs.Path (_trace_path self)) in
  let source_exists := negb (is_empty (_recording_source_path self))
                       && Fs.exists_ fs (Fs.Path (_recording_source_path self)) in
  [ (KStr "trace_path", str_or_none (_trace_path self));
    (KStr "trace_exists", PBool trace_exists);
    (KStr "screenshot_paths", PList (map PStr screenshot_paths));
    (KStr "screenshot_count", PInt (Z.of_nat (List.length screenshot_paths)));
    (KStr "recording_source_path", str_or_none (_recording_source_path self));
    (KStr "recording_source_exists", PBool source_exists);
    (KStr "run_log_path", PStr (Fs.path_str run_log_path)) ].

(** What a run takes from outside the program. *)
Record env : Type := mkEnv {
  (** what [probe_playwright_dependencies()] returns *)
  probe_playwright_dependencies : pydict;
  (** the milliseconds [perf_counter] measures for a stage *)
  stage_ms : string -> Z;
  (** the clock of [_planned_wait] for the action at a position of the
      list, planned at the given time: what remains of the time is slept,
      which raises [OverflowError] when it is more than [time.sleep]
      takes, and the milliseconds since the start are measured *)
  sleep_until : nat -> Z -> outcome Z;
  (** [_execute_with_playwright]: the browser session over the actions,
      with the recording and its transcoding; it gives
      [(used_playwright, runtime_error)], and leaves the runner (its
      executions, trace and recording paths) and the files changed *)
  _execute_with_playwright :
    DemoRunner -> Fs.fs -> list DemoActionEvent -> Fs.path -> bool * string * DemoRunner * Fs.fs;
  (** [ffprobe_json]: the [ffprobe] subprocess and [json.loads] of its
      output; [inl] is the text of the exception it raised *)
  ffprobe_json : Fs.fs -> Fs.path -> string + pyval;
  (** [int(round(max(float(v), 0.0) * 1000))], the float arithmetic on
      the duration [ffprobe] reports: it raises on a value [float] does
      not take, and on a duration that is infinite or not a number *)
  duration_ms_of : pyval -> outcome Z
}.

(** [planned_at_ms / 1000.0] raises [OverflowError] on an [int] too large
    for a [float]: from [2^1024 - 2^970] on, the first to round to
    [2^1024]. *)
Definition too_large_for_float (z : Z) : bool := 2 ^ 1024 - 2 ^ 970 <=? Z.abs z.

(** [_planned_wait] *)
Definition _planned_wait (e : env) (i : nat) (planned_at_ms : Z) : outcome Z :=
  if too_large_for_float planned_at_ms then Raise OverflowError
  else sleep_until e i planned_at_ms.

(** What [for stream in (probe.get("streams") or [])] runs over: the
    items of a list, the keys of a dict, the characters of a text. *)
Definition streams_of (probe : pydict) : outcome (list pyval) :=
  match py_or (dict_get probe "streams") (PList []) with
  | PList streams => Ok streams
  | PDict d => Ok (map (fun kv => key_val (fst kv)) d)
  | PStr s => Ok (map (fun c => PStr (String c EmptyString)) (list_ascii_of_string s))
  | _ => Raise TypeError
  end.

(** [next((stream for stream in streams if stream.get("codec_type") == kind), None)] *)
Fixpoint first_stream (kind : string) (streams : list pyval) : outcome (option pydict) :=
  match streams with
  | [] => Ok None
  | PDict stream :: more =>
      if py_eqb (dict_get stream "codec_type") (PStr kind) then Ok (Some stream)
      else first_stream kind more
  | _ :: _ => Raise AttributeError
  end.

(** [str(stream.get("codec_name")) if isinstance(stream, dict) and
    stream.get("codec_name") else None] *)
Definition codec_name (stream : option pydict) : pyval :=
  match stream with
  | Some fields =>
      if truthy (dict_get fields "codec_name") then PStr (py_str (dict_get fields "codec_name"))
      else PNone
  | None => PNone
  end.

(** [_probe_raw_demo_artifact] *)
Definition _probe_raw_demo_artifact (e : env) (self : DemoRunner) (fs : Fs.fs)
    (raw_demo_path : Fs.path) : outcome pydict :=
  let summary :=
    [ (KStr "raw_demo_path", PStr (Fs.path_str raw_demo_path));
      (KStr "raw_demo_exists", PBool (Fs.exists_ fs raw_demo_path));
      (KStr "raw_demo_size_bytes", PInt 0);
      (KStr "raw_demo_duration_ms", PInt 0);
      (KStr "raw_demo_playable", PBool false);
      (KStr "raw_demo_video_codec", PNone);
      (KStr "raw_demo_audio_codec", PNone);
      (KStr "raw_demo_probe_error", PStr EmptyString);
      (KStr "recording_source_path", str_or_none (_recording_source_path self));
      (KStr "recording_ffmpeg_cmd", PList (map PStr (_recording_ffmpeg_cmd self))) ] in
  if negb (Fs.exists_ fs raw_demo_path) then Ok summary
  else
    let size_bytes := Fs.st_size fs raw_demo_path in
    let summary := dict_set summary "raw_demo_size_bytes" (PInt size_bytes) in
    if size_bytes <=? 0 then Ok summary
    else
      match ffprobe_json e fs raw_demo_path with
      | inl exc => Ok (dict_set summary "raw_demo_probe_error" (PStr exc))
      | inr (PDict probe) =>
          duration <- attr_get (py_or (dict_get probe "format") (PDict [])) "duration" ;;
          duration_ms <- duration_ms_of e (py_or duration (PFloat (FDec 0 0))) ;;
          streams <- streams_of probe ;;
          video_stream <- first_stream "video" streams ;;
          streams <- streams_of probe ;;
          audio_stream <- first_stream "audio" streams ;;
          let summary := dict_set summary "raw_demo_duration_ms" (PInt duration_ms) in
          let summary := dict_set summary "raw_demo_video_codec" (codec_name video_stream) in
          let summary := dict_set summary "raw_demo_audio_codec" (codec_name audio_stream) in
          Ok (dict_set summary "raw_demo_playable"
                (PBool (match video_stream with
                        | Some fields => truthy (PDict fields)
                        | None => false
                        end && (0 <? duration_ms))))
      | inr _ => Raise AttributeError
      end.

(** The loop of [_execute_dry_run] from position [i]. *)
Fixpoint dry_run_loop (e : env) (self : DemoRunner) (i : nat) (actions : list DemoActionEvent)
  : outcome DemoRunner :=
  match actions with
  | [] => Ok self
  | a :: more =>
      actual_at_ms <- _planned_wait e i (Validator.at_ms a) ;;
      let drift_ms := actual_at_ms - Validator.at_ms a in
      dry_run_loop e
        (_log_execution self
           {| action_id := Validator.id a;
              source_index := Validator.source_index a;
              action := Validator.action a;
              planned_at_ms := Validator.at_ms a;
              actual_at_ms := actual_at_ms;
              drift_ms := drift_ms;
              timeout_ms := Validator.timeout_ms a;
              max_retries := Validator.retries a;
              attempts := 1;
              retry_count := 0;
              status := "ok";
              error := EmptyString;
              error_type := EmptyString;
              screenshot_path := EmptyString;
              attempt_logs := [ {| al_attempt := 1; al_status := "ok"; al_elapsed_ms := 0;
                                   al_retryable := false; al_error_type := EmptyString;
                                   al_error := EmptyString |} ] |})
        (S i) more
  end.

(** [_execute_dry_run] *)
Definition _execute_dry_run (e : env) (self : DemoRunner) (fs : Fs.fs)
    (actions : list DemoActionEvent) (raw_demo_path : Fs.path) : outcome (DemoRunner * Fs.fs) :=
  self <- dry_run_loop e self 0 actions ;;
  Ok (self, Fs.write fs raw_demo_path EmptyString).

(** The result [execute] builds, written to [logs/run.json] before it is
    returned. *)
Definition finish (self : DemoRunner) (fs : Fs.fs) (run_log_path : Fs.path)
    (result : DemoRunResult) : outcome (DemoRunResult * DemoRunner * Fs.fs) :=
  text <- Json.dumps false (Some 2%nat) "," ": " (PDict (result_to_dict result)) ;;
  Ok (result, self, Fs.write fs run_log_path text).

(** [DemoRunner.execute] *)
Definition execute (e : env) (self : DemoRunner) (fs : Fs.fs) (actions : list DemoActionEvent)
  : outcome (DemoRunResult * DemoRunner * Fs.fs) :=
  let run_log_path := Fs.path_join (logs_dir self) "run.json" in
  let raw_demo_path := Fs.path_join (artifacts_dir self) "raw_demo.mp4" in
  let dependency_status := probe_playwright_dependencies e in
  let stage_timings_ms :=
    dict_set [] "dependency_probe_ms" (PInt (stage_ms e "dependency_probe_ms")) in
  let dependency_error := py_str (py_or (dict_get dependency_status "error") (PStr EmptyString)) in
  let session :=
    if truthy (dict_get dependency_status "ok")
    then Some (_execute_with_playwright e self fs actions raw_demo_path)
    else None in
  let used_playwright := match session with Some (u, _, _, _) => u | None => false end in
  let runtime_error := match session with Some (_, r, _, _) => r | None => EmptyString end in
  let self := match session with Some (_, _, s, _) => s | None => self end in
  let fs := match session with Some (_, _, _, f) => f | None => fs end in
  let stage_timings_ms :=
    match session with
    | Some _ => dict_set stage_timings_ms "capture_ms" (PInt (stage_ms e "capture_ms"))
    | None => stage_timings_ms
    end in
  let failed_session := negb (is_empty runtime_error) in
  let dependency_error := if failed_session then runtime_error else dependency_error in
  let dependency_status :=
    if failed_session then
      [ (KStr "ok", PBool false);
        (KStr "python_package_ok", PBool (truthy (dict_get dependency_status "python_package_ok")));
        (KStr "browser_ok", PBool false);
        (KStr "error", PStr ("Playwright runtime failure: " ++ runtime_error)) ]
    else dependency_status in
  if negb used_playwright && String.eqb (execution_mode self) PLAYWRIGHT_REQUIRED_MODE then
    let error :=
      "Playwright execution mode is set to 'playwright_required' but dependencies are unavailable. "
      ++ "Either install Playwright+Chromium or switch to 'playwright_optional'. "
      ++ "Diagnostic: "
      ++ (if is_empty dependency_error then "missing dependency probe details"
          else dependency_error) in
    let stage_timings_ms := dict_set stage_timings_ms "total_ms" (PInt (stage_ms e "total_ms")) in
    let error_summary := _error_summary self error dependency_error runtime_error in
    artifact_summary <- _probe_raw_demo_artifact e self fs raw_demo_path ;;
    finish self fs run_log_path
      {| ok := false;
         r_project_id := project_id self;
         mode := "demo_capture_failed";
         r_run_id := run_id self;
         r_queue_job_id := queue_job_id self;
         r_execution_mode := execution_mode self;
         raw_demo_mp4 := None;
         actions_total := Z.of_nat (List.length actions);
         actions_executed := 0;
         logs_path := Fs.path_str run_log_path;
         r_artifacts_dir := Fs.path_str (artifacts_dir self);
         r_error := error;
         executions := _executions self;
         stage_timings_ms := stage_timings_ms;
         drift_stats := _drift_stats self;
         execution_summary := _execution_summary self;
         error_summary := error_summary;
         artifact_summary := artifact_summary;
         debug_artifacts := _build_debug_artifacts self fs run_log_path;
         recording_profile := if used_playwright then _recording_profile self else [];
         correlation := [ (KStr "queue_job_id", opt_str (queue_job_id self)) ];
         dependency_status := dependency_status |}
  else
    ran <- (if negb used_playwright then
              dry <- _execute_dry_run e self fs actions raw_demo_path ;;
              Ok (fst dry, snd dry,
                  dict_set stage_timings_ms "dry_run_ms" (PInt (stage_ms e "dry_run_ms")))
            else Ok (self, fs, stage_timings_ms)) ;;
    let '(self, fs, stage_timings_ms) := ran in
    let execution_summary := _execution_summary self in
    artifact_summary <- _probe_raw_demo_artifact e self fs raw_demo_path ;;
    let debug_artifacts := _build_debug_artifacts self fs run_log_path in
    let errors := match dict_get execution_summary "error" with PInt n => n | _ => 0 end in
    let runtime_reasons :=
      if negb (is_empty runtime_error)
      then ["Playwright runtime failure: " ++ runtime_error] else [] in
    let action_reasons :=
      if 0 <? errors then [str_of_Z errors ++ " action(s) failed during capture"] else [] in
    let quality_reasons :=
      if (errors =? 0) && negb (truthy (dict_get artifact_summary "raw_demo_playable")) then
        let probe_error :=
          strip (py_str (py_or (dict_get artifact_summary "raw_demo_probe_error")
                               (PStr EmptyString))) in
        [ if is_empty probe_error
          then "Playwright capture did not produce a non-empty playable raw_demo.mp4"
          else "Playwright capture did not produce a playable raw_demo.mp4 ("
                 ++ probe_error ++ ")" ]
      else [] in
    let failure_reasons : list string :=
      if used_playwright then (runtime_reasons ++ action_reasons ++ quality_reasons)%list
      else [] in
    let result_ok := match failure_reasons with [] => true | _ => false end in
    let result_error := join "; " failure_reasons in
    let stage_timings_ms := dict_set stage_timings_ms "total_ms" (PInt (stage_ms e "total_ms")) in
    let error_summary := _error_summary self result_error dependency_error runtime_error in
    finish self fs run_log_path
      {| ok := result_ok;
         r_project_id := project_id self;
         mode := if used_playwright && result_ok then "demo_capture_playwright"
                 else if used_playwright then "demo_capture_failed"
                 else "demo_capture_dry_run";
         r_run_id := run_id self;
         r_queue_job_id := queue_job_id self;
         r_execution_mode := execution_mode self;
         raw_demo_mp4 := Some (Fs.path_str raw_demo_path);
         actions_total := Z.of_nat (List.length actions);
         actions_executed := Z.of_nat (List.length (_executions self));
         logs_path := Fs.path_str run_log_path;
         r_artifacts_dir := Fs.path_str (artifacts_dir self);
         r_error := result_error;
         executions := _executions self;
         stage_timings_ms := stage_timings_ms;
         drift_stats := _drift_stats self;
         execution_summary := execution_summary;
         error_summary := error_summary;
         artifact_summary := artifact_summary;
         debug_artifacts := debug_artifacts;
         recording_profile := if used_playwright then _recording_profile self else [];
         correlation := [ (KStr "queue_job_id", opt_str (queue_job_id self)) ];
         dependency_status := dependency_status |}.

End Runner.

(* ===================================================================== *)
(** * backend/app/tts/cache.py                                            *)
(* ===================================================================== *)

Module TtsCache.

(** ** [hashlib.sha256] (FIPS 180-4), on 32-bit words held in [Z] *)

Definition w32 (x : Z) : Z := x mod 2 ^ 32.
Definition rotr (n x : Z) : Z := w32 (Z.lor (Z.shiftr x n) (Z.shiftl x (32 - n))).
Definition small_sigma0 (x : Z) : Z := Z.lxor (Z.lxor (rotr 7 x) (rotr 18 x)) (Z.shiftr x 3).
Definition small_sigma1 (x : Z) : Z := Z.lxor (Z.lxor (rotr 17 x) (rotr 19 x)) (Z.shiftr x 10).
Definition big_sigma0 (x : Z) : Z := Z.lxor (Z.lxor (rotr 2 x) (rotr 13 x)) (rotr 22 x).
Definition big_sigma1 (x : Z) : Z := Z.lxor (Z.lxor (rotr 6 x) (rotr 11 x)) (rotr 25 x).
Definition ch (x y z : Z) : Z := Z.lxor (Z.land x y) (Z.land (Z.lxor x (2 ^ 32 - 1)) z).
Definition maj (x y z : Z) : Z := Z.lxor (Z.lxor (Z.land x y) (Z.land x z)) (Z.land y z).

Definition is_prime (n : Z) : bool :=
  (2 <=? n) && forallb (fun d => negb (n mod Z.of_nat d =? 0)) (seq 2 (Z.to_nat (Z.sqrt n) - 1)).

(** The first 64 primes: 2, ..., 311. *)
Definition primes : list Z := filter is_prime (map Z.of_nat (seq 2 310)).

(** The integer cube root, found bit by bit below [2 ^ bits]. *)
Fixpoint cube_root (bits : nat) (r n : Z) : Z :=
  match bits with
  | O => r
  | S k =>
      let c := r + 2 ^ Z.of_nat k in
      if c * c * c <=? n then cube_root k c n else cube_root k r n
  end.

(** The first 32 bits of the fractional part of the cube root of each
    prime. *)
Definition round_constants : list Z :=
  map (fun p => w32 (cube_root 40 0 (p * 2 ^ 96))) primes.

(** The first 32 bits of the fractional part of the square root of each
    of the first 8 primes. *)
Definition initial_hash : list Z :=
  map (fun p => w32 (Z.sqrt (p * 2 ^ 64))) (firstn 8 primes).

Fixpoint be_bytes (n : nat) (x : Z) : list Z :=
  match n with
  | O => []
  | S k => (be_bytes k (x / 256) ++ [x mod 256])%list
  end.

(** The message, the bit [1], zeros up to 56 mod 64, the bit length. *)
Definition pad (msg : list Z) : list Z :=
  let len := Z.of_nat (List.length msg) in
  let zeros := Z.to_nat ((55 - len) mod 64) in
  (msg ++ [128] ++ repeat 0 zeros ++ be_bytes 8 (8 * len))%list.

Fixpoint words_of (n : nat) (bytes : list Z) : list Z :=
  match n, bytes with
  | S k, a :: b :: c :: d :: r => (((a * 256 + b) * 256 + c) * 256 + d) :: words_of k r
  | _, _ => []
  end.

Fixpoint schedule (n : nat) (w : list Z) : list Z :=
  match n with
  | O => w
  | S k =>
      let len := List.length w in
      let at_back i := nth (len - i) w 0 in
      schedule k (w ++ [w32 (small_sigma1 (at_back 2%nat) + at_back 7%nat
                             + small_sigma0 (at_back 15%nat) + at_back 16%nat)])%list
  end.

Definition round (st : list Z) (kw : Z * Z) : list Z :=
  match st with
  | [a; b; c; d; e; f; g; h] =>
      let t1 := h + big_sigma1 e + ch e f g + fst kw + snd kw in
      let t2 := big_sigma0 a + maj a b c in
      [w32 (t1 + t2); a; b; c; w32 (d + t1); e; f; g]
  | _ => st
  end.

Definition compress (hash : list Z) (block : list Z) : list Z :=
  let w := schedule 48 (words_of 16 block) in
  let st := fold_left round (combine round_constants w) hash in
  map (fun p => w32 (fst p + snd p)) (combine hash st).

Fixpoint blocks (n : nat) (bytes : list Z) : list (list Z) :=
  match n with
  | O => []
  | S k => firstn 64 bytes :: blocks k (skipn 64 bytes)
  end.

Definition sha256 (msg : list Z) : list Z :=
  let padded := pad msg in
  fold_left compress (blocks (List.length padded / 64) padded) initial_hash.

Definition hex_of_word (x : Z) : string :=
  string_of_list_ascii
    (map (fun b => hex_digit (Z.to_nat b))
       (flat_map (fun b => [b / 16; b mod 16]) (be_bytes 4 x))).

(** [s.encode("utf-8")] on ASCII text. *)
Definition bytes_of_string (s : string) : list Z :=
  map (fun c => Z.of_nat (nat_of_ascii c)) (list_ascii_of_string s).

(** [hashlib.sha256(data).hexdigest()] *)
Definition sha256_hexdigest (data : string) : string :=
  String.concat "" (map hex_of_word (sha256 (bytes_of_string data))).

(** ** The cache key *)

(** [prompt_sha]: [_sha256_path(p)] when [audio_prompt_path] is given and
    [p = Path(audio_prompt_path)] has [p.exists() and p.is_file()]. *)
Definition prompt_sha (fs : Fs.fs) (audio_prompt_path : option string) : pyval :=
  match audio_prompt_path with
  | Some path =>
      if is_empty path then PNone
      else match fs (Fs.Path path) with
           | Some (Fs.File content) => PStr (sha256_hexdigest content)
           | _ => PNone
           end
  | None => PNone
  end.

(** [" ".join((text or "").split())] *)
Definition collapse_whitespace (text : string) : string := join " " (split text).

(** [build_tts_cache_key] *)
Definition build_tts_cache_key (fs : Fs.fs) (text : string) (params : pydict)
    (endpoint mode : string) (audio_prompt_path model_signature : option string)
  : outcome string :=
  let payload :=
    [ (KStr "text", PStr (collapse_whitespace text));
      (KStr "params", PDict params);
      (KStr "endpoint", PStr endpoint);
      (KStr "mode", PStr mode);
      (KStr "audio_prompt_sha256", prompt_sha fs audio_prompt_path);
      (KStr "model_signature",
       PStr (match model_signature with Some m => m | None => "" end)) ] in
  raw <- Json.dumps true None "," ":" (PDict payload) ;;
  Ok (sha256_hexdigest raw).

End TtsCache.

(* ===================================================================== *)
(** * backend/app/pipeline/unified.py                                     *)
(* ===================================================================== *)

Module Unified.

(** storage.py: where a project lives. *)
Definition project_dir (data_dir project_id : string) : Fs.path :=
  Fs.path_join (Fs.path_join (Fs.Path data_dir) "projects") project_id.

Definition project_json_path (data_dir project_id : string) : Fs.path :=
  Fs.path_join (project_dir data_dir project_id) "project.json".

Definition project_log_path (data_dir project_id : string) : Fs.path :=
  Fs.path_join (Fs.path_join (project_dir data_dir project_id) "logs") "job.log".

Definition demo_context_md_path (data_dir project_id : string) : Fs.path :=
  Fs.path_join (project_dir data_dir project_id) "demo_context.md".

(** [append_log]: the line is added to [logs/job.log]. *)
Definition append_log (fs : Fs.fs) (data_dir project_id line : string) : Fs.fs :=
  let log_path := project_log_path data_dir project_id in
  let before := match fs log_path with Some (Fs.File content) => content | _ => EmptyString end in
  Fs.write fs log_path (before ++ rstrip line ++ LF).

(** [atomic_write_json]: the text goes to a [.tmp] sibling, which then
    replaces the file. *)
Definition atomic_write_json (fs : Fs.fs) (path : Fs.path) (obj : pyval) : outcome Fs.fs :=
  let tmp := Fs.add_suffix path ".tmp" in
  text <- Json.dumps false (Some 2%nat) "," ": " obj ;;
  Ok (Fs.replace (Fs.write fs tmp text) tmp path).

(** What a run of the pipeline gets from the worker: the configuration and
    the queue job it runs in ([id] and [origin]). *)
Record worker : Type := mkWorker {
  rq_queue : string;
  demo_capture_execution_mode : string;
  current_job : option (string * string)
}.

(** The call of the render pipeline. *)
Record render_call : Type := mkRenderCall {
  rc_project_id : string;
  source_video_path : string;
  render_mode : string;
  render_context : pydict
}.

(** [for item in reversed(runs_after)]: the correlation of the last run
    with the id is extended. *)
Fixpoint correlate_from_back (demo_run_id : string) (render_result : pydict)
    (reversed_runs : list pyval) : list pyval :=
  match reversed_runs with
  | [] => []
  | PDict item :: more =>
      if negb (String.eqb (py_str (py_or (dict_get item "run_id") (PStr EmptyString)))
                          demo_run_id)
      then PDict item :: correlate_from_back demo_run_id render_result more
      else
        let item_corr := match dict_get item "correlation" with
                         | PDict c => c
                         | _ => []
                         end in
        let item_corr := dict_set item_corr "render_id" (dict_get render_result "render_id") in
        let item_corr := dict_set item_corr "render_mode" (dict_get render_result "mode") in
        let item_corr := dict_set item_corr "source_video_path"
                           (dict_get render_result "source_video_path") in
        PDict (dict_set item "correlation" (PDict item_corr)) :: more
  | other :: more => other :: correlate_from_back demo_run_id render_result more
  end.

Section Pipeline.
Variable clk : clock.
Variable w : worker.
(** [json.loads] *)
Variable json_loads : string -> outcome pyval.
(** [Path.resolve] *)
Variable resolve : Fs.path -> Fs.path.
(** The two pipelines this one composes: [run_demo_capture] with its
    arguments, and [run_tts_only_pipeline] with its call; each returns its
    result and leaves the files changed. *)
Variable run_demo_capture :
  string -> pydict -> Fs.path -> string -> string -> option string -> Fs.fs
  -> timed (pydict * Fs.fs).
Variable run_tts_only_pipeline : render_call -> Fs.fs -> outcome (pydict * Fs.fs).

(** [_queue_name] *)
Definition _queue_name : string :=
  let configured := strip (rq_queue w) in
  if is_empty configured then "default" else configured.

(** [load_project]: the document is read, migrated, and its context
    mirrored to [demo_context.md]. *)
Definition load_project (fs : Fs.fs) (data_dir project_id : string)
  : timed (pydict * Fs.fs) :=
  text <~ tlift (Fs.read_text fs (project_json_path data_dir project_id)) ;;
  doc <~ tlift (json_loads text) ;;
  match doc with
  | PDict proj =>
      migrated <~ Storage.ensure_project_defaults clk proj ;;
      let '(proj, _, demo_context) := migrated in
      tret (proj, Fs.write fs (demo_context_md_path data_dir project_id) demo_context)
  | _ => tlift (Raise AttributeError)
  end.

(** [save_project] *)
Definition save_project (fs : Fs.fs) (data_dir project_id : string) (proj : pydict)
  : timed (pydict * Fs.fs) :=
  now <~ utc_now_iso clk ;;
  let proj := dict_set proj "updated_at" (PStr now) in
  fs <~ tlift (atomic_write_json fs (project_json_path data_dir project_id) (PDict proj)) ;;
  tret (proj, fs).

(** [append_log(..., f"[{utc_now_iso()}] {text}")] *)
Definition log_now (fs : Fs.fs) (data_dir project_id text : string) : timed Fs.fs :=
  now <~ utc_now_iso clk ;;
  tret (append_log fs data_dir project_id ("[" ++ now ++ "] " ++ text)).

(** Lines 71 to 83: the source video of the render. *)
Definition select_source_video (fs : Fs.fs) (pdir : Fs.path) (demo_result : pydict) : string :=
  let source_video_path := Fs.path_str (resolve (Fs.path_join pdir "input.mp4")) in
  let raw_demo_mp4 := dict_get demo_result "raw_demo_mp4" in
  let raw_demo_playable : option bool :=
    match dict_get demo_result "artifact_summary" with
    | PDict artifact_summary =>
        if dict_mem artifact_summary "raw_demo_playable"
        then Some (truthy (dict_get artifact_summary "raw_demo_playable"))
        else None
    | _ => None
    end in
  match raw_demo_mp4 with
  | PStr raw =>
      let candidate := Fs.Path raw in
      let candidate_ok := Fs.exists_ fs candidate && (0 <? Fs.st_size fs candidate) in
      match raw_demo_playable with
      | Some true => if candidate_ok then Fs.path_str candidate else source_video_path
      | None => if candidate_ok then Fs.path_str candidate else source_video_path
      | Some false => source_video_path
      end
  | _ => source_video_path
  end.

(** [run_unified_pipeline] up to the call of the render: the call, the
    project, the demo record, the two ids and the files. *)
Definition before_render (fs : Fs.fs) (project_id data_dir : string)
  : timed (render_call * pydict * pydict * string * string * Fs.fs) :=
  loaded <~ load_project fs data_dir project_id ;;
  let '(proj, fs) := loaded in
  match dict_get proj "timeline" with
  | PDict timeline =>
      let pdir := project_dir data_dir project_id in
      unified_run_id <~ stamped_id clk "unified_" ;;
      demo_run_id <~ stamped_id clk "demo_" ;;
      let run_dir := Fs.path_join (Fs.path_join (Fs.path_join pdir "work") "demo_runs")
                                  demo_run_id in
      let queue_job_id :=
        match current_job w with
        | Some (job_id, _) => if is_empty job_id then None else Some job_id
        | None => None
        end in
      let execution_mode :=
        Runner.resolve_demo_capture_execution_mode None
          (match dict_get proj "settings" with PDict st => Some st | _ => None end)
          (demo_capture_execution_mode w) in
      fs <~ log_now fs data_dir project_id "unified pipeline: demo capture start" ;;
      captured <~ run_demo_capture project_id timeline run_dir execution_mode
                    demo_run_id queue_job_id fs ;;
      let '(demo_result, fs) := captured in
      let demo_result := dict_set demo_result "run_id" (PStr demo_run_id) in
      let demo_result := dict_set demo_result "queue_job_id" (Runner.opt_str queue_job_id) in
      let demo_result := dict_set demo_result "history_limit"
                           (PInt Storage.MAX_DEMO_RUN_HISTORY) in
      let correlation := match dict_get demo_result "correlation" with
                         | PDict c => c
                         | _ => []
                         end in
      let correlation := dict_set correlation "queue_job_id" (Runner.opt_str queue_job_id) in
      let correlation :=
        dict_set correlation "queue_name"
          (PStr (match current_job w with
                 | Some (_, origin) => if is_empty origin then _queue_name else origin
                 | None => _queue_name
                 end)) in
      let correlation := dict_set correlation "trigger" (PStr "unified_pipeline") in
      let correlation := dict_set correlation "unified_run_id" (PStr unified_run_id) in
      let demo_result := dict_set demo_result "correlation" (PDict correlation) in
      if negb (truthy (dict_get demo_result "ok")) then
        let error := py_str (py_or (dict_get demo_result "error") (PStr "demo capture failed")) in
        _ <~ log_now fs data_dir project_id
               ("unified pipeline: demo capture failed (" ++ error ++ ")") ;;
        tlift (Raise (RuntimeError error))
      else
        fs <~ log_now fs data_dir project_id "unified pipeline: demo capture done" ;;
        appended <~ Storage.append_demo_run clk proj demo_result (Some demo_run_id)
                      Storage.MAX_DEMO_RUN_HISTORY ;;
        let '(proj, demo_result) := appended in
        let source_video_path := select_source_video fs pdir demo_result in
        saved <~ save_project fs data_dir project_id proj ;;
        let '(proj, fs) := saved in
        fs <~ log_now fs data_dir project_id "unified pipeline: narration render start" ;;
        tret ({| rc_project_id := project_id;
                 source_video_path := source_video_path;
                 render_mode := "unified";
                 render_context :=
                   [ (KStr "unified_run_id", PStr unified_run_id);
                     (KStr "demo_run_id", PStr demo_run_id);
                     (KStr "demo_artifacts_dir", dict_get demo_result "artifacts_dir");
                     (KStr "demo_raw_demo_mp4", dict_get demo_result "raw_demo_mp4");
                     (KStr "demo_execution_mode", dict_get demo_result "execution_mode");
                     (KStr "demo_mode", dict_get demo_result "mode") ] |},
              proj, demo_result, unified_run_id, demo_run_id, fs)
  | _ => tlift (Raise (RuntimeError "Timeline missing from project"))
  end.

(** [run_unified_pipeline] after the render returned. *)
Definition after_render (fs : Fs.fs) (project_id data_dir : string)
    (demo_result render_result : pydict) (unified_run_id demo_run_id : string)
  : timed (pydict * Fs.fs) :=
  loaded <~ load_project fs data_dir project_id ;;
  let '(proj_after_render, fs) := loaded in
  fs <~ (match dict_get proj_after_render "demo" with
         | PDict demo_state_after =>
             match dict_get demo_state_after "runs" with
             | PList runs_after =>
                 let runs := rev (correlate_from_back demo_run_id render_result
                                    (rev runs_after)) in
                 let proj := dict_set proj_after_render "demo"
                               (PDict (dict_set demo_state_after "runs" (PList runs))) in
                 saved <~ save_project fs data_dir project_id proj ;;
                 tret (snd saved)
             | _ => tret fs
             end
         | _ => tret fs
         end) ;;
  fs <~ log_now fs data_dir project_id "unified pipeline complete" ;;
  tret ([ (KStr "ok", PBool true);
          (KStr "project_id", PStr project_id);
          (KStr "mode", PStr "unified");
          (KStr "unified_run_id", PStr unified_run_id);
          (KStr "demo_run_id", PStr demo_run_id);
          (KStr "render_id", dict_get render_result "render_id");
          (KStr "demo", PDict demo_result);
          (KStr "render", PDict render_result);
          (KStr "final_mp4", dict_get render_result "final_mp4") ], fs).

(** [run_unified_pipeline] *)
Definition run_unified_pipeline (fs : Fs.fs) (project_id data_dir : string)
  : timed (pydict * Fs.fs) :=
  prepared <~ before_render fs project_id data_dir ;;
  let '(rcall, _, demo_result, unified_run_id, demo_run_id, fs) := prepared in
  rendered <~ tlift (run_tts_only_pipeline rcall fs) ;;
  let '(render_result, fs) := rendered in
  after_render fs project_id data_dir demo_result render_result unified_run_id demo_run_id.
End Pipeline.

End Unified.

(* ===================================================================== *)
(** * Statements                                                          *)
(* ===================================================================== *)

(** The predicates the properties are stated with, and the inputs of the
    scenarios they are checked on. *)

Definition scenario_content : string := "[00:02] second" ++ LF ++ "[00:00] first".

Definition scenario_event (id : string) (start_ms end_ms : Z) (text : string) (line : Z)
  : Timeline.NarrationEvent :=
  {| Timeline.ne_id := id;
     Timeline.ne_start_ms := start_ms;
     Timeline.ne_end_ms := end_ms;
     Timeline.ne_text := text;
     Timeline.ne_voice_profile_id := "default";
     Timeline.ne_meta := [ (KStr "source_line", PInt line);
                           (KStr "source_format", PStr "timestamped_txt") ];
     Timeline.ne_extra := [] |}.

Definition scenario_fields (id : string) (start_ms : Z) (text : string) (line : Z) : pydict :=
  [ (KStr "id", PStr id);
    (KStr "start_ms", PInt start_ms);
    (KStr "text", PStr text);
    (KStr "meta", PDict [ (KStr "source_line", PInt line);
                          (KStr "source_format", PStr "timestamped_txt") ]) ].

Definition scenario_raw (id : string) (start_ms : Z) (text : string) (line : Z) : pyval :=
  PDict (scenario_fields id start_ms text line).

(** The fields of a normalised event the invariants are about. *)
Definition event_id (ev : pyval) : string :=
  match ev with PDict fields => py_str (dict_get fields "id") | _ => EmptyString end.

Definition ends_after_start (ev : pyval) : Prop :=
  exists fields s e,
    ev = PDict fields /\ dict_get fields "start_ms" = PInt s
    /\ dict_get fields "end_ms" = PInt e /\ s < e.

Definition colliding_events : list pyval :=
  [ PDict [ (KStr "id", PStr "a"); (KStr "start_ms", PInt 0); (KStr "text", PStr "one") ];
    PDict [ (KStr "id", PStr "a"); (KStr "start_ms", PInt 1000); (KStr "text", PStr "two") ];
    PDict [ (KStr "id", PStr "a_1"); (KStr "start_ms", PInt 2000); (KStr "text", PStr "three") ] ].

(** A project whose only render record has a blank [error_summary.message]
    next to a non-empty [error]. *)
Definition blank_message_project : pydict :=
  [ (KStr "schema_version", PStr "2.0.0");
    (KStr "renders",
     PDict [ (KStr "history",
              PList [ PDict [ (KStr "render_id", PStr "r1");
                              (KStr "created_at", PStr "2026-01-01T00:00:00+00:00");
                              (KStr "error", PStr "boom");
                              (KStr "error_summary",
                               PDict [ (KStr "message", PStr " ") ]) ] ]) ]) ].

(** The [error_summary] of the first render record of a project. *)
Definition first_render_summary (proj : pydict) : pyval :=
  match dict_get proj "renders" with
  | PDict renders =>
      match dict_get renders "history" with
      | PList (PDict record :: _) => dict_get record "error_summary"
      | _ => PNone
      end
  | _ => PNone
  end.

Definition summary_of (has_error : bool) (message : string) : pyval :=
  PDict [ (KStr "has_error", PBool has_error);
          (KStr "message", PStr message);
          (KStr "failed_actions", PInt 0);
          (KStr "failed_action_ids", PList []);
          (KStr "error_types", PDict []) ].

(** The document after one pass of the migration and after two. *)
Definition migrated_once : pydict :=
  Eval vm_compute in
    match Storage.ensure_project_defaults (fun _ => EmptyString) blank_message_project 0%nat with
    | Ok (proj, _, _, _) => proj
    | Raise _ => []
    end.

Definition migrated_twice : pydict :=
  Eval vm_compute in
    match Storage.ensure_project_defaults (fun _ => EmptyString) migrated_once 0%nat with
    | Ok (proj, _, _, _) => proj
    | Raise _ => []
    end.

Definition no_files : Fs.fs := fun _ => None.

(** What C3 says of a project after an append: the history under
    [state_key].[list_key] has at most [limit] records, and the id under
    [last_key] is the [id_key] of its last record. *)
Definition history_invariant (proj : pydict) (state_key list_key last_key id_key : string)
    (limit : Z) : Prop :=
  exists state history record rid,
    dict_get proj state_key = PDict state
    /\ dict_get state list_key = PList history
    /\ Z.of_nat (List.length history) <= limit
    /\ last history PNone = PDict record
    /\ dict_get record id_key = PStr rid
    /\ dict_get state last_key = PStr rid.

(** [leb] decides [R] between [x] and [y], one way or the other. *)
Definition decides {A : Type} (leb : A -> A -> bool) (R : A -> A -> Prop) (x y : A) : Prop :=
  (leb x y = true -> R x y) /\ (leb x y = false -> R y x).

(** The order on [(at_ms, source_index)], strict. *)
Definition before (a b : Validator.DemoActionEvent) : Prop :=
  Validator.at_ms a < Validator.at_ms b
  \/ (Validator.at_ms a = Validator.at_ms b
      /\ Validator.source_index a < Validator.source_index b).

(** The events read from the list, before sorting: one per entry, each
    carrying its position as [source_index]. *)
Fixpoint positions (idx : Z) (n : nat) : list Z :=
  match n with
  | O => []
  | S k => idx :: positions (idx + 1) k
  end.

(** The order of the keys [(at_ms, source_index, id)], written out: the
    integers by their size, the ids as texts. *)
Definition key_le (a b : Validator.DemoActionEvent) : Prop :=
  Validator.at_ms a < Validator.at_ms b
  \/ (Validator.at_ms a = Validator.at_ms b
      /\ (Validator.source_index a < Validator.source_index b
          \/ (Validator.source_index a = Validator.source_index b
              /\ String.leb (Validator.id a) (Validator.id b) = true))).

(** Sorted by the key [(at_ms, source_index, id)]: every event comes
    before all later ones in the order of the keys. *)
Definition sorted_by_key (events : list Validator.DemoActionEvent) : Prop :=
  StronglySorted key_le events.

(** Equal timestamps keep source order: of two events of the output with
    the same [at_ms], the one that comes first was first in the input. *)
Definition ties_in_source_order (events : list Validator.DemoActionEvent) : Prop :=
  forall i j a b,
    (i < j)%nat -> nth_error events i = Some a -> nth_error events j = Some b ->
    Validator.at_ms a = Validator.at_ms b ->
    Validator.source_index a < Validator.source_index b.

(** The [source_index] of an event is the position of its entry in the
    input: the output is a rearrangement of the events read from the
    entries of [action_events], one per entry and in their order, the
    [k]-th of them carrying [k]. *)
Definition indexed_by_position (timeline : pydict) (events : list Validator.DemoActionEvent)
  : Prop :=
  match dict_get timeline "action_events" with
  | PList raw_actions =>
      exists parsed,
        Permutation events parsed
        /\ Forall2 (fun raw ev => exists idx seen, Validator.parse_action idx seen raw = Ok ev)
                   raw_actions parsed
        /\ map Validator.source_index parsed = positions 0 (List.length raw_actions)
  | _ => events = []
  end.

Definition tie_action (id : string) (at_ms : Z) : pyval :=
  PDict [ (KStr "id", PStr id); (KStr "at_ms", PInt at_ms); (KStr "action", PStr "wait");
          (KStr "args", PDict [ (KStr "ms", PInt 0) ]) ].

Definition tie_timeline : pydict :=
  [ (KStr "action_events",
     PList [ tie_action "z_action" 100; tie_action "a_action" 100; tie_action "first" 50 ]) ].

Definition tie_events : list Validator.DemoActionEvent :=
  Eval vm_compute in
    match Validator.parse_action_events tie_timeline with
    | Ok events => events
    | Raise _ => []
    end.

(** The classification as the claim words it: the error text itself is
    searched, letter case included. *)
Definition classify_as_stated (error_text : string) : string :=
  if contains "timeout" error_text then "timeout"
  else if contains "target closed" error_text || contains "context closed" error_text
          || contains "browser has been closed" error_text then "transient_browser"
  else if contains "net::" error_text || contains "connection reset" error_text
  then "transient_network"
  else "action_error".

(** The classification the code makes, on the lower-cased text, the
    first match winning. *)
Definition classified (error_text error_type : string) : Prop :=
  let lowered := lower error_text in
  let browser := contains "target closed" lowered || contains "context closed" lowered
                 || contains "browser has been closed" lowered in
  let network := contains "net::" lowered || contains "connection reset" lowered in
  (contains "timeout" lowered = true -> error_type = "timeout")
  /\ (contains "timeout" lowered = false -> browser = true ->
      error_type = "transient_browser")
  /\ (contains "timeout" lowered = false -> browser = false -> network = true ->
      error_type = "transient_network")
  /\ (contains "timeout" lowered = false -> browser = false -> network = false ->
      error_type = "action_error").

(** What the attempt log of an execution says of the attempts made, for
    [max_attempts] allowed attempts: the attempts are numbered from 1,
    and a failed attempt is followed by another one exactly when attempts
    remain and its error is retryable. *)
Definition numbered (logs : list Runner.attempt_log) : Prop :=
  forall i l, nth_error logs i = Some l -> Runner.al_attempt l = Z.of_nat i + 1.

Definition retried_when_due (max_attempts : Z) (logs : list Runner.attempt_log) : Prop :=
  forall i l,
    nth_error logs i = Some l -> Runner.al_status l = "error" ->
    ((S i < List.length logs)%nat
     <-> (Runner.al_attempt l < max_attempts
          /\ Runner._is_retryable_error (Runner._classify_error_type (Runner.al_error l))
             = true)).

Definition all_retried (max_attempts : Z) (logs : list Runner.attempt_log) : Prop :=
  forall i l,
    nth_error logs i = Some l ->
    Runner.al_attempt l < max_attempts
    /\ Runner._is_retryable_error (Runner._classify_error_type (Runner.al_error l)) = true.

Definition flaky_page : Runner.page :=
  {| Runner.call := fun n c =>
       match c with
       | Runner.Click _ _ => if (n =? 0)%nat then Some "Timeout 250ms exceeded" else None
       | _ => None
       end;
     Runner.elapsed := fun _ => 3 |}.

Definition click_once_more : Validator.DemoActionEvent :=
  {| Validator.id := "c1"; Validator.at_ms := 0; Validator.action := "click";
     Validator.target := Some "#x"; Validator.args := [];
     Validator.timeout_ms := 250; Validator.retries := 1; Validator.source_index := 0 |}.

(** The planned waits of the dry run return, from position [i] on: no
    [at_ms] is too large for a [float], and the sleep for each of them
    returns. *)
Fixpoint waits_return (e : Runner.env) (i : nat) (actions : list Validator.DemoActionEvent)
  : Prop :=
  match actions with
  | [] => True
  | a :: more =>
      (Z.abs (Validator.at_ms a) < 2 ^ 1024 - 2 ^ 970
       /\ exists ms, Runner.sleep_until e i (Validator.at_ms a) = Ok ms)
      /\ waits_return e (S i) more
  end.

(** A timeline the validator accepts, with an action planned at
    [10^400] ms. *)
Definition far_timeline : pydict :=
  [ (KStr "action_events",
     PList [ PDict [ (KStr "id", PStr "late"); (KStr "at_ms", PInt (10 ^ 400));
                     (KStr "action", PStr "wait");
                     (KStr "args", PDict [ (KStr "ms", PInt 0) ]) ] ]) ].

Definition far_events : list Validator.DemoActionEvent :=
  [ {| Validator.id := "late"; Validator.at_ms := 10 ^ 400; Validator.action := "wait";
       Validator.target := None; Validator.args := [ (KStr "ms", PInt 0) ];
       Validator.timeout_ms := 10000; Validator.retries := 1;
       Validator.source_index := 0 |} ].

(** What the dry run records for an action. *)
Definition recorded_ok (a : Validator.DemoActionEvent) (x : Runner.DemoActionExecution) : Prop :=
  Runner.action_id x = Validator.id a
  /\ Runner.status x = "ok" /\ Runner.attempts x = 1 /\ Runner.retry_count x = 0.

Definition no_browser : Runner.env :=
  {| Runner.probe_playwright_dependencies :=
       [ (KStr "ok", PBool false); (KStr "python_package_ok", PBool false);
         (KStr "browser_ok", PBool false);
         (KStr "error", PStr "Playwright Python package unavailable") ];
     Runner.stage_ms := fun _ => 7;
     Runner.sleep_until := fun i planned => Ok (planned + 1);
     Runner._execute_with_playwright := fun self fs _ _ => (false, EmptyString, self, fs);
     Runner.ffprobe_json := fun _ _ => inl "ffprobe failed: not found";
     Runner.duration_ms_of := fun _ => Ok 0 |}.

Definition fresh_runner : Runner.DemoRunner :=
  {| Runner.project_id := "p1";
     Runner.run_dir := Fs.Path "/data/run";
     Runner.logs_dir := Fs.Path "/data/run/logs";
     Runner.artifacts_dir := Fs.Path "/data/run/artifacts";
     Runner.execution_mode := "playwright_optional";
     Runner.run_id := "demo_1";
     Runner.queue_job_id := None;
     Runner._executions := [];
     Runner._trace_path := EmptyString;
     Runner._recording_source_path := EmptyString;
     Runner._recording_ffmpeg_cmd := [];
     Runner._recording_profile := Runner._standard_recording_profile |}.




Definition playable_record : pydict :=
  [ (KStr "ok", PBool true);
    (KStr "raw_demo_mp4", PStr "/data/run/artifacts/raw_demo.mp4");
    (KStr "artifact_summary", PDict [ (KStr "raw_demo_playable", PBool true) ]) ].

Definition recorded_files : Fs.fs :=
  Fs.write no_files (Fs.Path "/data/run/artifacts/raw_demo.mp4") "mp4 bytes".

Definition fixed_clock : clock := fun _ => "2026-01-02T03:04:05.000006+00:00".

Definition old_render (n : nat) : pyval :=
  PDict [ (KStr "render_id", PStr ("render_" ++ str_of_Z (Z.of_nat n))) ].

Definition full_project : pydict :=
  [ (KStr "renders",
     PDict [ (KStr "last_render_id", PStr "render_49");
             (KStr "history", PList (map old_render (seq 0 50))) ]) ].

Definition new_render : pydict :=
  [ (KStr "status", PStr "completed"); (KStr "segments", PInt 2) ].

Definition full_project_after : pydict * pydict * nat :=
  Eval vm_compute in
    match Storage.append_render_history fixed_clock full_project new_render None
            Storage.MAX_RENDER_HISTORY 0%nat with
    | Ok r => r
    | Raise _ => ([], [], 0%nat)
    end.

Definition full_project_after_run : pydict * pydict * nat :=
  Eval vm_compute in
    match Storage.append_demo_run fixed_clock full_project new_render (Some "demo_7")
            Storage.MAX_DEMO_RUN_HISTORY 0%nat with
    | Ok r => r
    | Raise _ => ([], [], 0%nat)
    end.

(* ===================================================================== *)
(** * More of backend/app: exceptions with a text                         *)
(* ===================================================================== *)

(** What the code below raises: the exceptions above, [KeyError], a
    [ValueError] raised with a text that a caller reads back through
    [str(exc)], and [OSError] for a path that cannot be read as a file. *)
Inductive error : Type :=
| Builtin (e : exn)
| KeyError (key : string)
| ValueErrorOf (message : string)
| OSError.

Inductive result (A : Type) : Type :=
| Returns (a : A)
| Raises (e : error).
Arguments Returns {A} a.
Arguments Raises {A} e.

Definition rbind {A B : Type} (c : result A) (k : A -> result B) : result B :=
  match c with
  | Returns a => k a
  | Raises e => Raises e
  end.

Definition of_outcome {A : Type} (c : outcome A) : result A :=
  match c with
  | Ok a => Returns a
  | Raise e => Raises (Builtin e)
  end.

Notation "x <-- c ;; k" := (rbind c (fun x => k))
  (at level 61, c at next level, right associativity).

(** [for item in v]: the items a value gives when it is iterated. *)
Definition py_iter (v : pyval) : outcome (list pyval) :=
  match v with
  | PList l => Ok l
  | PStr s => Ok (map (fun c => PStr (String c EmptyString)) (list_ascii_of_string s))
  | PDict d => Ok (map (fun kv => key_val (fst kv)) d)
  | PNone | PBool _ | PInt _ | PFloat _ => Raise TypeError
  end.

(** [d.update(other)] *)
Definition dict_update (d other : pydict) : pydict :=
  fold_left (fun acc kv => insert (fst kv) (snd kv) acc) other d.

(** [s.isdigit()] on ASCII. *)
Definition isdigit (s : string) : bool :=
  negb (is_empty s) && forallb is_digit (list_ascii_of_string s).

(** [f"{n:0{width}d}"]: the digits of [n], with zeros between the sign
    and the digits up to [width] characters. *)
Definition zero_pad (width : nat) (n : Z) : string :=
  let digits := str_of_Z (Z.abs n) in
  if n <? 0 then
    "-" ++ repeat_string (width - 1 - String.length digits) "0" ++ digits
  else repeat_string (width - String.length digits) "0" ++ digits.

(* ===================================================================== *)
(** * backend/app/timeline: models.py, validator.py, parsers_srt.py,
      importers.py                                                        *)
(* ===================================================================== *)

Module TimelineMore.
Import Timeline.

(** ** timeline/models.py *)

(** [NarrationEvent.to_dict] *)
Definition NarrationEvent_to_dict (e : NarrationEvent) : pydict :=
  let data := [ (KStr "id", PStr (ne_id e));
                (KStr "start_ms", PInt (ne_start_ms e));
                (KStr "end_ms", PInt (ne_end_ms e));
                (KStr "text", PStr (ne_text e));
                (KStr "voice_profile_id", PStr (ne_voice_profile_id e)) ] in
  let data := if truthy (PDict (ne_meta e)) then dict_set data "meta" (PDict (ne_meta e))
              else data in
  dict_update data (ne_extra e).

(** [ActionEvent.to_dict] *)
Definition ActionEvent_to_dict (e : ActionEvent) : pydict :=
  let data := [ (KStr "id", PStr (ae_id e));
                (KStr "at_ms", PInt (ae_at_ms e));
                (KStr "action", PStr (ae_action e));
                (KStr "args", py_or (PDict (ae_args e)) (PDict [])) ] in
  let data := match ae_target e with
              | Some target => dict_set data "target" (PStr target)
              | None => data
              end in
  dict_update data (ae_extra e).

(** [ActionEvent.from_dict] *)
Definition ActionEvent_from_dict (data : pydict) : outcome ActionEvent :=
  let target := dict_get data "target" in
  args <- dict_or_empty (dict_get data "args") ;;
  Ok {| ae_id := py_str (py_or (dict_get data "id") (PStr ""));
        ae_at_ms := _to_int (dict_get data "at_ms") 0;
        ae_action := py_str (py_or (dict_get data "action") (PStr ""));
        ae_target := if is_none target then None else Some (py_str target);
        ae_args := args;
        ae_extra := without_keys ["id"; "at_ms"; "action"; "target"; "args"] data |}.

(** [Timeline.to_dict] *)
Definition Timeline_to_dict (t : Timeline) : pydict :=
  [ (KStr "timeline_version", PStr (timeline_version t));
    (KStr "narration_events",
     PList (map (fun e => PDict (NarrationEvent_to_dict e)) (narration_events t)));
    (KStr "action_events",
     PList (map (fun e => PDict (ActionEvent_to_dict e)) (action_events t))) ].

(** [[from_dict(item) for item in items if isinstance(item, dict)]] *)
Fixpoint from_dicts {A : Type} (from_dict : pydict -> outcome A) (items : list pyval)
  : outcome (list A) :=
  match items with
  | [] => Ok []
  | PDict item :: more =>
      e <- from_dict item ;;
      rest <- from_dicts from_dict more ;;
      Ok (e :: rest)
  | _ :: more => from_dicts from_dict more
  end.

(** [Timeline.from_dict] *)
Definition Timeline_from_dict (data : pydict) : outcome Timeline :=
  narration_items <- py_iter (py_or (dict_get data "narration_events") (PList [])) ;;
  narration <- from_dicts NarrationEvent_from_dict narration_items ;;
  action_items <- py_iter (py_or (dict_get data "action_events") (PList [])) ;;
  actions <- from_dicts ActionEvent_from_dict action_items ;;
  Ok {| timeline_version :=
          py_str (py_or (dict_get data "timeline_version") (PStr TIMELINE_VERSION));
        narration_events := narration;
        action_events := actions |}.

(** [empty_timeline] *)
Definition empty_timeline : pydict :=
  Timeline_to_dict {| timeline_version := TIMELINE_VERSION;
                      narration_events := [];
                      action_events := [] |}.

(** ** timeline/validator.py *)

(** [_join_path] *)
Definition _join_path (parts : list pyval) : string :=
  match parts with
  | [] => "$"
  | _ => join "." (map py_str parts)
  end.

(** The first loop of [_validate_cross_field_rules], from position [idx]. *)
Fixpoint check_narration_events (idx : Z) (seen_narration_ids : list string)
    (events : list pyval) : result unit :=
  match events with
  | [] => Returns tt
  | event :: more =>
      raw_id <-- of_outcome (attr_get event "id") ;;
      let event_id := py_str (py_or raw_id (PStr "")) in
      if Validator.mem event_id seen_narration_ids then
        Raises (ValueErrorOf ("duplicate narration event id: " ++ event_id))
      else
        raw_start <-- of_outcome (attr_get event "start_ms") ;;
        start_ms <-- of_outcome (py_int (py_or raw_start (PInt 0))) ;;
        raw_end <-- of_outcome (attr_get event "end_ms") ;;
        end_ms <-- of_outcome (py_int (py_or raw_end (PInt 0))) ;;
        if end_ms <=? start_ms then
          Raises (ValueErrorOf
                    ("narration_events[" ++ str_of_Z idx
                       ++ "] has invalid time range: end_ms (" ++ str_of_Z end_ms
                       ++ ") must be greater than start_ms (" ++ str_of_Z start_ms ++ ")"))
        else check_narration_events (idx + 1) (event_id :: seen_narration_ids) more
  end.

(** The second loop. *)
Fixpoint check_action_events (seen_action_ids : list string) (events : list pyval)
  : result unit :=
  match events with
  | [] => Returns tt
  | event :: more =>
      raw_id <-- of_outcome (attr_get event "id") ;;
      let event_id := py_str (py_or raw_id (PStr "")) in
      if Validator.mem event_id seen_action_ids then
        Raises (ValueErrorOf ("duplicate action event id: " ++ event_id))
      else check_action_events (event_id :: seen_action_ids) more
  end.

(** [_validate_cross_field_rules] *)
Definition _validate_cross_field_rules (payload : pydict) : result unit :=
  narration_events <--
    of_outcome (py_iter (py_or (dict_get payload "narration_events") (PList []))) ;;
  _ <-- check_narration_events 0 [] narration_events ;;
  action_events <--
    of_outcome (py_iter (py_or (dict_get payload "action_events") (PList []))) ;;
  check_action_events [] action_events.

(** ** timeline/parsers_srt.py *)

(** [\d{n}] at the front of [s]: the digits and what follows. *)
Fixpoint digits_exactly (n : nat) (s : string) : option (string * string) :=
  match n with
  | O => Some (EmptyString, s)
  | S k =>
      match s with
      | String c r =>
          if is_digit c then
            match digits_exactly k r with
            | Some (ds, rest) => Some (String c ds, rest)
            | None => None
            end
          else None
      | EmptyString => None
      end
  end.

(** [s] without the text [pre] at its front, when it starts with it. *)
Fixpoint strip_prefix (pre s : string) : option string :=
  match pre, s with
  | EmptyString, _ => Some s
  | String a p, String b r => if Ascii.eqb a b then strip_prefix p r else None
  | String _ _, EmptyString => None
  end.

(** [[,.]] at the front of [s]. *)
Definition strip_comma_or_dot (s : string) : option string :=
  match s with
  | String c r => if Ascii.eqb c ","%char || Ascii.eqb c "."%char then Some r else None
  | EmptyString => None
  end.

Definition and_then {A B : Type} (c : option A) (k : A -> option B) : option B :=
  match c with
  | Some a => k a
  | None => None
  end.

(** [(\d{2}):(\d{2}):(\d{2})[,.](\d{3})] at the front of [s]: the four
    groups and what follows. *)
Definition srt_clock (s : string) : option (string * string * string * string * string) :=
  and_then (digits_exactly 2 s) (fun '(hh, s) =>
  and_then (strip_prefix ":" s) (fun s =>
  and_then (digits_exactly 2 s) (fun '(mm, s) =>
  and_then (strip_prefix ":" s) (fun s =>
  and_then (digits_exactly 2 s) (fun '(ss, s) =>
  and_then (strip_comma_or_dot s) (fun s =>
  and_then (digits_exactly 3 s) (fun '(ms, rest) =>
  Some (hh, mm, ss, ms, rest)))))))).

(** The groups of [_SRT_TS_RE] on [line]: the four of the start, the four
    of the end.  [\s*] takes all the blanks there are, since no blank can
    start what follows; [$] is the end of the text, or a line feed that
    ends it. *)
Definition _SRT_TS_RE (line : string)
  : option ((string * string * string * string) * (string * string * string * string)) :=
  and_then (srt_clock line) (fun '(sh, sm, ss, sms, rest) =>
  and_then (strip_prefix "-->" (lstrip rest)) (fun rest =>
  and_then (srt_clock (lstrip rest)) (fun '(eh, em, es, ems, tail) =>
  if is_empty tail || String.eqb tail LF
  then Some ((sh, sm, ss, sms), (eh, em, es, ems))
  else None))).

(** [int(s)] for a [str]: the value, or the text of the [ValueError]
    raised. *)
Definition int_of_text (s : string) : string + Z :=
  match int_of_string s with
  | Some z => inr z
  | None => inl (Runner.int_error_text (PStr s))
  end.

(** [_srt_time_to_ms]: the value, or the text of the [ValueError] raised. *)
Definition _srt_time_to_ms (hours minutes seconds millis : string) : string + Z :=
  match int_of_text hours with
  | inl message => inl message
  | inr h =>
      match int_of_text minutes with
      | inl message => inl message
      | inr m =>
          match int_of_text seconds with
          | inl message => inl message
          | inr s =>
              match int_of_text millis with
              | inl message => inl message
              | inr ms =>
                  if (60 <=? m) || (60 <=? s) then inl "invalid minute/second value"
                  else inr (((h * 3600) + (m * 60) + s) * 1000 + ms)
              end
          end
      end
  end.

(** The entry of a block and the errors of [parse_srt]. *)
Definition srt_entry (block_idx start_ms end_ms : Z) (text_lines : list string)
    (block_start_line : Z) : pyval :=
  PDict [ (KStr "id", PStr ("n" ++ str_of_Z block_idx));
          (KStr "start_ms", PInt start_ms);
          (KStr "end_ms", PInt end_ms);
          (KStr "text", PStr (join " " text_lines));
          (KStr "meta", PDict [ (KStr "source_line", PInt block_start_line);
                                (KStr "source_format", PStr "srt") ]) ].

Definition srt_error (message : string) (line_number : Z) (code : string) : exn :=
  TimelineImportError message (Some line_number) code.

(** The inner loop [while index < len(lines) and lines[index].strip()],
    from position [index] with [lines] left: the text lines gathered, and
    what the outer loop gives from the position where this one stops
    ([following], or [at_end] when the lines are used up). *)
Fixpoint text_lines_from {A : Type} (following : Z -> list string -> A) (at_end : A)
    (index : Z) (text_lines : list string) (lines : list string) : list string * A :=
  match lines with
  | raw :: more =>
      if negb (is_empty (strip raw))
      then text_lines_from following at_end (index + 1) (text_lines ++ [strip raw])%list more
      else (text_lines, following index lines)
  | [] => (text_lines, at_end)
  end.

(** The body of the outer loop from the time range line on: [line] is
    that line, stripped, at position [index], and [rest] the lines after
    it; [block_idx] blocks were read before this one, which started at
    line [block_start_line]. *)
Definition srt_block (following : Z -> list string -> outcome (list pyval))
    (block_idx block_start_line index : Z) (line : string) (rest : list string)
  : outcome (list pyval) :=
  match _SRT_TS_RE line with
  | None => Raise (srt_error "invalid SRT time range line" (index + 1) "invalid_srt_timestamp")
  | Some ((sh, sm, ss, sms), (eh, em, es, ems)) =>
      match _srt_time_to_ms sh sm ss sms, _srt_time_to_ms eh em es ems with
      | inl message, _ | inr _, inl message =>
          Raise (srt_error message (index + 1) "invalid_srt_timestamp")
      | inr start_ms, inr end_ms =>
          if end_ms <=? start_ms then
            Raise (srt_error "SRT end time must be greater than start time"
                     (index + 1) "invalid_time_range")
          else
            let '(text_lines, after) :=
              text_lines_from following (Ok []) (index + 1) [] rest in
            match text_lines with
            | [] => Raise (srt_error "SRT block is missing narration text"
                             block_start_line "empty_text")
            | _ =>
                entries <- after ;;
                Ok (srt_entry (block_idx + 1) start_ms end_ms text_lines block_start_line
                    :: entries)
            end
      end
  end.

(** The loop [while index < len(lines)] of [parse_srt]: [lines] is what is
    left of the list from position [index] on, [block_idx] the number of
    blocks read so far. *)
Fixpoint parse_srt_blocks (index block_idx : Z) (lines : list string) {struct lines}
  : outcome (list pyval) :=
  match lines with
  | [] => Ok []
  | raw :: rest =>
      if is_empty (strip raw) then parse_srt_blocks (index + 1) block_idx rest
      else
        let block_start_line := index + 1 in
        let following := fun index left => parse_srt_blocks index (block_idx + 1) left in
        if isdigit (strip raw) then
          match rest with
          | [] => Raise (srt_error "SRT block ended after index without timestamp line"
                           block_start_line "missing_timestamp")
          | raw2 :: rest2 =>
              srt_block following block_idx block_start_line (index + 1) (strip raw2) rest2
          end
        else srt_block following block_idx block_start_line index (strip raw) rest
  end.

(** [parse_srt] *)
Definition parse_srt (content : string) : outcome (list pyval) :=
  entries <- parse_srt_blocks 0 0 (splitlines content) ;;
  match entries with
  | [] => Raise (TimelineImportError "no subtitle blocks found in SRT" None "empty_input")
  | _ => Ok entries
  end.

(** ** timeline/importers.py *)

(** [name.rfind(".")] *)
Fixpoint rfind_dot (i : nat) (s : string) : option nat :=
  match s with
  | EmptyString => None
  | String c r =>
      match rfind_dot (S i) r with
      | Some j => Some j
      | None => if Ascii.eqb c "."%char then Some i else None
      end
  end.

(** [p.suffix]: the last part from its last dot on, when that dot is
    neither its first nor its last character. *)
Definition path_suffix (p : Fs.path) : string :=
  let name := last (Fs.parts p) EmptyString in
  match rfind_dot 0 name with
  | Some i =>
      if (0 <? i)%nat && (i <? String.length name - 1)%nat
      then substring i (String.length name - i) name
      else EmptyString
  | None => EmptyString
  end.

(** [_detect_import_format] *)
Definition _detect_import_format (content : string) (source_name : option string) : string :=
  let suffix := lower (path_suffix (Fs.Path (match source_name with
                                             | Some name => name
                                             | None => EmptyString
                                             end))) in
  if String.eqb suffix ".srt" then "srt"
  else if Validator.mem suffix [".json"; ".timeline"] then "json"
  else if Validator.mem suffix [".txt"; ".md"] then "timestamped_txt"
  else
    let trimmed := lstrip content in
    if prefix "{" trimmed then "json"
    else if contains "-->" content && contains ":" content then "srt"
    else "timestamped_txt".

Section ImportersDict.
(** The JSON path needs [json.loads] and the JSON-schema validator. *)
Variable _import_json_timeline : string -> outcome Timeline.

(** [import_narration_timeline] over the SRT parser and the format
    sniffer above. *)
Definition import_timeline (content import_format : string)
    (source_name : option string) (video_duration_ms : option Z) : outcome Timeline :=
  import_narration_timeline parse_srt _import_json_timeline _detect_import_format
    content import_format source_name video_duration_ms.

(** [import_narration_timeline_dict] *)
Definition import_narration_timeline_dict (content import_format : string)
    (source_name : option string) (video_duration_ms : option Z) : outcome pydict :=
  t <- import_timeline content import_format source_name video_duration_ms ;;
  Ok (Timeline_to_dict t).
End ImportersDict.

End TimelineMore.

(* ===================================================================== *)
(** * backend/app/pipeline: utils.py, srt.py, tts_only.py                 *)
(* ===================================================================== *)

Module Pipeline.

(** ** pipeline/utils.py *)

(** [ms_to_srt_time]: [HH:MM:SS,mmm]. *)
Definition ms_to_srt_time (ms : Z) : string :=
  let ms := if ms <? 0 then 0 else ms in
  let h := ms / 3600000 in
  let ms := ms - h * 3600000 in
  let m := ms / 60000 in
  let ms := ms - m * 60000 in
  let s := ms / 1000 in
  let ms := ms - s * 1000 in
  zero_pad 2 h ++ ":" ++ zero_pad 2 m ++ ":" ++ zero_pad 2 s ++ "," ++ zero_pad 3 ms.

(** ** pipeline/srt.py *)

(** The loop of [write_srt]: the lines of the cues from number [idx] on. *)
Fixpoint srt_lines (idx : Z) (segments : list pyval) : result (list pyval) :=
  match segments with
  | [] => Returns []
  | seg :: more =>
      match seg with
      | PDict seg =>
          selected <-- of_outcome
            (attr_get (py_or (dict_get_default seg "narration" (PDict [])) (PDict []))
                      "selected_text") ;;
          let text := py_or selected (PStr "") in
          if negb (truthy text) then srt_lines idx more
          else
            raw_start <-- (match lookup (KStr "start_ms") seg with
                           | Some v => Returns v
                           | None => Raises (KeyError "start_ms")
                           end) ;;
            start_ms <-- of_outcome (py_int raw_start) ;;
            raw_end <-- (match lookup (KStr "end_ms") seg with
                         | Some v => Returns v
                         | None => Raises (KeyError "end_ms")
                         end) ;;
            end_ms <-- of_outcome (py_int raw_end) ;;
            lines <-- srt_lines (idx + 1) more ;;
            Returns (PStr (str_of_Z idx)
                     :: PStr (ms_to_srt_time start_ms ++ " --> " ++ ms_to_srt_time end_ms)
                     :: text
                     :: PStr ""
                     :: lines)
      | _ => Raises (Builtin AttributeError)
      end
  end.

(** [sep.join(items)]: every item must be a [str]. *)
Fixpoint texts_of (items : list pyval) : outcome (list string) :=
  match items with
  | [] => Ok []
  | PStr s :: more => rest <- texts_of more ;; Ok (s :: rest)
  | _ :: _ => Raise TypeError
  end.

(** The text [write_srt] writes. *)
Definition srt_text (segments : list pyval) : result string :=
  lines <-- srt_lines 1 segments ;;
  texts <-- of_outcome (texts_of lines) ;;
  Returns (join LF texts).

(** [write_srt] *)
Definition write_srt (fs : Fs.fs) (segments : list pyval) (out_path : Fs.path)
  : result Fs.fs :=
  text <-- srt_text segments ;;
  Returns (Fs.write fs out_path text).

(** ** pipeline/tts_only.py *)

(** An entry of [normalized_events]. *)
Record narration : Type := mkNarration {
  n_id : string;
  n_start_ms : Z;
  n_end_ms : Z;
  n_text : string;
  n_voice_profile_id : string
}.

(** The first loop of [_timeline_to_segments], from position [idx]. *)
Fixpoint narrations_from (idx : Z) (events : list pyval) : outcome (list narration) :=
  match events with
  | [] => Ok []
  | PDict event :: more =>
      let text := strip (py_str (py_or (dict_get event "text") (PStr ""))) in
      if is_empty text then narrations_from (idx + 1) more
      else
        start_ms <- py_int (py_or (dict_get event "start_ms") (PInt 0)) ;;
        end_ms <- py_int (py_or (dict_get event "end_ms") (PInt start_ms)) ;;
        rest <- narrations_from (idx + 1) more ;;
        Ok ({| n_id := py_str (py_or (dict_get event "id") (PStr ("n" ++ str_of_Z (idx + 1))));
               n_start_ms := Z.max 0 start_ms;
               n_end_ms := Z.max 0 end_ms;
               n_text := text;
               n_voice_profile_id :=
                 py_str (py_or (dict_get event "voice_profile_id") (PStr "default")) |}
            :: rest)
  | _ :: more => narrations_from (idx + 1) more
  end.

(** [key=lambda e: (int(e["start_ms"]), str(e["id"]))] *)
Definition narration_leb (a b : narration) : bool :=
  (n_start_ms a <? n_start_ms b)
  || ((n_start_ms a =? n_start_ms b) && String.leb (n_id a) (n_id b)).

Definition segment_of (idx : Z) (event : narration) (start_ms end_ms : Z) : pyval :=
  PDict [ (KStr "id", PInt idx);
          (KStr "event_id", PStr (n_id event));
          (KStr "start_ms", PInt start_ms);
          (KStr "end_ms", PInt end_ms);
          (KStr "voice_profile_id", PStr (n_voice_profile_id event));
          (KStr "narration", PDict [ (KStr "selected_text", PStr (n_text event)) ]);
          (KStr "tts", PDict [ (KStr "status", PStr "not_started");
                               (KStr "audio_path", PStr "");
                               (KStr "attempts", PList []) ]);
          (KStr "mixing", PDict [ (KStr "timeline_start_ms", PInt start_ms);
                                  (KStr "gain_db", PInt 0);
                                  (KStr "fade_in_ms", PInt 10);
                                  (KStr "fade_out_ms", PInt 30) ]) ].

(** The second loop, over [enumerate(normalized_events)] from [idx]. *)
Fixpoint segments_from (video_duration_ms : Z) (idx : Z) (events : list narration)
  : list pyval :=
  match events with
  | [] => []
  | event :: later =>
      let start_ms := n_start_ms event in
      if video_duration_ms <=? start_ms then segments_from video_duration_ms (idx + 1) later
      else
        let end_ms := n_end_ms event in
        let end_ms :=
          if end_ms <=? start_ms then
            match later with
            | next :: _ => n_start_ms next
            | [] => Z.min video_duration_ms (start_ms + 3000)
            end
          else end_ms in
        let end_ms := Z.min video_duration_ms (Z.max end_ms (start_ms + 500)) in
        segment_of idx event start_ms end_ms
        :: segments_from video_duration_ms (idx + 1) later
  end.

(** [_timeline_to_segments] *)
Definition _timeline_to_segments (timeline : pydict) (video_duration_ms : Z)
  : outcome (list pyval) :=
  match dict_get timeline "narration_events" with
  | PList events =>
      normalized_events <- narrations_from 0 events ;;
      Ok (segments_from video_duration_ms 0 (stable_sort narration_leb normalized_events))
  | _ => Ok []
  end.

End Pipeline.

(* ===================================================================== *)
(** * backend/app/tts: profiles.py, cache.py                              *)
(* ===================================================================== *)

Module TtsProfiles.

(** [ensure_tts_profiles]: the project as the call leaves it, and the
    profiles it returns (the object under [proj["tts_profiles"]]). *)
Definition ensure_tts_profiles (proj : pydict) : outcome (pydict * pydict) :=
  let profiles := match dict_get proj "tts_profiles" with
                  | PDict profiles => profiles
                  | _ => []
                  end in
  if negb (dict_mem profiles "default") || negb (is_dict (dict_get profiles "default")) then
    let tts_settings := match dict_get proj "settings" with
                        | PDict settings => dict_get_default settings "tts" (PDict [])
                        | _ => PDict []
                        end in
    provider <- attr_get tts_settings "provider" ;;
    endpoint <- attr_get tts_settings "endpoint" ;;
    voice_mode <- attr_get tts_settings "voice_mode" ;;
    predefined_voice_id <- attr_get tts_settings "predefined_voice_id" ;;
    reference_audio_path <- attr_get tts_settings "reference_audio_path" ;;
    default_params <- attr_get tts_settings "default_params" ;;
    params <- dict_or_empty default_params ;;
    let profiles :=
      dict_set profiles "default"
        (PDict [ (KStr "profile_id", PStr "default");
                 (KStr "display_name", PStr "Default");
                 (KStr "provider", PStr (py_str (py_or provider (PStr "chatterbox"))));
                 (KStr "endpoint", PStr (py_str (py_or endpoint (PStr ""))));
                 (KStr "voice_mode",
                  PStr (py_str (py_or voice_mode (PStr "predefined_voice"))));
                 (KStr "predefined_voice_id",
                  PStr (py_str (py_or predefined_voice_id (PStr "alloy"))));
                 (KStr "audio_prompt_path",
                  PStr (py_str (py_or reference_audio_path (PStr ""))));
                 (KStr "params", PDict params) ]) in
    Ok (dict_set proj "tts_profiles" (PDict profiles), profiles)
  else Ok (dict_set proj "tts_profiles" (PDict profiles), profiles).

(** [resolve_tts_profile]: the project as left, and the profile. *)
Definition resolve_tts_profile (proj : pydict) (profile_id : option string)
  : result (pydict * pydict) :=
  ensured <-- of_outcome (ensure_tts_profiles proj) ;;
  let '(proj, profiles) := ensured in
  let given := match profile_id with
               | Some p => if is_empty p then "default" else p
               | None => "default"
               end in
  let pid := if is_empty (strip given) then "default" else strip given in
  match dict_get profiles pid with
  | PDict profile =>
      if negb (truthy (dict_get profile "profile_id")) then
        let profile := dict_set profile "profile_id" (PStr pid) in
        Returns (dict_set proj "tts_profiles" (PDict (dict_set profiles pid (PDict profile))),
                 profile)
      else Returns (proj, profile)
  | _ => Raises (KeyError ("Unknown TTS profile: " ++ pid))
  end.

(** The loop of [upsert_tts_profile] over the six plain fields. *)
Fixpoint merge_fields (keys : list string) (profile merged : pydict) : pydict :=
  match keys with
  | [] => merged
  | key :: more =>
      merge_fields more profile
        (if dict_mem profile key && negb (is_none (dict_get profile key))
         then dict_set merged key (dict_get profile key)
         else merged)
  end.

(** [upsert_tts_profile]: the project as left, and the merged profile. *)
Definition upsert_tts_profile (proj profile : pydict) : result (pydict * pydict) :=
  ensured <-- of_outcome (ensure_tts_profiles proj) ;;
  let '(proj, profiles) := ensured in
  let pid := strip (py_str (py_or (dict_get profile "profile_id") (PStr ""))) in
  if is_empty pid then Raises (ValueErrorOf "profile_id is required")
  else
    let existing := match dict_get profiles pid with
                    | PDict existing => existing
                    | _ => [ (KStr "profile_id", PStr pid) ]
                    end in
    let merged :=
      merge_fields ["display_name"; "provider"; "endpoint"; "voice_mode";
                    "predefined_voice_id"; "audio_prompt_path"] profile existing in
    params <-- of_outcome (dict_or_empty (dict_get existing "params")) ;;
    given_params <-- of_outcome (dict_or_empty (dict_get profile "params")) ;;
    let params := dict_update params given_params in
    let merged := dict_set merged "params" (PDict params) in
    let merged := dict_set merged "profile_id" (PStr pid) in
    Returns (dict_set proj "tts_profiles" (PDict (dict_set profiles pid (PDict merged))),
             merged).

(** [isinstance(v, str) and v.strip()]: the stripped text, when it is one
    and not blank. *)
Definition stripped_text (v : pyval) : option string :=
  match v with
  | PStr s => if is_empty (strip s) then None else Some (strip s)
  | _ => None
  end.

(** [resolve_tts_endpoint] *)
Definition resolve_tts_endpoint (proj profile : pydict) (fallback_endpoint : option string)
  : string :=
  match stripped_text (dict_get profile "endpoint") with
  | Some endpoint => endpoint
  | None =>
      let from_settings :=
        match dict_get proj "settings" with
        | PDict settings_obj =>
            match dict_get settings_obj "tts" with
            | PDict tts_settings => stripped_text (dict_get tts_settings "endpoint")
            | _ => None
            end
        | _ => None
        end in
      match from_settings with
      | Some endpoint => endpoint
      | None => strip (match fallback_endpoint with Some f => f | None => "" end)
      end
  end.

(** [resolve_tts_params] *)
Definition resolve_tts_params (proj profile : pydict) (params_override : option pydict)
  : outcome pydict :=
  let params : pydict := [] in
  params <-
    (match dict_get proj "settings" with
     | PDict settings_obj =>
         match dict_get settings_obj "tts" with
         | PDict tts_settings =>
             defaults <- dict_or_empty (dict_get tts_settings "default_params") ;;
             Ok (dict_update params defaults)
         | _ => Ok params
         end
     | _ => Ok params
     end) ;;
  own <- dict_or_empty (dict_get profile "params") ;;
  let params := dict_update params own in
  let voice_mode := py_str (py_or (dict_get profile "voice_mode") (PStr "")) in
  let params :=
    if String.eqb voice_mode "reference_audio" then
      match stripped_text (dict_get profile "audio_prompt_path") with
      | Some prompt_path => dict_set params "audio_prompt_path" (PStr prompt_path)
      | None => params
      end
    else if String.eqb voice_mode "predefined_voice" then
      match stripped_text (dict_get profile "predefined_voice_id") with
      | Some voice => dict_set params "voice" (PStr voice)
      | None => params
      end
    else params in
  Ok (match params_override with
      | Some override => if truthy (PDict override) then dict_update params override
                         else params
      | None => params
      end).

End TtsProfiles.

Module TtsCacheFiles.

(** [p.read_bytes()] *)
Definition read_bytes (fs : Fs.fs) (p : Fs.path) : result string :=
  match fs p with
  | Some (Fs.File content) => Returns content
  | Some (Fs.Other _) => Raises OSError
  | None => Raises (Builtin FileNotFoundError)
  end.

(** [tts_cache_path] *)
Definition tts_cache_path (cache_dir : Fs.path) (cache_key : string) : Fs.path :=
  Fs.path_join cache_dir (cache_key ++ ".wav").

(** [restore_tts_cache]: what it returns, and the files as left. *)
Definition restore_tts_cache (fs : Fs.fs) (cache_file out_file : Fs.path)
  : result (bool * Fs.fs) :=
  if negb (Fs.exists_ fs cache_file) then Returns (false, fs)
  else
    data <-- read_bytes fs cache_file ;;
    Returns (true, Fs.write fs out_file data).

(** [store_tts_cache] *)
Definition store_tts_cache (fs : Fs.fs) (out_file cache_file : Fs.path) : result Fs.fs :=
  if Fs.exists_ fs out_file then
    data <-- read_bytes fs out_file ;;
    Returns (Fs.write fs cache_file data)
  else Returns fs.

End TtsCacheFiles.

(* ===================================================================== *)
(** * backend/app/storage.py: a new project; demo_runner: the capture     *)
(* ===================================================================== *)

Module StorageMore.

(** [write_demo_context_md] *)
Definition write_demo_context_md (fs : Fs.fs) (data_dir project_id text : string) : Fs.fs :=
  Fs.write fs (Unified.demo_context_md_path data_dir project_id) text.

Definition opt_int (o : option Z) : pyval :=
  match o with Some z => PInt z | None => PNone end.

Definition opt_float (o : option pyfloat) : pyval :=
  match o with Some f => PFloat f | None => PNone end.

(** The document [init_project] builds at the time [now]. *)
Definition new_project (now project_id video_rel_path video_sha256 : string) (duration_ms : Z)
    (width height : option Z) (fps : option pyfloat) (has_audio : bool)
    (default_profile : pydict) : pydict :=
  [ (KStr "schema_version", PStr Storage.SCHEMA_VERSION);
    (KStr "project_id", PStr project_id);
    (KStr "created_at", PStr now);
    (KStr "updated_at", PStr now);
    (KStr "app", PDict [ (KStr "name", PStr "vo-demo-generator");
                         (KStr "version", PStr "0.1.0");
                         (KStr "git_commit", PStr "dev") ]);
    (KStr "source",
     PDict [ (KStr "video",
              PDict [ (KStr "path", PStr video_rel_path);
                      (KStr "sha256", PStr video_sha256);
                      (KStr "duration_ms", PInt duration_ms);
                      (KStr "width", opt_int width);
                      (KStr "height", opt_int height);
                      (KStr "fps", opt_float fps);
                      (KStr "has_audio", PBool has_audio) ]) ]);
    (KStr "settings",
     PDict [ (KStr "segmentation", PDict Storage._default_segmentation_settings);
             (KStr "models", PDict Storage._default_models_settings);
             (KStr "narration", PDict Storage._default_narration_settings);
             (KStr "demo_context", PStr "");
             (KStr "tts", PDict Storage._default_tts_settings);
             (KStr "holistic", PDict Storage._default_holistic_settings);
             (KStr "narration_mode", PStr "tts_only");
             (KStr "demo_capture_execution_mode",
              PStr Storage._default_demo_capture_execution_mode);
             (KStr "holistic_fallback_to_segment", PBool true) ]);
    (KStr "planning",
     PDict [ (KStr "narration_global", PDict [ (KStr "status", PStr "not_started") ]) ]);
    (KStr "holistic", PDict [ (KStr "status", PStr "not_started") ]);
    (KStr "timeline", PDict (Storage._default_timeline []));
    (KStr "tts_profiles", PDict [ (KStr "default", PDict default_profile) ]);
    (KStr "renders", PDict Storage._default_renders);
    (KStr "demo", PDict Storage._default_demo_state);
    (KStr "segments", PList []);
    (KStr "exports", PDict Storage._default_exports);
    (KStr "compliance",
     PDict [ (KStr "voice_rights_confirmed", PBool true);
             (KStr "notes",
              PStr "Single-user local tool; user confirms rights/consent.") ]) ].

(** [init_project]: the document, and the files as left ([project.json]
    and [demo_context.md]; the three [ensure_dir] calls make directories,
    which the model of the file system does not track). *)
Definition init_project (clk : clock) (fs : Fs.fs) (data_dir project_id : string)
    (video_rel_path video_sha256 : string) (duration_ms : Z)
    (width height : option Z) (fps : option pyfloat) (has_audio : bool)
  : timed (pydict * Fs.fs) :=
  now <~ utc_now_iso clk ;;
  default_profile <~
    tlift (Storage._default_profile_from_tts_settings Storage._default_tts_settings) ;;
  let proj := new_project now project_id video_rel_path video_sha256 duration_ms
                width height fps has_audio default_profile in
  fs <~ tlift (Unified.atomic_write_json fs (Unified.project_json_path data_dir project_id)
                 (PDict proj)) ;;
  tret (proj, write_demo_context_md fs data_dir project_id "").

End StorageMore.

Module Capture.
Import Runner.

(** [run_demo_capture]: the record of the run, and the files as left. *)
Definition run_demo_capture (e : env) (clk : clock) (fs : Fs.fs) (project_id : string)
    (timeline : pydict) (run_dir : Fs.path) (execution_mode run_id : string)
    (queue_job_id : option string) : timed (pydict * Fs.fs) :=
  actions <~ tlift (Validator.parse_action_events timeline) ;;
  runner <~ new_runner clk project_id run_dir execution_mode run_id queue_job_id ;;
  executed <~ tlift (execute e runner fs actions) ;;
  let '(result, _, fs) := executed in
  now <~ utc_now_iso clk ;;
  tret (dict_set (result_to_dict result) "created_at" (PStr now), fs).

End Capture.

(* ===================================================================== *)
(** * backend/app/pipeline/unified.py with the demo runner                *)
(* ===================================================================== *)

Module UnifiedRun.

(** [run_unified_pipeline] up to the call of the render, with
    [run_demo_capture] of the demo runner as its demo capture. *)
Definition before_render (e : Runner.env) (clk : clock) (w : Unified.worker)
    (json_loads : string -> outcome pyval) (resolve : Fs.path -> Fs.path)
    (fs : Fs.fs) (project_id data_dir : string)
  : timed (Unified.render_call * pydict * pydict * string * string * Fs.fs) :=
  Unified.before_render clk w json_loads resolve
    (fun project_id timeline run_dir execution_mode run_id queue_job_id fs =>
       Capture.run_demo_capture e clk fs project_id timeline run_dir execution_mode
         run_id queue_job_id)
    fs project_id data_dir.

End UnifiedRun.

(* ===================================================================== *)
(** * Statements, continued                                               *)
(* ===================================================================== *)

(** ** Texts *)

Definition head_nonspace (s : string) : bool :=
  match s with
  | String c _ => negb (is_space c)
  | EmptyString => false
  end.

Fixpoint last_nonspace (s : string) : bool :=
  match s with
  | EmptyString => false
  | String c EmptyString => negb (is_space c)
  | String _ r => last_nonspace r
  end.

(** A text that is not empty and has no blank at either end. *)
Definition trimmed (s : string) : Prop :=
  head_nonspace s = true /\ last_nonspace s = true.

Definition all_digits (s : string) : bool := forallb is_digit (list_ascii_of_string s).

(** A text on one line: no character at which [splitlines] breaks. *)
Definition one_line (s : string) : bool :=
  forallb (fun c => negb (Timeline.is_linebreak c)) (list_ascii_of_string s).

(** ** SubRip cues *)

(** The entry [parse_srt] gives for cue number [k]: the id [n<k>], a
    range within 100 hours that ends after it starts, a trimmed text and
    the line the block started at. *)
Definition srt_cue (ev : pyval) (k : Z) : Prop :=
  exists start_ms end_ms text line,
    ev = PDict [ (KStr "id", PStr ("n" ++ str_of_Z k));
                 (KStr "start_ms", PInt start_ms);
                 (KStr "end_ms", PInt end_ms);
                 (KStr "text", PStr text);
                 (KStr "meta", PDict [ (KStr "source_line", PInt line);
                                       (KStr "source_format", PStr "srt") ]) ]
    /\ 0 <= start_ms < end_ms /\ end_ms < 360000000
    /\ trimmed text /\ 1 <= line.

(** [zero_pad width n] is [width] digits that read back as [n]. *)
Definition pads_back (width : nat) (n : Z) : bool :=
  let s := zero_pad width n in
  (String.length s =? width)%nat && all_digits s
  && match int_of_string s with Some z => z =? n | None => false end.

(** The four groups of a time, as [ms_to_srt_time] prints them. *)
Definition clock_groups (ms : Z) : string * string * string * string :=
  let h := ms / 3600000 in
  let ms := ms - h * 3600000 in
  let m := ms / 60000 in
  let ms := ms - m * 60000 in
  let s := ms / 1000 in
  let ms := ms - s * 1000 in
  (zero_pad 2 h, zero_pad 2 m, zero_pad 2 s, zero_pad 3 ms).

(** A text of ASCII characters only (codes below 128), the texts on
    which [is_space] and [Timeline.is_linebreak] are the blanks and line
    breaks of [str.strip] and [str.splitlines]. *)
Definition ascii_text (s : string) : bool :=
  forallb (fun c => (nat_of_ascii c <? 128)%nat) (list_ascii_of_string s).

(** A segment that [write_srt] writes as the cue [(start_ms, end_ms,
    text)]: it has the three fields as an [int], an [int] and a [str], the
    range ends after it starts, within 100 hours, and the text is ASCII,
    on one line and not blank. *)
Definition segment_cue (seg : pyval) (cue : Z * Z * string) : Prop :=
  let '(start_ms, end_ms, text) := cue in
  exists fields narration,
    seg = PDict fields
    /\ lookup (KStr "narration") fields = Some (PDict narration)
    /\ dict_get narration "selected_text" = PStr text
    /\ lookup (KStr "start_ms") fields = Some (PInt start_ms)
    /\ lookup (KStr "end_ms") fields = Some (PInt end_ms)
    /\ 0 <= start_ms < end_ms /\ end_ms < 360000000
    /\ ascii_text text = true
    /\ one_line text = true /\ is_empty (strip text) = false.

(** The entries [parse_srt] gives for cues numbered from [k], the first
    of them starting at line [line] of the file. *)
Fixpoint cue_entries (k line : Z) (cues : list (Z * Z * string)) : list pyval :=
  match cues with
  | [] => []
  | (start_ms, end_ms, text) :: more =>
      PDict [ (KStr "id", PStr ("n" ++ str_of_Z k));
              (KStr "start_ms", PInt start_ms);
              (KStr "end_ms", PInt end_ms);
              (KStr "text", PStr (strip text));
              (KStr "meta", PDict [ (KStr "source_line", PInt line);
                                    (KStr "source_format", PStr "srt") ]) ]
      :: cue_entries (k + 1) (line + 4) more
  end.

(** The lines of the file [write_srt] writes for cues numbered from [k],
    as [splitlines] gives them back: number, time range and text, and an
    empty line between two cues. *)
Fixpoint cue_lines (k : Z) (cues : list (Z * Z * string)) : list string :=
  match cues with
  | [] => []
  | (start_ms, end_ms, text) :: more =>
      str_of_Z k
      :: (Pipeline.ms_to_srt_time start_ms ++ " --> " ++ Pipeline.ms_to_srt_time end_ms)
      :: text
      :: match more with
         | [] => []
         | _ => EmptyString :: cue_lines (k + 1) more
         end
  end.

(** The list [lines] of [write_srt] for the same cues. *)
Fixpoint cue_written (k : Z) (cues : list (Z * Z * string)) : list string :=
  match cues with
  | [] => []
  | (start_ms, end_ms, text) :: more =>
      str_of_Z k
      :: (Pipeline.ms_to_srt_time start_ms ++ " --> " ++ Pipeline.ms_to_srt_time end_ms)
      :: text :: EmptyString :: cue_written (k + 1) more
  end.

Definition two_cues : list (Z * Z * string) :=
  [ (0, 2500, "hello world"); (3000, 4000, " second block ") ].

Definition two_segments : list pyval :=
  map (fun cue =>
         match cue with
         | (start_ms, end_ms, text) =>
             PDict [ (KStr "id", PInt 0);
                     (KStr "start_ms", PInt start_ms);
                     (KStr "end_ms", PInt end_ms);
                     (KStr "narration", PDict [ (KStr "selected_text", PStr text) ]) ]
         end) two_cues.

(** A cue [write_srt] and [parse_srt] agree on. *)
Definition valid_cue (cue : Z * Z * string) : Prop :=
  let '(start_ms, end_ms, text) := cue in
  0 <= start_ms < end_ms /\ end_ms < 360000000
  /\ one_line text = true /\ is_empty (strip text) = false.

(** ** Segments of the render *)

(** A segment lies within the video: it starts at 0 or later, ends after
    it starts and no later than the video, and its text is trimmed. *)
Definition segment_within (video_duration_ms : Z) (seg : pyval) : Prop :=
  exists fields start_ms end_ms text,
    seg = PDict fields
    /\ lookup (KStr "start_ms") fields = Some (PInt start_ms)
    /\ lookup (KStr "end_ms") fields = Some (PInt end_ms)
    /\ lookup (KStr "narration") fields = Some (PDict [ (KStr "selected_text", PStr text) ])
    /\ 0 <= start_ms < end_ms /\ end_ms <= video_duration_ms
    /\ trimmed text.

(** The [start_ms] of an event or segment. *)
Definition start_of (ev : pyval) : Z :=
  match ev with
  | PDict fields => match dict_get fields "start_ms" with PInt s => s | _ => 0 end
  | _ => 0
  end.

Definition by_start (events : list pyval) : Prop :=
  StronglySorted (fun a b => start_of a <= start_of b) events.

(** What the first loop of [_timeline_to_segments] keeps: a start from 0
    on and a trimmed text. *)
Definition narration_ok (e : Pipeline.narration) : Prop :=
  0 <= Pipeline.n_start_ms e /\ trimmed (Pipeline.n_text e).

Definition spoken_timeline : pydict :=
  [ (KStr "narration_events",
     PList [ PDict [ (KStr "id", PStr "b"); (KStr "start_ms", PInt 2000);
                     (KStr "text", PStr " two ") ];
             PInt 3;
             PDict [ (KStr "start_ms", PInt 0); (KStr "text", PStr "one") ];
             PDict [ (KStr "start_ms", PInt 9000); (KStr "text", PStr "late") ] ]) ].

Definition spoken_segments : list pyval :=
  Eval vm_compute in
    match Pipeline._timeline_to_segments spoken_timeline 5000 with
    | Ok segments => segments
    | Raise _ => []
    end.

(** ** Timeline documents *)

(** A dict as [json.loads] gives it: its keys are texts, none twice. *)
Definition json_object (d : pydict) : Prop :=
  Forall (fun kv => is_str (key_val (fst kv)) = true) d /\ NoDup (map fst d).

(** None of the keys [known] is a key of [d]. *)
Definition no_key_of (known : list string) (d : pydict) : Prop :=
  Forall (fun kv => existsb (fun k => key_eqb (fst kv) (KStr k)) known = false) d.

(** A narration event that [to_dict] writes out in full: the fields
    [from_dict] would replace by a default are set, and [extra] holds
    other fields only. *)
Definition narration_event_kept (e : Timeline.NarrationEvent) : Prop :=
  is_empty (Timeline.ne_voice_profile_id e) = false
  /\ json_object (Timeline.ne_extra e)
  /\ no_key_of ["id"; "start_ms"; "end_ms"; "text"; "voice_profile_id"; "meta"]
       (Timeline.ne_extra e).

Definition action_event_kept (e : Timeline.ActionEvent) : Prop :=
  json_object (Timeline.ae_extra e)
  /\ no_key_of ["id"; "at_ms"; "action"; "target"; "args"] (Timeline.ae_extra e).

Definition timeline_kept (t : Timeline.Timeline) : Prop :=
  is_empty (Timeline.timeline_version t) = false
  /\ Forall narration_event_kept (Timeline.narration_events t)
  /\ Forall action_event_kept (Timeline.action_events t).

Definition kept_timeline : Timeline.Timeline :=
  {| Timeline.timeline_version := "1.0";
     Timeline.narration_events :=
       [ {| Timeline.ne_id := "n1"; Timeline.ne_start_ms := 0; Timeline.ne_end_ms := 1000;
            Timeline.ne_text := "hi"; Timeline.ne_voice_profile_id := "default";
            Timeline.ne_meta := [];
            Timeline.ne_extra := [ (KStr "note", PStr "intro") ] |} ];
     Timeline.action_events :=
       [ {| Timeline.ae_id := "a1"; Timeline.ae_at_ms := 0; Timeline.ae_action := "goto";
            Timeline.ae_target := None;
            Timeline.ae_args := [ (KStr "url", PStr "https://example.com");
                                  (KStr "x", PInt 1) ];
            Timeline.ae_extra := [] |} ] |}.

(** [str(event.get("id") or "")] *)
Definition id_text (ev : pyval) : string :=
  match ev with
  | PDict fields => py_str (py_or (dict_get fields "id") (PStr ""))
  | _ => EmptyString
  end.

(** The event is an object whose [start_ms] and [end_ms] read as
    integers (0 when missing), the second greater than the first. *)
Definition range_valid (ev : pyval) : Prop :=
  exists fields start_ms end_ms,
    ev = PDict fields
    /\ py_int (py_or (dict_get fields "start_ms") (PInt 0)) = Ok start_ms
    /\ py_int (py_or (dict_get fields "end_ms") (PInt 0)) = Ok end_ms
    /\ start_ms < end_ms.

Definition checked_payload : pydict :=
  [ (KStr "narration_events",
     PList [ PDict [ (KStr "id", PStr "n1"); (KStr "start_ms", PInt 0);
                     (KStr "end_ms", PInt 1000) ];
             PDict [ (KStr "id", PStr "n2"); (KStr "start_ms", PStr "1000");
                     (KStr "end_ms", PInt 2500) ] ]);
    (KStr "action_events",
     PList [ PDict [ (KStr "id", PStr "a1") ]; PDict [ (KStr "id", PStr "a2") ] ]) ].

(** ** TTS profiles and cache *)

Definition narrator_profile : pydict :=
  [ (KStr "profile_id", PStr " narrator ");
    (KStr "provider", PStr "chatterbox");
    (KStr "params", PDict [ (KStr "speed_factor", PFloat (FDec 11 (-1))) ]) ].

Definition narrator_upserted : pydict * pydict :=
  Eval vm_compute in
    match TtsProfiles.upsert_tts_profile [] narrator_profile with
    | Returns r => r
    | Raises _ => ([], [])
    end.

Definition voiced_profile : pydict :=
  [ (KStr "voice_mode", PStr "predefined_voice");
    (KStr "predefined_voice_id", PStr " nova ");
    (KStr "params", PDict [ (KStr "voice", PStr "x"); (KStr "seed", PInt 1) ]) ].

Definition rendered_files : Fs.fs :=
  Fs.write no_files (Fs.Path "/data/work/seg000.wav") "RIFF audio".

(** ** Stored projects *)

(** What an append leaves under [state_key].[list_key]: a history of at
    least one and at most [limit] records, the last of them [record]. *)
Definition history_ends_with (proj : pydict) (state_key list_key : string) (record : pydict)
    (limit : Z) : Prop :=
  exists state history,
    dict_get proj state_key = PDict state
    /\ dict_get state list_key = PList history
    /\ 1 <= Z.of_nat (List.length history) <= limit
    /\ last history PNone = PDict record.

(** The number of records a history keeps when [history_limit] is asked
    for: 50 for a limit below 1, and never more than 500. *)
Definition kept_records (history_limit : Z) : Z :=
  if history_limit <? 1 then 50 else Z.min history_limit 500.

(** A project with three renders in its history. *)
Definition rendered_project : pydict :=
  [ (KStr "renders",
     PDict [ (KStr "history",
              PList [ PDict [ (KStr "render_id", PStr "r1") ];
                      PDict [ (KStr "render_id", PStr "r2") ];
                      PDict [ (KStr "render_id", PStr "r3") ] ]) ]) ].

Definition render_appended : outcome (pydict * pydict * nat) :=
  Eval vm_compute in
    Storage.append_render_history fixed_clock rendered_project
      [ (KStr "render_id", PStr "r4") ] None 2 0%nat.

(** An entry of normalised stage timings: a trimmed name and a count of
    milliseconds from 0 on. *)
Definition stage_timing (kv : pykey * pyval) : Prop :=
  exists name ms, kv = (KStr name, PInt ms) /\ trimmed name /\ 0 <= ms.

(** A legacy event: an object whose range does not end before it starts. *)
Definition ends_not_before_start (ev : pyval) : Prop :=
  exists fields s e,
    ev = PDict fields /\ dict_get fields "start_ms" = PInt s
    /\ dict_get fields "end_ms" = PInt e /\ s <= e.

(** ** A SubRip file *)

(** Two blocks, the second without its index line and with a dot before
    the milliseconds. *)
Definition subtitles : string :=
  join (String (ascii_of_nat 10) EmptyString)
    [ "1"; "00:00:01,000 --> 00:00:02,500"; "Open the page"; "";
      "00:00:03.000 --> 00:00:04,250"; "  Click save  "; "twice" ].

Definition subtitles_entries : list pyval :=
  Eval vm_compute in
    match TimelineMore.parse_srt subtitles with
    | Ok entries => entries
    | Raise _ => []
    end.

(** ** Validated actions *)

Definition has_target (e : Validator.DemoActionEvent) : Prop :=
  exists t, Validator.target e = Some t /\ trimmed t.

(** What the runner needs of an action, kind by kind. *)
Definition action_ready (e : Validator.DemoActionEvent) : Prop :=
  (Validator.action e = "goto"
   /\ exists t, Validator.target e = Some t /\ trimmed t
                /\ (prefix "http://" t || prefix "https://" t) = true)
  \/ (Validator.action e = "click" /\ has_target e)
  \/ (Validator.action e = "fill" /\ has_target e
      /\ match lookup (KStr "value") (Validator.args e) with
         | Some (PStr _) | Some (PInt _) | Some (PFloat _) | Some (PBool _) => True
         | _ => False
         end)
  \/ (Validator.action e = "press" /\ has_target e
      /\ exists key, lookup (KStr "key") (Validator.args e) = Some (PStr key) /\ trimmed key)
  \/ (Validator.action e = "wait" /\ Validator.target e = None
      /\ exists ms, lookup (KStr "ms") (Validator.args e) = Some (PInt ms)
                    /\ 0 <= ms <= 120000).

(** An action as [parse_action_events] lets it through. *)
Definition action_valid (e : Validator.DemoActionEvent) : Prop :=
  trimmed (Validator.id e)
  /\ 0 <= Validator.at_ms e
  /\ 100 <= Validator.timeout_ms e <= 120000
  /\ 0 <= Validator.retries e <= 3
  /\ action_ready e.

Definition demo_script : pydict :=
  [ (KStr "action_events",
     PList [ PDict [ (KStr "action", PStr "wait"); (KStr "at_ms", PInt 900);
                     (KStr "args", PDict [ (KStr "ms", PStr "250") ]) ];
             PDict [ (KStr "id", PStr " open "); (KStr "action", PStr " GoTo ");
                     (KStr "at_ms", PInt 0); (KStr "target", PStr " https://example.com ") ];
             PDict [ (KStr "action", PStr "fill"); (KStr "at_ms", PInt 300);
                     (KStr "target", PStr "#name"); (KStr "retries", PInt 3);
                     (KStr "args", PDict [ (KStr "value", PInt 7) ]) ];
             PDict [ (KStr "action", PStr "press"); (KStr "at_ms", PInt 600);
                     (KStr "target", PStr "#name");
                     (KStr "args", PDict [ (KStr "key", PStr " Enter ");
                                           (KStr "timeout_ms", PInt 500) ]) ] ]) ].

Definition demo_script_events : list Validator.DemoActionEvent :=
  Eval vm_compute in
    match Validator.parse_action_events demo_script with
    | Ok events => events
    | Raise _ => []
    end.

(** ** Summaries of a run *)

(** The sum of the counts of a table such as [error_types]. *)
Definition count_total (d : pydict) : Z :=
  fold_right (fun kv acc => match snd kv with PInt n => n + acc | _ => acc end) 0 d.

(** ** Normalised narration *)

(** A normalised event within a video of [duration] milliseconds. *)
Definition event_within (duration : Z) (ev : pyval) : Prop :=
  exists fields start_ms end_ms text,
    ev = PDict fields
    /\ dict_get fields "start_ms" = PInt start_ms
    /\ dict_get fields "end_ms" = PInt end_ms
    /\ dict_get fields "text" = PStr text
    /\ 0 <= start_ms < end_ms /\ end_ms <= duration
    /\ trimmed text.

(** What the first loop of [normalize_narration_events] lets through. *)
Definition prepared_ok (item : Timeline.prepared) : Prop :=
  0 <= Timeline.p_start_ms item
  /\ trimmed (strip (py_str (py_or (dict_get (Timeline.p_raw item) "text") (PStr "")))).

Definition overlapping_notes : list pyval :=
  [ PDict [ (KStr "start_ms", PInt 4000); (KStr "text", PStr " last ") ];
    PDict [ (KStr "start_ms", PInt (-20)); (KStr "end_ms", PInt 9000);
            (KStr "text", PStr "first") ];
    PDict [ (KStr "start_ms", PInt 7000); (KStr "text", PStr "too late") ];
    PDict [ (KStr "start_ms", PInt 1000); (KStr "text", PStr "second") ] ].

Definition overlapping_notes_normalized : list pyval :=
  Eval vm_compute in
    match Timeline.normalize_narration_events overlapping_notes (Some 5000) 3000 500 with
    | Ok events => events
    | Raise _ => []
    end.

(** ** The cache key *)

(** The order of two items with text keys. *)
Definition str_key_le {A : Type} (a b : pykey * A) : Prop :=
  exists s t, fst a = KStr s /\ fst b = KStr t /\ String.leb s t = true.

(** Params that are equal for Python ([1 == 1.0]) and differ as JSON. *)
Definition params_int : pydict := [ (KStr "speed_factor", PInt 1) ].
Definition params_float : pydict := [ (KStr "speed_factor", PFloat (FDec 1 0)) ].

(** The same params in two orders. *)
Definition params_one : pydict :=
  [ (KStr "speed_factor", PFloat (FDec 1 0)); (KStr "seed", PInt 123) ].
Definition params_two : pydict :=
  [ (KStr "seed", PInt 123); (KStr "speed_factor", PFloat (FDec 1 0)) ].

(** ** The unified pipeline *)






(* ===================================================================== *)
(** * Properties                                                          *)
(* ===================================================================== *)

(** ** Dictionaries *)

Lemma key_eqb_str_inv (s : string) (k : pykey) :
  key_eqb (KStr s) k = true -> k = KStr s.
Proof.
  destruct k; simpl; try discriminate.
  intros H. apply String.eqb_eq in H. now subst.
Qed.

Lemma key_eqb_str_refl (s : string) : key_eqb (KStr s) (KStr s) = true.
Proof. simpl. apply String.eqb_refl. Qed.

Lemma lookup_insert_same (k : string) (v : pyval) (d : pydict) :
  lookup (KStr k) (insert (KStr k) v d) = Some v.
Proof.
  induction d as [|[k0 v0] r IH]; cbn [lookup insert].
  - now rewrite key_eqb_str_refl.
  - destruct (key_eqb (KStr k) k0) eqn:E; cbn [lookup]; rewrite E; auto.
Qed.

Lemma lookup_insert_other (k k' : string) (v : pyval) (d : pydict) :
  k <> k' -> lookup (KStr k) (insert (KStr k') v d) = lookup (KStr k) d.
Proof.
  intros Hne. apply String.eqb_neq in Hne.
  induction d as [|[k0 v0] r IH]; cbn [lookup insert].
  - simpl. now rewrite Hne.
  - destruct (key_eqb (KStr k') k0) eqn:E; cbn [lookup].
    + apply key_eqb_str_inv in E. subst k0. simpl. now rewrite Hne.
    + destruct (key_eqb (KStr k) k0); auto.
Qed.

Lemma dict_get_set_same (d : pydict) (k : string) (v : pyval) :
  dict_get (dict_set d k v) k = v.
Proof. unfold dict_get, dict_get_default, dict_set. now rewrite lookup_insert_same. Qed.

Lemma dict_get_set_other (d : pydict) (k k' : string) (v : pyval) :
  k <> k' -> dict_get (dict_set d k' v) k = dict_get d k.
Proof.
  intros H. unfold dict_get, dict_get_default, dict_set. now rewrite lookup_insert_other.
Qed.

Lemma dict_mem_set_other (d : pydict) (k k' : string) (v : pyval) :
  k <> k' -> dict_mem (dict_set d k' v) k = dict_mem d k.
Proof.
  intros H. unfold dict_mem, dict_set. now rewrite lookup_insert_other.
Qed.

(** ** C10: no action list *)

(** C10.  When the timeline has no ["action_events"] key, or its value is
    not a list, [parse_action_events] returns the empty list: no
    validation error, no exception. *)
Theorem parse_action_events_without_list (timeline : pydict) :
  is_list (dict_get timeline "action_events") = false ->
  Validator.parse_action_events timeline = Ok [].
Proof.
  unfold Validator.parse_action_events.
  destruct (dict_get timeline "action_events"); simpl; intros H;
    try reflexivity; discriminate.
Qed.

Lemma dict_get_absent (d : pydict) (k : string) :
  dict_mem d k = false -> dict_get d k = PNone.
Proof.
  unfold dict_mem, dict_get, dict_get_default.
  destruct (lookup (KStr k) d); [discriminate | reflexivity].
Qed.

Lemma parse_action_events_absent_key (timeline : pydict) :
  dict_mem timeline "action_events" = false ->
  Validator.parse_action_events timeline = Ok [].
Proof.
  intros H. unfold Validator.parse_action_events.
  now rewrite (dict_get_absent _ _ H).
Qed.

Lemma parse_action_events_without_list_witness :
  is_list (dict_get [ (KStr "timeline_version", PStr "1.0");
                      (KStr "action_events", PStr "none") ] "action_events") = false
  /\ Validator.parse_action_events [ (KStr "timeline_version", PStr "1.0");
                                     (KStr "action_events", PStr "none") ] = Ok [].
Proof.
  split; [reflexivity | apply parse_action_events_without_list; reflexivity].
Defined.

(** ** C8: the timestamped import scenario *)

(** C8.  Importing ["[00:02] second\n[00:00] first"] as [timestamped_txt]
    gives exactly two narration events: first [n2] from 0 to 2000 ms with
    text "first", then [n1] starting at 2000 ms with text "second" (its end,
    which the scenario leaves open, is 5000 ms when no video duration is
    given). *)
Theorem import_timestamped_scenario
    (parse_srt : string -> outcome (list pyval))
    (import_json : string -> outcome Timeline.Timeline)
    (detect : string -> option string -> string) :
  Timeline.import_narration_timeline parse_srt import_json detect
    scenario_content "timestamped_txt" None None
  = Ok {| Timeline.timeline_version := "1.0";
          Timeline.narration_events :=
            [ scenario_event "n2" 0 2000 "first" 2;
              scenario_event "n1" 2000 5000 "second" 1 ];
          Timeline.action_events := [] |}.
Proof. reflexivity. Qed.

(** With a known video duration [d] above 2000 ms the two events are the
    same, the second one ending at [min 5000 d]. *)
Lemma import_timestamped_scenario_bounded
    (parse_srt : string -> outcome (list pyval))
    (import_json : string -> outcome Timeline.Timeline)
    (detect : string -> option string -> string) (d : Z) :
  2000 < d ->
  Timeline.import_narration_timeline parse_srt import_json detect
    scenario_content "timestamped_txt" None (Some d)
  = Ok {| Timeline.timeline_version := "1.0";
          Timeline.narration_events :=
            [ scenario_event "n2" 0 2000 "first" 2;
              scenario_event "n1" 2000 (Z.min 5000 d) "second" 1 ];
          Timeline.action_events := [] |}.
Proof.
  intros Hd.
  assert (Hparse : Timeline.parse_timestamped_txt scenario_content
                   = Ok [ scenario_raw "n1" 2000 "second" 1; scenario_raw "n2" 0 "first" 2 ])
    by reflexivity.
  unfold Timeline.import_narration_timeline.
  lazy -[Timeline.parse_timestamped_txt Timeline.normalize_narration_events
         Timeline.events_from_dicts scenario_content bind scenario_event Z.min].
  rewrite Hparse. cbn [bind].
  unfold Timeline.normalize_narration_events.
  change (Timeline.prepare 1 [ scenario_raw "n1" 2000 "second" 1;
                               scenario_raw "n2" 0 "first" 2 ])
    with (Ok [ Timeline.mkPrepared (scenario_fields "n1" 2000 "second" 1) 2000 (-1) 1;
               Timeline.mkPrepared (scenario_fields "n2" 0 "first" 2) 0 (-1) 2 ]).
  cbn [bind].
  change (stable_sort Timeline.prepared_leb
            [ Timeline.mkPrepared (scenario_fields "n1" 2000 "second" 1) 2000 (-1) 1;
              Timeline.mkPrepared (scenario_fields "n2" 0 "first" 2) 0 (-1) 2 ])
    with [ Timeline.mkPrepared (scenario_fields "n2" 0 "first" 2) 0 (-1) 2;
           Timeline.mkPrepared (scenario_fields "n1" 2000 "second" 1) 2000 (-1) 1 ].
  replace (0 <? d) with true by (symmetry; apply Z.ltb_lt; lia).
  cbn [Timeline.normalize_loop Timeline.p_start_ms Timeline.p_end_ms Timeline.p_raw
       Timeline.next_start_after].
  replace (d <=? 0) with false by (symmetry; apply Z.leb_gt; lia).
  replace (d <=? 2000) with false by (symmetry; apply Z.leb_gt; lia).
  change (-1 <=? 0) with true. change (-1 <=? 2000) with true.
  change (0 <? 2000) with true. cbv iota.
  replace (d <? 2000) with false by (symmetry; apply Z.ltb_ge; lia).
  change (2000 <=? 0) with false. cbv iota.
  change (2000 + 3000) with 5000.
  assert (Hend : (if (if d <? 5000 then d else 5000) <=? 2000 then 2000 + 500
                  else if d <? 5000 then d else 5000) = Z.min 5000 d).
  { destruct (d <? 5000) eqn:E.
    - apply Z.ltb_lt in E.
      replace (d <=? 2000) with false by (symmetry; apply Z.leb_gt; lia).
      cbv iota. lia.
    - apply Z.ltb_ge in E. change (5000 <=? 2000) with false. cbv iota. lia. }
  rewrite Hend. reflexivity.
Qed.

(** ** C1: normalised narration events *)

Lemma normalize_loop_ends_after_start (bounded : option Z) (dflt min_d : Z) :
  0 < min_d ->
  forall items idx seen out,
    Timeline.normalize_loop bounded dflt min_d idx seen items = Ok out ->
    Forall ends_after_start out.
Proof.
  intros Hmin. induction items as [|item later IH]; intros idx seen out H.
  - inversion H. constructor.
  - cbn [Timeline.normalize_loop] in H.
    destruct (match bounded with
              | Some b => b <=? Timeline.p_start_ms item
              | None => false
              end); [eauto|].
    destruct (Timeline.seen_get seen _) as [n|];
      (destruct (dict_or_empty _) as [meta|]; cbn [bind] in H; [|discriminate];
       destruct (Timeline.normalize_loop _ _ _ _ _ later) as [rest|] eqn:Hrest;
       cbn [bind] in H; [|discriminate];
       inversion H; subst out; constructor; [|eauto];
       eexists _, _, _; split; [reflexivity|];
       split; [reflexivity|]; split; [reflexivity|];
       match goal with
       | |- _ < (if ?c then _ else _) => destruct c eqn:E; [lia | apply Z.leb_gt in E; lia]
       end).
Qed.

(** The first half of C1 holds: every event [normalize_narration_events]
    returns has [end_ms > start_ms]. *)
Lemma normalize_ends_after_start (raw_events : list pyval) (video_duration_ms : option Z)
    (out : list pyval) :
  Timeline.normalize_narration_events raw_events video_duration_ms 3000 500 = Ok out ->
  Forall ends_after_start out.
Proof.
  unfold Timeline.normalize_narration_events.
  destruct raw_events as [|r0 rs]; intros H.
  - inversion H. constructor.
  - destruct (Timeline.prepare 1 (r0 :: rs)) as [prepared|]; cbn [bind] in H; [|discriminate].
    destruct (Timeline.normalize_loop _ _ _ _ _ _) as [normalized|] eqn:E;
      cbn [bind] in H; [|discriminate].
    destruct normalized; [discriminate|]. inversion H; subst out.
    eapply normalize_loop_ends_after_start; [|exact E]. lia.
Qed.

(** C1.  The ids are not always distinct.  A duplicate id gets the suffix
    [_N], but the suffixed id is not recorded in [seen_ids]: on the ids
    [a], [a], [a_1] the second event becomes [a_1] and the third keeps
    [a_1].  (Every returned event does end after it starts.) *)
Theorem normalize_ids_collide :
  exists out,
    Timeline.normalize_narration_events colliding_events None 3000 500 = Ok out
    /\ map event_id out = ["a"; "a_1"; "a_1"]
    /\ ~ NoDup (map event_id out)
    /\ Forall ends_after_start out.
Proof.
  destruct (Timeline.normalize_narration_events colliding_events None 3000 500)
    as [out|] eqn:E; [|discriminate E].
  exists out. split; [reflexivity|].
  pose proof (normalize_ends_after_start _ _ _ E) as Hends.
  vm_compute in E. inversion E; subst out; clear E.
  split; [reflexivity|]. split; [|exact Hends].
  cbn. intros Hnd. inversion Hnd as [|x l Hin Hnd']; subst.
  inversion Hnd' as [|y l' Hin' _]; subst.
  apply Hin'. left. reflexivity.
Qed.

(** ** C7: the migration applied twice *)

(** C7.  The migration is not idempotent on [blank_message_project]: the
    first pass strips the blank message to the empty text and reports no
    error; the second pass, finding the message empty, takes it from
    [error] and reports an error, so it changes the document again
    ([changed] is true on the second pass too).  The clock is not read. *)
Theorem ensure_project_defaults_twice (clk : clock) :
  Storage.ensure_project_defaults clk blank_message_project 0%nat
    = Ok (migrated_once, true, EmptyString, 0%nat)
  /\ Storage.ensure_project_defaults clk migrated_once 0%nat
     = Ok (migrated_twice, true, EmptyString, 0%nat)
  /\ first_render_summary migrated_once = summary_of false EmptyString
  /\ first_render_summary migrated_twice = summary_of true "boom"
  /\ py_eqb (PDict migrated_twice) (PDict migrated_once) = false
  /\ migrated_twice <> migrated_once.
Proof.
  split; [vm_compute; reflexivity|].
  split; [vm_compute; reflexivity|].
  split; [vm_compute; reflexivity|].
  split; [vm_compute; reflexivity|].
  split; [vm_compute; reflexivity|].
  intros Heq. assert (H : first_render_summary migrated_twice = first_render_summary migrated_once)
    by (rewrite Heq; reflexivity).
  vm_compute in H. discriminate H.
Qed.

(** ** The hash and the canonical JSON on known values *)

Example sha256_abc :
  TtsCache.sha256_hexdigest "abc"
  = "ba7816bf8f01cfea414140de5dae2223b00361a396177a9cb410ff61f20015ad".
Proof. vm_compute. reflexivity. Qed.

Example sha256_two_blocks :
  TtsCache.sha256_hexdigest
    "the quick brown fox jumps over the lazy dog and keeps running past the first block"
  = "ca370c70fabca88842b51d7754ca0ce23885f59d5321c15eae9735dd0f28d55d".
Proof. vm_compute. reflexivity. Qed.

(** ** C6: the cache key *)

Lemma split_from_app (a s1 s2 : string) :
  (forall cur, split_from cur s1 = split_from cur s2) ->
  forall cur, split_from cur (a ++ s1) = split_from cur (a ++ s2).
Proof.
  intros H. induction a as [|c a IH]; intros cur; cbn [append split_from].
  - apply H.
  - destruct (is_space c); [destruct cur|]; now rewrite ?IH.
Qed.

(** A run of two blanks splits like one blank. *)
Lemma collapse_whitespace_blank_run (a b : string) (c1 c2 : ascii) :
  is_space c1 = true -> is_space c2 = true ->
  TtsCache.collapse_whitespace (a ++ String c1 (String c2 b))
  = TtsCache.collapse_whitespace (a ++ String c1 b).
Proof.
  intros H1 H2. unfold TtsCache.collapse_whitespace, split. f_equal.
  apply split_from_app. intros cur. cbn [split_from]. rewrite H1, H2.
  destruct cur; reflexivity.
Qed.

(** Which blank character separates two words does not matter. *)
Lemma collapse_whitespace_blank_kind (a b : string) (c1 c2 : ascii) :
  is_space c1 = true -> is_space c2 = true ->
  TtsCache.collapse_whitespace (a ++ String c1 b)
  = TtsCache.collapse_whitespace (a ++ String c2 b).
Proof.
  intros H1 H2. unfold TtsCache.collapse_whitespace, split. f_equal.
  apply split_from_app. intros cur. cbn [split_from]. now rewrite H1, H2.
Qed.

(** Blanks in front and at the end do not matter. *)
Lemma collapse_whitespace_leading (c : ascii) (t : string) :
  is_space c = true ->
  TtsCache.collapse_whitespace (String c t) = TtsCache.collapse_whitespace t.
Proof.
  intros H. unfold TtsCache.collapse_whitespace, split. cbn [split_from]. now rewrite H.
Qed.

Lemma split_from_trailing (c : ascii) (t : string) :
  is_space c = true ->
  forall cur, split_from cur (t ++ String c EmptyString) = split_from cur t.
Proof.
  intros H. induction t as [|x t IH]; intros cur; cbn [append split_from].
  - rewrite H. destruct cur; reflexivity.
  - destruct (is_space x); [destruct cur|]; now rewrite ?IH.
Qed.

Lemma collapse_whitespace_trailing (c : ascii) (t : string) :
  is_space c = true ->
  TtsCache.collapse_whitespace (t ++ String c EmptyString) = TtsCache.collapse_whitespace t.
Proof.
  intros H. unfold TtsCache.collapse_whitespace, split. f_equal.
  now apply split_from_trailing.
Qed.

(** The key of a call, on the value [hashlib] gives for the same payload. *)
Example cache_key_value :
  TtsCache.build_tts_cache_key no_files "  hello   world "
    [ (KStr "speed_factor", PFloat (FDec 1 0)); (KStr "seed", PInt 123) ]
    "http://tts/tts" "chatterbox_tts_json" None None
  = Ok "e94ca33208a9a2e0f95345fa0bb43834e5d7f226161d35ca970795d876d1763e".
Proof. vm_compute. reflexivity. Qed.

(** ** C3: bounded histories *)

Lemma trim_history_length (records : list pyval) (limit : Z) :
  1 <= limit -> Z.of_nat (List.length (Storage._trim_history records limit)) <= limit.
Proof.
  intros H. unfold Storage._trim_history.
  destruct (Z.of_nat (List.length records) <=? limit) eqn:E.
  - now apply Z.leb_le in E.
  - apply Z.leb_gt in E.
    replace (0 <? limit) with true by (symmetry; apply Z.ltb_lt; lia).
    rewrite length_skipn. lia.
Qed.

Lemma last_skipn {A : Type} (l : list A) (n : nat) (d : A) :
  (n < List.length l)%nat -> last (skipn n l) d = last l d.
Proof.
  revert n. induction l as [|x l IH]; intros n H; [simpl in H; lia|].
  destruct n as [|n]; [reflexivity|].
  cbn [skipn]. rewrite IH by (simpl in H; lia).
  destruct l; [simpl in H; lia | reflexivity].
Qed.

Lemma trim_history_last (records : list pyval) (limit : Z) (x : pyval) :
  1 <= limit ->
  last (Storage._trim_history (records ++ [x]) limit) PNone = x.
Proof.
  intros H. unfold Storage._trim_history.
  destruct (Z.of_nat (List.length (records ++ [x])) <=? limit) eqn:E.
  - apply last_last.
  - replace (0 <? limit) with true by (symmetry; apply Z.ltb_lt; lia).
    rewrite last_skipn; [apply last_last|].
    rewrite length_app. simpl. lia.
Qed.

Lemma record_id_nonempty (clk : clock) (pre : string) (own : pyval) (fallback : option string)
    (t t' : nat) (r : string) :
  is_empty pre = false ->
  Storage.record_id clk pre own fallback t = Ok (r, t') -> is_empty r = false.
Proof.
  intros Hpre. unfold Storage.record_id.
  destruct (is_empty (strip (py_str (py_or own (PStr EmptyString))))) eqn:E1; cbn [negb].
  - destruct (is_empty (strip match fallback with Some f => f | None => EmptyString end)) eqn:E2;
      cbn [negb].
    + unfold stamped_id, tbind, utc_now_iso, tret. intros H. inversion H; subst.
      destruct pre; [discriminate | reflexivity].
    + unfold tret. intros H. now inversion H; subst.
  - unfold tret. intros H. now inversion H; subst.
Qed.

Ltac dict_simpl :=
  repeat (rewrite dict_get_set_same
          || (rewrite dict_get_set_other by (apply String.eqb_neq; reflexivity))).

Ltac step_timed H :=
  match type of H with
  | tbind ?c _ ?t = Ok _ =>
      unfold tbind at 1 in H;
      let E := fresh "E" in
      destruct (c t) as [[? ?]|] eqn:E; [|discriminate H]
  end.

(** The normalised render record carries a non-empty [render_id] text. *)
Lemma normalize_render_record_id (clk : clock) (record : pydict) (fallback : option string)
    (t t' : nat) (normalized : pydict) :
  Storage.normalize_render_record clk record fallback t = Ok (normalized, t') ->
  exists r, dict_get normalized "render_id" = PStr r /\ is_empty r = false.
Proof.
  unfold Storage.normalize_render_record. intros H.
  step_timed H. apply record_id_nonempty in E; [|reflexivity].
  step_timed H. step_timed H.
  unfold tret in H.
  match type of H with
  | Ok (?n, _) = Ok _ => assert (Hn : normalized = n) by (inversion H; reflexivity)
  end.
  exists s. split; [|exact E].
  rewrite Hn. destruct (truthy _); now dict_simpl.
Qed.

(** The normalised demo record carries a non-empty [run_id] text. *)
Lemma normalize_demo_run_record_id (clk : clock) (record : pydict) (fallback : option string)
    (t t' : nat) (normalized : pydict) :
  Storage.normalize_demo_run_record clk record fallback t = Ok (normalized, t') ->
  exists r, dict_get normalized "run_id" = PStr r /\ is_empty r = false.
Proof.
  unfold Storage.normalize_demo_run_record. intros H.
  step_timed H. apply record_id_nonempty in E; [|reflexivity].
  step_timed H. step_timed H. step_timed H. step_timed H.
  unfold tret in H.
  match type of H with
  | Ok (?n, _) = Ok _ => assert (Hn : normalized = n) by (inversion H; reflexivity)
  end.
  exists s. split; [|exact E].
  rewrite Hn. destruct (dict_mem _ _); now dict_simpl.
Qed.

Lemma py_or_nonempty_str (r : string) (other : pyval) :
  is_empty r = false -> py_str (py_or (PStr r) other) = r.
Proof. intros H. unfold py_or. cbn [truthy]. now rewrite H. Qed.

(** C3.  After [append_render_history] (with the default limit),
    [renders.history] has at most 50 records and [renders.last_render_id]
    is the [render_id] of the last one; after [append_demo_run],
    [demo.runs] has at most 50 records and [demo.last_run_id] is the
    [run_id] of the last one.  This holds for every project document,
    record, fallback id and clock, whenever the append returns. *)
Theorem append_keeps_history_bounded (clk : clock) (proj record : pydict)
    (fallback : option string) (t : nat) :
  (forall proj' normalized t',
      Storage.append_render_history clk proj record fallback Storage.MAX_RENDER_HISTORY t
        = Ok (proj', normalized, t') ->
      history_invariant proj' "renders" "history" "last_render_id" "render_id" 50)
  /\ (forall proj' normalized t',
         Storage.append_demo_run clk proj record fallback Storage.MAX_DEMO_RUN_HISTORY t
           = Ok (proj', normalized, t') ->
         history_invariant proj' "demo" "runs" "last_run_id" "run_id" 50).
Proof.
  split; intros proj' normalized t' H.
  - unfold Storage.append_render_history in H. step_timed H.
    destruct (normalize_render_record_id _ _ _ _ _ _ E) as (r & Hr & Hne).
    unfold tret in H. inversion H; subst proj' normalized t'; clear H.
    unfold history_invariant.
    match goal with
    | |- context [dict_set proj _ (PDict ?st)] => exists st
    end.
    match goal with
    | |- context [PList (Storage._trim_history ?l ?lim)] =>
        exists (Storage._trim_history l lim)
    end.
    exists p, r. dict_simpl.
    split; [reflexivity|]. split; [reflexivity|].
    split; [apply (trim_history_length _ 50); lia|].
    split; [apply (trim_history_last _ 50); lia|].
    split; [exact Hr|].
    rewrite Hr. now rewrite py_or_nonempty_str.
  - unfold Storage.append_demo_run in H. step_timed H.
    destruct (normalize_demo_run_record_id _ _ _ _ _ _ E) as (r & Hr & Hne).
    unfold tret in H. inversion H; subst proj' normalized t'; clear H.
    unfold history_invariant.
    match goal with
    | |- context [dict_set proj _ (PDict ?st)] => exists st
    end.
    match goal with
    | |- context [PList (Storage._trim_history ?l ?lim)] =>
        exists (Storage._trim_history l lim)
    end.
    exists p, r. dict_simpl.
    split; [reflexivity|]. split; [reflexivity|].
    split; [apply (trim_history_length _ 50); lia|].
    split; [apply (trim_history_last _ 50); lia|].
    split; [exact Hr|].
    rewrite Hr. now rewrite py_or_nonempty_str.
Qed.

(** The append returns unless [dict(record["correlation"])] raises, that
    is, whenever the record's correlation is a dict, or absent. *)
Lemma append_render_history_returns (clk : clock) (proj record : pydict)
    (fallback : option string) (limit : Z) (t : nat) :
  is_dict (py_or (dict_get record "correlation") (PDict [])) = true ->
  exists proj' normalized t',
    Storage.append_render_history clk proj record fallback limit t
      = Ok (proj', normalized, t').
Proof.
  intros Hc. unfold Storage.append_render_history, Storage.normalize_render_record.
  unfold tbind at 1. unfold tbind at 1.
  destruct (Storage.record_id clk "render_" (dict_get record "render_id") fallback t)
    as [[rid t1]|] eqn:E.
  2:{ exfalso. revert E. unfold Storage.record_id, stamped_id, tbind, utc_now_iso, tret.
      repeat match goal with |- context [if ?c then _ else _] => destruct c end;
        discriminate. }
  unfold tbind at 1.
  destruct (Storage.created_at_of clk _ t1) as [[created t2]|] eqn:E2.
  2:{ exfalso. revert E2. unfold Storage.created_at_of, utc_now_iso, tret.
      destruct (truthy _); discriminate. }
  unfold tbind at 1, tlift at 1.
  dict_simpl.
  unfold dict_or_empty.
  destruct (py_or (dict_get record "correlation") (PDict [])) as [| | | | | |c] eqn:Ec;
    try discriminate Hc.
  cbn [py_dict]. unfold tret. eexists _, _, _. reflexivity.
Qed.

(** ** C2: the order of the parsed actions *)

Section SortFacts.
Context {A : Type} (leb : A -> A -> bool) (R : A -> A -> Prop).
Hypothesis R_trans : forall x y z, R x y -> R y z -> R x z.

Lemma in_insert_sorted (x z : A) (l : list A) :
  In z (insert_sorted leb x l) <-> z = x \/ In z l.
Proof.
  induction l as [|y r IH]; cbn [insert_sorted].
  - simpl. intuition.
  - destruct (leb x y); simpl in *; intuition.
Qed.

Lemma insert_sorted_perm (x : A) (l : list A) :
  Permutation (insert_sorted leb x l) (x :: l).
Proof.
  induction l as [|y r IH]; cbn [insert_sorted]; [reflexivity|].
  destruct (leb x y); [reflexivity|].
  rewrite IH. apply perm_swap.
Qed.

Lemma stable_sort_perm (l : list A) : Permutation (stable_sort leb l) l.
Proof.
  induction l as [|x r IH]; cbn [stable_sort]; [reflexivity|].
  rewrite insert_sorted_perm. now constructor.
Qed.

Lemma insert_sorted_strongly (x : A) (l : list A) :
  StronglySorted R l -> Forall (decides leb R x) l ->
  StronglySorted R (insert_sorted leb x l).
Proof.
  induction l as [|y r IH]; intros Hs Hd; cbn [insert_sorted].
  - repeat constructor.
  - inversion Hs as [|? ? Hsr Hyr]; subst. inversion Hd as [|? ? [Ht Hf] Hdr]; subst.
    destruct (leb x y) eqn:E.
    + constructor; [exact Hs|]. constructor; [auto|].
      eapply Forall_impl; [|exact Hyr]. intros z Hz. eauto.
    + constructor; [auto|].
      apply Forall_forall. intros z Hz. apply in_insert_sorted in Hz.
      destruct Hz as [->|Hz]; [auto|].
      rewrite Forall_forall in Hyr. auto.
Qed.

Lemma stable_sort_strongly (l : list A) :
  ForallOrdPairs (decides leb R) l -> StronglySorted R (stable_sort leb l).
Proof.
  induction l as [|x r IH]; intros H; cbn [stable_sort]; [constructor|].
  inversion H as [|? ? Hx Hr]; subst.
  apply insert_sorted_strongly; [auto|].
  apply Forall_forall. intros y Hy.
  rewrite Forall_forall in Hx. apply Hx.
  eapply Permutation_in; [apply stable_sort_perm | exact Hy].
Qed.
End SortFacts.

Lemma strongly_sorted_nth {A : Type} (R : A -> A -> Prop) (l : list A) :
  StronglySorted R l ->
  forall i j a b, (i < j)%nat -> nth_error l i = Some a -> nth_error l j = Some b -> R a b.
Proof.
  induction 1 as [|x l Hs IH Hx]; intros i j a b Hij Ha Hb.
  - destruct i; discriminate.
  - destruct j as [|j]; [lia|]. cbn [nth_error] in Hb.
    destruct i as [|i]; cbn [nth_error] in Ha.
    + inversion Ha; subst. rewrite Forall_forall in Hx. apply Hx.
      eapply nth_error_In; eauto.
    + apply (IH i j a b); [lia | exact Ha | exact Hb].
Qed.

Lemma before_trans (x y z : Validator.DemoActionEvent) :
  before x y -> before y z -> before x z.
Proof. unfold before. lia. Qed.

Lemma before_leb (a b : Validator.DemoActionEvent) :
  before a b -> Validator.event_leb a b = true.
Proof.
  unfold before, Validator.event_leb. intros [H|[H1 H2]].
  - apply Z.ltb_lt in H. now rewrite H.
  - apply Z.eqb_eq in H1. apply Z.ltb_lt in H2. rewrite H1, H2. cbn.
    now rewrite orb_true_r.
Qed.

Lemma event_leb_decides (a b : Validator.DemoActionEvent) :
  Validator.source_index a <> Validator.source_index b ->
  decides Validator.event_leb before a b.
Proof.
  intros Hne. unfold decides, Validator.event_leb, before.
  destruct (Validator.at_ms a <? Validator.at_ms b) eqn:E1; cbn [orb].
  - apply Z.ltb_lt in E1. split; [auto | discriminate].
  - apply Z.ltb_ge in E1.
    destruct (Validator.at_ms a =? Validator.at_ms b) eqn:E2; cbn [andb].
    + apply Z.eqb_eq in E2.
      destruct (Validator.source_index a <? Validator.source_index b) eqn:E3; cbn [orb].
      * apply Z.ltb_lt in E3. split; [auto | discriminate].
      * apply Z.ltb_ge in E3.
        destruct (Validator.source_index a =? Validator.source_index b) eqn:E4; cbn [andb].
        -- apply Z.eqb_eq in E4. contradiction.
        -- split; [discriminate | intros _; right; lia].
    + apply Z.eqb_neq in E2. split; [discriminate | intros _; left; lia].
Qed.

(** Inversion of a successful step of a computation that may raise. *)
Ltac invert_ok H :=
  repeat
    match type of H with
    | bind ?c _ = Ok _ =>
        let E := fresh "E" in
        destruct c eqn:E; cbn [bind] in H; [|discriminate H]
    | (if ?c then _ else _) = Ok _ =>
        let E := fresh "E" in destruct c eqn:E; try discriminate H
    | match ?x with _ => _ end = Ok _ =>
        let E := fresh "E" in destruct x eqn:E; try discriminate H
    end.

Lemma parse_action_source_index (idx : Z) (seen : list string) (raw : pyval)
    (ev : Validator.DemoActionEvent) :
  Validator.parse_action idx seen raw = Ok ev -> Validator.source_index ev = idx.
Proof.
  unfold Validator.parse_action. intros H.
  destruct raw; try discriminate H.
  invert_ok H; inversion H; reflexivity.
Qed.

Lemma parse_actions_positions (raw_actions : list pyval) :
  forall idx seen parsed,
    Validator.parse_actions_from idx seen raw_actions = Ok parsed ->
    map Validator.source_index parsed = positions idx (List.length raw_actions).
Proof.
  induction raw_actions as [|raw more IH]; intros idx seen parsed H;
    cbn [Validator.parse_actions_from] in H.
  - inversion H. reflexivity.
  - invert_ok H. inversion H; subst parsed.
    cbn [map List.length positions]. f_equal.
    + eapply parse_action_source_index; eauto.
    + eapply IH; eauto.
Qed.

Lemma parse_actions_entrywise (raw_actions : list pyval) :
  forall idx seen parsed,
    Validator.parse_actions_from idx seen raw_actions = Ok parsed ->
    Forall2 (fun raw ev => exists idx seen, Validator.parse_action idx seen raw = Ok ev)
            raw_actions parsed.
Proof.
  induction raw_actions as [|raw more IH]; intros idx seen parsed H;
    cbn [Validator.parse_actions_from] in H.
  - inversion H. constructor.
  - invert_ok H. inversion H; subst parsed.
    constructor; [eauto | eapply IH; eauto].
Qed.

Lemma positions_lower_bound (n : nat) :
  forall idx z, In z (positions idx n) -> idx <= z.
Proof.
  induction n as [|n IH]; intros idx z H; cbn [positions] in H; [contradiction|].
  destruct H as [<-|H]; [lia|]. apply IH in H. lia.
Qed.

Lemma distinct_positions (parsed : list Validator.DemoActionEvent) :
  forall idx n,
    map Validator.source_index parsed = positions idx n ->
    ForallOrdPairs (decides Validator.event_leb before) parsed.
Proof.
  induction parsed as [|a r IH]; intros idx n H; [constructor|].
  destruct n as [|n]; [discriminate|]. cbn [map positions] in H.
  injection H as Ha Hr. constructor; [|eapply IH; exact Hr].
  apply Forall_forall. intros b Hb. apply event_leb_decides.
  assert (Hin : In (Validator.source_index b) (positions (idx + 1) n))
    by (rewrite <- Hr; now apply in_map).
  apply positions_lower_bound in Hin. lia.
Qed.

(** C2.  When [parse_action_events] returns, its result is sorted by the
    key [(at_ms, source_index, id)], and two actions with the same [at_ms]
    are in their source order. *)
Theorem parse_action_events_sorted (timeline : pydict)
    (events : list Validator.DemoActionEvent) :
  Validator.parse_action_events timeline = Ok events ->
  sorted_by_key events /\ ties_in_source_order events /\ indexed_by_position timeline events.
Proof.
  unfold Validator.parse_action_events, indexed_by_position. intros H.
  destruct (dict_get timeline "action_events") as [| | | | |raw_actions|];
    try (inversion H; subst; split; [constructor|split; [|reflexivity]];
         intros [|i] j x y _ Hi; discriminate Hi).
  destruct (Validator.parse_actions_from 0 [] raw_actions) as [parsed|] eqn:E;
    cbn [bind] in H; [|discriminate H].
  inversion H; subst events; clear H.
  pose proof (parse_actions_positions _ _ _ _ E) as Hpos.
  assert (Hs : StronglySorted before (stable_sort Validator.event_leb parsed)).
  { apply stable_sort_strongly; [exact before_trans|].
    eapply distinct_positions; eauto. }
  split; [|split].
  - unfold sorted_by_key. clear -Hs.
    induction Hs as [|x l Hs IH Hx]; constructor; auto.
    eapply Forall_impl; [|exact Hx]. intros b Hb. unfold before in Hb. unfold key_le.
    destruct Hb as [Hb|[Hb1 Hb2]]; [now left | right; split; [exact Hb1 | now left]].
  - intros i j a b Hij Ha Hb Hat.
    pose proof (strongly_sorted_nth _ _ Hs i j a b Hij Ha Hb) as Hab.
    unfold before in Hab. lia.
  - exists parsed. split; [apply stable_sort_perm|].
    split; [eapply parse_actions_entrywise; exact E | exact Hpos].
Qed.

Example tie_events_ids : map Validator.id tie_events = ["first"; "z_action"; "a_action"].
Proof. reflexivity. Qed.

Lemma parse_action_events_sorted_witness :
  Validator.parse_action_events tie_timeline = Ok tie_events
  /\ sorted_by_key tie_events /\ ties_in_source_order tie_events
  /\ indexed_by_position tie_timeline tie_events.
Proof.
  split; [reflexivity | apply parse_action_events_sorted; reflexivity].
Defined.

(** ** C5: retries *)

(** C5, as stated, fails: [Timeout 250ms exceeded] does not contain
    [timeout], so the claim calls it an [action_error] and allows no
    retry; the code lower-cases the text first, classifies it as
    [timeout] and retries. *)
Lemma classification_ignores_case :
  contains "timeout" "Timeout 250ms exceeded" = false
  /\ classify_as_stated "Timeout 250ms exceeded" = "action_error"
  /\ Runner._classify_error_type "Timeout 250ms exceeded" = "timeout"
  /\ Runner._is_retryable_error (Runner._classify_error_type "Timeout 250ms exceeded") = true.
Proof. repeat split. Qed.

Lemma classify_classified (error_text : string) :
  classified error_text (Runner._classify_error_type error_text).
Proof.
  unfold classified, Runner._classify_error_type. cbv zeta.
  destruct (contains "timeout" (lower error_text));
    [repeat split; intros; (reflexivity || discriminate)|].
  destruct (contains "target closed" (lower error_text) || contains "context closed" (lower error_text)
            || contains "browser has been closed" (lower error_text));
    [repeat split; intros; (reflexivity || discriminate)|].
  destruct (contains "net::" (lower error_text) || contains "connection reset" (lower error_text));
    repeat split; intros; (reflexivity || discriminate).
Qed.

Lemma retryable_types (error_type : string) :
  Runner._is_retryable_error error_type = true
  <-> error_type = "timeout" \/ error_type = "transient_browser"
      \/ error_type = "transient_network".
Proof.
  unfold Runner._is_retryable_error, Validator.mem. cbn [existsb].
  rewrite !orb_true_iff, !String.eqb_eq. intuition discriminate.
Qed.

Lemma nth_error_snoc {A : Type} (l : list A) (x y : A) (i : nat) :
  nth_error (l ++ [x]) i = Some y ->
  ((i < List.length l)%nat /\ nth_error l i = Some y) \/ (i = List.length l /\ y = x).
Proof.
  intros H. destruct (Nat.lt_ge_cases i (List.length l)) as [Hlt|Hge].
  - left. split; [exact Hlt|]. now rewrite nth_error_app1 in H.
  - right. rewrite nth_error_app2 in H by exact Hge.
    destruct (i - List.length l)%nat as [|k] eqn:E.
    + cbn in H. inversion H. split; [lia | reflexivity].
    + cbn in H. destruct k; discriminate.
Qed.

Lemma attempt_loop_discipline (pg : Runner.page) (a : Validator.DemoActionEvent)
    (actual drift : Z) (dir : Fs.path) (max_retries max_attempts : Z) :
  forall remaining attempt step logs last_error last_type,
    (1 <= remaining)%nat ->
    Z.of_nat remaining = max_attempts - attempt + 1 ->
    Z.of_nat (List.length logs) = attempt - 1 ->
    numbered logs -> all_retried max_attempts logs ->
    let x := Runner.attempt_loop pg a actual drift dir max_retries max_attempts
               remaining attempt step logs last_error last_type in
    Runner.attempts x <= max_attempts
    /\ Z.of_nat (List.length (Runner.attempt_logs x)) = Runner.attempts x
    /\ numbered (Runner.attempt_logs x)
    /\ retried_when_due max_attempts (Runner.attempt_logs x).
Proof.
  induction remaining as [|remaining IH];
    intros attempt step logs last_error last_type Hrem Hfuel Hlen Hnum Hall; [lia|].
  cbn [Runner.attempt_loop]. cbv zeta.
  assert (Hnum' : forall l, Runner.al_attempt l = attempt -> numbered (logs ++ [l])).
  { intros l Hl i l' Hi. apply nth_error_snoc in Hi.
    destruct Hi as [[_ Hi]|[-> ->]]; [now apply Hnum | lia]. }
  assert (Hlen' : forall l, Z.of_nat (List.length (logs ++ [l])) = attempt).
  { intros l. rewrite length_app. cbn. lia. }
  assert (Hlast : forall l,
             (Runner.al_status l = "error" ->
              ~ (Runner.al_attempt l < max_attempts
                 /\ Runner._is_retryable_error
                      (Runner._classify_error_type (Runner.al_error l)) = true)) ->
             retried_when_due max_attempts (logs ++ [l])).
  { intros l Hl i l' Hi Herr. rewrite length_app. cbn [List.length].
    apply nth_error_snoc in Hi. destruct Hi as [[Hlt Hi]|[-> ->]].
    - split; [intros _; now apply (Hall i) | intros _; lia].
    - split; [lia | intros H; exfalso; now apply Hl]. }
  destruct (Runner._execute_action pg step a (Validator.timeout_ms a)) as [error_text|].
  - destruct (Runner._is_retryable_error (Runner._classify_error_type error_text)
              && (attempt <? max_attempts)) eqn:Ewill.
    + apply andb_true_iff in Ewill. destruct Ewill as [Hretry Hlt]. apply Z.ltb_lt in Hlt.
      apply IH.
      * lia.
      * lia.
      * rewrite Hlen'. lia.
      * apply Hnum'. reflexivity.
      * intros i l Hi. apply nth_error_snoc in Hi.
        destruct Hi as [[_ Hi]|[_ ->]]; [now apply (Hall i)|].
        cbn [Runner.al_status Runner.al_attempt Runner.al_error]. split; [exact Hlt | exact Hretry].
    + cbn [Runner.attempts Runner.attempt_logs].
      split; [lia|]. split; [apply Hlen'|]. split; [apply Hnum'; reflexivity|].
      apply Hlast. cbn [Runner.al_status Runner.al_attempt Runner.al_error]. intros _ [Hlt Hretry].
      apply Z.ltb_lt in Hlt. rewrite Hretry, Hlt in Ewill. discriminate Ewill.
  - cbn [Runner.attempts Runner.attempt_logs].
    split; [lia|]. split; [apply Hlen'|]. split; [apply Hnum'; reflexivity|].
    apply Hlast. cbn [Runner.al_status Runner.al_attempt Runner.al_error]. discriminate.
Qed.

(** C5, amended.  An action with [retries = r >= 0] gets at most [1 + r]
    attempts, the attempt log holding one entry per attempt; after a
    failed attempt a further one is made if and only if attempts remain
    and its error text classifies as retryable.  The classification is
    made on the lower-cased text, first match first: [timeout]; then
    [target closed], [context closed] or [browser has been closed]; then
    [net::] or [connection reset]; else [action_error]; the first three
    kinds are the retryable ones. *)
Theorem retry_discipline (pg : Runner.page) (a : Validator.DemoActionEvent)
    (actual_at_ms drift_ms : Z) (screenshot_dir : Fs.path) :
  0 <= Validator.retries a ->
  let x := Runner._execute_action_with_retry pg a actual_at_ms drift_ms screenshot_dir in
  Runner.attempts x <= 1 + Validator.retries a
  /\ Z.of_nat (List.length (Runner.attempt_logs x)) = Runner.attempts x
  /\ numbered (Runner.attempt_logs x)
  /\ retried_when_due (1 + Validator.retries a) (Runner.attempt_logs x)
  /\ (forall error_text, classified error_text (Runner._classify_error_type error_text))
  /\ (forall error_type,
         Runner._is_retryable_error error_type = true
         <-> error_type = "timeout" \/ error_type = "transient_browser"
             \/ error_type = "transient_network").
Proof.
  intros Hr x. subst x. unfold Runner._execute_action_with_retry.
  rewrite Z.max_r by exact Hr.
  pose proof (attempt_loop_discipline pg a actual_at_ms drift_ms screenshot_dir
                (Validator.retries a) (1 + Validator.retries a)
                (Z.to_nat (1 + Validator.retries a)) 1 0%nat [] EmptyString EmptyString)
    as H.
  cbv zeta in H.
  destruct H as (H1 & H2 & H3 & H4).
  - lia.
  - lia.
  - reflexivity.
  - intros [|i] l Hi; discriminate Hi.
  - intros [|i] l Hi; discriminate Hi.
  - split; [exact H1|]. split; [exact H2|]. split; [exact H3|]. split; [exact H4|].
    split; [apply classify_classified | apply retryable_types].
Qed.

Lemma retry_discipline_witness :
  0 <= Validator.retries click_once_more
  /\ Runner.attempts
       (Runner._execute_action_with_retry flaky_page click_once_more 5 5 (Fs.Path "/shots"))
     <= 1 + Validator.retries click_once_more.
Proof.
  split; [cbn; lia|].
  apply (retry_discipline flaky_page click_once_more 5 5 (Fs.Path "/shots")). cbn. lia.
Defined.

(** Scenario 4 of the specification: a click with one retry whose page
    raises [Timeout 250ms exceeded] once and then succeeds. *)
Example retry_then_succeed :
  let x := Runner._execute_action_with_retry flaky_page click_once_more 5 5 (Fs.Path "/shots") in
  Runner.status x = "ok" /\ Runner.attempts x = 2 /\ Runner.retry_count x = 1
  /\ List.length (Runner.attempt_logs x) = 2%nat /\ Runner.screenshot_path x = EmptyString.
Proof. repeat split. Qed.

(** ** C9: the dry run *)

Lemma list_eqb_sound (a b : list string) :
  (fix eq (a b : list string) : bool :=
     match a, b with
     | [], [] => true
     | x :: a', y :: b' => String.eqb x y && eq a' b'
     | _, _ => false
     end) a b = true -> a = b.
Proof.
  revert b. induction a as [|x a IH]; intros [|y b] H; try discriminate; [reflexivity|].
  apply andb_true_iff in H. destruct H as [Hx Hr].
  apply String.eqb_eq in Hx. subst. f_equal. now apply IH.
Qed.

Lemma path_eqb_sound (p q : Fs.path) : Fs.path_eqb p q = true -> p = q.
Proof.
  unfold Fs.path_eqb. destruct p as [rp pp], q as [rq pq]. cbn [Fs.root Fs.parts].
  intros H. apply andb_true_iff in H. destruct H as [Hr Hp].
  apply String.eqb_eq in Hr. apply list_eqb_sound in Hp. now subst.
Qed.

Lemma path_eqb_refl (p : Fs.path) : Fs.path_eqb p p = true.
Proof.
  unfold Fs.path_eqb. rewrite String.eqb_refl. cbn [andb].
  induction (Fs.parts p) as [|x l IH]; [reflexivity|].
  now rewrite String.eqb_refl, IH.
Qed.

(** [logs/run.json] and [artifacts/raw_demo.mp4] are different files. *)
Lemma run_log_is_not_raw_demo (logs artifacts : Fs.path) :
  Fs.path_eqb (Fs.path_join artifacts "raw_demo.mp4") (Fs.path_join logs "run.json") = false.
Proof.
  destruct (Fs.path_eqb _ _) eqn:E; [|reflexivity].
  apply path_eqb_sound in E.
  apply (f_equal Fs.parts) in E. cbn in E.
  apply app_inj_tail in E. destruct E as [_ E]. discriminate E.
Qed.

Lemma dry_run_loop_records (e : Runner.env) (actions : list Validator.DemoActionEvent) :
  forall self i,
    waits_return e i actions ->
    exists self' recorded,
      Runner.dry_run_loop e self i actions = Ok self'
      /\ Runner._executions self' = (Runner._executions self ++ recorded)%list
      /\ Forall2 recorded_ok actions recorded
      /\ Runner.logs_dir self' = Runner.logs_dir self
      /\ Runner.artifacts_dir self' = Runner.artifacts_dir self.
Proof.
  induction actions as [|a more IH]; intros self i Hw; cbn [Runner.dry_run_loop].
  - exists self, []. rewrite app_nil_r. repeat split. constructor.
  - destruct Hw as [[Hsmall [ms Hms]] Hmore].
    unfold Runner._planned_wait, Runner.too_large_for_float.
    replace (2 ^ 1024 - 2 ^ 970 <=? Z.abs (Validator.at_ms a)) with false
      by (symmetry; apply Z.leb_gt; exact Hsmall).
    rewrite Hms. cbn [bind]. cbv zeta.
    match goal with
    | |- context [Runner.dry_run_loop e ?s (S i) more] =>
        destruct (IH s (S i) Hmore) as (self' & recorded & Hrun & Hx & Hrec & Hl & Ha)
    end.
    exists self'. eexists (_ :: recorded). rewrite Hrun, Hx, Hl, Ha.
    cbn [Runner._log_execution Runner._executions Runner.logs_dir Runner.artifacts_dir].
    rewrite <- app_assoc. cbn [app].
    split; [reflexivity|]. split; [reflexivity|]. split; [|split; reflexivity].
    constructor; [|exact Hrec]. repeat split.
Qed.

(** C9, amended.  When the dependency probe does not report [ok], the
    runner's mode is [playwright_optional] and the planned waits return
    (no [at_ms] is beyond what [_planned_wait] can turn into seconds and
    sleep), [execute] returns a result with [ok = true] and mode
    [demo_capture_dry_run]; [raw_demo.mp4] is an empty file, so the
    artifact summary says [raw_demo_playable = false] (which does not
    fail the run: the quality gate is for Playwright runs); and one
    execution is recorded for each action, in order, with status [ok],
    one attempt and no retry. *)
Theorem dry_run_when_probe_fails (e : Runner.env) (self : Runner.DemoRunner) (fs : Fs.fs)
    (actions : list Validator.DemoActionEvent) :
  truthy (dict_get (Runner.probe_playwright_dependencies e) "ok") = false ->
  Runner.execution_mode self = "playwright_optional" ->
  waits_return e 0 actions ->
  exists result self' fs' recorded,
    Runner.execute e self fs actions = Ok (result, self', fs')
    /\ Runner.ok result = true
    /\ Runner.mode result = "demo_capture_dry_run"
    /\ fs' (Fs.path_join (Runner.artifacts_dir self) "raw_demo.mp4") = Some (Fs.File EmptyString)
    /\ dict_get (Runner.artifact_summary result) "raw_demo_playable" = PBool false
    /\ Runner.executions result = (Runner._executions self ++ recorded)%list
    /\ Forall2 recorded_ok actions recorded.
Proof.
  intros Hprobe Hmode Hw.
  destruct (dry_run_loop_records e actions self 0%nat Hw)
    as (ran & recorded & Hrun & Hx & Hrec & Hl & Ha).
  unfold Runner.execute. rewrite Hprobe, Hmode.
  cbv beta iota zeta.
  change (String.eqb "playwright_optional" Runner.PLAYWRIGHT_REQUIRED_MODE) with false.
  cbn [negb andb is_empty]. cbv beta iota zeta.
  unfold Runner._execute_dry_run. rewrite Hrun. cbn [bind fst snd]. cbv beta iota zeta.
  unfold Runner._probe_raw_demo_artifact, Fs.exists_, Fs.st_size, Fs.write.
  rewrite path_eqb_refl. cbn [negb String.length Z.of_nat Z.leb Z.compare bind].
  unfold Runner.finish, Json.dumps. cbn [andb bind].
  eexists _, _, _, recorded.
  split; [reflexivity|].
  cbn [Runner.ok Runner.mode Runner.artifact_summary Runner.executions].
  split; [reflexivity|]. split; [reflexivity|].
  split; [|split; [|split; [exact Hx | exact Hrec]]].
  - unfold Fs.write. rewrite run_log_is_not_raw_demo. now rewrite path_eqb_refl.
  - now dict_simpl.
Qed.

Lemma dry_run_when_probe_fails_witness :
  truthy (dict_get (Runner.probe_playwright_dependencies no_browser) "ok") = false
  /\ Runner.execution_mode fresh_runner = "playwright_optional"
  /\ waits_return no_browser 0 tie_events
  /\ exists result self' fs' recorded,
       Runner.execute no_browser fresh_runner no_files tie_events = Ok (result, self', fs')
       /\ Runner.ok result = true
       /\ Runner.mode result = "demo_capture_dry_run"
       /\ fs' (Fs.path_join (Runner.artifacts_dir fresh_runner) "raw_demo.mp4")
          = Some (Fs.File EmptyString)
       /\ dict_get (Runner.artifact_summary result) "raw_demo_playable" = PBool false
       /\ Runner.executions result = (Runner._executions fresh_runner ++ recorded)%list
       /\ Forall2 recorded_ok tie_events recorded.
Proof.
  assert (Hw : waits_return no_browser 0 tie_events).
  { cbn. repeat split; try reflexivity; eexists; reflexivity. }
  split; [reflexivity|]. split; [reflexivity|]. split; [exact Hw|].
  apply (dry_run_when_probe_fails no_browser fresh_runner no_files tie_events);
    [reflexivity | reflexivity | exact Hw].
Defined.

(** C9, as stated, fails: not for every action list.  The validator
    accepts any [at_ms] from 0 on; for [at_ms = 10^400] the division
    [planned_at_ms / 1000.0] of [_planned_wait] raises [OverflowError],
    which nothing in the dry run catches, and [execute] returns no
    result. *)
Lemma dry_run_overflows :
  Validator.parse_action_events far_timeline = Ok far_events
  /\ truthy (dict_get (Runner.probe_playwright_dependencies no_browser) "ok") = false
  /\ Runner.execution_mode fresh_runner = "playwright_optional"
  /\ Runner.execute no_browser fresh_runner no_files far_events = Raise OverflowError.
Proof.
  split; [vm_compute; reflexivity|]. split; [reflexivity|]. split; [reflexivity|].
  vm_compute. reflexivity.
Qed.

(** ** C4: the source video of the unified render *)


(** Scenario 6 of the specification, second half: with the flag false,
    or the file missing, the render gets [input.mp4]. *)
Example unplayable_falls_back :
  Unified.select_source_video (fun p => p) recorded_files (Fs.Path "/data/projects/p1")
    [ (KStr "raw_demo_mp4", PStr "/data/run/artifacts/raw_demo.mp4");
      (KStr "artifact_summary", PDict [ (KStr "raw_demo_playable", PBool false) ]) ]
  = "/data/projects/p1/input.mp4"
  /\ Unified.select_source_video (fun p => p) no_files (Fs.Path "/data/projects/p1")
       playable_record
     = "/data/projects/p1/input.mp4".
Proof. split; reflexivity. Qed.


(** ** C3 on a project whose history is full *)

Lemma append_keeps_history_bounded_witness :
  history_invariant (fst (fst full_project_after))
    "renders" "history" "last_render_id" "render_id" 50
  /\ history_invariant (fst (fst full_project_after_run))
       "demo" "runs" "last_run_id" "run_id" 50.
Proof.
  split.
  - apply (proj1 (append_keeps_history_bounded fixed_clock full_project new_render None 0%nat)
             (fst (fst full_project_after)) (snd (fst full_project_after))
             (snd full_project_after)).
    vm_compute. reflexivity.
  - apply (proj2 (append_keeps_history_bounded fixed_clock full_project new_render
                    (Some "demo_7") 0%nat)
             (fst (fst full_project_after_run)) (snd (fst full_project_after_run))
             (snd full_project_after_run)).
    vm_compute. reflexivity.
Defined.

Example full_history_drops_the_oldest :
  match dict_get (fst (fst full_project_after)) "renders" with
  | PDict renders =>
      match dict_get renders "history" with
      | PList history =>
          List.length history = 50%nat
          /\ hd PNone history = old_render 1
          /\ dict_get renders "last_render_id" = PStr "render_20260102T030405.000006+0000"
      | _ => False
      end
  | _ => False
  end.
Proof. vm_compute. repeat split. Qed.

(** ** The embedding on the repository's own tests and scenarios *)

(** [test_normalize_assigns_unique_ids_and_sorts] *)
Example normalize_sorts_and_renames :
  option_map (map (fun ev => (event_id ev,
                              match ev with
                              | PDict f => (dict_get f "start_ms", dict_get f "end_ms")
                              | _ => (PNone, PNone)
                              end)))
    (match Timeline.normalize_narration_events
             [ PDict [ (KStr "id", PStr "n1"); (KStr "start_ms", PInt 4000);
                       (KStr "text", PStr "later") ];
               PDict [ (KStr "id", PStr "n1"); (KStr "start_ms", PInt 0);
                       (KStr "text", PStr "first") ] ] None 3000 500 with
     | Ok out => Some out
     | Raise _ => None
     end)
  = Some [ ("n1", (PInt 0, PInt 4000)); ("n1_1", (PInt 4000, PInt 7000)) ].
Proof. reflexivity. Qed.

(** [test_normalize_raises_on_empty_text] *)
Example normalize_blank_text :
  Timeline.normalize_narration_events
    [ PDict [ (KStr "id", PStr "n1"); (KStr "start_ms", PInt 0); (KStr "text", PStr "  ");
              (KStr "meta", PDict [ (KStr "source_line", PInt 9) ]) ] ] None 3000 500
  = Raise (TimelineImportError "narration text cannot be empty" (Some 9) "empty_text").
Proof. reflexivity. Qed.

(** Scenario 2 of the specification, [test_duplicate_action_id_fails]. *)
Example duplicate_action_id :
  Validator.parse_action_events
    [ (KStr "action_events",
       PList [ PDict [ (KStr "id", PStr "dup"); (KStr "at_ms", PInt 0);
                       (KStr "action", PStr "click"); (KStr "target", PStr "#x") ];
               PDict [ (KStr "id", PStr "dup"); (KStr "at_ms", PInt 10);
                       (KStr "action", PStr "wait");
                       (KStr "args", PDict [ (KStr "ms", PInt 0) ]) ] ]) ]
  = Raise (DemoActionValidationError "duplicate action id" (Some 1) (Some "dup")).
Proof. reflexivity. Qed.

(** [test_invalid_timeout_has_stable_error_context] *)
Example timeout_out_of_range :
  Validator.parse_action_events
    [ (KStr "action_events",
       PList [ PDict [ (KStr "id", PStr "click_1"); (KStr "at_ms", PInt 0);
                       (KStr "action", PStr "click"); (KStr "target", PStr "#x");
                       (KStr "timeout_ms", PInt 50) ] ]) ]
  = Raise (DemoActionValidationError "action timeout_ms must be >= 100"
             (Some 0) (Some "click_1")).
Proof. reflexivity. Qed.

(** [test_legacy_segments_backfill_timeline_and_defaults] *)
Example legacy_segments_backfill :
  map event_id
    (Storage._segments_to_narration_events
       (PList [ PDict [ (KStr "id", PInt 1); (KStr "start_ms", PInt 0);
                        (KStr "end_ms", PInt 900);
                        (KStr "narration",
                         PDict [ (KStr "selected_text", PStr "Open the dashboard") ]) ];
                PDict [ (KStr "id", PInt 1); (KStr "start_ms", PInt 900);
                        (KStr "end_ms", PInt 1800);
                        (KStr "narration",
                         PDict [ (KStr "selected_text", PStr "Click reports") ]) ] ]))
  = ["n1"; "n1_1"].
Proof. reflexivity. Qed.

(** Scenario 3 of the specification: [playwright_required] without a
    browser fails the run before any action. *)
Example required_mode_without_browser :
  match Runner.execute no_browser
          {| Runner.project_id := Runner.project_id fresh_runner;
             Runner.run_dir := Runner.run_dir fresh_runner;
             Runner.logs_dir := Runner.logs_dir fresh_runner;
             Runner.artifacts_dir := Runner.artifacts_dir fresh_runner;
             Runner.execution_mode := "playwright_required";
             Runner.run_id := Runner.run_id fresh_runner;
             Runner.queue_job_id := None;
             Runner._executions := [];
             Runner._trace_path := EmptyString;
             Runner._recording_source_path := EmptyString;
             Runner._recording_ffmpeg_cmd := [];
             Runner._recording_profile := Runner._standard_recording_profile |}
          no_files tie_events with
  | Ok (result, _, _) =>
      Runner.ok result = false
      /\ Runner.mode result = "demo_capture_failed"
      /\ Runner.actions_executed result = 0
      /\ contains "playwright_required" (Runner.r_error result) = true
      /\ dict_get (Runner.error_summary result) "has_error" = PBool true
  | Raise _ => False
  end.
Proof. vm_compute. repeat split. Qed.

(* ===================================================================== *)
(** * Further properties                                                  *)
(* ===================================================================== *)

(* ===================================================================== *)
(** * More properties                                                     *)
(* ===================================================================== *)

(** ** Texts *)

Lemma rstrip_ends (s : string) : rstrip s = EmptyString \/ last_nonspace (rstrip s) = true.
Proof.
  induction s as [|c r IH]; [now left|].
  cbn [rstrip]. destruct (rstrip r) as [|c' r'] eqn:E.
  - destruct (is_space c) eqn:Ec; [now left|]. right. cbn. now rewrite Ec.
  - right. destruct IH as [IH|IH]; [discriminate|]. exact IH.
Qed.

Lemma rstrip_fixed (s : string) : last_nonspace s = true -> rstrip s = s.
Proof.
  induction s as [|c r IH]; [discriminate|].
  intros H. cbn [rstrip]. destruct r as [|c' r'].
  - cbn in H |- *. apply negb_true_iff in H. now rewrite H.
  - rewrite IH by exact H. reflexivity.
Qed.

Lemma lstrip_head (s : string) : lstrip s = EmptyString \/ head_nonspace (lstrip s) = true.
Proof.
  induction s as [|c r IH]; [now left|].
  cbn [lstrip]. destruct (is_space c) eqn:Ec; [exact IH|].
  right. cbn. now rewrite Ec.
Qed.

Lemma lstrip_fixed (s : string) : head_nonspace s = true -> lstrip s = s.
Proof.
  destruct s as [|c r]; [discriminate|].
  cbn. intros H. apply negb_true_iff in H. now rewrite H.
Qed.

Lemma lstrip_keeps_last (s : string) :
  last_nonspace s = true -> last_nonspace (lstrip s) = true.
Proof.
  induction s as [|c r IH]; [discriminate|].
  intros H. cbn [lstrip]. destruct (is_space c) eqn:Ec; [|exact H].
  apply IH. destruct r; [|exact H]. cbn in H. rewrite Ec in H. discriminate.
Qed.

Lemma strip_trimmed (s : string) : strip s = EmptyString \/ trimmed (strip s).
Proof.
  unfold strip. destruct (rstrip_ends s) as [E|E].
  - left. now rewrite E.
  - right. split.
    + destruct (lstrip_head (rstrip s)) as [H|H]; [|exact H].
      apply lstrip_keeps_last in E. rewrite H in E. discriminate.
    + now apply lstrip_keeps_last.
Qed.

Lemma trimmed_strip (s : string) : trimmed s -> strip s = s.
Proof.
  intros [Hh Hl]. unfold strip. rewrite (rstrip_fixed _ Hl). now apply lstrip_fixed.
Qed.

Lemma trimmed_nonempty (s : string) : trimmed s -> is_empty s = false.
Proof. intros [Hh _]. now destruct s. Qed.

Lemma strip_nonempty_trimmed (s : string) : is_empty (strip s) = false -> trimmed (strip s).
Proof.
  intros H. destruct (strip_trimmed s) as [E|E]; [|exact E]. now rewrite E in H.
Qed.

Lemma strip_strip (s : string) : strip (strip s) = strip s.
Proof.
  destruct (strip_trimmed s) as [E|E].
  - now rewrite E.
  - now apply trimmed_strip.
Qed.

Lemma head_nonspace_app (a b : string) :
  head_nonspace a = true -> head_nonspace (a ++ b) = true.
Proof. destruct a; [discriminate|]. now cbn. Qed.

Lemma last_nonspace_app (a b : string) :
  last_nonspace b = true -> last_nonspace (a ++ b) = true.
Proof.
  intros H. induction a as [|c a IH]; [exact H|].
  cbn [append last_nonspace]. destruct (a ++ b) eqn:E; [|exact IH].
  destruct a; [|discriminate]. cbn in E. subst b. discriminate.
Qed.

Lemma join_cons2 (sep x y : string) (l : list string) :
  join sep (x :: y :: l) = x ++ sep ++ join sep (y :: l).
Proof. reflexivity. Qed.

Lemma join_trimmed (sep : string) (l : list string) :
  l <> [] -> Forall trimmed l -> trimmed (join sep l).
Proof.
  induction l as [|x l IH]; [congruence|].
  intros _ H. inversion H as [|? ? Hx Hl]; subst.
  destruct l as [|y l]; [exact Hx|].
  rewrite join_cons2. split.
  - apply head_nonspace_app. apply Hx.
  - apply last_nonspace_app, last_nonspace_app. apply IH; [discriminate | exact Hl].
Qed.

(** ** Digits *)

Lemma digit_not_space (c : ascii) : is_digit c = true -> is_space c = false.
Proof.
  unfold is_digit, is_space. intros H.
  apply andb_true_iff in H as [H1 H2]. apply Z.leb_le in H1. apply Z.leb_le in H2.
  apply orb_false_iff. split; apply andb_false_iff; right; apply Z.leb_gt; lia.
Qed.

Lemma all_digits_last (s : string) :
  all_digits s = true -> is_empty s = false -> last_nonspace s = true.
Proof.
  induction s as [|c r IH]; [discriminate|].
  unfold all_digits. cbn [list_ascii_of_string forallb]. intros H _.
  apply andb_true_iff in H as [Hc Hr].
  destruct r as [|c' r'].
  - cbn. now rewrite digit_not_space.
  - cbn [last_nonspace]. apply IH; [exact Hr | reflexivity].
Qed.

Lemma all_digits_trimmed (s : string) :
  all_digits s = true -> is_empty s = false -> trimmed s.
Proof.
  intros H Hne. split; [|now apply all_digits_last].
  destruct s as [|c r]; [discriminate|]. unfold all_digits in H. cbn in H |- *.
  apply andb_true_iff in H as [H _]. now rewrite digit_not_space.
Qed.

(** The value of a run of digits read after [acc]. *)
Lemma parse_digits_all (s : string) :
  all_digits s = true ->
  forall acc after, (after = true \/ is_empty s = false) -> 0 <= acc ->
    exists z, parse_digits acc after s = Some z
              /\ acc * 10 ^ Z.of_nat (String.length s) <= z
                 < (acc + 1) * 10 ^ Z.of_nat (String.length s).
Proof.
  induction s as [|c r IH]; intros H acc after Ha Hacc.
  - destruct Ha as [Ha|Ha]; [|discriminate]. subst after.
    exists acc. cbn. split; [reflexivity|]. lia.
  - unfold all_digits in H. cbn [list_ascii_of_string forallb] in H.
    apply andb_true_iff in H as [Hc Hr].
    cbn [parse_digits]. rewrite Hc.
    assert (Hd : 0 <= Z.of_nat (nat_of_ascii c) - 48 <= 9).
    { unfold is_digit in Hc. apply andb_true_iff in Hc as [H1 H2].
      apply Z.leb_le in H1. apply Z.leb_le in H2. lia. }
    destruct (IH Hr (acc * 10 + (Z.of_nat (nat_of_ascii c) - 48)) true) as (z & Hz & Hb);
      [now left | lia |].
    exists z. split; [exact Hz|].
    cbn [String.length]. rewrite Nat2Z.inj_succ, Z.pow_succ_r by lia.
    set (p := 10 ^ Z.of_nat (String.length r)) in *.
    assert (0 < p) by (apply Z.pow_pos_nonneg; lia).
    nia.
Qed.

Lemma int_of_digits (s : string) :
  all_digits s = true -> is_empty s = false ->
  exists z, int_of_string s = Some z /\ 0 <= z < 10 ^ Z.of_nat (String.length s).
Proof.
  intros H Hne.
  destruct (parse_digits_all s H 0 false) as (z & Hz & Hb); [now right | lia |].
  exists z. split; [|lia].
  unfold int_of_string. rewrite (trimmed_strip s) by now apply all_digits_trimmed.
  destruct s as [|c r]; [discriminate|].
  unfold all_digits in H. cbn [list_ascii_of_string forallb] in H.
  apply andb_true_iff in H as [Hc _].
  destruct c as [[] [] [] [] [] [] [] []]; try discriminate Hc; exact Hz.
Qed.

(** ** timeline/parsers_srt.py *)

Lemma digits_exactly_spec (n : nat) :
  forall s ds rest,
    TimelineMore.digits_exactly n s = Some (ds, rest) ->
    s = ds ++ rest /\ String.length ds = n /\ all_digits ds = true.
Proof.
  induction n as [|n IH]; intros s ds rest H.
  - cbn in H. inversion H; subst. now repeat split.
  - cbn [TimelineMore.digits_exactly] in H. destruct s as [|c r]; [discriminate|].
    destruct (is_digit c) eqn:Ec; [|discriminate].
    destruct (TimelineMore.digits_exactly n r) as [[ds' rest']|] eqn:E; [|discriminate].
    inversion H; subst. destruct (IH _ _ _ E) as (Hs & Hl & Hd).
    split; [cbn; now rewrite Hs|]. split; [cbn; now rewrite Hl|].
    unfold all_digits. cbn. now rewrite Ec.
Qed.

Lemma int_of_text_digits (n : nat) (s ds rest : string) :
  TimelineMore.digits_exactly (S n) s = Some (ds, rest) ->
  exists z, TimelineMore.int_of_text ds = inr z /\ 0 <= z < 10 ^ Z.of_nat (S n).
Proof.
  intros H. apply digits_exactly_spec in H as (_ & Hl & Hd).
  destruct (int_of_digits ds Hd) as (z & Hz & Hb).
  { destruct ds; [discriminate | reflexivity]. }
  exists z. unfold TimelineMore.int_of_text. rewrite Hz, Hl in *. now split.
Qed.

Ltac and_then_inv H :=
  match type of H with
  | TimelineMore.and_then ?c _ = Some _ =>
      let E := fresh "E" in
      destruct c as [?|] eqn:E; [cbn [TimelineMore.and_then] in H | discriminate H]
  end.

(** The groups of a clock are digits: two, two, two and three of them. *)
Lemma srt_clock_values (s hh mm ss ms rest : string) :
  TimelineMore.srt_clock s = Some (hh, mm, ss, ms, rest) ->
  exists h m sec milli,
    TimelineMore.int_of_text hh = inr h /\ 0 <= h < 100
    /\ TimelineMore.int_of_text mm = inr m /\ 0 <= m < 100
    /\ TimelineMore.int_of_text ss = inr sec /\ 0 <= sec < 100
    /\ TimelineMore.int_of_text ms = inr milli /\ 0 <= milli < 1000.
Proof.
  unfold TimelineMore.srt_clock. intros H.
  and_then_inv H. destruct p as [g1 r1].
  and_then_inv H. and_then_inv H. destruct p as [g2 r2].
  and_then_inv H. and_then_inv H. destruct p as [g3 r3].
  and_then_inv H. and_then_inv H. destruct p as [g4 r4].
  inversion H; subst.
  destruct (int_of_text_digits _ _ _ _ E) as (h & Hh & Bh).
  destruct (int_of_text_digits _ _ _ _ E1) as (m & Hm & Bm).
  destruct (int_of_text_digits _ _ _ _ E3) as (sec & Hs & Bs).
  destruct (int_of_text_digits _ _ _ _ E5) as (milli & Hms & Bms).
  exists h, m, sec, milli. repeat split; try assumption; try lia.
Qed.

(** A clock read to a time is within 100 hours. *)
Lemma srt_clock_time (s hh mm ss ms rest : string) (v : Z) :
  TimelineMore.srt_clock s = Some (hh, mm, ss, ms, rest) ->
  TimelineMore._srt_time_to_ms hh mm ss ms = inr v ->
  0 <= v < 360000000.
Proof.
  intros H Hv. apply srt_clock_values in H
    as (h & m & sec & milli & Hh & Bh & Hm & Bm & Hs & Bs & Hms & Bms).
  unfold TimelineMore._srt_time_to_ms in Hv. rewrite Hh, Hm, Hs, Hms in Hv.
  destruct ((60 <=? m) || (60 <=? sec)) eqn:E; [discriminate|].
  apply orb_false_iff in E as [E1 E2]. apply Z.leb_gt in E1. apply Z.leb_gt in E2.
  inversion Hv; subst. lia.
Qed.

Lemma SRT_TS_RE_times (line sh sm ss sms eh em es ems : string) (start_ms end_ms : Z) :
  TimelineMore._SRT_TS_RE line = Some ((sh, sm, ss, sms), (eh, em, es, ems)) ->
  TimelineMore._srt_time_to_ms sh sm ss sms = inr start_ms ->
  TimelineMore._srt_time_to_ms eh em es ems = inr end_ms ->
  0 <= start_ms < 360000000 /\ 0 <= end_ms < 360000000.
Proof.
  unfold TimelineMore._SRT_TS_RE. intros H H1 H2.
  and_then_inv H. destruct p as [[[[sh' sm'] ss'] sms'] rest].
  and_then_inv H. and_then_inv H. destruct p as [[[[eh' em'] es'] ems'] tail].
  destruct (_ || _); [|discriminate]. inversion H; subst.
  split; [eapply srt_clock_time; [|exact H1] | eapply srt_clock_time; [|exact H2]];
    eassumption.
Qed.

Lemma text_lines_from_spec {A : Type} (following : Z -> list string -> A) (at_end : A) :
  forall lines index acc text_lines r,
    TimelineMore.text_lines_from following at_end index acc lines = (text_lines, r) ->
    exists new,
      text_lines = (acc ++ new)%list /\ Forall trimmed new
      /\ (r = at_end
          \/ exists index' left,
               r = following index' left /\ index <= index'
               /\ (List.length left <= List.length lines)%nat).
Proof.
  induction lines as [|raw more IH]; intros index acc text_lines r H.
  - cbn in H. inversion H; subst. exists []. rewrite app_nil_r.
    split; [reflexivity|]. split; [constructor | now left].
  - cbn [TimelineMore.text_lines_from] in H.
    destruct (is_empty (strip raw)) eqn:E; cbn [negb] in H.
    + inversion H; subst. exists []. rewrite app_nil_r.
      split; [reflexivity|]. split; [constructor|]. right.
      exists index, (raw :: more). split; [reflexivity|]. split; [lia | reflexivity].
    + apply IH in H as (new & Ht & Hn & Hr).
      exists (strip raw :: new). rewrite <- app_assoc in Ht.
      split; [exact Ht|]. split.
      * constructor; [now apply strip_nonempty_trimmed | exact Hn].
      * destruct Hr as [Hr|(i & remaining & Hr & Hi & Hl)]; [now left|]. right.
        exists i, remaining. split; [exact Hr|]. split; [lia | cbn; lia].
Qed.

(** One block: its entry is the cue after [block_idx], and the entries of
    the blocks that follow are those of the rest of the loop. *)
Lemma srt_block_cues (following : Z -> list string -> outcome (list pyval))
    (block_idx block_start_line index : Z) (line : string) (rest : list string)
    (entries : list pyval) :
  1 <= block_start_line -> 0 <= index ->
  (forall i left es,
      (List.length left <= List.length rest)%nat -> 0 <= i ->
      following i left = Ok es ->
      Forall2 srt_cue es (positions (block_idx + 1 + 1) (List.length es))) ->
  TimelineMore.srt_block following block_idx block_start_line index line rest = Ok entries ->
  Forall2 srt_cue entries (positions (block_idx + 1) (List.length entries)).
Proof.
  intros Hline Hindex Hfollowing H. unfold TimelineMore.srt_block in H.
  destruct (TimelineMore._SRT_TS_RE line)
    as [[[[[sh sm] ss] sms] [[[eh em] es] ems]]|] eqn:Ere; [|discriminate].
  destruct (TimelineMore._srt_time_to_ms sh sm ss sms) as [?|start_ms] eqn:Es; [discriminate|].
  destruct (TimelineMore._srt_time_to_ms eh em es ems) as [?|end_ms] eqn:Ee; [discriminate|].
  destruct (SRT_TS_RE_times _ _ _ _ _ _ _ _ _ _ _ Ere Es Ee) as [Bs Be].
  destruct (end_ms <=? start_ms) eqn:Elt; [discriminate|]. apply Z.leb_gt in Elt.
  destruct (TimelineMore.text_lines_from following (Ok []) (index + 1) [] rest)
    as [text_lines after] eqn:Et.
  apply text_lines_from_spec in Et as (new & Ht & Hn & Hr). cbn [app] in Ht. subst new.
  destruct text_lines as [|t ts]; [discriminate|].
  destruct after as [following_entries|]; cbn [bind] in H; [|discriminate].
  inversion H; subst entries; clear H. cbn [List.length positions].
  constructor.
  - exists start_ms, end_ms, (join " " (t :: ts)), block_start_line.
    split; [reflexivity|]. split; [lia|]. split; [lia|].
    split; [apply join_trimmed; [discriminate | exact Hn] | exact Hline].
  - destruct Hr as [Hr|(i & remaining & Hr & Hi & Hl)].
    + inversion Hr; subst. constructor.
    + symmetry in Hr. eapply Hfollowing; [| |exact Hr]; [exact Hl | lia].
Qed.

Lemma parse_srt_blocks_cons (index block_idx : Z) (raw : string) (rest : list string) :
  TimelineMore.parse_srt_blocks index block_idx (raw :: rest)
  = if is_empty (strip raw)
    then TimelineMore.parse_srt_blocks (index + 1) block_idx rest
    else
      if isdigit (strip raw) then
        match rest with
        | [] => Raise (TimelineMore.srt_error
                         "SRT block ended after index without timestamp line"
                         (index + 1) "missing_timestamp")
        | raw2 :: rest2 =>
            TimelineMore.srt_block
              (fun i left => TimelineMore.parse_srt_blocks i (block_idx + 1) left)
              block_idx (index + 1) (index + 1) (strip raw2) rest2
        end
      else
        TimelineMore.srt_block
          (fun i left => TimelineMore.parse_srt_blocks i (block_idx + 1) left)
          block_idx (index + 1) index (strip raw) rest.
Proof. reflexivity. Qed.

Lemma parse_srt_blocks_cues (n : nat) :
  forall lines index block_idx entries,
    (List.length lines <= n)%nat -> 0 <= index ->
    TimelineMore.parse_srt_blocks index block_idx lines = Ok entries ->
    Forall2 srt_cue entries (positions (block_idx + 1) (List.length entries)).
Proof.
  induction n as [|n IH]; intros lines index block_idx entries Hn Hindex H.
  - destruct lines; [|cbn in Hn; lia]. cbn in H. inversion H. constructor.
  - destruct lines as [|raw rest]; [cbn in H; inversion H; constructor|].
    cbn [List.length] in Hn.
    rewrite parse_srt_blocks_cons in H.
    destruct (is_empty (strip raw)).
    + apply (IH rest (index + 1) block_idx entries); [lia | lia | exact H].
    + destruct (isdigit (strip raw)).
      * destruct rest as [|raw2 rest2]; [discriminate|].
        apply (srt_block_cues
                 (fun i left => TimelineMore.parse_srt_blocks i (block_idx + 1) left)
                 block_idx (index + 1) (index + 1) (strip raw2) rest2 entries);
          [lia | lia | | exact H].
        intros i left es Hl Hi He. cbn beta in He.
        apply (IH left i (block_idx + 1) es); [|exact Hi|exact He].
        cbn [List.length] in Hn. lia.
      * apply (srt_block_cues
                 (fun i left => TimelineMore.parse_srt_blocks i (block_idx + 1) left)
                 block_idx (index + 1) index (strip raw) rest entries);
          [lia | lia | | exact H].
        intros i left es Hl Hi He. cbn beta in He.
        apply (IH left i (block_idx + 1) es); [|exact Hi|exact He]. lia.
Qed.

(** X1.  What [parse_srt] returns is never empty, and its [k]-th entry is
    the cue [n<k>]: a start from 0 on, an end after the start and within
    100 hours, and a text with no blank at either end. *)
Theorem parse_srt_cues (content : string) (entries : list pyval) :
  TimelineMore.parse_srt content = Ok entries ->
  entries <> [] /\ Forall2 srt_cue entries (positions 1 (List.length entries)).
Proof.
  unfold TimelineMore.parse_srt. intros H.
  destruct (TimelineMore.parse_srt_blocks 0 0 (Timeline.splitlines content))
    as [found|] eqn:E; cbn [bind] in H; [|discriminate].
  destruct found as [|e es]; [discriminate|]. inversion H; subst entries.
  split; [discriminate|].
  eapply (parse_srt_blocks_cues _ _ 0 0); [reflexivity | lia | exact E].
Qed.

Lemma parse_srt_cues_witness :
  TimelineMore.parse_srt subtitles = Ok subtitles_entries
  /\ List.length subtitles_entries = 2%nat
  /\ subtitles_entries <> []
  /\ Forall2 srt_cue subtitles_entries (positions 1 (List.length subtitles_entries)).
Proof.
  assert (H : TimelineMore.parse_srt subtitles = Ok subtitles_entries)
    by (vm_compute; reflexivity).
  split; [exact H|]. split; [reflexivity|].
  exact (parse_srt_cues subtitles subtitles_entries H).
Defined.

(** ** pipeline/utils.py: [ms_to_srt_time], read back by the SRT parser *)

Lemma pads_back_2 (n : Z) : 0 <= n < 100 -> pads_back 2 n = true.
Proof.
  intros H.
  assert (Hall : forallb (fun k => pads_back 2 (Z.of_nat k)) (seq 0 100) = true)
    by (vm_compute; reflexivity).
  rewrite forallb_forall in Hall. specialize (Hall (Z.to_nat n)).
  rewrite Z2Nat.id in Hall by lia. apply Hall. apply in_seq. lia.
Qed.

Lemma pads_back_3 (n : Z) : 0 <= n < 1000 -> pads_back 3 n = true.
Proof.
  intros H.
  assert (Hall : forallb (fun k => pads_back 3 (Z.of_nat k)) (seq 0 1000) = true)
    by (vm_compute; reflexivity).
  rewrite forallb_forall in Hall. specialize (Hall (Z.to_nat n)).
  rewrite Z2Nat.id in Hall by lia. apply Hall. apply in_seq. lia.
Qed.

Lemma pads_back_spec (width : nat) (n : Z) :
  pads_back width n = true ->
  String.length (zero_pad width n) = width
  /\ all_digits (zero_pad width n) = true
  /\ int_of_string (zero_pad width n) = Some n.
Proof.
  unfold pads_back. intros H.
  apply andb_true_iff in H as [H H3]. apply andb_true_iff in H as [H1 H2].
  apply Nat.eqb_eq in H1. split; [exact H1|]. split; [exact H2|].
  destruct (int_of_string (zero_pad width n)) as [z|]; [|discriminate].
  apply Z.eqb_eq in H3. now subst.
Qed.

Lemma digits_exactly_app (ds rest : string) :
  all_digits ds = true ->
  TimelineMore.digits_exactly (String.length ds) (ds ++ rest) = Some (ds, rest).
Proof.
  induction ds as [|c r IH]; intros H; [reflexivity|].
  unfold all_digits in H. cbn [list_ascii_of_string forallb] in H.
  apply andb_true_iff in H as [Hc Hr].
  cbn [String.length append TimelineMore.digits_exactly]. rewrite Hc, (IH Hr). reflexivity.
Qed.

Lemma digits_exactly_pad (width : nat) (n : Z) (rest : string) :
  pads_back width n = true ->
  TimelineMore.digits_exactly width (zero_pad width n ++ rest) = Some (zero_pad width n, rest).
Proof.
  intros H. apply pads_back_spec in H as (Hl & Hd & _).
  rewrite <- Hl at 1. now apply digits_exactly_app.
Qed.

Lemma clock_groups_bounds (ms : Z) :
  0 <= ms < 360000000 ->
  let h := ms / 3600000 in
  let r1 := ms - h * 3600000 in
  let m := r1 / 60000 in
  let r2 := r1 - m * 60000 in
  let s := r2 / 1000 in
  let r3 := r2 - s * 1000 in
  0 <= h < 100 /\ 0 <= m < 60 /\ 0 <= s < 60 /\ 0 <= r3 < 1000
  /\ ((h * 3600) + (m * 60) + s) * 1000 + r3 = ms.
Proof.
  intros H h r1 m r2 s r3.
  pose proof (Z.div_mod ms 3600000 ltac:(lia)) as D1.
  pose proof (Z.mod_pos_bound ms 3600000 ltac:(lia)) as B1.
  assert (E1 : r1 = ms mod 3600000) by (unfold r1, h; lia).
  pose proof (Z.div_mod r1 60000 ltac:(lia)) as D2.
  pose proof (Z.mod_pos_bound r1 60000 ltac:(lia)) as B2.
  assert (E2 : r2 = r1 mod 60000) by (unfold r2, m; lia).
  pose proof (Z.div_mod r2 1000 ltac:(lia)) as D3.
  pose proof (Z.mod_pos_bound r2 1000 ltac:(lia)) as B3.
  assert (E3 : r3 = r2 mod 1000) by (unfold r3, s; lia).
  assert (0 <= h < 100).
  { unfold h. split; [apply Z.div_pos; lia | apply Z.div_lt_upper_bound; lia]. }
  assert (0 <= m < 60).
  { unfold m. split; [apply Z.div_pos; lia | apply Z.div_lt_upper_bound; lia]. }
  assert (0 <= s < 60).
  { unfold s. split; [apply Z.div_pos; lia | apply Z.div_lt_upper_bound; lia]. }
  repeat split; try lia.
Qed.

Lemma ms_to_srt_time_groups (ms : Z) :
  0 <= ms ->
  Pipeline.ms_to_srt_time ms
  = (let '(hh, mm, ss, mmm) := clock_groups ms in hh ++ ":" ++ mm ++ ":" ++ ss ++ "," ++ mmm).
Proof.
  intros H. unfold Pipeline.ms_to_srt_time, clock_groups.
  replace (ms <? 0) with false by (symmetry; apply Z.ltb_ge; lia). reflexivity.
Qed.

Lemma app_assoc_string (a b c : string) : (a ++ b) ++ c = a ++ (b ++ c).
Proof. induction a as [|x a IH]; [reflexivity|]. cbn. now rewrite IH. Qed.

(** The clock [ms_to_srt_time] prints is read back group by group. *)
Lemma srt_clock_printed (ms : Z) (rest : string) :
  0 <= ms < 360000000 ->
  TimelineMore.srt_clock (Pipeline.ms_to_srt_time ms ++ rest)
  = (let '(hh, mm, ss, mmm) := clock_groups ms in Some (hh, mm, ss, mmm, rest))
  /\ (let '(hh, mm, ss, mmm) := clock_groups ms in
      TimelineMore._srt_time_to_ms hh mm ss mmm) = inr ms
  /\ head_nonspace (Pipeline.ms_to_srt_time ms) = true.
Proof.
  intros H. rewrite ms_to_srt_time_groups by lia.
  destruct (clock_groups_bounds ms H) as (Bh & Bm & Bs & Bms & Hsum).
  unfold clock_groups. cbv zeta.
  set (h := ms / 3600000) in *.
  set (m := (ms - h * 3600000) / 60000) in *.
  set (s := (ms - h * 3600000 - m * 60000) / 1000) in *.
  set (r := ms - h * 3600000 - m * 60000 - s * 1000) in *.
  pose proof (pads_back_2 h Bh) as Ph.
  pose proof (pads_back_2 m ltac:(lia)) as Pm.
  pose proof (pads_back_2 s ltac:(lia)) as Ps. pose proof (pads_back_3 r Bms) as Pr.
  split; [|split].
  - unfold TimelineMore.srt_clock.
    repeat rewrite app_assoc_string.
    rewrite (digits_exactly_pad 2 h _ Ph). cbn [TimelineMore.and_then].
    change (TimelineMore.strip_prefix ":" (":" ++ ?x)) with (Some x).
    cbn [TimelineMore.and_then append TimelineMore.strip_prefix Ascii.eqb Bool.eqb].
    rewrite (digits_exactly_pad 2 m _ Pm).
    cbn [TimelineMore.and_then append TimelineMore.strip_prefix Ascii.eqb Bool.eqb].
    rewrite (digits_exactly_pad 2 s _ Ps).
    cbn [TimelineMore.and_then append TimelineMore.strip_comma_or_dot Ascii.eqb Bool.eqb orb].
    rewrite (digits_exactly_pad 3 r _ Pr). reflexivity.
  - unfold TimelineMore._srt_time_to_ms, TimelineMore.int_of_text.
    apply pads_back_spec in Ph as (_ & _ & ->). apply pads_back_spec in Pm as (_ & _ & ->).
    apply pads_back_spec in Ps as (_ & _ & ->). apply pads_back_spec in Pr as (_ & _ & ->).
    replace ((60 <=? m) || (60 <=? s)) with false.
    + now rewrite Hsum.
    + symmetry. apply orb_false_iff. split; apply Z.leb_gt; lia.
  - apply head_nonspace_app.
    apply pads_back_spec in Ph as (Hl & Hd & _).
    apply all_digits_trimmed; [exact Hd|].
    destruct (zero_pad 2 h); [discriminate Hl | reflexivity].
Qed.

Lemma time_range_read_back (start_ms end_ms : Z) :
  0 <= start_ms < 360000000 -> 0 <= end_ms < 360000000 ->
  exists sh sm ss sms eh em es ems,
    TimelineMore._SRT_TS_RE
      (Pipeline.ms_to_srt_time start_ms ++ " --> " ++ Pipeline.ms_to_srt_time end_ms)
    = Some ((sh, sm, ss, sms), (eh, em, es, ems))
    /\ TimelineMore._srt_time_to_ms sh sm ss sms = inr start_ms
    /\ TimelineMore._srt_time_to_ms eh em es ems = inr end_ms.
Proof.
  intros Hs He.
  destruct (srt_clock_printed start_ms (" --> " ++ Pipeline.ms_to_srt_time end_ms) Hs)
    as (Hc1 & Hv1 & _).
  destruct (srt_clock_printed end_ms "" He) as (Hc2 & Hv2 & Hh2).
  destruct (clock_groups start_ms) as [[[sh sm] ss] sms].
  destruct (clock_groups end_ms) as [[[eh em] es] ems].
  exists sh, sm, ss, sms, eh, em, es, ems.
  split; [|split; assumption].
  unfold TimelineMore._SRT_TS_RE. rewrite Hc1. cbn [TimelineMore.and_then].
  change (lstrip (" --> " ++ Pipeline.ms_to_srt_time end_ms))
    with ("--> " ++ Pipeline.ms_to_srt_time end_ms).
  change (TimelineMore.strip_prefix "-->" ("--> " ++ Pipeline.ms_to_srt_time end_ms))
    with (Some (" " ++ Pipeline.ms_to_srt_time end_ms)).
  cbn [TimelineMore.and_then].
  change (lstrip (" " ++ Pipeline.ms_to_srt_time end_ms))
    with (lstrip (Pipeline.ms_to_srt_time end_ms)).
  rewrite (lstrip_fixed _ Hh2).
  replace (Pipeline.ms_to_srt_time end_ms) with (Pipeline.ms_to_srt_time end_ms ++ "")
    by (clear; induction (Pipeline.ms_to_srt_time end_ms); [reflexivity | cbn; congruence]).
  rewrite Hc2. reflexivity.
Qed.

(** X2.  A time range line as [write_srt] prints it is read back by the
    SRT parser to the same two times, for times from 0 up to 100 hours
    (where the hours take a third digit). *)
Theorem srt_time_range_round_trip (start_ms end_ms : Z) :
  0 <= start_ms < 360000000 -> 0 <= end_ms < 360000000 ->
  exists sh sm ss sms eh em es ems,
    TimelineMore._SRT_TS_RE
      (Pipeline.ms_to_srt_time start_ms ++ " --> " ++ Pipeline.ms_to_srt_time end_ms)
    = Some ((sh, sm, ss, sms), (eh, em, es, ems))
    /\ TimelineMore._srt_time_to_ms sh sm ss sms = inr start_ms
    /\ TimelineMore._srt_time_to_ms eh em es ems = inr end_ms.
Proof. exact (time_range_read_back start_ms end_ms). Qed.

Lemma srt_time_range_round_trip_witness :
  exists sh sm ss sms eh em es ems,
    TimelineMore._SRT_TS_RE
      (Pipeline.ms_to_srt_time 3723004 ++ " --> " ++ Pipeline.ms_to_srt_time 3725500)
    = Some ((sh, sm, ss, sms), (eh, em, es, ems))
    /\ TimelineMore._srt_time_to_ms sh sm ss sms = inr 3723004
    /\ TimelineMore._srt_time_to_ms eh em es ems = inr 3725500.
Proof. apply (srt_time_range_round_trip 3723004 3725500); lia. Defined.

(** ** pipeline/srt.py: the file [write_srt] writes, parsed back *)

Lemma uint_digits (d : Decimal.uint) : all_digits (NilEmpty.string_of_uint d) = true.
Proof. induction d; cbn; try reflexivity; exact IHd. Qed.

Lemma string_of_uint_digits (d : Decimal.uint) :
  all_digits (NilZero.string_of_uint d) = true
  /\ is_empty (NilZero.string_of_uint d) = false.
Proof.
  pose proof (uint_digits d) as H.
  destruct d; (split; [first [reflexivity | exact H] | reflexivity]).
Qed.

Lemma str_of_Z_digits (k : Z) :
  0 <= k -> all_digits (str_of_Z k) = true /\ is_empty (str_of_Z k) = false.
Proof.
  intros H. unfold str_of_Z. destruct k as [|p|p]; [now split| |lia].
  cbn [Z.to_int NilZero.string_of_int]. apply string_of_uint_digits.
Qed.

Lemma list_ascii_app (a b : string) :
  list_ascii_of_string (a ++ b) = (list_ascii_of_string a ++ list_ascii_of_string b)%list.
Proof. induction a as [|c a IH]; [reflexivity|]. cbn. now rewrite IH. Qed.

Lemma one_line_app (a b : string) : one_line (a ++ b) = one_line a && one_line b.
Proof. unfold one_line. now rewrite list_ascii_app, forallb_app. Qed.

Lemma digit_not_linebreak (c : ascii) : is_digit c = true -> Timeline.is_linebreak c = false.
Proof.
  unfold is_digit, Timeline.is_linebreak. intros H.
  apply andb_true_iff in H as [H1 H2]. apply Z.leb_le in H1. apply Z.leb_le in H2.
  apply orb_false_iff. split; apply andb_false_iff; right; apply Z.leb_gt; lia.
Qed.

Lemma all_digits_one_line (s : string) : all_digits s = true -> one_line s = true.
Proof.
  unfold all_digits, one_line. induction (list_ascii_of_string s) as [|c l IH]; [reflexivity|].
  cbn. intros H. apply andb_true_iff in H as [Hc Hl].
  now rewrite (digit_not_linebreak c Hc), IH.
Qed.

Lemma all_digits_app_colon (a b : string) : all_digits (a ++ ":" ++ b) = false.
Proof.
  unfold all_digits. rewrite list_ascii_app, forallb_app. cbn. apply andb_false_r.
Qed.

(** The printed time is digits and punctuation: one line, no blank at
    either end, and not a number. *)
Lemma ms_to_srt_time_shape (ms : Z) :
  0 <= ms < 360000000 ->
  one_line (Pipeline.ms_to_srt_time ms) = true
  /\ trimmed (Pipeline.ms_to_srt_time ms)
  /\ (forall rest, all_digits (Pipeline.ms_to_srt_time ms ++ rest) = false).
Proof.
  intros H. rewrite ms_to_srt_time_groups by lia.
  destruct (clock_groups_bounds ms H) as (Bh & Bm & Bs & Bms & _).
  unfold clock_groups. cbv zeta.
  set (h := ms / 3600000) in *.
  set (m := (ms - h * 3600000) / 60000) in *.
  set (s := (ms - h * 3600000 - m * 60000) / 1000) in *.
  set (r := ms - h * 3600000 - m * 60000 - s * 1000) in *.
  destruct (pads_back_spec 2 h (pads_back_2 h Bh)) as (Lh & Dh & _).
  destruct (pads_back_spec 2 m (pads_back_2 m ltac:(lia))) as (Lm & Dm & _).
  destruct (pads_back_spec 2 s (pads_back_2 s ltac:(lia))) as (Ls & Ds & _).
  destruct (pads_back_spec 3 r (pads_back_3 r Bms)) as (Lr & Dr & _).
  split; [|split].
  - repeat rewrite one_line_app.
    rewrite (all_digits_one_line _ Dh), (all_digits_one_line _ Dm),
      (all_digits_one_line _ Ds), (all_digits_one_line _ Dr). reflexivity.
  - split.
    + apply head_nonspace_app. apply all_digits_trimmed; [exact Dh|].
      destruct (zero_pad 2 h); [discriminate Lh | reflexivity].
    + do 6 apply last_nonspace_app. apply all_digits_last; [exact Dr|].
      destruct (zero_pad 3 r); [discriminate Lr | reflexivity].
  - intros rest. rewrite app_assoc_string. apply all_digits_app_colon.
Qed.

Lemma time_range_shape (start_ms end_ms : Z) :
  0 <= start_ms < 360000000 -> 0 <= end_ms < 360000000 ->
  let line := Pipeline.ms_to_srt_time start_ms ++ " --> " ++ Pipeline.ms_to_srt_time end_ms in
  one_line line = true /\ strip line = line /\ isdigit line = false.
Proof.
  intros Hs He line.
  destruct (ms_to_srt_time_shape start_ms Hs) as (O1 & [Hh1 _] & N1).
  destruct (ms_to_srt_time_shape end_ms He) as (O2 & [_ Hl2] & _).
  split; [|split].
  - unfold line. repeat rewrite one_line_app. now rewrite O1, O2.
  - apply trimmed_strip. split.
    + now apply head_nonspace_app.
    + unfold line. now do 2 apply last_nonspace_app.
  - unfold isdigit. fold (all_digits line). unfold line. rewrite N1. apply andb_false_r.
Qed.

(** *** [splitlines] on lines joined by line feeds *)

Lemma splitlines_from_line (l : string) :
  one_line l = true ->
  forall cur rest,
    Timeline.splitlines_from cur (l ++ rest) = Timeline.splitlines_from (cur ++ l) rest.
Proof.
  induction l as [|c l IH]; intros H cur rest.
  - cbn. f_equal. clear. induction cur; [reflexivity | cbn; congruence].
  - unfold one_line in H. cbn [list_ascii_of_string forallb] in H.
    apply andb_true_iff in H as [Hc Hl]. apply negb_true_iff in Hc.
    cbn [append Timeline.splitlines_from]. rewrite Hc.
    rewrite (IH Hl). f_equal. now rewrite app_assoc_string.
Qed.

Lemma splitlines_line_feed (l rest : string) :
  one_line l = true ->
  Timeline.splitlines (l ++ LF ++ rest) = l :: Timeline.splitlines rest.
Proof.
  intros H. unfold Timeline.splitlines. rewrite (splitlines_from_line l H).
  cbn [append]. destruct rest; reflexivity.
Qed.

Lemma splitlines_written (cues : list (Z * Z * string)) :
  Forall valid_cue cues ->
  forall k, 0 <= k ->
    Timeline.splitlines (join LF (cue_written k cues)) = cue_lines k cues.
Proof.
  induction cues as [|[[start_ms end_ms] text] more IH]; intros Hv k Hk; [reflexivity|].
  inversion Hv as [|? ? Hc Hmore]; subst. destruct Hc as (Hr & He & Ho & Hn).
  destruct (time_range_shape start_ms end_ms ltac:(lia) ltac:(lia)) as (Ots & _ & _).
  destruct (str_of_Z_digits k Hk) as (Dk & _).
  cbn [cue_written cue_lines].
  rewrite join_cons2, (splitlines_line_feed _ _ (all_digits_one_line _ Dk)).
  rewrite join_cons2, (splitlines_line_feed _ _ Ots).
  rewrite join_cons2, (splitlines_line_feed _ _ Ho).
  f_equal. f_equal. f_equal.
  destruct more as [|[[s2 e2] t2] more']; [reflexivity|].
  specialize (IH Hmore (k + 1) ltac:(lia)).
  cbn [cue_written] in IH |- *.
  rewrite join_cons2, (splitlines_line_feed EmptyString _ eq_refl).
  now rewrite IH.
Qed.

Lemma join_single (sep x : string) : join sep [x] = x.
Proof. reflexivity. Qed.

(** The parser on the lines of a written file. *)
Lemma parse_written (cues : list (Z * Z * string)) :
  Forall valid_cue cues ->
  forall k index, 1 <= k -> 0 <= index ->
    TimelineMore.parse_srt_blocks index (k - 1) (cue_lines k cues)
    = Ok (cue_entries k (index + 1) cues).
Proof.
  induction cues as [|[[start_ms end_ms] text] more IH]; intros Hv k index Hk Hindex;
    [reflexivity|].
  inversion Hv as [|? ? Hc Hmore]; subst. destruct Hc as (Hr & He & Ho & Hn).
  destruct (time_range_shape start_ms end_ms ltac:(lia) ltac:(lia)) as (_ & Sts & _).
  destruct (str_of_Z_digits k ltac:(lia)) as (Dk & Nk).
  destruct (time_range_read_back start_ms end_ms ltac:(lia) ltac:(lia))
    as (sh & sm & ss & sms & eh & em & es & ems & Hre & Hstart & Hend).
  cbn [cue_lines cue_entries].
  rewrite parse_srt_blocks_cons.
  rewrite (trimmed_strip (str_of_Z k)) by (now apply all_digits_trimmed).
  rewrite Nk. unfold isdigit at 1. fold (all_digits (str_of_Z k)). rewrite Nk, Dk.
  cbn [negb andb].
  unfold TimelineMore.srt_block. rewrite Sts, Hre, Hstart, Hend.
  replace (end_ms <=? start_ms) with false by (symmetry; apply Z.leb_gt; lia).
  cbn [TimelineMore.text_lines_from]. rewrite Hn. cbn [negb app].
  replace (k - 1 + 1) with k by lia.
  destruct more as [|[[s2 e2] t2] more'].
  - cbn [TimelineMore.text_lines_from bind cue_entries].
    unfold TimelineMore.srt_entry. rewrite join_single. reflexivity.
  - cbn [TimelineMore.text_lines_from]. change (is_empty (strip EmptyString)) with true.
    cbn [negb]. rewrite parse_srt_blocks_cons. change (is_empty (strip EmptyString)) with true.
    cbv iota.
    replace (index + 1 + 1 + 1 + 1) with (index + 4) by lia.
    pose proof (IH Hmore (k + 1) (index + 4) ltac:(lia) ltac:(lia)) as Hrec.
    replace (k + 1 - 1) with k in Hrec by lia. rewrite Hrec. cbn [bind].
    unfold TimelineMore.srt_entry. rewrite join_single.
    replace (index + 4 + 1) with (index + 1 + 4) by lia. reflexivity.
Qed.

Lemma texts_of_strings (l : list string) : Pipeline.texts_of (map PStr l) = Ok l.
Proof. induction l as [|x l IH]; [reflexivity|]. cbn. now rewrite IH. Qed.

Lemma strip_empty_text (s : string) : is_empty (strip s) = false -> is_empty s = false.
Proof. now destruct s. Qed.

(** The loop of [write_srt] on segments that carry cues. *)
Lemma srt_lines_written (segments : list pyval) (cues : list (Z * Z * string)) :
  Forall2 segment_cue segments cues ->
  forall k, Pipeline.srt_lines k segments = Returns (map PStr (cue_written k cues)).
Proof.
  induction 1 as [|seg [[start_ms end_ms] text] segments cues Hc _ IH]; intros k;
    [reflexivity|].
  unfold segment_cue in Hc.
  destruct Hc as (fields & narration & -> & Hnar & Hsel & Hstart & Hend & _ & _ & _ & _ & Hn).
  cbn [Pipeline.srt_lines]. unfold dict_get_default. rewrite Hnar.
  assert (Htruthy : truthy (PDict narration) = true).
  { destruct narration; [discriminate Hsel | reflexivity]. }
  unfold py_or at 1. rewrite Htruthy. cbn [attr_get of_outcome rbind]. rewrite Hsel.
  assert (Ht : truthy (PStr text) = true).
  { cbn [truthy]. now rewrite (strip_empty_text _ Hn). }
  cbv zeta. unfold py_or. repeat rewrite Ht. cbn [negb].
  rewrite Hstart, Hend. cbn [rbind py_int of_outcome]. rewrite IH. reflexivity.
Qed.

Lemma read_written (fs : Fs.fs) (p : Fs.path) (text : string) :
  Fs.read_text (Fs.write fs p text) p = Ok text.
Proof. unfold Fs.read_text, Fs.write. now rewrite path_eqb_refl. Qed.

(** X3.  A subtitle file written by [write_srt] is read back by
    [parse_srt] cue for cue: for segments whose texts are ASCII, on one
    line and not blank, with ranges that end after they start and within
    100 hours, the entries are the cues in order, numbered [n1], [n2], ...,
    with the same times and the stripped texts, each found four lines
    after the one before it. *)
Theorem write_srt_parse_srt (fs : Fs.fs) (out_path : Fs.path) (segments : list pyval)
    (cues : list (Z * Z * string)) :
  Forall2 segment_cue segments cues -> cues <> [] ->
  exists fs' content,
    Pipeline.write_srt fs segments out_path = Returns fs'
    /\ Fs.read_text fs' out_path = Ok content
    /\ TimelineMore.parse_srt content = Ok (cue_entries 1 1 cues).
Proof.
  intros Hseg Hne.
  assert (Hv : Forall valid_cue cues).
  { clear Hne. induction Hseg as [|seg [[a b] t] ? ? Hc _ IH]; constructor; [|exact IH].
    unfold segment_cue in Hc.
    destruct Hc as (? & ? & _ & _ & _ & _ & _ & H1 & H2 & _ & H3 & H4). now repeat split. }
  unfold Pipeline.write_srt, Pipeline.srt_text.
  rewrite (srt_lines_written _ _ Hseg). cbn [rbind].
  rewrite texts_of_strings. cbn [of_outcome rbind].
  eexists _, _. split; [reflexivity|]. split; [apply read_written|].
  unfold TimelineMore.parse_srt. rewrite (splitlines_written _ Hv 1) by lia.
  pose proof (parse_written _ Hv 1 0 ltac:(lia) ltac:(lia)) as Hp.
  change (1 - 1) with 0 in Hp. change (0 + 1) with 1 in Hp. rewrite Hp. cbn [bind].
  destruct cues as [|[[a b] t] cues]; [contradiction|]. reflexivity.
Qed.

Lemma write_srt_parse_srt_witness :
  Forall2 segment_cue two_segments two_cues /\ two_cues <> []
  /\ exists fs' content,
       Pipeline.write_srt no_files two_segments (Fs.Path "/out/captions.srt") = Returns fs'
       /\ Fs.read_text fs' (Fs.Path "/out/captions.srt") = Ok content
       /\ TimelineMore.parse_srt content = Ok (cue_entries 1 1 two_cues).
Proof.
  assert (H : Forall2 segment_cue two_segments two_cues).
  { repeat constructor;
      (eexists _, _; split; [reflexivity|]; repeat split; try reflexivity; lia). }
  split; [exact H|]. split; [discriminate|].
  apply (write_srt_parse_srt no_files (Fs.Path "/out/captions.srt") two_segments two_cues);
    [exact H | discriminate].
Defined.

(** ** pipeline/tts_only.py: the segments of a timeline *)

Lemma total_order_pairs {A : Type} (leb : A -> A -> bool) (R : A -> A -> Prop) (l : list A) :
  (forall x y, decides leb R x y) -> ForallOrdPairs (decides leb R) l.
Proof.
  intros H. induction l as [|x l IH]; constructor; [|exact IH].
  apply Forall_forall. intros y _. apply H.
Qed.

Lemma narration_leb_decides (a b : Pipeline.narration) :
  decides Pipeline.narration_leb
    (fun x y => Pipeline.n_start_ms x <= Pipeline.n_start_ms y) a b.
Proof.
  unfold decides, Pipeline.narration_leb.
  destruct (Pipeline.n_start_ms a <? Pipeline.n_start_ms b) eqn:E1; cbn [orb].
  - apply Z.ltb_lt in E1. split; [lia | discriminate].
  - apply Z.ltb_ge in E1.
    destruct (Pipeline.n_start_ms a =? Pipeline.n_start_ms b) eqn:E2; cbn [andb].
    + apply Z.eqb_eq in E2. split; lia.
    + apply Z.eqb_neq in E2. split; [discriminate | lia].
Qed.

Lemma narrations_from_ok (events : list pyval) :
  forall idx kept,
    Pipeline.narrations_from idx events = Ok kept -> Forall narration_ok kept.
Proof.
  induction events as [|event more IH]; intros idx kept H.
  - inversion H. constructor.
  - cbn [Pipeline.narrations_from] in H.
    destruct event as [| | | | | |event]; eauto.
    destruct (is_empty (strip _)) eqn:Et; [eauto|].
    destruct (py_int (py_or (dict_get event "start_ms") (PInt 0))) as [start_ms|];
      cbn [bind] in H; [|discriminate].
    destruct (py_int (py_or (dict_get event "end_ms") (PInt start_ms))) as [end_ms|];
      cbn [bind] in H; [|discriminate].
    destruct (Pipeline.narrations_from (idx + 1) more) as [rest|] eqn:Er;
      cbn [bind] in H; [|discriminate].
    inversion H; subst kept. constructor; [|eauto].
    split; cbn; [lia | now apply strip_nonempty_trimmed].
Qed.

Lemma segments_from_within (video_duration_ms : Z) (events : list Pipeline.narration) :
  Forall narration_ok events ->
  forall idx, Forall (segment_within video_duration_ms)
                (Pipeline.segments_from video_duration_ms idx events).
Proof.
  induction 1 as [|event later [Hs Ht] _ IH]; intros idx; [constructor|].
  cbn [Pipeline.segments_from].
  destruct (video_duration_ms <=? Pipeline.n_start_ms event) eqn:E; [apply IH|].
  apply Z.leb_gt in E. constructor; [|apply IH].
  eexists _, _, _, _. split; [reflexivity|].
  split; [reflexivity|]. split; [reflexivity|]. split; [reflexivity|].
  split; [|split; [|exact Ht]]; lia.
Qed.

Lemma segments_from_starts (video_duration_ms : Z) (events : list Pipeline.narration) :
  forall idx seg,
    In seg (Pipeline.segments_from video_duration_ms idx events) ->
    exists event, In event events /\ start_of seg = Pipeline.n_start_ms event.
Proof.
  induction events as [|event later IH]; intros idx seg H; [contradiction|].
  cbn [Pipeline.segments_from] in H.
  destruct (video_duration_ms <=? Pipeline.n_start_ms event).
  - destruct (IH _ _ H) as (e & He & Hs). exists e. split; [now right | exact Hs].
  - destruct H as [<-|H].
    + exists event. split; [now left | reflexivity].
    + destruct (IH _ _ H) as (e & He & Hs). exists e. split; [now right | exact Hs].
Qed.

Lemma segments_from_by_start (video_duration_ms : Z) (events : list Pipeline.narration) :
  StronglySorted (fun x y => Pipeline.n_start_ms x <= Pipeline.n_start_ms y) events ->
  forall idx, by_start (Pipeline.segments_from video_duration_ms idx events).
Proof.
  induction 1 as [|event later Hs IH Hall]; intros idx; [constructor|].
  cbn [Pipeline.segments_from].
  destruct (video_duration_ms <=? Pipeline.n_start_ms event); [apply IH|].
  constructor; [apply IH|].
  apply Forall_forall. intros seg Hin.
  destruct (segments_from_starts _ _ _ _ Hin) as (e & He & ->).
  rewrite Forall_forall in Hall. cbn. now apply Hall.
Qed.

(** X4.  The segments [_timeline_to_segments] makes of a timeline lie
    within the video, whatever the events say: each starts at 0 or later,
    ends after it starts and no later than the video duration, carries a
    trimmed text, and the segments are in the order of their starts. *)
Theorem timeline_segments_within (timeline : pydict) (video_duration_ms : Z)
    (segments : list pyval) :
  Pipeline._timeline_to_segments timeline video_duration_ms = Ok segments ->
  Forall (segment_within video_duration_ms) segments /\ by_start segments.
Proof.
  unfold Pipeline._timeline_to_segments. intros H.
  destruct (dict_get timeline "narration_events") as [| | | | |events|];
    try (inversion H; split; constructor).
  destruct (Pipeline.narrations_from 0 events) as [kept|] eqn:E; cbn [bind] in H;
    [|discriminate].
  inversion H; subst segments; clear H.
  apply narrations_from_ok in E. split.
  - apply segments_from_within. apply Forall_forall. intros e He.
    rewrite Forall_forall in E. apply E.
    eapply Permutation_in; [apply stable_sort_perm | exact He].
  - apply segments_from_by_start.
    apply stable_sort_strongly; [intros x y z; lia|].
    apply total_order_pairs. exact narration_leb_decides.
Qed.

Lemma timeline_segments_within_witness :
  Pipeline._timeline_to_segments spoken_timeline 5000 = Ok spoken_segments
  /\ Forall (segment_within 5000) spoken_segments /\ by_start spoken_segments.
Proof.
  split; [reflexivity | apply (timeline_segments_within spoken_timeline); reflexivity].
Defined.

(** ** Dictionaries, continued *)

Lemma key_eqb_str_sym (s : string) (k : pykey) : key_eqb k (KStr s) = key_eqb (KStr s) k.
Proof. destruct k; cbn; try reflexivity. apply String.eqb_sym. Qed.

Lemma lookup_app (k : pykey) (a b : pydict) :
  lookup k (a ++ b)%list = match lookup k a with Some v => Some v | None => lookup k b end.
Proof.
  induction a as [|[k' v] a IH]; [reflexivity|].
  cbn [app lookup]. destruct (key_eqb k k'); [reflexivity | exact IH].
Qed.

Lemma insert_fresh (k : pykey) (v : pyval) (d : pydict) :
  lookup k d = None -> insert k v d = (d ++ [(k, v)])%list.
Proof.
  induction d as [|[k' v'] d IH]; [reflexivity|].
  cbn [lookup insert app]. destruct (key_eqb k k'); [discriminate|].
  intros H. now rewrite IH.
Qed.

Lemma str_key_inv (k : pykey) : is_str (key_val k) = true -> exists s, k = KStr s.
Proof. destruct k; try discriminate. eauto. Qed.

(** [update] with new keys adds the items at the end. *)
Lemma dict_update_fresh (extra : pydict) :
  json_object extra ->
  forall data,
    (forall kv, In kv extra -> lookup (fst kv) data = None) ->
    dict_update data extra = (data ++ extra)%list.
Proof.
  unfold dict_update.
  induction extra as [|[k v] extra IH]; intros [Hs Hd] data Hf.
  - cbn. now rewrite app_nil_r.
  - cbn [fold_left fst snd]. rewrite insert_fresh by (apply (Hf (k, v)); now left).
    inversion Hs as [|? ? Hk Hs']; subst. inversion Hd as [|? ? Hnin Hd']; subst.
    rewrite IH; [now rewrite <- app_assoc | now split |].
    intros [k2 v2] Hin. cbn [fst]. rewrite lookup_app.
    pose proof (Hf (k2, v2) ltac:(now right)) as Hk2. cbn [fst] in Hk2.
    rewrite Hk2. cbn [lookup].
    cbn [fst] in Hk. destruct (str_key_inv _ Hk) as (s & ->).
    rewrite key_eqb_str_sym.
    destruct (key_eqb (KStr s) k2) eqn:E; [|reflexivity].
    apply key_eqb_str_inv in E. subst k2. exfalso. apply Hnin.
    change (KStr s) with (fst (KStr s, v2)). now apply in_map.
Qed.

Lemma no_key_lookup (known : list string) (d : pydict) (k : string) :
  no_key_of known d -> In k known -> lookup (KStr k) d = None.
Proof.
  intros H Hin. induction d as [|[k' v] d IH]; [reflexivity|].
  inversion H as [|? ? Hk Hd]; subst. cbn [lookup].
  rewrite <- key_eqb_str_sym.
  cbn [fst] in Hk.
  assert (E : key_eqb k' (KStr k) = false).
  { clear - Hk Hin. induction known as [|x known IH]; [contradiction|].
    cbn [existsb] in Hk. apply orb_false_iff in Hk as [H1 H2].
    destruct Hin as [->|Hin]; [exact H1 | now apply IH]. }
  rewrite E. now apply IH.
Qed.

Lemma without_keys_none (known : list string) (d : pydict) :
  no_key_of known d -> Timeline.without_keys known d = d.
Proof.
  unfold Timeline.without_keys. induction 1 as [|kv d Hk _ IH]; [reflexivity|].
  cbn [filter]. rewrite Hk, IH. reflexivity.
Qed.

Lemma without_keys_app (known : list string) (a b : pydict) :
  Timeline.without_keys known (a ++ b)%list
  = (Timeline.without_keys known a ++ Timeline.without_keys known b)%list.
Proof. apply filter_app. Qed.

(** ** timeline/models.py: [to_dict] and [from_dict] *)

Lemma py_str_or_self (s : string) : py_str (py_or (PStr s) (PStr EmptyString)) = s.
Proof. now destruct s. Qed.

Ltac split_known H :=
  cbn [existsb] in H;
  repeat match type of H with
         | _ || _ = false => let H1 := fresh "Hk" in apply orb_false_iff in H as [H1 H]
         end.

Ltac fresh_in_data Hn :=
  let kv := fresh "kv" in
  let Hin := fresh "Hin" in
  let Hk := fresh "Hk" in
  intros kv Hin;
  pose proof (proj1 (Forall_forall _ _) Hn kv Hin) as Hk; cbv beta in Hk; split_known Hk;
  cbn [lookup app];
  repeat match goal with E : key_eqb _ _ = false |- _ => rewrite E; clear E end;
  reflexivity.

Lemma narration_event_round_trip (e : Timeline.NarrationEvent) :
  narration_event_kept e ->
  Timeline.NarrationEvent_from_dict (TimelineMore.NarrationEvent_to_dict e) = Ok e.
Proof.
  destruct e as [id start_ms end_ms text voice meta extra].
  intros (Hv & Hj & Hn). cbn [Timeline.ne_voice_profile_id Timeline.ne_extra] in *.
  unfold TimelineMore.NarrationEvent_to_dict.
  cbn [Timeline.ne_id Timeline.ne_start_ms Timeline.ne_end_ms Timeline.ne_text
       Timeline.ne_voice_profile_id Timeline.ne_meta Timeline.ne_extra].
  pose proof (no_key_lookup _ extra "meta" Hn ltac:(cbn; tauto)) as Hmeta.
  pose proof (without_keys_none _ _ Hn) as Hextra.
  destruct meta as [|m meta].
  - cbn [truthy]. rewrite dict_update_fresh; [|exact Hj|fresh_in_data Hn].
    unfold Timeline.NarrationEvent_from_dict, dict_get, dict_get_default.
    rewrite !lookup_app, without_keys_app, Hextra, Hmeta. cbn.
    rewrite !py_str_or_self, (py_or_nonempty_str voice _ Hv). reflexivity.
  - cbn [truthy]. change (dict_set ?d "meta" ?v) with (d ++ [(KStr "meta", v)])%list.
    rewrite dict_update_fresh; [|exact Hj|fresh_in_data Hn].
    unfold Timeline.NarrationEvent_from_dict, dict_get, dict_get_default.
    rewrite !lookup_app, without_keys_app, Hextra. cbn.
    rewrite !py_str_or_self, (py_or_nonempty_str voice _ Hv). reflexivity.
Qed.

Lemma action_event_round_trip (e : Timeline.ActionEvent) :
  action_event_kept e ->
  TimelineMore.ActionEvent_from_dict (TimelineMore.ActionEvent_to_dict e) = Ok e.
Proof.
  destruct e as [id at_ms action target args extra].
  intros (Hj & Hn). cbn [Timeline.ae_extra] in *.
  unfold TimelineMore.ActionEvent_to_dict.
  cbn [Timeline.ae_id Timeline.ae_at_ms Timeline.ae_action Timeline.ae_target
       Timeline.ae_args Timeline.ae_extra].
  pose proof (no_key_lookup _ extra "target" Hn ltac:(cbn; tauto)) as Htarget.
  pose proof (without_keys_none _ _ Hn) as Hextra.
  assert (Hargs : py_or (PDict args) (PDict []) = PDict args) by now destruct args.
  rewrite Hargs.
  destruct target as [target|].
  - change (dict_set ?d "target" ?v) with (d ++ [(KStr "target", v)])%list.
    rewrite dict_update_fresh; [|exact Hj|fresh_in_data Hn].
    unfold TimelineMore.ActionEvent_from_dict, dict_get, dict_get_default, dict_or_empty.
    rewrite !lookup_app, without_keys_app, Hextra. cbn [lookup key_eqb String.eqb Ascii.eqb
      Bool.eqb app]. rewrite Hargs. cbn. rewrite !py_str_or_self. reflexivity.
  - rewrite dict_update_fresh; [|exact Hj|fresh_in_data Hn].
    unfold TimelineMore.ActionEvent_from_dict, dict_get, dict_get_default, dict_or_empty.
    rewrite !lookup_app, without_keys_app, Hextra, Htarget. cbn [lookup key_eqb String.eqb
      Ascii.eqb Bool.eqb app]. rewrite Hargs. cbn. rewrite !py_str_or_self. reflexivity.
Qed.

Lemma from_dicts_round_trip {A : Type} (from_dict : pydict -> outcome A)
    (to_dict : A -> pydict) (kept : A -> Prop) (events : list A) :
  (forall e, kept e -> from_dict (to_dict e) = Ok e) ->
  Forall kept events ->
  TimelineMore.from_dicts from_dict (map (fun e => PDict (to_dict e)) events) = Ok events.
Proof.
  intros Hrt. induction 1 as [|e events He _ IH]; [reflexivity|].
  cbn [map TimelineMore.from_dicts]. rewrite (Hrt e He). cbn [bind]. rewrite IH. reflexivity.
Qed.

Lemma iter_list_or_empty (l : list pyval) : py_iter (py_or (PList l) (PList [])) = Ok l.
Proof. now destruct l. Qed.

(** X5.  Writing a timeline out with [to_dict] and reading it back with
    [from_dict] gives the timeline again, for a timeline whose version
    and voice profile ids are set and whose [extra] fields do not reuse
    the names of the modelled fields. *)
Theorem timeline_dict_round_trip (t : Timeline.Timeline) :
  timeline_kept t ->
  TimelineMore.Timeline_from_dict (TimelineMore.Timeline_to_dict t) = Ok t.
Proof.
  destruct t as [version narration actions]. intros (Hv & Hn & Ha).
  cbn [Timeline.timeline_version Timeline.narration_events Timeline.action_events] in *.
  unfold TimelineMore.Timeline_from_dict, TimelineMore.Timeline_to_dict.
  cbn [Timeline.timeline_version Timeline.narration_events Timeline.action_events].
  change (dict_get ?d "narration_events") with
    (PList (map (fun e => PDict (TimelineMore.NarrationEvent_to_dict e)) narration)).
  change (dict_get ?d "action_events") with
    (PList (map (fun e => PDict (TimelineMore.ActionEvent_to_dict e)) actions)).
  change (dict_get ?d "timeline_version") with (PStr version).
  rewrite !iter_list_or_empty. cbn [bind].
  rewrite (from_dicts_round_trip _ _ _ _ narration_event_round_trip Hn). cbn [bind].
  rewrite (from_dicts_round_trip _ _ _ _ action_event_round_trip Ha). cbn [bind].
  now rewrite (py_or_nonempty_str version _ Hv).
Qed.

Lemma timeline_dict_round_trip_witness :
  timeline_kept kept_timeline
  /\ TimelineMore.Timeline_from_dict (TimelineMore.Timeline_to_dict kept_timeline)
     = Ok kept_timeline.
Proof.
  assert (H : timeline_kept kept_timeline).
  { split; [reflexivity|]. split.
    - repeat constructor; cbn; intuition discriminate.
    - repeat constructor. }
  split; [exact H | apply (timeline_dict_round_trip kept_timeline H)].
Defined.

(** ** timeline/validator.py: the cross-field rules *)

Lemma mem_in_iff (x : string) (l : list string) : Validator.mem x l = true <-> In x l.
Proof.
  unfold Validator.mem. rewrite existsb_exists. split.
  - intros (y & Hy & E). apply String.eqb_eq in E. now subst.
  - intros H. exists x. split; [exact H | apply String.eqb_refl].
Qed.

Lemma mem_not_in (x : string) (l : list string) : Validator.mem x l = false <-> ~ In x l.
Proof.
  rewrite <- mem_in_iff. destruct (Validator.mem x l); split; congruence.
Qed.

Lemma check_narration_events_iff (events : list pyval) :
  forall idx seen,
    TimelineMore.check_narration_events idx seen events = Returns tt
    <-> (Forall range_valid events /\ NoDup (map id_text events)
         /\ forall ev, In ev events -> ~ In (id_text ev) seen).
Proof.
  induction events as [|event more IH]; intros idx seen.
  - cbn. split; [intros _|reflexivity]. split; [constructor|]. split; [constructor|].
    intros ev [].
  - cbn [TimelineMore.check_narration_events]. split.
    + intros H. destruct event as [| | | | | |fields]; try discriminate H.
      cbn [attr_get of_outcome rbind] in H.
      destruct (Validator.mem _ seen) eqn:Em; [discriminate|]. apply mem_not_in in Em.
      destruct (py_int (py_or (dict_get fields "start_ms") (PInt 0))) as [start_ms|] eqn:Es;
        cbn [of_outcome rbind] in H; [|discriminate].
      destruct (py_int (py_or (dict_get fields "end_ms") (PInt 0))) as [end_ms|] eqn:Ee;
        cbn [of_outcome rbind] in H; [|discriminate].
      destruct (end_ms <=? start_ms) eqn:El; [discriminate|]. apply Z.leb_gt in El.
      apply IH in H as (Hr & Hd & Hs).
      split; [|split].
      * constructor; [|exact Hr]. exists fields, start_ms, end_ms. now repeat split.
      * cbn [map]. constructor; [|exact Hd].
        intros Hin. apply in_map_iff in Hin as (ev & Hid & Hev).
        apply (Hs ev Hev). left. now symmetry.
      * intros ev [<-|Hev]; [exact Em|].
        intros Hin. apply (Hs ev Hev). now right.
    + intros (Hr & Hd & Hs).
      inversion Hr as [|? ? (fields & start_ms & end_ms & -> & Es & Ee & Hlt) Hr']; subst.
      cbn [map] in Hd. inversion Hd as [|? ? Hnin Hd']; subst.
      cbn [attr_get of_outcome rbind].
      replace (Validator.mem _ seen) with false
        by (symmetry; apply mem_not_in; apply (Hs (PDict fields)); now left).
      rewrite Es, Ee. cbn [of_outcome rbind].
      replace (end_ms <=? start_ms) with false by (symmetry; apply Z.leb_gt; lia).
      apply IH. split; [exact Hr'|]. split; [exact Hd'|].
      intros ev Hev [Heq|Hin].
      * apply Hnin. rewrite Heq. now apply in_map.
      * apply (Hs ev); [now right | exact Hin].
Qed.

Lemma check_action_events_iff (events : list pyval) :
  forall seen,
    TimelineMore.check_action_events seen events = Returns tt
    <-> (Forall (fun ev => is_dict ev = true) events /\ NoDup (map id_text events)
         /\ forall ev, In ev events -> ~ In (id_text ev) seen).
Proof.
  induction events as [|event more IH]; intros seen.
  - cbn. split; [intros _|reflexivity]. split; [constructor|]. split; [constructor|].
    intros ev [].
  - cbn [TimelineMore.check_action_events]. split.
    + intros H. destruct event as [| | | | | |fields]; try discriminate H.
      cbn [attr_get of_outcome rbind] in H.
      destruct (Validator.mem _ seen) eqn:Em; [discriminate|]. apply mem_not_in in Em.
      apply IH in H as (Hr & Hd & Hs).
      split; [|split].
      * constructor; [reflexivity | exact Hr].
      * cbn [map]. constructor; [|exact Hd].
        intros Hin. apply in_map_iff in Hin as (ev & Hid & Hev).
        apply (Hs ev Hev). left. now symmetry.
      * intros ev [<-|Hev]; [exact Em|].
        intros Hin. apply (Hs ev Hev). now right.
    + intros (Hr & Hd & Hs).
      inversion Hr as [|? ? Hdict Hr']; subst.
      destruct event as [| | | | | |fields]; try discriminate Hdict.
      cbn [map] in Hd. inversion Hd as [|? ? Hnin Hd']; subst.
      cbn [attr_get of_outcome rbind].
      replace (Validator.mem _ seen) with false
        by (symmetry; apply mem_not_in; apply (Hs (PDict fields)); now left).
      apply IH. split; [exact Hr'|]. split; [exact Hd'|].
      intros ev Hev [Heq|Hin].
      * apply Hnin. rewrite Heq. now apply in_map.
      * apply (Hs ev); [now right | exact Hin].
Qed.

(** X6.  On a payload whose [narration_events] and [action_events] are
    lists, [_validate_cross_field_rules] returns exactly when every
    narration event is an object with a range that ends after it starts,
    every action event is an object, and no id occurs twice among the
    narration events, nor among the action events (a missing id counts
    as the empty text); otherwise it raises. *)
Theorem cross_field_rules_exact (payload : pydict) (narration actions : list pyval) :
  dict_get payload "narration_events" = PList narration ->
  dict_get payload "action_events" = PList actions ->
  TimelineMore._validate_cross_field_rules payload = Returns tt
  <-> (Forall range_valid narration /\ NoDup (map id_text narration)
       /\ Forall (fun ev => is_dict ev = true) actions /\ NoDup (map id_text actions)).
Proof.
  intros Hn Ha. unfold TimelineMore._validate_cross_field_rules.
  rewrite Hn, Ha, !iter_list_or_empty. cbn [of_outcome rbind].
  pose proof (check_narration_events_iff narration 0 []) as Hcn.
  pose proof (check_action_events_iff actions []) as Hca.
  destruct (TimelineMore.check_narration_events 0 [] narration) as [[]|e] eqn:E1;
    cbn [rbind].
  - destruct (proj1 Hcn eq_refl) as (H1 & H2 & _). rewrite Hca. split.
    + intros (H3 & H4 & _). now repeat split.
    + intros (_ & _ & H3 & H4). split; [exact H3|]. split; [exact H4|]. intros ev _ [].
  - split; [discriminate|]. intros (H1 & H2 & _).
    assert (Hok : @Raises unit e = Returns tt); [|discriminate Hok].
    apply Hcn. split; [exact H1|]. split; [exact H2|]. intros ev _ [].
Qed.

Lemma cross_field_rules_exact_witness :
  TimelineMore._validate_cross_field_rules checked_payload = Returns tt
  <-> (Forall range_valid
         [ PDict [ (KStr "id", PStr "n1"); (KStr "start_ms", PInt 0);
                   (KStr "end_ms", PInt 1000) ];
           PDict [ (KStr "id", PStr "n2"); (KStr "start_ms", PStr "1000");
                   (KStr "end_ms", PInt 2500) ] ]
       /\ NoDup ["n1"; "n2"]
       /\ Forall (fun ev => is_dict ev = true)
            [ PDict [ (KStr "id", PStr "a1") ]; PDict [ (KStr "id", PStr "a2") ] ]
       /\ NoDup ["a1"; "a2"]).
Proof. apply (cross_field_rules_exact checked_payload); reflexivity. Defined.

(** ** tts/cache.py: the cache files *)

(** X7.  What [store_tts_cache] puts in the cache, [restore_tts_cache]
    gives back: when the rendered file exists as a regular file, storing
    it under a cache path and restoring from that path reports a hit,
    writes the same bytes to the output, wherever that is, and leaves
    them in the cache file.  When the rendered file does not exist,
    [store_tts_cache] returns without writing anything. *)
Theorem tts_cache_round_trip (fs : Fs.fs) (out_file cache_file out_again : Fs.path) :
  (forall data,
      fs out_file = Some (Fs.File data) ->
      exists fs1 fs2,
        TtsCacheFiles.store_tts_cache fs out_file cache_file = Returns fs1
        /\ TtsCacheFiles.restore_tts_cache fs1 cache_file out_again = Returns (true, fs2)
        /\ Fs.read_text fs2 out_again = Ok data
        /\ Fs.read_text fs2 cache_file = Ok data)
  /\ (fs out_file = None ->
      TtsCacheFiles.store_tts_cache fs out_file cache_file = Returns fs).
Proof.
  split.
  - intros data H.
    unfold TtsCacheFiles.store_tts_cache, Fs.exists_, TtsCacheFiles.read_bytes.
    rewrite H. cbn [rbind]. eexists _, _. split; [reflexivity|].
    unfold TtsCacheFiles.restore_tts_cache, Fs.exists_, TtsCacheFiles.read_bytes, Fs.write.
    rewrite path_eqb_refl. cbn [negb rbind]. split; [reflexivity|].
    unfold Fs.read_text. rewrite !path_eqb_refl. split; [reflexivity|].
    destruct (Fs.path_eqb cache_file out_again); reflexivity.
  - intros H. unfold TtsCacheFiles.store_tts_cache, Fs.exists_. now rewrite H.
Qed.

Lemma tts_cache_round_trip_witness :
  rendered_files (Fs.Path "/data/work/seg000.wav") = Some (Fs.File "RIFF audio")
  /\ exists fs1 fs2,
       TtsCacheFiles.store_tts_cache rendered_files (Fs.Path "/data/work/seg000.wav")
         (TtsCacheFiles.tts_cache_path (Fs.Path "/data/cache/tts") "abc") = Returns fs1
       /\ TtsCacheFiles.restore_tts_cache fs1
            (TtsCacheFiles.tts_cache_path (Fs.Path "/data/cache/tts") "abc")
            (Fs.Path "/data/work/seg007.wav") = Returns (true, fs2)
       /\ Fs.read_text fs2 (Fs.Path "/data/work/seg007.wav") = Ok "RIFF audio"
       /\ Fs.read_text fs2 (TtsCacheFiles.tts_cache_path (Fs.Path "/data/cache/tts") "abc")
          = Ok "RIFF audio".
Proof.
  split; [reflexivity|].
  apply (proj1 (tts_cache_round_trip rendered_files (Fs.Path "/data/work/seg000.wav")
                  (TtsCacheFiles.tts_cache_path (Fs.Path "/data/cache/tts") "abc")
                  (Fs.Path "/data/work/seg007.wav"))).
  reflexivity.
Defined.

(** ** tts/profiles.py *)

Lemma insert_same_value (k : string) (v : pyval) (d : pydict) :
  lookup (KStr k) d = Some v -> insert (KStr k) v d = d.
Proof.
  induction d as [|[k0 v0] d IH]; [discriminate|].
  cbn [lookup insert]. destruct (key_eqb (KStr k) k0) eqn:E.
  - intros H. inversion H. reflexivity.
  - intros H. now rewrite IH.
Qed.

Lemma dict_set_same_value (d : pydict) (k : string) (v : pyval) :
  lookup (KStr k) d = Some v -> dict_set d k v = d.
Proof. apply insert_same_value. Qed.

Lemma dict_mem_set_same (d : pydict) (k : string) (v : pyval) :
  dict_mem (dict_set d k v) k = true.
Proof. unfold dict_mem, dict_set. now rewrite lookup_insert_same. Qed.

Lemma lookup_set_same (d : pydict) (k : string) (v : pyval) :
  lookup (KStr k) (dict_set d k v) = Some v.
Proof. apply lookup_insert_same. Qed.

(** After [ensure_tts_profiles] the project has its profiles, with a
    default profile among them. *)
Lemma ensure_tts_profiles_post (proj proj0 profiles0 : pydict) :
  TtsProfiles.ensure_tts_profiles proj = Ok (proj0, profiles0) ->
  lookup (KStr "tts_profiles") proj0 = Some (PDict profiles0)
  /\ dict_mem profiles0 "default" = true
  /\ is_dict (dict_get profiles0 "default") = true.
Proof.
  unfold TtsProfiles.ensure_tts_profiles. intros H.
  set (profiles := match dict_get proj "tts_profiles" with
                   | PDict profiles => profiles
                   | _ => []
                   end) in *.
  destruct (negb (dict_mem profiles "default") || negb (is_dict (dict_get profiles "default")))
    eqn:E.
  - repeat match type of H with
           | bind ?c _ = Ok _ => destruct c; cbn [bind] in H; [|discriminate H]
           end.
    inversion H; subst. split; [apply lookup_set_same|].
    split; [apply dict_mem_set_same | now rewrite dict_get_set_same].
  - inversion H; subst. apply orb_false_iff in E as [E1 E2].
    apply negb_false_iff in E1. apply negb_false_iff in E2.
    split; [apply lookup_set_same | now split].
Qed.

(** On such a project it changes nothing. *)
Lemma ensure_tts_profiles_fixed (proj profiles : pydict) :
  lookup (KStr "tts_profiles") proj = Some (PDict profiles) ->
  dict_mem profiles "default" = true ->
  is_dict (dict_get profiles "default") = true ->
  TtsProfiles.ensure_tts_profiles proj = Ok (proj, profiles).
Proof.
  intros Hp Hm Hd. unfold TtsProfiles.ensure_tts_profiles.
  assert (Hg : dict_get proj "tts_profiles" = PDict profiles)
    by (unfold dict_get, dict_get_default; now rewrite Hp).
  rewrite Hg. cbv zeta. rewrite Hm, Hd. cbn [negb orb].
  now rewrite (dict_set_same_value _ _ _ Hp).
Qed.

(** X8.  A profile that [upsert_tts_profile] stored is the one
    [resolve_tts_profile] finds under its id: the resolved profile is the
    merged profile the upsert returned, the project is left as it was,
    and the profile's [profile_id] is the stripped id, which is not
    empty. *)
Theorem upsert_then_resolve (proj profile proj1 merged : pydict) :
  TtsProfiles.upsert_tts_profile proj profile = Returns (proj1, merged) ->
  let pid := strip (py_str (py_or (dict_get profile "profile_id") (PStr ""))) in
  TtsProfiles.resolve_tts_profile proj1 (Some pid) = Returns (proj1, merged)
  /\ dict_get merged "profile_id" = PStr pid
  /\ is_empty pid = false.
Proof.
  intros H. cbv zeta. unfold TtsProfiles.upsert_tts_profile in H.
  set (pid := strip (py_str (py_or (dict_get profile "profile_id") (PStr "")))) in *.
  destruct (TtsProfiles.ensure_tts_profiles proj) as [[proj0 profiles0]|] eqn:E;
    cbn [of_outcome rbind] in H; [|discriminate].
  destruct (is_empty pid) eqn:Epid; [discriminate|].
  destruct (ensure_tts_profiles_post _ _ _ E) as (Hp0 & Hm0 & Hd0).
  repeat match type of H with
         | rbind (of_outcome ?c) _ = Returns _ =>
             destruct c; cbn [of_outcome rbind] in H; [|discriminate H]
         end.
  inversion H; subst proj1 merged; clear H.
  split; [|split; [apply dict_get_set_same | reflexivity]].
  unfold TtsProfiles.resolve_tts_profile.
  match goal with
  | |- context [dict_set proj0 "tts_profiles" (PDict ?P)] =>
      rewrite (ensure_tts_profiles_fixed (dict_set proj0 "tts_profiles" (PDict P)) P)
  end.
  - cbn [of_outcome rbind]. rewrite Epid.
    assert (Hs : strip pid = pid) by apply strip_strip.
    rewrite Hs, Epid, dict_get_set_same, dict_get_set_same. cbn [truthy].
    rewrite Epid. reflexivity.
  - apply lookup_set_same.
  - destruct (String.eqb_spec "default" pid) as [<-|Hne];
      [apply dict_mem_set_same | now rewrite dict_mem_set_other].
  - destruct (String.eqb_spec "default" pid) as [<-|Hne];
      [now rewrite dict_get_set_same | now rewrite dict_get_set_other].
Qed.

Lemma upsert_then_resolve_witness :
  TtsProfiles.upsert_tts_profile [] narrator_profile = Returns narrator_upserted
  /\ TtsProfiles.resolve_tts_profile (fst narrator_upserted) (Some "narrator")
     = Returns narrator_upserted
  /\ dict_get (snd narrator_upserted) "profile_id" = PStr "narrator".
Proof.
  split; [reflexivity|].
  destruct (upsert_then_resolve [] narrator_profile (fst narrator_upserted)
              (snd narrator_upserted) eq_refl) as (H1 & H2 & _).
  split; [exact H1 | exact H2].
Defined.

Lemma lookup_not_in (k : string) (d : pydict) :
  ~ In (KStr k) (map fst d) -> lookup (KStr k) d = None.
Proof.
  induction d as [|[k0 v0] d IH]; [reflexivity|].
  cbn [map fst lookup]. intros H.
  destruct (key_eqb (KStr k) k0) eqn:E.
  - apply key_eqb_str_inv in E. subst. exfalso. apply H. now left.
  - apply IH. intros Hin. apply H. now right.
Qed.

(** [update]: a key of the argument gets its value, the others keep
    theirs. *)
Lemma lookup_update (other : pydict) :
  json_object other ->
  forall d k,
    lookup (KStr k) (dict_update d other)
    = match lookup (KStr k) other with
      | Some v => Some v
      | None => lookup (KStr k) d
      end.
Proof.
  unfold dict_update.
  induction other as [|[k1 v1] other IH]; intros [Hs Hd] d k; [reflexivity|].
  inversion Hs as [|? ? Hk Hs']; subst. inversion Hd as [|? ? Hnin Hd']; subst.
  cbn [fst] in Hk. destruct (str_key_inv _ Hk) as (s & ->).
  cbn [fold_left fst snd lookup]. rewrite IH by now split.
  destruct (key_eqb (KStr k) (KStr s)) eqn:E.
  - apply key_eqb_str_inv in E. inversion E; subst s.
    rewrite (lookup_not_in _ _ Hnin). apply lookup_insert_same.
  - destruct (lookup (KStr k) other); [reflexivity|].
    apply lookup_insert_other. intros ->. now rewrite key_eqb_str_refl in E.
Qed.

(** X9.  In [resolve_tts_params] the caller's override has the last
    word: a key of [params_override] gets the override's value, and every
    other key keeps the value resolved without an override (from the
    profile's voice, the profile's params and the project's defaults). *)
Theorem tts_params_override_wins (proj profile override resolved params : pydict) :
  json_object override ->
  TtsProfiles.resolve_tts_params proj profile None = Ok resolved ->
  TtsProfiles.resolve_tts_params proj profile (Some override) = Ok params ->
  forall k,
    dict_get params k
    = match lookup (KStr k) override with
      | Some v => v
      | None => dict_get resolved k
      end.
Proof.
  intros Hj Hnone Hsome k. unfold TtsProfiles.resolve_tts_params in *.
  match type of Hnone with
  | bind ?c _ = _ => destruct c as [defaults|]; cbn [bind] in *; [|discriminate]
  end.
  destruct (dict_or_empty (dict_get profile "params")) as [own|]; cbn [bind] in *;
    [|discriminate].
  inversion Hnone; subst resolved; clear Hnone.
  inversion Hsome; subst params; clear Hsome.
  destruct override as [|kv override]; [reflexivity|].
  cbn [truthy]. unfold dict_get, dict_get_default.
  rewrite (lookup_update _ Hj).
  destruct (lookup (KStr k) (kv :: override)); reflexivity.
Qed.

Lemma tts_params_override_wins_witness :
  json_object [ (KStr "seed", PInt 7) ]
  /\ TtsProfiles.resolve_tts_params [] voiced_profile None
     = Ok [ (KStr "voice", PStr "nova"); (KStr "seed", PInt 1) ]
  /\ (forall k params,
        TtsProfiles.resolve_tts_params [] voiced_profile (Some [ (KStr "seed", PInt 7) ])
          = Ok params ->
        dict_get params k
        = match lookup (KStr k) [ (KStr "seed", PInt 7) ] with
          | Some v => v
          | None => dict_get [ (KStr "voice", PStr "nova"); (KStr "seed", PInt 1) ] k
          end).
Proof.
  assert (Hj : json_object [ (KStr "seed", PInt 7) ]).
  { split; repeat constructor. intros []. }
  split; [exact Hj|]. split; [reflexivity|].
  intros k params H.
  apply (tts_params_override_wins [] voiced_profile [ (KStr "seed", PInt 7) ]
           [ (KStr "voice", PStr "nova"); (KStr "seed", PInt 1) ] params Hj eq_refl H).
Defined.

Lemma stripped_text_stripped (v : pyval) (s : string) :
  TtsProfiles.stripped_text v = Some s -> strip s = s /\ is_empty s = false.
Proof.
  destruct v; try discriminate. cbn [TtsProfiles.stripped_text].
  destruct (is_empty (strip s0)) eqn:E; [discriminate|].
  intros H. inversion H; subst. split; [apply strip_strip | exact E].
Qed.

(** X10.  The endpoint [resolve_tts_endpoint] gives has no blank at
    either end, and a profile whose own endpoint is not blank gets that
    endpoint, stripped, whatever the project settings and the fallback
    say. *)
Theorem tts_endpoint_stripped (proj profile : pydict) (fallback_endpoint : option string) :
  let endpoint := TtsProfiles.resolve_tts_endpoint proj profile fallback_endpoint in
  strip endpoint = endpoint
  /\ forall own,
       dict_get profile "endpoint" = PStr own -> is_empty (strip own) = false ->
       endpoint = strip own.
Proof.
  cbv zeta. unfold TtsProfiles.resolve_tts_endpoint. split.
  - destruct (TtsProfiles.stripped_text (dict_get profile "endpoint")) as [e|] eqn:E1;
      [now apply stripped_text_stripped in E1|].
    match goal with
    | |- context [match ?c with Some _ => _ | None => _ end] =>
        destruct c as [e|] eqn:E2
    end.
    + destruct (dict_get proj "settings") as [| | | | | |settings_obj]; try discriminate E2.
      destruct (dict_get settings_obj "tts") as [| | | | | |tts_settings]; try discriminate E2.
      now apply stripped_text_stripped in E2.
    + apply strip_strip.
  - intros own Hown Hne. rewrite Hown. cbn [TtsProfiles.stripped_text]. now rewrite Hne.
Qed.

(** ** storage.py: new projects, histories, timings, legacy segments *)

(** X11.  A project made by [init_project] is already in the form the
    migration gives: [init_project] always returns, and
    [ensure_project_defaults] on its document reports no change and
    leaves the document as it is, whatever the video it was made for. *)
Theorem init_project_is_migrated (clk : clock) (fs : Fs.fs) (data_dir project_id : string)
    (video_rel_path video_sha256 : string) (duration_ms : Z)
    (width height : option Z) (fps : option pyfloat) (has_audio : bool) (t : nat) :
  exists proj fs',
    StorageMore.init_project clk fs data_dir project_id video_rel_path video_sha256
      duration_ms width height fps has_audio t = Ok (proj, fs', S t)
    /\ dict_get proj "project_id" = PStr project_id
    /\ forall clk' t',
         Storage.ensure_project_defaults clk' proj t' = Ok (proj, false, EmptyString, t').
Proof.
  eexists _, _. split; [|split].
  - unfold StorageMore.init_project, tbind, utc_now_iso, tlift, tret.
    change (Storage._default_profile_from_tts_settings Storage._default_tts_settings)
      with (Ok (A := pydict)
              [ (KStr "profile_id", PStr "default");
                (KStr "display_name", PStr "Default");
                (KStr "provider", PStr "chatterbox");
                (KStr "voice_mode", PStr "predefined_voice");
                (KStr "params",
                 PDict [ (KStr "speed_factor", PFloat (FDec 1 0));
                         (KStr "temperature", PFloat (FDec 8 (-1)));
                         (KStr "exaggeration", PFloat (FDec 5 (-1)));
                         (KStr "cfg_weight", PFloat (FDec 5 (-1)));
                         (KStr "seed", PInt 123);
                         (KStr "language_id", PStr "en");
                         (KStr "output_format", PStr "wav") ]);
                (KStr "endpoint", PStr "");
                (KStr "predefined_voice_id", PStr "alloy") ]).
    cbv iota beta. unfold Unified.atomic_write_json, Json.dumps.
    cbn [andb bind]. reflexivity.
  - reflexivity.
  - intros clk' t'. vm_compute. reflexivity.
Qed.

(** ** storage.py: histories under any limit *)

Lemma kept_records_bounds (history_limit : Z) :
  Storage._history_limit (PInt history_limit) 50 = kept_records history_limit
  /\ 1 <= kept_records history_limit <= 500.
Proof.
  unfold Storage._history_limit, Storage._coerce_int, kept_records. cbn [py_int catch].
  destruct (history_limit <? 1) eqn:E; [split; [reflexivity|lia]|].
  apply Z.ltb_ge in E. split; [reflexivity|lia].
Qed.

Lemma last_is_record_nonempty (history : list pyval) (record : pydict) :
  last history PNone = PDict record -> 1 <= Z.of_nat (List.length history).
Proof. destruct history; [discriminate|]. cbn [List.length]. lia. Qed.

(** X12.  Whatever [history_limit] the caller asks for, an append keeps
    at least the record it was given and at most 500 records: the
    history ends with the normalised record the append returns, and it
    has no more than [history_limit] records when that is between 1 and
    500, no more than 500 when it is greater, and no more than 50 when
    it is below 1.  This holds for [append_render_history] and for
    [append_demo_run]. *)
Theorem append_history_any_limit (clk : clock) (proj record : pydict)
    (fallback : option string) (history_limit : Z) (t : nat) :
  (forall proj' normalized t',
      Storage.append_render_history clk proj record fallback history_limit t
        = Ok (proj', normalized, t') ->
      history_ends_with proj' "renders" "history" normalized (kept_records history_limit))
  /\ (forall proj' normalized t',
         Storage.append_demo_run clk proj record fallback history_limit t
           = Ok (proj', normalized, t') ->
         history_ends_with proj' "demo" "runs" normalized (kept_records history_limit)).
Proof.
  destruct (kept_records_bounds history_limit) as [Hl Hb].
  split; intros proj' normalized t' H.
  - unfold Storage.append_render_history in H. step_timed H.
    unfold tret in H. inversion H; subst proj' normalized t'; clear H.
    unfold Storage.MAX_RENDER_HISTORY. rewrite Hl. unfold history_ends_with.
    match goal with
    | |- context [dict_set proj _ (PDict ?st)] => exists st
    end.
    match goal with
    | |- context [PList (Storage._trim_history ?l ?lim)] =>
        exists (Storage._trim_history l lim)
    end.
    dict_simpl. split; [reflexivity|]. split; [reflexivity|].
    assert (Hlast : forall l, last (Storage._trim_history (l ++ [PDict p]) (kept_records history_limit)) PNone = PDict p)
      by (intros l; apply trim_history_last; lia).
    split; [|apply Hlast].
    split; [eapply last_is_record_nonempty; apply Hlast|].
    apply trim_history_length; lia.
  - unfold Storage.append_demo_run in H. step_timed H.
    unfold tret in H. inversion H; subst proj' normalized t'; clear H.
    unfold Storage.MAX_DEMO_RUN_HISTORY. rewrite Hl. unfold history_ends_with.
    match goal with
    | |- context [dict_set proj _ (PDict ?st)] => exists st
    end.
    match goal with
    | |- context [PList (Storage._trim_history ?l ?lim)] =>
        exists (Storage._trim_history l lim)
    end.
    dict_simpl. split; [reflexivity|]. split; [reflexivity|].
    assert (Hlast : forall l, last (Storage._trim_history (l ++ [PDict p]) (kept_records history_limit)) PNone = PDict p)
      by (intros l; apply trim_history_last; lia).
    split; [|apply Hlast].
    split; [eapply last_is_record_nonempty; apply Hlast|].
    apply trim_history_length; lia.
Qed.

Lemma append_history_any_limit_witness :
  match render_appended with
  | Ok (proj', normalized, _) =>
      Storage.append_render_history fixed_clock rendered_project
        [ (KStr "render_id", PStr "r4") ] None 2 0%nat = render_appended
      /\ dict_get normalized "render_id" = PStr "r4"
      /\ history_ends_with proj' "renders" "history" normalized 2
  | Raise _ => False
  end.
Proof.
  cbv beta iota delta [render_appended].
  split; [reflexivity|]. split; [reflexivity|].
  apply (proj1 (append_history_any_limit fixed_clock rendered_project
                  [ (KStr "render_id", PStr "r4") ] None 2 0%nat) _ _ 1%nat).
  reflexivity.
Defined.

(** ** storage.py: stage timings and legacy segments *)

Lemma insert_stage_timing (name : string) (ms : Z) (d : pydict) :
  trimmed name -> 0 <= ms ->
  Forall stage_timing d -> NoDup (map fst d) ->
  Forall stage_timing (insert (KStr name) (PInt ms) d)
  /\ NoDup (map fst (insert (KStr name) (PInt ms) d)).
Proof.
  intros Ht Hms Hall Hnd.
  assert (Hnew : stage_timing (KStr name, PInt ms)) by (exists name, ms; auto).
  induction d as [|[k v] r IH]; cbn [insert].
  - split; [constructor; [exact Hnew|constructor]|]. cbn. constructor; [intros []|constructor].
  - inversion Hall as [|? ? Hkv Hr]; subst. inversion Hnd as [|? ? Hnot Hnr]; subst.
    destruct (key_eqb (KStr name) k) eqn:E.
    + apply key_eqb_str_inv in E. subst k. split; [constructor; assumption|exact Hnd].
    + destruct (IH Hr Hnr) as [IH1 IH2]. split; [constructor; assumption|].
      cbn [map fst]. constructor; [|exact IH2].
      intros Hin. apply Hnot. clear - Hin E Hkv.
      destruct Hkv as (n & m & Hk & _). inversion Hk; subst k v.
      induction r as [|[k0 v0] r IHr]; cbn [insert map fst] in Hin.
      * destruct Hin as [Hin|[]]. inversion Hin; subst.
        cbn in E. now rewrite String.eqb_refl in E.
      * destruct (key_eqb (KStr name) k0); cbn [map fst] in Hin |- *.
        -- exact Hin.
        -- destruct Hin as [Hin|Hin]; [now left | right; auto].
Qed.

Lemma stage_timings_from_spec (items normalized : pydict) :
  Forall stage_timing normalized -> NoDup (map fst normalized) ->
  Forall stage_timing (Storage.stage_timings_from normalized items)
  /\ NoDup (map fst (Storage.stage_timings_from normalized items)).
Proof.
  revert normalized. induction items as [|[key raw] more IH]; intros normalized Hall Hnd;
    cbn [Storage.stage_timings_from]; [now split|].
  cbv zeta. destruct (is_empty (strip (py_str (key_val key)))) eqn:E; [now apply IH|].
  unfold dict_set.
  destruct (insert_stage_timing (strip (py_str (key_val key)))
              (Z.max 0 (Storage._coerce_int raw 0)) normalized) as [H1 H2];
    [now apply strip_nonempty_trimmed | lia | exact Hall | exact Hnd |].
  now apply IH.
Qed.

(** X13.  What [_normalize_stage_timings] returns, for any value at all,
    is a table of timings: every key is a text with no blank at either
    end (so not empty), every value is a whole number of milliseconds
    from 0 on, and no key is there twice. *)
Theorem stage_timings_normalized (value : pyval) :
  Forall stage_timing (Storage._normalize_stage_timings value)
  /\ NoDup (map fst (Storage._normalize_stage_timings value)).
Proof.
  unfold Storage._normalize_stage_timings.
  destruct value; try (split; constructor).
  apply stage_timings_from_spec; constructor.
Qed.

Lemma legacy_leb_decides (a b : Storage.legacy_event) :
  decides Storage.legacy_leb
    (fun x y => Storage.le_start_ms x <= Storage.le_start_ms y) a b.
Proof.
  unfold decides, Storage.legacy_leb.
  destruct (Storage.le_start_ms a <? Storage.le_start_ms b) eqn:E1; cbn [orb].
  - apply Z.ltb_lt in E1. split; [lia | discriminate].
  - apply Z.ltb_ge in E1.
    destruct (Storage.le_start_ms a =? Storage.le_start_ms b) eqn:E2; cbn [andb].
    + apply Z.eqb_eq in E2. split; lia.
    + apply Z.eqb_neq in E2. split; [discriminate | lia].
Qed.

Lemma legacy_events_from_spec (segments : list pyval) :
  forall idx seen_ids,
    Forall (fun e => Storage.le_start_ms e <= Storage.le_end_ms e)
      (Storage.legacy_events_from idx seen_ids segments)
    /\ List.length (Storage.legacy_events_from idx seen_ids segments)
       = List.length (filter is_dict segments).
Proof.
  induction segments as [|segment more IH]; intros idx seen_ids;
    cbn [Storage.legacy_events_from]; [split; [constructor|reflexivity]|].
  destruct segment as [| | | | | |segment]; cbn [filter is_dict]; try apply IH.
  cbv zeta.
  destruct (Timeline.seen_get seen_ids _);
    (split; [constructor; [|apply IH] | cbn [List.length]; f_equal; apply IH]);
    cbn [Storage.le_start_ms Storage.le_end_ms];
    match goal with
    | |- context [if ?a <? ?b then _ else _] => destruct (a <? b) eqn:E
    end; [lia | apply Z.ltb_ge in E; lia | lia | apply Z.ltb_ge in E; lia].
Qed.

Lemma sorted_map_start (events : list Storage.legacy_event) :
  StronglySorted (fun x y => Storage.le_start_ms x <= Storage.le_start_ms y) events ->
  by_start (map Storage.legacy_event_dict events).
Proof.
  induction 1 as [|e l Hs IH Hall]; cbn [map]; constructor; [exact IH|].
  apply Forall_forall. intros ev Hin. apply in_map_iff in Hin.
  destruct Hin as (e' & <- & Hin). rewrite Forall_forall in Hall. cbn. now apply Hall.
Qed.

(** X14.  The narration events [_segments_to_narration_events] makes of
    legacy segments: there is one for each segment that is an object
    (none at all when [segments] is not a list), none of them ends
    before it starts, and they are in the order of their starts. *)
Theorem legacy_segments_events (segments : pyval) :
  let events := Storage._segments_to_narration_events segments in
  Forall ends_not_before_start events
  /\ by_start events
  /\ List.length events
     = match segments with
       | PList items => List.length (filter is_dict items)
       | _ => 0%nat
       end.
Proof.
  cbv zeta. unfold Storage._segments_to_narration_events.
  destruct segments as [| | | | |items|]; try (repeat split; constructor).
  destruct (legacy_events_from_spec items 0 []) as [Hr Hl]. split; [|split].
  - apply Forall_forall. intros ev Hin. apply in_map_iff in Hin.
    destruct Hin as (e & <- & Hin).
    exists (match Storage.legacy_event_dict e with PDict f => f | _ => [] end),
      (Storage.le_start_ms e), (Storage.le_end_ms e).
    split; [reflexivity|]. split; [reflexivity|]. split; [reflexivity|].
    rewrite Forall_forall in Hr. apply Hr.
    eapply Permutation_in; [apply stable_sort_perm | exact Hin].
  - apply sorted_map_start.
    apply stable_sort_strongly; [intros x y z; lia|].
    apply total_order_pairs. exact legacy_leb_decides.
  - rewrite length_map, <- Hl. apply Permutation_length, stable_sort_perm.
Qed.

(** ** demo_runner/validator.py: what a validated action is *)

Lemma parse_int_field_range (value : pyval) (field_name : string) (index : Z)
    (action_id : string) (minimum : Z) (maximum default : option Z) (n : Z) :
  (forall d, default = Some d ->
             minimum <= d /\ forall m, maximum = Some m -> d <= m) ->
  Validator._parse_int_field value field_name index action_id minimum maximum default = Ok n ->
  minimum <= n /\ forall m, maximum = Some m -> n <= m.
Proof.
  intros Hd H. unfold Validator._parse_int_field in H.
  assert (Hparsed : forall v,
             match py_int v with
             | Raise _ =>
                 Raise (DemoActionValidationError (field_name ++ " must be an integer")
                          (Some index) (Some action_id))
             | Ok parsed =>
                 if parsed <? minimum then
                   Raise (DemoActionValidationError
                            (field_name ++ " must be >= " ++ str_of_Z minimum)
                            (Some index) (Some action_id))
                 else
                   match maximum with
                   | Some m =>
                       if m <? parsed then
                         Raise (DemoActionValidationError
                                  (field_name ++ " must be <= " ++ str_of_Z m)
                                  (Some index) (Some action_id))
                       else Ok parsed
                   | None => Ok parsed
                   end
             end = Ok n ->
             minimum <= n /\ forall m, maximum = Some m -> n <= m).
  { intros v Hv. destruct (py_int v) as [parsed|]; [|discriminate].
    destruct (parsed <? minimum) eqn:E1; [discriminate|]. apply Z.ltb_ge in E1.
    destruct maximum as [m|].
    - destruct (m <? parsed) eqn:E2; [discriminate|]. apply Z.ltb_ge in E2.
      inversion Hv; subst. split; [lia|]. intros m' Hm. inversion Hm; subst. lia.
    - inversion Hv; subst. split; [lia|]. intros m' Hm. discriminate. }
  destruct value as [|b|z|f|s|l|d0];
    [ destruct default as [d|]; [|discriminate]; inversion H; subst; now apply Hd
    | exact (Hparsed (PBool b) H) | exact (Hparsed (PInt z) H)
    | exact (Hparsed (PFloat f) H) | exact (Hparsed (PStr s) H)
    | exact (Hparsed (PList l) H) | exact (Hparsed (PDict d0) H) ].
Qed.

Lemma require_target_trimmed (raw : pydict) (idx : Z) (action_id t : string) :
  Validator._require_target raw idx action_id = Ok t -> trimmed t.
Proof.
  unfold Validator._require_target. intros H.
  destruct (dict_get raw "target") as [| | | |target| |]; try discriminate.
  destruct (is_empty (strip target)) eqn:E; [discriminate|].
  inversion H; subst. now apply strip_nonempty_trimmed.
Qed.

Lemma supported_action_cases (action_type : string) :
  Validator.mem action_type Validator.SUPPORTED_ACTIONS = true ->
  action_type = "goto" \/ action_type = "click" \/ action_type = "fill"
  \/ action_type = "press" \/ action_type = "wait".
Proof.
  unfold Validator.mem, Validator.SUPPORTED_ACTIONS. cbn [existsb]. intros H.
  repeat (apply orb_true_iff in H; destruct H as [H|H];
          [apply String.eqb_eq in H; tauto|]).
  discriminate.
Qed.

Lemma parse_action_valid (idx : Z) (seen : list string) (raw : pyval)
    (ev : Validator.DemoActionEvent) :
  Validator.parse_action idx seen raw = Ok ev ->
  action_valid ev /\ Validator.mem (Validator.id ev) seen = false.
Proof.
  unfold Validator.parse_action. intros H.
  destruct raw as [| | | | | |raw]; try discriminate H.
  set (action_id := strip (py_str (py_or (dict_get raw "id")
                                     (PStr ("a" ++ str_of_Z (idx + 1)))))) in *.
  set (action_type := lower (strip (py_str (py_or (dict_get raw "action") (PStr ""))))) in *.
  cbv zeta in H.
  destruct (is_empty action_id) eqn:Eid; [discriminate|].
  destruct (Validator.mem action_id seen) eqn:Eseen; [discriminate|].
  destruct (Validator.mem action_type Validator.SUPPORTED_ACTIONS) eqn:Esup;
    cbn [negb] in H; [|discriminate].
  destruct (Validator._parse_int_field (dict_get raw "at_ms") _ _ _ _ _ _) as [at_ms|] eqn:Eat;
    cbn [bind] in H; [|discriminate].
  destruct (Validator.field_or_arg raw "timeout_ms") as [timeout_raw|];
    cbn [bind] in H; [|discriminate].
  destruct (Validator._parse_int_field timeout_raw _ _ _ _ _ _) as [timeout_ms|] eqn:Eto;
    cbn [bind] in H; [|discriminate].
  destruct (Validator.field_or_arg raw "retries") as [retries_raw|];
    cbn [bind] in H; [|discriminate].
  destruct (Validator._parse_int_field retries_raw _ _ _ _ _ _) as [retries|] eqn:Ere;
    cbn [bind] in H; [|discriminate].
  apply parse_int_field_range in Eat; [|discriminate].
  apply parse_int_field_range in Eto;
    [|intros d Hd; inversion Hd; subst; split;
      [unfold Validator.MIN_ACTION_TIMEOUT_MS, Validator.DEFAULT_ACTION_TIMEOUT_MS; lia
      |intros m Hm; inversion Hm; subst;
       unfold Validator.MAX_ACTION_TIMEOUT_MS, Validator.DEFAULT_ACTION_TIMEOUT_MS; lia]].
  apply parse_int_field_range in Ere;
    [|intros d Hd; inversion Hd; subst; split;
      [unfold Validator.MIN_ACTION_RETRIES, Validator.DEFAULT_ACTION_RETRIES; lia
      |intros m Hm; inversion Hm; subst;
       unfold Validator.MAX_ACTION_RETRIES, Validator.DEFAULT_ACTION_RETRIES; lia]].
  destruct Eat as [Hat _]. destruct Eto as [Hto1 Hto2]. destruct Ere as [Hre1 Hre2].
  specialize (Hto2 _ eq_refl). specialize (Hre2 _ eq_refl).
  unfold Validator.MIN_ACTION_TIMEOUT_MS, Validator.MAX_ACTION_TIMEOUT_MS,
    Validator.MIN_ACTION_RETRIES, Validator.MAX_ACTION_RETRIES in *.
  assert (Hid : trimmed action_id) by (now apply strip_nonempty_trimmed).
  match type of H with
  | bind ?c _ = _ => destruct c as [args0|]; cbn [bind] in H; [|discriminate]
  end.
  assert (Hshape : forall e,
             Validator.id e = action_id -> Validator.at_ms e = at_ms ->
             Validator.timeout_ms e = timeout_ms -> Validator.retries e = retries ->
             action_ready e -> action_valid e /\ Validator.mem (Validator.id e) seen = false).
  { intros e E1 E2 E3 E4 Hready. unfold action_valid. rewrite E1, E2, E3, E4.
    split; [|exact Eseen]. split; [exact Hid|]. split; [lia|]. split; [lia|].
    split; [lia | exact Hready]. }
  clearbody action_id.
  destruct (supported_action_cases _ Esup) as [Ea|[Ea|[Ea|[Ea|Ea]]]];
    clearbody action_type; subst action_type;
    cbn [Validator.mem existsb String.eqb Ascii.eqb Bool.eqb orb andb] in H.
  - (* goto *)
    destruct (Validator._require_target raw idx action_id) as [t|] eqn:Et;
      cbn [bind] in H; [|discriminate].
    destruct (prefix "http://" t || prefix "https://" t) eqn:Ep; cbn [negb bind] in H;
      [|discriminate].
    inversion H; subst ev. apply Hshape; try reflexivity.
    left. split; [reflexivity|]. exists t. split; [reflexivity|].
    split; [eapply require_target_trimmed; eassumption | exact Ep].
  - (* click *)
    destruct (Validator._require_target raw idx action_id) as [t|] eqn:Et;
      cbn [bind] in H; [|discriminate].
    inversion H; subst ev. apply Hshape; try reflexivity.
    right; left. split; [reflexivity|]. exists t. split; [reflexivity|].
    eapply require_target_trimmed; eassumption.
  - (* fill *)
    destruct (Validator._require_target raw idx action_id) as [t|] eqn:Et;
      cbn [bind] in H; [|discriminate].
    unfold dict_mem, dict_get, dict_get_default in H.
    destruct (lookup (KStr "value") args0) as [value|] eqn:Ev; cbn [negb] in H;
      [|discriminate].
    destruct value; cbn [bind] in H; try discriminate;
      (inversion H; subst ev; apply Hshape; try reflexivity;
       right; right; left; split; [reflexivity|]; split;
       [exists t; split; [reflexivity | eapply require_target_trimmed; eassumption]
       |cbn [Validator.args]; rewrite Ev; exact I]).
  - (* press *)
    destruct (Validator._require_target raw idx action_id) as [t|] eqn:Et;
      cbn [bind] in H; [|discriminate].
    destruct (dict_mem args0 "key"); cbn [negb] in H; [|discriminate].
    destruct (dict_get args0 "key") as [| | | |key| |]; try discriminate.
    destruct (is_empty (strip key)) eqn:Ek; [discriminate|]. cbn [bind] in H.
    inversion H; subst ev. apply Hshape; try reflexivity.
    right; right; right; left. split; [reflexivity|]. split.
    + exists t. split; [reflexivity | eapply require_target_trimmed; eassumption].
    + exists (strip key). cbn [Validator.args]. unfold dict_set.
      rewrite lookup_insert_same. split; [reflexivity | now apply strip_nonempty_trimmed].
  - (* wait *)
    cbn [bind] in H.
    destruct (Validator._parse_int_field (dict_get args0 "ms") _ _ _ _ _ _) as [wait_ms|]
      eqn:Ew; cbn [bind] in H; [|discriminate].
    apply parse_int_field_range in Ew; [|discriminate]. destruct Ew as [Hw1 Hw2].
    specialize (Hw2 _ eq_refl). unfold Validator.MAX_WAIT_MS in Hw2.
    inversion H; subst ev. apply Hshape; try reflexivity.
    right; right; right; right. split; [reflexivity|]. split; [reflexivity|].
    exists wait_ms. cbn [Validator.args]. unfold dict_set.
    rewrite lookup_insert_same. split; [reflexivity | lia].
Qed.

Lemma mem_false_not_in (x : string) (l : list string) :
  Validator.mem x l = false -> ~ In x l.
Proof.
  unfold Validator.mem. intros H Hin.
  assert (Ht : existsb (String.eqb x) l = true)
    by (apply existsb_exists; exists x; split; [exact Hin | apply String.eqb_refl]).
  congruence.
Qed.

Lemma parse_actions_valid (raw_actions : list pyval) :
  forall idx seen parsed,
    Validator.parse_actions_from idx seen raw_actions = Ok parsed ->
    Forall action_valid parsed
    /\ NoDup (map Validator.id parsed)
    /\ (forall x, In x seen -> ~ In x (map Validator.id parsed))
    /\ List.length parsed = List.length raw_actions.
Proof.
  induction raw_actions as [|raw more IH]; intros idx seen parsed H;
    cbn [Validator.parse_actions_from] in H.
  - inversion H. repeat split; try constructor. intros x _ [].
  - destruct (Validator.parse_action idx seen raw) as [ev|] eqn:E; cbn [bind] in H;
      [|discriminate].
    destruct (Validator.parse_actions_from (idx + 1) (Validator.id ev :: seen) more)
      as [rest|] eqn:Er; cbn [bind] in H; [|discriminate].
    inversion H; subst parsed; clear H.
    destruct (parse_action_valid _ _ _ _ E) as [Hv Hseen].
    destruct (IH _ _ _ Er) as (H1 & H2 & H3 & H4).
    cbn [map List.length]. split; [now constructor|]. split; [|split].
    + constructor; [|exact H2]. apply H3. now left.
    + intros x Hx [Hin|Hin].
      * subst x. exact (mem_false_not_in _ _ Hseen Hx).
      * apply (H3 x); [now right | exact Hin].
    + now rewrite H4.
Qed.

(** X15.  Every action [parse_action_events] returns is ready to run: its
    id has no blank at either end, [at_ms] is 0 or more, [timeout_ms] is
    between 100 and 120000 and [retries] between 0 and 3; it is one of
    the five kinds, a [goto], [click], [fill] or [press] with a trimmed
    target (an http or https address for [goto]), a [fill] with a text,
    number or boolean [args.value], a [press] with a trimmed
    [args.key], a [wait] with no target and an integer [args.ms] from 0
    to 120000.  No id is returned twice, and nothing of the input list
    is dropped. *)
Theorem parse_action_events_valid (timeline : pydict) (raw_actions : list pyval)
    (events : list Validator.DemoActionEvent) :
  dict_get timeline "action_events" = PList raw_actions ->
  Validator.parse_action_events timeline = Ok events ->
  Forall action_valid events
  /\ NoDup (map Validator.id events)
  /\ List.length events = List.length raw_actions.
Proof.
  unfold Validator.parse_action_events. intros Hl H. rewrite Hl in H.
  destruct (Validator.parse_actions_from 0 [] raw_actions) as [parsed|] eqn:E;
    cbn [bind] in H; [|discriminate].
  inversion H; subst events; clear H.
  destruct (parse_actions_valid _ _ _ _ E) as (H1 & H2 & _ & H4).
  pose proof (stable_sort_perm Validator.event_leb parsed) as Hp.
  split; [|split].
  - apply Forall_forall. intros e He. rewrite Forall_forall in H1. apply H1.
    eapply Permutation_in; eassumption.
  - eapply Permutation_NoDup; [|exact H2].
    apply Permutation_map, Permutation_sym, Hp.
  - rewrite <- H4. now apply Permutation_length.
Qed.

Lemma parse_action_events_valid_witness :
  Validator.parse_action_events demo_script = Ok demo_script_events
  /\ map Validator.id demo_script_events = ["open"; "a3"; "a4"; "a1"]
  /\ Forall action_valid demo_script_events
  /\ NoDup (map Validator.id demo_script_events)
  /\ List.length demo_script_events = 4%nat.
Proof.
  split; [reflexivity|]. split; [reflexivity|].
  apply (parse_action_events_valid demo_script
           (match dict_get demo_script "action_events" with PList l => l | _ => [] end));
    reflexivity.
Defined.

(** ** demo_runner/dependencies.py: the execution mode *)

Lemma mode_cases (mode : string) :
  Validator.mem mode Runner.DEMO_CAPTURE_EXECUTION_MODES = true ->
  mode = "playwright_optional" \/ mode = "playwright_required".
Proof.
  unfold Validator.mem, Runner.DEMO_CAPTURE_EXECUTION_MODES. cbn [existsb]. intros H.
  repeat (apply orb_true_iff in H; destruct H as [H|H];
          [apply String.eqb_eq in H; tauto|]).
  discriminate.
Qed.

Lemma normalize_mode_supported (mode : option string) (default_mode : string) :
  Validator.mem (Runner.normalize_demo_capture_execution_mode mode default_mode)
    Runner.DEMO_CAPTURE_EXECUTION_MODES = true.
Proof.
  unfold Runner.normalize_demo_capture_execution_mode. cbv zeta.
  destruct (Validator.mem (lower (strip match mode with Some m => m | None => "" end)) _)
    eqn:E1; [exact E1|].
  destruct (Validator.mem (lower (strip default_mode)) _) eqn:E2; [exact E2|reflexivity].
Qed.

Lemma resolve_mode_supported (requested_mode : option string)
    (project_settings : option pydict) (default_mode : string) :
  Validator.mem
    (Runner.resolve_demo_capture_execution_mode requested_mode project_settings default_mode)
    Runner.DEMO_CAPTURE_EXECUTION_MODES = true.
Proof.
  unfold Runner.resolve_demo_capture_execution_mode.
  destruct requested_mode; [apply normalize_mode_supported|]. cbv zeta.
  match goal with
  | |- context [match ?c with Some _ => _ | None => _ end] => destruct c
  end; apply normalize_mode_supported.
Qed.

(** X16.  [resolve_demo_capture_execution_mode] always gives one of the
    two modes, whatever is requested, stored or configured.  A requested
    mode that names one of them, in any case and with blanks around it,
    is the answer, whatever the project settings and the default say;
    and normalising the answer again, under any default, changes
    nothing. *)
Theorem execution_mode_resolved (requested_mode : option string)
    (project_settings : option pydict) (default_mode : string) :
  let mode :=
    Runner.resolve_demo_capture_execution_mode requested_mode project_settings default_mode in
  (mode = "playwright_optional" \/ mode = "playwright_required")
  /\ (forall m,
        requested_mode = Some m ->
        Validator.mem (lower (strip m)) Runner.DEMO_CAPTURE_EXECUTION_MODES = true ->
        mode = lower (strip m))
  /\ (forall other_default,
        Runner.normalize_demo_capture_execution_mode (Some mode) other_default = mode).
Proof.
  cbv zeta.
  pose proof (resolve_mode_supported requested_mode project_settings default_mode) as Hs.
  split; [now apply mode_cases|]. split.
  - intros m -> Hm. unfold Runner.resolve_demo_capture_execution_mode,
      Runner.normalize_demo_capture_execution_mode. cbv zeta. now rewrite Hm.
  - intros other_default. apply mode_cases in Hs. destruct Hs as [-> | ->]; reflexivity.
Qed.

Lemma execution_mode_resolved_witness :
  Runner.resolve_demo_capture_execution_mode (Some " Playwright_Required ")
    (Some [ (KStr "demo_capture_execution_mode", PStr "playwright_optional") ])
    "playwright_optional"
  = "playwright_required".
Proof.
  apply (proj1 (proj2 (execution_mode_resolved (Some " Playwright_Required ")
                         (Some [ (KStr "demo_capture_execution_mode",
                                  PStr "playwright_optional") ])
                         "playwright_optional")) " Playwright_Required ");
    reflexivity.
Defined.

(** ** demo_runner/runner.py: the summaries of a run *)

Lemma count_total_insert (k : string) (d : pydict) :
  count_total
    (insert (KStr k)
       (PInt (match dict_get_default d k (PInt 0) with PInt n => n | _ => 0 end + 1)) d)
  = count_total d + 1.
Proof.
  unfold dict_get_default.
  induction d as [|[k' v'] r IH]; cbn [insert lookup]; [reflexivity|].
  destruct (key_eqb (KStr k) k') eqn:E.
  - cbn [count_total fold_right snd]. fold (count_total r). destruct v'; lia.
  - cbn [count_total fold_right snd]. fold (count_total r).
    fold (count_total (insert (KStr k)
            (PInt (match match lookup (KStr k) r with Some v => v | None => PInt 0 end with
                   | PInt n => n | _ => 0 end + 1)) r)).
    rewrite IH. destruct v'; lia.
Qed.

Lemma count_error_types_total (failed : list Runner.DemoActionExecution) :
  forall error_types,
    count_total (Runner.count_error_types error_types failed)
    = count_total error_types + Z.of_nat (List.length failed).
Proof.
  induction failed as [|entry more IH]; intros error_types;
    cbn [Runner.count_error_types List.length]; [lia|].
  cbv zeta. rewrite IH. unfold dict_set. rewrite count_total_insert. lia.
Qed.

Lemma filter_split_length {A : Type} (f : A -> bool) (l : list A) :
  (List.length (filter f l) + List.length (filter (fun x => negb (f x)) l))%nat
  = List.length l.
Proof.
  induction l as [|x r IH]; [reflexivity|]. cbn [filter].
  destruct (f x); cbn [negb List.length]; lia.
Qed.

Lemma filter_length_le {A : Type} (f : A -> bool) (l : list A) :
  (List.length (filter f l) <= List.length l)%nat.
Proof.
  induction l as [|x r IH]; [reflexivity|]. cbn [filter].
  destruct (f x); cbn [List.length]; lia.
Qed.

(** X17.  The two summaries of a run agree: in [_execution_summary] the
    total is the number of ok entries plus the number of errors, neither
    negative; [_error_summary] reports that same number of errors as
    [failed_actions], the counts of its [error_types] add up to it, it
    lists no more failed ids than that, and [has_error] holds exactly
    when the message is not empty or an action failed. *)
Theorem run_summaries_agree (self : Runner.DemoRunner)
    (result_error dependency_error runtime_error : string) :
  let execution_summary := Runner._execution_summary self in
  let error_summary :=
    Runner._error_summary self result_error dependency_error runtime_error in
  exists total ok_count error_count failed_ids error_types,
    dict_get execution_summary "total" = PInt total
    /\ dict_get execution_summary "ok" = PInt ok_count
    /\ dict_get execution_summary "error" = PInt error_count
    /\ total = ok_count + error_count /\ 0 <= ok_count /\ 0 <= error_count
    /\ dict_get error_summary "failed_actions" = PInt error_count
    /\ dict_get error_summary "error_types" = PDict error_types
    /\ count_total error_types = error_count
    /\ dict_get error_summary "failed_action_ids" = PList failed_ids
    /\ Z.of_nat (List.length failed_ids) <= error_count
    /\ dict_get error_summary "has_error"
       = PBool (negb (is_empty result_error) || (0 <? error_count)).
Proof.
  cbv zeta. unfold Runner._execution_summary, Runner._error_summary, Runner.count_if.
  cbv zeta.
  set (entries := Runner._executions self).
  set (is_ok := fun x : Runner.DemoActionExecution => String.eqb (Runner.status x) "ok").
  change (filter (fun x => negb (String.eqb (Runner.status x) "ok")) entries)
    with (filter (fun x => negb (is_ok x)) entries).
  set (failed := filter (fun x => negb (is_ok x)) entries).
  pose proof (filter_split_length is_ok entries) as Hsplit. fold failed in Hsplit.
  assert (Herr : Z.of_nat (List.length entries) - Z.of_nat (List.length (filter is_ok entries))
                 = Z.of_nat (List.length failed)) by lia.
  eexists _, _, _, _, _.
  split; [reflexivity|]. split; [reflexivity|]. split; [reflexivity|].
  split; [lia|]. split; [lia|]. split; [lia|].
  split; [cbn; now rewrite Herr|]. split; [reflexivity|].
  split; [rewrite count_error_types_total; cbn [count_total fold_right]; lia|].
  split; [reflexivity|].
  split.
  - rewrite length_map, Herr.
    pose proof (filter_length_le (fun x => negb (is_empty (Runner.action_id x))) failed). lia.
  - cbn. rewrite Herr. f_equal. f_equal. destruct failed; reflexivity.
Qed.

Lemma collect_paths_spec (entries : list Runner.DemoActionExecution) :
  forall seen,
    NoDup (Runner.collect_paths seen entries)
    /\ forall p,
         In p (Runner.collect_paths seen entries)
         <-> (is_empty p = false /\ ~ In p seen
              /\ exists entry, In entry entries /\ Runner.screenshot_path entry = p).
Proof.
  induction entries as [|entry more IH]; intros seen; cbn [Runner.collect_paths].
  - split; [constructor|]. intros p. split; [intros [] | intros (_ & _ & e & [] & _)].
  - cbv zeta.
    destruct (is_empty (Runner.screenshot_path entry)) eqn:Ee; cbn [negb andb].
    + destruct (IH seen) as [Hn Hi]. split; [exact Hn|]. intros p. rewrite Hi. split.
      * intros (H1 & H2 & e & He & Hp). repeat split; try assumption.
        exists e. split; [now right | exact Hp].
      * intros (H1 & H2 & e & [He|He] & Hp).
        -- subst e. congruence.
        -- repeat split; try assumption. exists e. now split.
    + destruct (Validator.mem (Runner.screenshot_path entry) seen) eqn:Es; cbn [negb].
      * destruct (IH seen) as [Hn Hi]. split; [exact Hn|]. intros p. rewrite Hi. split.
        -- intros (H1 & H2 & e & He & Hp). repeat split; try assumption.
           exists e. split; [now right | exact Hp].
        -- intros (H1 & H2 & e & [He|He] & Hp).
           ++ subst e. exfalso. apply H2. rewrite <- Hp.
              unfold Validator.mem in Es. apply existsb_exists in Es.
              destruct Es as (x & Hx & Heq). apply String.eqb_eq in Heq. now subst x.
           ++ repeat split; try assumption. exists e. now split.
      * destruct (IH (Runner.screenshot_path entry :: seen)) as [Hn Hi]. split.
        -- constructor; [|exact Hn]. intros Hin. apply Hi in Hin.
           destruct Hin as (_ & Hnot & _). apply Hnot. now left.
        -- intros p. cbn [In]. rewrite Hi. split.
           ++ intros [Hp|(H1 & H2 & e & He & Hp)].
              ** subst p. split; [exact Ee|]. split; [now apply mem_false_not_in|].
                 exists entry. split; [now left | reflexivity].
              ** split; [exact H1|]. split; [intros Hs; apply H2; now right|].
                 exists e. split; [now right | exact Hp].
           ++ intros (H1 & H2 & e & He & Hp).
              destruct (String.eqb (Runner.screenshot_path entry) p) eqn:Eq.
              ** left. now apply String.eqb_eq.
              ** right. apply String.eqb_neq in Eq. split; [exact H1|].
                 split; [intros [Hs|Hs]; [contradiction | now apply H2]|].
                 destruct He as [He|He]; [subst e; contradiction|].
                 exists e. now split.
Qed.

(** X18.  [_collect_screenshot_paths] lists each screenshot of the run
    once: no path is there twice, none is empty, and a path is listed
    exactly when it is the non-empty [screenshot_path] of some logged
    execution. *)
Theorem screenshot_paths_once (self : Runner.DemoRunner) :
  NoDup (Runner._collect_screenshot_paths self)
  /\ forall p,
       In p (Runner._collect_screenshot_paths self)
       <-> (is_empty p = false
            /\ exists entry,
                 In entry (Runner._executions self) /\ Runner.screenshot_path entry = p).
Proof.
  unfold Runner._collect_screenshot_paths.
  destruct (collect_paths_spec (Runner._executions self) []) as [Hn Hi].
  split; [exact Hn|]. intros p. rewrite Hi. split.
  - intros (H1 & _ & H3). now split.
  - intros (H1 & H3). split; [exact H1|]. split; [intros []|exact H3].
Qed.

(** ** demo_runner/runner.py: the result of a run *)

Lemma app_nonempty_r (a b : string) : b <> EmptyString -> (a ++ b)%string <> EmptyString.
Proof. destruct a; [now intros H | discriminate]. Qed.

Lemma join_empty_iff (sep : string) (l : list string) :
  Forall (fun s => s <> EmptyString) l -> (join sep l = EmptyString <-> l = []).
Proof.
  intros H. split; [|now intros ->].
  destruct H as [|x l Hx _]; [reflexivity|]. unfold join. cbn [String.concat].
  destruct l; intros E; [contradiction|].
  destruct x; [contradiction | discriminate].
Qed.

Lemma dry_run_loop_mode (e : Runner.env) (actions : list Runner.DemoActionEvent) :
  forall self i self',
    Runner.dry_run_loop e self i actions = Ok self' ->
    Runner.execution_mode self' = Runner.execution_mode self.
Proof.
  induction actions as [|a more IH]; intros self i self' H; cbn [Runner.dry_run_loop] in H.
  - now inversion H.
  - destruct (Runner._planned_wait e i (Validator.at_ms a)) as [ms|]; cbn [bind] in H;
      [|discriminate]. cbv zeta in H. now rewrite (IH _ _ _ H).
Qed.

Lemma finish_written (self : Runner.DemoRunner) (fs : Fs.fs) (run_log_path : Fs.path)
    (result : Runner.DemoRunResult) :
  exists fs',
    Runner.finish self fs run_log_path result = Ok (result, self, fs')
    /\ Fs.read_text fs' run_log_path
       = Json.dumps false (Some 2%nat) "," ": " (PDict (Runner.result_to_dict result)).
Proof.
  unfold Runner.finish, Json.dumps. cbn [andb bind]. eexists. split; [reflexivity|].
  unfold Fs.read_text, Fs.write. now rewrite path_eqb_refl.
Qed.

(** What is left to show once [finish] is reached with the record [r]. *)
Ltac finished H :=
  match type of H with
  | Runner.finish ?s ?f ?p ?r = Ok _ =>
      let fs' := fresh "fs'" in
      let Hf := fresh "Hf" in
      let Hr := fresh "Hr" in
      destruct (finish_written s f p r) as (fs' & Hf & Hr);
      rewrite Hf in H; inversion H; subst; clear H;
      cbn [Runner.ok Runner.r_error Runner.mode Runner.r_execution_mode
           Runner.actions_total]
  end.

(** X19.  Whenever [execute] returns a result, the result is consistent:
    it is [ok] exactly when its error text is empty, it is not [ok]
    exactly when its mode is [demo_capture_failed], a run in
    [playwright_required] mode is never reported as a dry run, the total
    counts every action given, and the result is what has been written
    to [logs/run.json]. *)
Theorem execute_result_consistent (e : Runner.env) (self : Runner.DemoRunner) (fs : Fs.fs)
    (actions : list Runner.DemoActionEvent)
    (result : Runner.DemoRunResult) (self' : Runner.DemoRunner) (fs' : Fs.fs) :
  Runner.execute e self fs actions = Ok (result, self', fs') ->
  (Runner.ok result = true <-> Runner.r_error result = EmptyString)
  /\ (Runner.ok result = false <-> Runner.mode result = "demo_capture_failed")
  /\ (Runner.r_execution_mode result = "playwright_required" ->
      Runner.mode result <> "demo_capture_dry_run")
  /\ Runner.actions_total result = Z.of_nat (List.length actions)
  /\ Fs.read_text fs' (Fs.path_join (Runner.logs_dir self) "run.json")
     = Json.dumps false (Some 2%nat) "," ": " (PDict (Runner.result_to_dict result)).
Proof.
  assert (Hfailed : forall diagnostic : string,
             ("Playwright execution mode is set to 'playwright_required' but dependencies are unavailable. "
              ++ "Either install Playwright+Chromium or switch to 'playwright_optional'. "
              ++ "Diagnostic: " ++ diagnostic)%string <> EmptyString) by discriminate.
  unfold Runner.execute. cbv zeta. intros H.
  destruct (truthy (dict_get (Runner.probe_playwright_dependencies e) "ok")).
  - destruct (Runner._execute_with_playwright e self fs actions
                (Fs.path_join (Runner.artifacts_dir self) "raw_demo.mp4"))
      as [[[used runtime_error] self1] fs1].
    destruct used; cbn [negb andb bind] in H.
    + cbv beta iota zeta in H.
      destruct (Runner._probe_raw_demo_artifact e self1 fs1 _) as [summary|];
        cbn [bind] in H; [|discriminate].
      match type of H with
      | context [join "; " ?l] =>
          assert (Hl : Forall (fun s => s <> EmptyString) l);
          [|set (reasons := l) in *; clearbody reasons]
      end.
      { apply Forall_app; split.
        - destruct (negb (is_empty runtime_error)); repeat constructor. discriminate.
        - apply Forall_app; split.
          + destruct (0 <? _); repeat constructor. apply app_nonempty_r. discriminate.
          + destruct (_ && _); repeat constructor.
            destruct (is_empty (strip _)); [discriminate | cbn [append]; discriminate]. }
      finished H.
      pose proof (join_empty_iff "; " reasons Hl) as Hj.
      split; [|split; [|split; [|split; [reflexivity | exact Hr]]]].
      * rewrite Hj. destruct reasons; split; congruence.
      * destruct reasons; split; congruence.
      * intros _. destruct reasons; discriminate.
    + destruct (String.eqb (Runner.execution_mode self1) Runner.PLAYWRIGHT_REQUIRED_MODE)
        eqn:Em.
      * destruct (Runner._probe_raw_demo_artifact e self1 fs1 _) as [summary|];
          cbn [bind] in H; [|discriminate].
        finished H.
        split; [|split; [|split; [|split; [reflexivity | exact Hr]]]].
        -- split; [discriminate|]. intros E. now apply Hfailed in E.
        -- split; reflexivity.
        -- discriminate.
      * destruct (Runner._execute_dry_run e self1 fs1 actions _) as [[ran files]|] eqn:Ed;
          cbn [bind fst snd] in H; [|discriminate]. cbv beta iota zeta in H.
        destruct (Runner._probe_raw_demo_artifact e ran files _) as [summary|];
          cbn [bind] in H; [|discriminate].
        finished H.
        split; [|split; [|split; [|split; [reflexivity | exact Hr]]]].
        -- split; reflexivity.
        -- split; discriminate.
        -- apply String.eqb_neq in Em. intros E. exfalso. apply Em.
           unfold Runner._execute_dry_run in Ed.
           destruct (Runner.dry_run_loop e self1 0 actions) as [ran'|] eqn:El;
             cbn [bind] in Ed; [|discriminate]. inversion Ed; subst.
           now rewrite (dry_run_loop_mode _ _ _ _ _ El) in E.
  - cbn [negb andb bind] in H.
    destruct (String.eqb (Runner.execution_mode self) Runner.PLAYWRIGHT_REQUIRED_MODE) eqn:Em.
    + destruct (Runner._probe_raw_demo_artifact e self fs _) as [summary|];
        cbn [bind] in H; [|discriminate].
      finished H.
      split; [|split; [|split; [|split; [reflexivity | exact Hr]]]].
      * split; [discriminate|]. intros E. now apply Hfailed in E.
      * split; reflexivity.
      * discriminate.
    + destruct (Runner._execute_dry_run e self fs actions _) as [[ran files]|] eqn:Ed;
        cbn [bind fst snd] in H; [|discriminate]. cbv beta iota zeta in H.
      destruct (Runner._probe_raw_demo_artifact e ran files _) as [summary|];
        cbn [bind] in H; [|discriminate].
      finished H.
      split; [|split; [|split; [|split; [reflexivity | exact Hr]]]].
      * split; reflexivity.
      * split; discriminate.
      * apply String.eqb_neq in Em. intros E. exfalso. apply Em.
        unfold Runner._execute_dry_run in Ed.
        destruct (Runner.dry_run_loop e self 0 actions) as [ran'|] eqn:El;
          cbn [bind] in Ed; [|discriminate]. inversion Ed; subst.
        now rewrite (dry_run_loop_mode _ _ _ _ _ El) in E.
Qed.

Lemma execute_result_consistent_witness :
  match Runner.execute no_browser fresh_runner no_files tie_events with
  | Ok (result, _, fs') =>
      Runner.mode result = "demo_capture_dry_run"
      /\ (Runner.ok result = true <-> Runner.r_error result = EmptyString)
      /\ (Runner.ok result = false <-> Runner.mode result = "demo_capture_failed")
      /\ Runner.actions_total result = 3
      /\ Fs.read_text fs' (Fs.path_join (Runner.logs_dir fresh_runner) "run.json")
         = Json.dumps false (Some 2%nat) "," ": " (PDict (Runner.result_to_dict result))
  | Raise _ => False
  end.
Proof.
  destruct (Runner.execute no_browser fresh_runner no_files tie_events)
    as [[[result self'] fs']|] eqn:E; [|vm_compute in E; discriminate E].
  destruct (execute_result_consistent _ _ _ _ _ _ _ E) as (H1 & H2 & _ & H4 & H5).
  split; [|split; [exact H1|split; [exact H2|split; [exact H4|exact H5]]]].
  vm_compute in E. inversion E. reflexivity.
Defined.

(** ** timeline/normalizer.py: events within the video *)

Lemma prepare_ok (raw_events : list pyval) :
  forall idx items,
    Timeline.prepare idx raw_events = Ok items ->
    Forall prepared_ok items /\ List.length items = List.length raw_events.
Proof.
  induction raw_events as [|raw more IH]; intros idx items H; cbn [Timeline.prepare] in H.
  - inversion H. split; [constructor | reflexivity].
  - destruct raw as [| | | | | |event]; try discriminate H. cbv zeta in H.
    destruct (is_empty (strip (py_str (py_or (dict_get event "text") (PStr ""))))) eqn:Et;
      [discriminate|].
    destruct (Timeline.prepare (idx + 1) more) as [rest|] eqn:Er; cbn [bind] in H;
      [|discriminate].
    inversion H; subst items. destruct (IH _ _ Er) as [H1 H2].
    split; [|cbn [List.length]; now rewrite H2].
    constructor; [|exact H1]. split; cbn; [lia | now apply strip_nonempty_trimmed].
Qed.

Lemma prepared_leb_decides (a b : Timeline.prepared) :
  decides Timeline.prepared_leb
    (fun x y => Timeline.p_start_ms x <= Timeline.p_start_ms y) a b.
Proof.
  unfold decides, Timeline.prepared_leb.
  destruct (Timeline.p_start_ms a <? Timeline.p_start_ms b) eqn:E1; cbn [orb].
  - apply Z.ltb_lt in E1. split; [lia | discriminate].
  - apply Z.ltb_ge in E1.
    destruct (Timeline.p_start_ms a =? Timeline.p_start_ms b) eqn:E2; cbn [andb].
    + apply Z.eqb_eq in E2. split; lia.
    + apply Z.eqb_neq in E2. split; [discriminate | lia].
Qed.

Lemma next_start_after_later (start : Z) (later : list Timeline.prepared) (next : Z) :
  Timeline.next_start_after start later = Some next -> start < next.
Proof.
  induction later as [|item more IH]; cbn [Timeline.next_start_after]; [discriminate|].
  destruct (start <? Timeline.p_start_ms item) eqn:E; [|exact IH].
  intros H. inversion H; subst. now apply Z.ltb_lt.
Qed.

Lemma normalize_loop_within (duration dflt min_d : Z) :
  0 < dflt ->
  forall items idx seen out,
    Forall prepared_ok items ->
    Timeline.normalize_loop (Some duration) dflt min_d idx seen items = Ok out ->
    Forall (event_within duration) out
    /\ (forall ev, In ev out ->
                   exists item, In item items /\ start_of ev = Timeline.p_start_ms item)
    /\ (List.length out <= List.length items)%nat.
Proof.
  intros Hd. induction items as [|item later IH]; intros idx seen out Hok H.
  - inversion H. split; [constructor|]. split; [intros ev []|reflexivity].
  - inversion Hok as [|? ? [Hs Ht] Hlater]; subst.
    cbn [Timeline.normalize_loop] in H.
    destruct (duration <=? Timeline.p_start_ms item) eqn:Eb.
    + destruct (IH _ _ _ Hlater H) as (H1 & H2 & H3). split; [exact H1|]. split.
      * intros ev Hin. destruct (H2 _ Hin) as (it & Hit & Hst). exists it.
        split; [now right | exact Hst].
      * cbn [List.length]. lia.
    + apply Z.leb_gt in Eb.
      destruct (Timeline.seen_get seen _) as [n|];
        (destruct (dict_or_empty _) as [meta|]; cbn [bind] in H; [|discriminate];
         destruct (Timeline.normalize_loop _ _ _ _ _ later) as [rest|] eqn:Hrest;
         cbn [bind] in H; [|discriminate];
         inversion H; subst out; clear H;
         destruct (IH _ _ _ Hlater Hrest) as (H1 & H2 & H3);
         split; [|split];
         [ constructor; [|exact H1];
           eexists _, _, _, _; split; [reflexivity|];
           split; [reflexivity|]; split; [reflexivity|]; split; [reflexivity|];
           split; [|split; [|exact Ht]];
           (destruct (Timeline.p_end_ms item <=? Timeline.p_start_ms item) eqn:E1;
            [ destruct (Timeline.next_start_after (Timeline.p_start_ms item) later)
                as [next|] eqn:En;
              [apply next_start_after_later in En|]
            | apply Z.leb_gt in E1 ];
            repeat match goal with
                   | |- context [if ?a <? ?b then _ else _] =>
                       let E := fresh "E" in
                       destruct (a <? b) eqn:E;
                       [apply Z.ltb_lt in E | apply Z.ltb_ge in E]
                   | |- context [if ?a <=? ?b then _ else _] =>
                       let E := fresh "E" in
                       destruct (a <=? b) eqn:E;
                       [apply Z.leb_le in E | apply Z.leb_gt in E]
                   end; lia)
         | intros ev [<-|Hin];
           [ exists item; split; [now left | reflexivity]
           | destruct (H2 _ Hin) as (it & Hit & Hst); exists it;
             split; [now right | exact Hst] ]
         | cbn [List.length]; lia ]).
Qed.

Lemma normalize_loop_by_start (duration dflt min_d : Z) :
  0 < dflt ->
  forall items,
    StronglySorted (fun x y => Timeline.p_start_ms x <= Timeline.p_start_ms y) items ->
    Forall prepared_ok items ->
    forall idx seen out,
      Timeline.normalize_loop (Some duration) dflt min_d idx seen items = Ok out ->
      by_start out.
Proof.
  intros Hd. induction 1 as [|item later Hsorted IH Hall]; intros Hok idx seen out H.
  - inversion H. constructor.
  - inversion Hok as [|? ? Hitem Hlater]; subst.
    cbn [Timeline.normalize_loop] in H.
    destruct (duration <=? Timeline.p_start_ms item); [eapply IH; eassumption|].
    destruct (Timeline.seen_get seen _) as [n|];
      (destruct (dict_or_empty _) as [meta|]; cbn [bind] in H; [|discriminate];
       destruct (Timeline.normalize_loop _ _ _ _ _ later) as [rest|] eqn:Hrest;
       cbn [bind] in H; [|discriminate];
       inversion H; subst out; clear H;
       constructor; [eapply IH; eassumption|];
       apply Forall_forall; intros ev Hin;
       destruct (normalize_loop_within _ _ _ Hd _ _ _ _ Hlater Hrest) as (_ & H2 & _);
       destruct (H2 _ Hin) as (it & Hit & ->);
       rewrite Forall_forall in Hall; cbn; now apply Hall).
Qed.

(** X20.  With a video duration of at least 1 ms and a positive default
    duration, every event [normalize_narration_events] returns lies
    within the video: it starts at 0 or later, ends after it starts and
    no later than the video ends, and its text has no blank at either
    end.  The events come in the order of their starts, there are no
    more of them than were given, and at least one when any was
    given. *)
Theorem normalize_within_video (raw_events : list pyval)
    (video_duration_ms default_duration_ms min_duration_ms : Z) (out : list pyval) :
  0 < video_duration_ms -> 0 < default_duration_ms ->
  Timeline.normalize_narration_events raw_events (Some video_duration_ms)
    default_duration_ms min_duration_ms = Ok out ->
  Forall (event_within video_duration_ms) out
  /\ by_start out
  /\ (List.length out <= List.length raw_events)%nat
  /\ (raw_events <> [] -> out <> []).
Proof.
  intros Hv Hd H. unfold Timeline.normalize_narration_events in H.
  destruct raw_events as [|r0 rs].
  - inversion H. repeat split; try constructor. intros E. now elim E.
  - destruct (Timeline.prepare 1 (r0 :: rs)) as [items|] eqn:Ep; cbn [bind] in H;
      [|discriminate].
    cbv zeta in H. replace (0 <? video_duration_ms) with true in H
      by (symmetry; now apply Z.ltb_lt).
    destruct (Timeline.normalize_loop _ _ _ _ _ _) as [normalized|] eqn:E;
      cbn [bind] in H; [|discriminate].
    destruct normalized as [|n0 ns]; [discriminate|]. inversion H; subst out; clear H.
    destruct (prepare_ok _ _ _ Ep) as [Hok Hlen].
    pose proof (stable_sort_perm Timeline.prepared_leb items) as Hperm.
    assert (Hsok : Forall prepared_ok (stable_sort Timeline.prepared_leb items)).
    { apply Forall_forall. intros it Hit. rewrite Forall_forall in Hok. apply Hok.
      eapply Permutation_in; eassumption. }
    destruct (normalize_loop_within _ _ _ Hd _ _ _ _ Hsok E) as (H1 & _ & H3).
    split; [exact H1|]. split; [|split; [|discriminate]].
    + eapply normalize_loop_by_start; [exact Hd| |exact Hsok|exact E].
      apply stable_sort_strongly; [intros x y z; lia|].
      apply total_order_pairs. exact prepared_leb_decides.
    + rewrite <- Hlen, <- (Permutation_length Hperm). exact H3.
Qed.

Lemma normalize_within_video_witness :
  Timeline.normalize_narration_events overlapping_notes (Some 5000) 3000 500
    = Ok overlapping_notes_normalized
  /\ map start_of overlapping_notes_normalized = [0; 1000; 4000]
  /\ Forall (event_within 5000) overlapping_notes_normalized
  /\ by_start overlapping_notes_normalized.
Proof.
  split; [reflexivity|]. split; [reflexivity|].
  destruct (normalize_within_video overlapping_notes 5000 3000 500
              overlapping_notes_normalized) as (H1 & H2 & _);
    [lia | lia | reflexivity |]. now split.
Defined.

(** ** C6: the cache key, whatever the order of the params *)

Lemma string_leb_trans (s t u : string) :
  String.leb s t = true -> String.leb t u = true -> String.leb s u = true.
Proof.
  unfold String.leb. intros H1 H2.
  destruct (String.compare s t) eqn:E1; try discriminate H1.
  - apply OrderedTypeEx.String_as_OT.cmp_eq in E1. now subst.
  - destruct (String.compare t u) eqn:E2; try discriminate H2.
    + apply OrderedTypeEx.String_as_OT.cmp_eq in E2. subst. now rewrite E1.
    + apply OrderedTypeEx.String_as_OT.cmp_lt in E1, E2.
      pose proof (OrderedTypeEx.String_as_OT.lt_trans _ _ _ E1 E2) as H.
      apply OrderedTypeEx.String_as_OT.cmp_lt in H.
      unfold OrderedTypeEx.String_as_OT.cmp in H. now rewrite H.
Qed.

Lemma str_key_le_trans {A : Type} (x y z : pykey * A) :
  str_key_le x y -> str_key_le y z -> str_key_le x z.
Proof.
  intros (s & t & Hs & Ht & H1) (t' & u & Ht' & Hu & H2).
  rewrite Ht in Ht'. inversion Ht'; subst t'.
  exists s, u. split; [exact Hs|]. split; [exact Hu|]. eapply string_leb_trans; eassumption.
Qed.

Lemma key_leb_decides {A : Type} (a b : pykey * A) :
  is_str (key_val (fst a)) = true -> is_str (key_val (fst b)) = true ->
  decides Json.key_leb str_key_le a b.
Proof.
  intros Ha Hb. apply str_key_inv in Ha, Hb. destruct Ha as [s Hs], Hb as [t Ht].
  unfold decides, Json.key_leb. rewrite Hs, Ht. split; intros H.
  - now exists s, t.
  - exists t, s. split; [exact Ht|]. split; [exact Hs|].
    destruct (String.leb_total s t) as [E|E]; [congruence | exact E].
Qed.

Lemma str_keys_ord_pairs {A : Type} (l : list (pykey * A)) :
  Forall (fun kv => is_str (key_val (fst kv)) = true) l ->
  ForallOrdPairs (decides Json.key_leb str_key_le) l.
Proof.
  induction 1 as [|x l Hx Hl IH]; constructor; [|exact IH].
  eapply Forall_impl; [|exact Hl]. intros b Hb. now apply key_leb_decides.
Qed.

Lemma same_key_same_item {A : Type} (l : list (pykey * A)) (x y : pykey * A) :
  NoDup (map fst l) -> In x l -> In y l -> fst x = fst y -> x = y.
Proof.
  induction l as [|z l IH]; intros Hnd Hx Hy Hk; [contradiction|].
  cbn [map] in Hnd. inversion Hnd as [|? ? Hnot Hnd']; subst.
  destruct Hx as [<-|Hx], Hy as [<-|Hy].
  - reflexivity.
  - exfalso. apply Hnot. rewrite Hk. now apply in_map.
  - exfalso. apply Hnot. rewrite <- Hk. now apply in_map.
  - now apply IH.
Qed.

Lemma sorted_items_unique {A : Type} (l : list (pykey * A)) :
  forall l',
    StronglySorted str_key_le l -> StronglySorted str_key_le l' ->
    Permutation l l' -> NoDup (map fst l) -> l = l'.
Proof.
  induction l as [|x r IH]; intros l' Hs Hs' Hp Hnd.
  - apply Permutation_nil in Hp. now subst.
  - destruct l' as [|y r']; [apply Permutation_sym, Permutation_nil in Hp; discriminate|].
    inversion Hs as [|? ? Hsr Hx]; subst. inversion Hs' as [|? ? Hsr' Hy]; subst.
    assert (Hxy : x = y).
    { assert (Hin : In x (y :: r')) by (eapply Permutation_in; [exact Hp | now left]).
      assert (Hin' : In y (x :: r))
        by (eapply Permutation_in; [apply Permutation_sym; exact Hp | now left]).
      destruct Hin as [Hin|Hin]; [now subst|].
      destruct Hin' as [Hin'|Hin']; [now subst|].
      rewrite Forall_forall in Hx, Hy.
      destruct (Hx _ Hin') as (s & t & Hs1 & Ht1 & H1).
      destruct (Hy _ Hin) as (t' & s' & Ht2 & Hs2 & H2).
      rewrite Hs1 in Hs2. inversion Hs2; subst s'.
      rewrite Ht1 in Ht2. inversion Ht2; subst t'.
      pose proof (String.leb_antisym _ _ H1 H2) as E. subst t.
      apply (same_key_same_item (x :: r)); [exact Hnd | now left | now right | congruence]. }
    subst y. f_equal. apply IH; [exact Hsr | exact Hsr' | |].
    + eapply Permutation_cons_inv; exact Hp.
    + cbn [map] in Hnd. now inversion Hnd.
Qed.

Lemma sort_items_permuted {A : Type} (l l' : list (pykey * A)) :
  Forall (fun kv => is_str (key_val (fst kv)) = true) l -> NoDup (map fst l) ->
  Permutation l l' ->
  stable_sort Json.key_leb l = stable_sort Json.key_leb l'.
Proof.
  intros Hstr Hnd Hp.
  assert (Hstr' : Forall (fun kv => is_str (key_val (fst kv)) = true) l').
  { apply Forall_forall. intros kv Hin. rewrite Forall_forall in Hstr. apply Hstr.
    eapply Permutation_in; [apply Permutation_sym; exact Hp | exact Hin]. }
  apply sorted_items_unique.
  - apply stable_sort_strongly; [exact str_key_le_trans | now apply str_keys_ord_pairs].
  - apply stable_sort_strongly; [exact str_key_le_trans | now apply str_keys_ord_pairs].
  - rewrite (stable_sort_perm Json.key_leb l), (stable_sort_perm Json.key_leb l'). exact Hp.
  - eapply Permutation_NoDup; [|exact Hnd].
    apply Permutation_map, Permutation_sym, stable_sort_perm.
Qed.

Lemma forallb_permuted {A : Type} (f : A -> bool) (l l' : list A) :
  Permutation l l' -> forallb f l = forallb f l'.
Proof.
  induction 1 as [|x l l' _ IH|x y l|l l' l'' _ IH1 _ IH2]; cbn [forallb].
  - reflexivity.
  - now rewrite IH.
  - now rewrite !andb_assoc, (andb_comm (f y) (f x)).
  - now rewrite IH1.
Qed.

(** A dict is written the same whatever the order of its items, when the
    keys are sorted. *)
Lemma render_permuted (indent : option nat) (item_separator key_separator : string)
    (level : nat) (d d' : pydict) :
  json_object d -> Permutation d d' ->
  Json.render_at true indent item_separator key_separator level (PDict d)
  = Json.render_at true indent item_separator key_separator level (PDict d').
Proof.
  intros [Hstr Hnd] Hp. cbn [Json.render_at].
  set (f := fun kv : pykey * pyval =>
              match kv with
              | (k, x) =>
                  (k, Json.render_at true indent item_separator key_separator (S level) x)
              end).
  assert (Hfst : forall l, map fst (map f l) = map fst l).
  { induction l as [|[k x] l IH]; [reflexivity|]. cbn [map f fst]. now rewrite IH. }
  rewrite (sort_items_permuted (map f d) (map f d')); [reflexivity| | |].
  - apply Forall_forall. intros kv Hin. apply in_map_iff in Hin.
    destruct Hin as ([k x] & <- & Hin). rewrite Forall_forall in Hstr. exact (Hstr _ Hin).
  - now rewrite Hfst.
  - now apply Permutation_map.
Qed.

Lemma sortable_permuted (d d' : pydict) :
  json_object d -> Permutation d d' ->
  Json.sortable (PDict d) = Json.sortable (PDict d').
Proof.
  intros [Hstr Hnd] Hp. cbn [Json.sortable].
  rewrite (forallb_permuted _ d d' Hp). f_equal.
  unfold Json.keys_comparable.
  rewrite (Permutation_length (Permutation_map fst Hp)).
  now rewrite !(forallb_permuted _ _ _ (Permutation_map fst Hp)).
Qed.

(** C6, amended.  Two calls return the same key when their (ASCII) texts
    are equal once whitespace is collapsed, their params hold the same
    items under text keys, in any order, and the endpoint, the mode, the
    digest of the audio prompt and the model signature are the same,
    whatever the files are. *)
Theorem cache_key_deterministic (fs1 fs2 : Fs.fs) (text1 text2 : string)
    (params1 params2 : pydict) (endpoint mode : string)
    (prompt1 prompt2 model_signature : option string) :
  ascii_text text1 = true -> ascii_text text2 = true ->
  TtsCache.collapse_whitespace text1 = TtsCache.collapse_whitespace text2 ->
  TtsCache.prompt_sha fs1 prompt1 = TtsCache.prompt_sha fs2 prompt2 ->
  json_object params1 -> Permutation params1 params2 ->
  TtsCache.build_tts_cache_key fs1 text1 params1 endpoint mode prompt1 model_signature
  = TtsCache.build_tts_cache_key fs2 text2 params2 endpoint mode prompt2 model_signature.
Proof.
  intros _ _ Htext Hsha Hobj Hp. unfold TtsCache.build_tts_cache_key.
  rewrite Htext, Hsha. unfold Json.dumps.
  set (sha := TtsCache.prompt_sha fs2 prompt2).
  set (sig := PStr match model_signature with Some m => m | None => "" end).
  set (text := PStr (TtsCache.collapse_whitespace text2)).
  assert (Hs : forall params,
             Json.sortable
               (PDict [ (KStr "text", text); (KStr "params", PDict params);
                        (KStr "endpoint", PStr endpoint); (KStr "mode", PStr mode);
                        (KStr "audio_prompt_sha256", sha); (KStr "model_signature", sig) ])
             = Json.sortable (PDict params) && Json.sortable sha).
  { intros params. subst text sig. cbn [Json.sortable Json.keys_comparable map fst forallb
      List.length Nat.leb orb andb key_val is_str]. now rewrite !andb_true_r. }
  assert (Hr : forall params,
             Json.render_at true None "," ":" 0
               (PDict [ (KStr "text", text); (KStr "params", PDict params);
                        (KStr "endpoint", PStr endpoint); (KStr "mode", PStr mode);
                        (KStr "audio_prompt_sha256", sha); (KStr "model_signature", sig) ])
             = Json.bracket None "," "{" "}" 0
                 (map (fun kt => (Json.json_string (Json.json_key (fst kt)) ++ ":" ++ snd kt)%string)
                    (stable_sort Json.key_leb
                       [ (KStr "text", Json.render_at true None "," ":" 1 text);
                         (KStr "params", Json.render_at true None "," ":" 1 (PDict params));
                         (KStr "endpoint", Json.render_at true None "," ":" 1 (PStr endpoint));
                         (KStr "mode", Json.render_at true None "," ":" 1 (PStr mode));
                         (KStr "audio_prompt_sha256", Json.render_at true None "," ":" 1 sha);
                         (KStr "model_signature", Json.render_at true None "," ":" 1 sig) ])))
    by reflexivity.
  rewrite !Hs, !Hr.
  now rewrite (sortable_permuted _ _ Hobj Hp), (render_permuted None "," ":" 1 _ _ Hobj Hp).
Qed.

Lemma cache_key_deterministic_witness :
  TtsCache.collapse_whitespace "  hello   world " = TtsCache.collapse_whitespace "hello world"
  /\ TtsCache.prompt_sha no_files None = TtsCache.prompt_sha no_files (Some "voice.wav")
  /\ json_object params_one /\ Permutation params_one params_two
  /\ TtsCache.build_tts_cache_key no_files "  hello   world " params_one
       "http://tts/tts" "chatterbox_tts_json" None None
     = TtsCache.build_tts_cache_key no_files "hello world" params_two
       "http://tts/tts" "chatterbox_tts_json" (Some "voice.wav") None.
Proof.
  assert (Hobj : json_object params_one).
  { split; [repeat constructor|].
    repeat constructor; cbn; intuition discriminate. }
  assert (Hp : Permutation params_one params_two) by apply perm_swap.
  split; [reflexivity|]. split; [reflexivity|]. split; [exact Hobj|]. split; [exact Hp|].
  apply cache_key_deterministic; try reflexivity; assumption.
Defined.

(** C6, as stated, fails: params that are equal for Python, [1] and
    [1.0] under the same key, are written differently in the JSON the key
    is the digest of, and the two calls return different keys. *)
Lemma cache_key_int_float :
  py_eqb (PDict params_int) (PDict params_float) = true
  /\ exists key_int key_float,
       TtsCache.build_tts_cache_key no_files "hello world" params_int
         "http://tts/tts" "chatterbox_tts_json" None None = Ok key_int
       /\ TtsCache.build_tts_cache_key no_files "hello world" params_float
            "http://tts/tts" "chatterbox_tts_json" None None = Ok key_float
       /\ key_int <> key_float.
Proof.
  split; [reflexivity|].
  eexists _, _. split; [vm_compute; reflexivity|]. split; [vm_compute; reflexivity|].
  discriminate.
Qed.

(** ** C4: the source video of the unified render *)







